(** * Fancards: card generation, economy rules and confirmation workflow

    A shallow embedding of the core of the Fancards bot
    ([source/enums.py], [source/cogs/card.py], [source/entity.py],
    [source/cogs/forge.py], [source/cogs/item.py], [source/utils/psql.py],
    [source/utils/cooldown.py], [source/utils/view.py]).

    Conventions of the embedding:
    - Python [int] is [Z]; the fractional weights, chances and prices (Python
      [float]) are exact rationals [Q].  The values [round] is applied to are
      multiples of 1/2 or of 1/5, which binary rounding does not move across
      a tie, or of 1/3, which lie on no tie.
    - [random] is an explicit entropy source: an infinite tape of raw draws
      and a read position, threaded through every sampling function.
    - A Python exception is the [Raise] result of the [result] type; what a
      handler has written before it raises stays written.
    - The Postgres tables are lists of rows; a query is a [filter], an
      [UPDATE] a [map], a [DELETE] a [filter] on the complement.
    - A handler runs from one prompt to the next without interleaving; what
      other tasks do while a prompt waits is a change of the state between
      two handlers.
    - Image composition, embeds and file attachments are presentation only;
      of a message only its kind and one sentence of its text are kept, with
      [{}] for a formatted value. *)

From stdpp Require Import gmap.
From Stdlib Require Import ZArith QArith Qround Lia List String Ascii DecimalString.
Import ListNotations.

#[local] Open Scope string_scope.
#[local] Open Scope list_scope.
#[local] Open Scope Z_scope.

(** ** Python results *)

(** The exceptions met here.  [UniqueViolationError] is asyncpg's, raised by
    an [INSERT] that repeats a primary key.  [OutOfFuel] is no exception of
    Python: it marks a loop of the model stopped for want of rounds, which
    the rounds it is given exclude ([add_exp_is_total]). *)
Inductive PyExc :=
| IndexError | KeyError | ValueError | AssertionError | ZeroDivisionError
| UniqueViolationError | OutOfFuel.

Inductive result (A : Type) :=
| Ok (a : A)
| Raise (e : PyExc).
Arguments Ok {A} a.
Arguments Raise {A} e.

(** ** Taxonomy ([source/enums.py]) *)

Module Rarity.
Inductive t :=
  | common | uncommon | rare | epic | mythic | legendary | exotic | nightmare
  | exclusive_icicle.

#[global] Instance eq_dec : EqDecision t.
Proof. solve_decision. Defined.

  (** [for r in Rarity]: definition order. *)
Definition members : list t :=
    [common; uncommon; rare; epic; mythic; legendary; exotic; nightmare;
     exclusive_icicle].

  (** [Rarity.level]: the mapping has no entry for the exclusive rarity. *)
Definition level (r : t) : result Z :=
    match r with
    | common => Ok 1 | uncommon => Ok 2 | rare => Ok 3 | epic => Ok 4
    | mythic => Ok 5 | legendary => Ok 6 | exotic => Ok 7 | nightmare => Ok 8
    | exclusive_icicle => Raise KeyError
    end.

Definition to_silver (r : t) : result (Z * Z) :=
    match r with
    | common => Ok (10, 40)
    | uncommon => Ok (50, 75)
    | rare => Ok (100, 350)
    | epic => Ok (500, 750)
    | mythic => Ok (1000, 4750)
    | legendary => Ok (5000, 9750)
    | _ => Raise KeyError
    end.

Definition to_star (r : t) : result Z :=
    match r with
    | common => Ok 3 | uncommon => Ok 12 | rare => Ok 33 | epic => Ok 72
    | mythic => Ok 138 | legendary => Ok 228 | exotic => Ok 486
    | nightmare => Ok 972
    | exclusive_icicle => Raise KeyError
    end.

Definition get_exclusive_rarities : list t := [exclusive_icicle].
Definition get_valuable_rarities : list t :=
    [exotic; nightmare] ++ get_exclusive_rarities.

  (** [r in rarities] on a Python list. *)
Definition mem (r : t) (l : list t) : bool :=
    existsb (fun x => bool_decide (r = x)) l.
End Rarity.

Module SpecialRarity.
Inductive t := unknown | shiny.

#[global] Instance eq_dec : EqDecision t.
Proof. solve_decision. Defined.
End SpecialRarity.

Module Condition.
Inductive t := damaged | poor | good | near_mint | mint | pristine.

#[global] Instance eq_dec : EqDecision t.
Proof. solve_decision. Defined.

Definition level (c : t) : Z :=
    match c with
    | damaged => 1 | poor => 2 | good => 3 | near_mint => 4 | mint => 5
    | pristine => 6
    end.

Definition to_star (c : t) : Z :=
    match c with
    | damaged => 3 | poor => 12 | good => 33 | near_mint => 72 | mint => 138
    | pristine => 228
    end.
End Condition.

Module Currency.
Inductive t := silver | star | gem | voucher.

#[global] Instance eq_dec : EqDecision t.
Proof. solve_decision. Defined.
End Currency.

Module Item.
Inductive t :=
  | glistening_gem | fusion_crystal | card_sleeve | premium_drop | crown
  | backpack_upgrade
  | rare_card_pack | epic_card_pack | mythic_card_pack | legendary_card_pack
  | exotic_card_pack.

#[global] Instance eq_dec : EqDecision t.
Proof. solve_decision. Defined.

Definition mem (i : t) (l : list t) : bool :=
    existsb (fun x => bool_decide (i = x)) l.
End Item.

Module PatreonRole.
Inductive t := common | uncommon | rare.

Definition members : list t := [common; uncommon; rare].

Definition role_id (r : t) : Z :=
    match r with
    | common => 1099000179723604068
    | uncommon => 1099008980304547962
    | rare => 1099009546481049600
    end.

Definition get_role_ids : list Z := map role_id members.

Definition tier (r : t) : Z :=
    match r with common => 1 | uncommon => 2 | rare => 3 end.
End PatreonRole.

(** A [discord.Member]: its id and the ids of its roles. *)
Record Member := { member_id : Z; member_roles : list Z }.

Definition Z_mem (x : Z) (l : list Z) : bool := existsb (Z.eqb x) l.

(** [source/utils/__init__.py] *)
Definition is_patreon (member : Member) : bool :=
  existsb (fun patreon_role_id => Z_mem patreon_role_id (member_roles member))
          PatreonRole.get_role_ids.

Definition has_minimum_patreon_role (member : Member)
    (minimum_patreon_role : PatreonRole.t) : bool :=
  let patreon_roles :=
    flat_map (fun role_id =>
                filter (fun r => Z.eqb (PatreonRole.role_id r) role_id)
                       PatreonRole.members)
             (member_roles member) in
  existsb (fun r => PatreonRole.tier minimum_patreon_role <=? PatreonRole.tier r)
          patreon_roles.

(** ** The entropy source ([random])

    Every sampling function reads raw draws from an infinite tape.  One draw
    gives [random()] as a 53-bit fraction in [0, 1), or [_randbelow n] as a
    value in [0, n). *)

Definition Entropy := nat -> N.

Definition Rand (A : Type) : Type := Entropy -> nat -> result (A * nat).

Definition ret {A} (a : A) : Rand A := fun _ p => Ok (a, p).

Definition bind {A B} (m : Rand A) (k : A -> Rand B) : Rand B :=
  fun e p =>
    match m e p with
    | Ok (a, p') => k a e p'
    | Raise x => Raise x
    end.

Definition lift {A} (r : result A) : Rand A :=
  fun _ p => match r with Ok a => Ok (a, p) | Raise x => Raise x end.

Notation "x <- m ;; k" := (bind m (fun x => k))
  (at level 100, m at next level, right associativity).

Definition Qltb (x y : Q) : bool := negb (Qle_bool y x).

(** A raw draw read as a 53-bit fraction of [0, 1). *)
Definition unit_fraction (k : N) : Q :=
  Qmake (Z.of_N (k mod 9007199254740992)) 9007199254740992.

(** [random.random()] *)
Definition random : Rand Q := fun e p => Ok (unit_fraction (e p), S p).

(** [Random._randbelow(n)] *)
Definition _randbelow (n : Z) : Rand Z :=
  fun e p => Ok (Z.of_N (e p) mod n, S p).

(** [random.randint(a, b)] *)
Definition randint (a b : Z) : Rand Z :=
  if b <? a then lift (Raise ValueError)
  else k <- _randbelow (b - a + 1) ;; ret (a + k).

(** [random.choice(seq)] *)
Definition choice {A} (seq : list A) : Rand A :=
  match seq with
  | [] => lift (Raise IndexError)
  | _ =>
      i <- _randbelow (Z.of_nat (List.length seq)) ;;
      match nth_error seq (Z.to_nat i) with
      | Some x => ret x
      | None => lift (Raise IndexError)
      end
  end.

(** [itertools.accumulate(weights)] *)
Fixpoint accumulate_from (acc : Q) (weights : list Q) : list Q :=
  match weights with
  | [] => []
  | w :: ws => (acc + w)%Q :: accumulate_from (acc + w)%Q ws
  end.

Definition accumulate (weights : list Q) : list Q :=
  match weights with
  | [] => []
  | w :: ws => w :: accumulate_from w ws
  end.

(** [bisect.bisect_right(a, x, lo, hi)]: the binary search, with the number
    of halvings bounded by [fuel]. *)
Fixpoint bisect_loop (fuel : nat) (a : list Q) (x : Q) (lo hi : nat) : nat :=
  match fuel with
  | O => lo
  | S fuel' =>
      if (lo <? hi)%nat then
        let mid := ((lo + hi) / 2)%nat in
        if Qltb x (nth mid a 0%Q) then bisect_loop fuel' a x lo mid
        else bisect_loop fuel' a x (mid + 1)%nat hi
      else lo
  end.

Definition bisect (a : list Q) (x : Q) (lo hi : nat) : nat :=
  bisect_loop (S hi) a x lo hi.

(** [random.choices(population, weights)[0]] *)
Definition choices {A} (population : list A) (weights : list Q) : Rand A :=
  let n := List.length population in
  let cum_weights := accumulate weights in
  if negb (List.length cum_weights =? n)%nat then lift (Raise ValueError)
  else
    match last (map Some cum_weights) None with
    | None => lift (Raise IndexError)
    | Some total =>
        if Qle_bool total 0 then lift (Raise ValueError)
        else
          r <- random ;;
          match nth_error population
                  (bisect cum_weights (r * total)%Q 0 (n - 1)) with
          | Some x => ret x
          | None => lift (Raise IndexError)
          end
    end.

(** [random.choices(population, k=k)], no weights: [k] uniform picks. *)
Fixpoint choices_k {A} (population : list A) (k : nat) : Rand (list A) :=
  match k with
  | O => ret []
  | S k' =>
      r <- random ;;
      match nth_error population
              (Z.to_nat (Qfloor (r * inject_Z (Z.of_nat (List.length population))))) with
      | Some x => rest <- choices_k population k' ;; ret (x :: rest)
      | None => lift (Raise IndexError)
      end
  end.

(** ** Weight tables ([source/enums.py])

    A Python [dict] whose order of insertion matters is an association
    list. *)

Definition keys {K V} (d : list (K * V)) : list K := map fst d.
Definition values {K V} (d : list (K * V)) : list V := map snd d.

(** [d.get(k, default)] *)
Fixpoint dict_get {K} `{EqDecision K} {V} (k : K) (default : V)
    (d : list (K * V)) : V :=
  match d with
  | [] => default
  | (k', v) :: d' => if bool_decide (k = k') then v else dict_get k default d'
  end.

(** [d[k] -= x]: the entry is updated in place, [KeyError] without it. *)
Fixpoint dict_isub {K} `{EqDecision K} (k : K) (x : Q) (d : list (K * Q))
    : result (list (K * Q)) :=
  match d with
  | [] => Raise KeyError
  | (k', v) :: d' =>
      if bool_decide (k = k') then Ok ((k', (v - x)%Q) :: d')
      else match dict_isub k x d' with
           | Ok d'' => Ok ((k', v) :: d'')
           | Raise e => Raise e
           end
  end.

Inductive WeightT := NewUserWeight | BasicWeight | PremiumWeight.

Definition weight_rarity (w : WeightT) : list (Rarity.t * Q) :=
  match w with
  | NewUserWeight =>
      [(Rarity.common, 65); (Rarity.uncommon, 20); (Rarity.rare, 10);
       (Rarity.epic, 5)]%Q
  | BasicWeight =>
      [(Rarity.common, 46.5); (Rarity.uncommon, 30); (Rarity.rare, 16.1);
       (Rarity.epic, 6); (Rarity.mythic, 1.25); (Rarity.legendary, 0.15)]%Q
  | PremiumWeight =>
      [(Rarity.uncommon, 50); (Rarity.rare, 30); (Rarity.epic, 16.5);
       (Rarity.mythic, 2.75); (Rarity.legendary, 0.75)]%Q
  end.

Definition weight_condition (w : WeightT) : list (Condition.t * Q) :=
  match w with
  | NewUserWeight =>
      [(Condition.damaged, 16); (Condition.poor, 45); (Condition.good, 25);
       (Condition.near_mint, 10); (Condition.mint, 3); (Condition.pristine, 1)]%Q
  | BasicWeight =>
      [(Condition.damaged, 10); (Condition.poor, 20); (Condition.good, 45);
       (Condition.near_mint, 19); (Condition.mint, 5); (Condition.pristine, 1)]%Q
  | PremiumWeight =>
      [(Condition.damaged, 10); (Condition.poor, 20); (Condition.good, 45);
       (Condition.near_mint, 18.5); (Condition.mint, 5);
       (Condition.pristine, 1.5)]%Q
  end.

Definition weight_special_rarity (w : WeightT) : list (SpecialRarity.t * Q) :=
  match w with
  | NewUserWeight => [(SpecialRarity.unknown, 100)]%Q
  | BasicWeight =>
      [(SpecialRarity.unknown, 99.95); (SpecialRarity.shiny, 0.05)]%Q
  | PremiumWeight =>
      [(SpecialRarity.unknown, 99.8); (SpecialRarity.shiny, 0.2)]%Q
  end.

(** ** Card generator ([source/cogs/card.py], [CardFactory]) *)

(** [CardImage] without its [image]. *)
Record CardImage := {
  ci_rarity : Rarity.t;
  ci_condition : Condition.t;
  ci_special_rarity : SpecialRarity.t;
  ci_character_name : string;
  ci_card_id : string;
  ci_has_sleeve : bool
}.

(** [weight or BasicWeight] *)
Definition weight_or_basic (weight : option WeightT) : WeightT :=
  match weight with Some w => w | None => BasicWeight end.

Definition generate_rarity (weight : option WeightT) : Rand Rarity.t :=
  let weight_class := weight_or_basic weight in
  choices (keys (weight_rarity weight_class))
          (values (weight_rarity weight_class)).

Definition generate_condition (weight : option WeightT) : Rand Condition.t :=
  let weight_class := weight_or_basic weight in
  choices (keys (weight_condition weight_class))
          (values (weight_condition weight_class)).

(** The first half of [generate_special_rarity]: the dictionary handed to
    [random.choices]. *)
Definition special_rarity_weights (member : option Member)
    (weight : option WeightT) : result (list (SpecialRarity.t * Q)) :=
  let weight_class := weight_or_basic weight in
  let special_rarity := weight_special_rarity weight_class in
  match member with
  | Some m =>
      if is_patreon m then
        let special_rarity := weight_special_rarity weight_class in
        let shiny_weight :=
          (dict_get SpecialRarity.shiny 0.01 special_rarity * 2)%Q in
        dict_isub SpecialRarity.unknown shiny_weight special_rarity
      else Ok special_rarity
  | None => Ok special_rarity
  end.

Definition generate_special_rarity (member : option Member)
    (weight : option WeightT) : Rand SpecialRarity.t :=
  special_rarity <- lift (special_rarity_weights member weight) ;;
  choices (keys special_rarity) (values special_rarity).

Definition card_id_alphabet : list ascii :=
  list_ascii_of_string "0123456789abcdefghijklmnopqrstuvwxyz0123456789".

Definition generate_card_id : Rand string :=
  cs <- choices_k card_id_alphabet 6 ;; ret (string_of_list_ascii cs).

Definition downgrade (current_condition : Condition.t) : Condition.t :=
  match current_condition with
  | Condition.pristine => Condition.mint
  | Condition.mint => Condition.near_mint
  | Condition.near_mint => Condition.good
  | Condition.good => Condition.poor
  | Condition.poor => Condition.damaged
  | Condition.damaged => Condition.damaged
  end.

Definition upgrade (current_condition : Condition.t) : Condition.t :=
  match current_condition with
  | Condition.damaged => Condition.poor
  | Condition.poor => Condition.good
  | Condition.good => Condition.near_mint
  | Condition.near_mint => Condition.mint
  | Condition.mint => Condition.pristine
  | Condition.pristine => Condition.pristine
  end.

(** The condition distribution of a pack. *)
Definition pack_condition_weight : list (Condition.t * Q) :=
  [(Condition.pristine, 10); (Condition.mint, 80); (Condition.near_mint, 10)]%Q.

Section Roster.

(** The [Character] enumeration is read from the asset directories, one per
    rarity from [common] to [nightmare]; it is a parameter here. *)
Variable Character : Rarity.t -> list string.

(** [rarity_map[rarity]] of [Character.get_random_character] *)
Definition rarity_map (r : Rarity.t) : result (list string) :=
  match r with
  | Rarity.exclusive_icicle => Raise KeyError
  | _ => Ok (Character r)
  end.

Definition get_random_character (rarity : option Rarity.t) : Rand string :=
  match rarity with
  | Some r =>
      if Rarity.mem r Rarity.get_exclusive_rarities then
        r' <- choice Rarity.members ;;
        character_list <- lift (rarity_map r') ;;
        choice character_list
      else
        character_list <- lift (rarity_map r) ;;
        choice character_list
  | None =>
      r' <- choice Rarity.members ;;
      character_list <- lift (rarity_map r') ;;
      choice character_list
  end.

(** The body of the loop of [generate_card]: one card. *)
Definition generate_one_card (member : option Member)
    (rarity : option Rarity.t) (condition : option Condition.t)
    (special_rarity : option SpecialRarity.t) (weight : option WeightT)
    (pack : bool) : Rand CardImage :=
  card_rarity <-
    match rarity with Some r => ret r | None => generate_rarity weight end ;;
  card_condition <-
    match condition with Some c => ret c | None => generate_condition weight end ;;
  card_special_rarity <-
    match special_rarity with
    | Some s => ret s
    | None => generate_special_rarity member weight
    end ;;
  character_name <- get_random_character (Some card_rarity) ;;
  card_id <- generate_card_id ;;
  let card_id := if String.eqb character_name "Troll" then "7R0115" else card_id in
  card_condition <-
    (if pack then
       choices (keys pack_condition_weight) (values pack_condition_weight)
     else ret card_condition) ;;
  ret {| ci_rarity := card_rarity;
         ci_condition := card_condition;
         ci_special_rarity := card_special_rarity;
         ci_character_name := character_name;
         ci_card_id := card_id;
         ci_has_sleeve := false |}.

(** [for _ in range(amount): ...; cards.append(card)] *)
Fixpoint generate_card_loop (n : nat) (body : Rand CardImage)
    (cards : list CardImage) : Rand (list CardImage) :=
  match n with
  | O => ret cards
  | S n' => card <- body ;; generate_card_loop n' body (cards ++ [card])
  end.

Definition generate_card (member : option Member) (rarity : option Rarity.t)
    (condition : option Condition.t) (special_rarity : option SpecialRarity.t)
    (amount : Z) (weight : option WeightT) (pack : bool)
    : Rand (list CardImage) :=
  generate_card_loop (Z.to_nat amount)
    (generate_one_card member rarity condition special_rarity weight pack) [].

(** ** Pack opening ([source/entity.py]) *)

Definition _generate_leaked_card (leak_rarity : Rarity.t) (leak_chance : Q)
    (deduct_from : Z) : Rand (list CardImage * Z) :=
  r <- random ;;
  if Qltb (r * 100) leak_chance then
    generated_cards <-
      generate_card None (Some leak_rarity) None None 1 None true ;;
    ret (generated_cards, deduct_from - 1)
  else ret ([], deduct_from).

Fixpoint _generate_card_pack_contents (member : Member)
    (rarities_and_amounts : list (Rarity.t * Z)) (cards_list : list CardImage)
    : Rand (list CardImage) :=
  match rarities_and_amounts with
  | [] => ret cards_list
  | (rarity, amount) :: rest =>
      generated_cards <-
        generate_card (Some member) (Some rarity) None None amount None true ;;
      _generate_card_pack_contents member rest (cards_list ++ generated_cards)
  end.

(** The five handlers, up to the list of cards handed to
    [_handle_card_pack]. *)
Definition _use_rare_card_pack (user : Member) : Rand (list CardImage) :=
  let max_cards := 7 in
  let cards : list CardImage := [] in
  rare_cards <- randint 2 4 ;;
  let uncommon_cards := max_cards - rare_cards in
  leak <- _generate_leaked_card Rarity.epic 20 rare_cards ;;
  let '(generated_cards, rare_cards) := leak in
  let cards := cards ++ generated_cards in
  let rarities_and_amounts :=
    [(Rarity.rare, rare_cards); (Rarity.uncommon, uncommon_cards)] in
  _generate_card_pack_contents user rarities_and_amounts cards.

Definition _use_epic_card_pack (user : Member) : Rand (list CardImage) :=
  let max_cards := 7 in
  let cards : list CardImage := [] in
  epic_cards <- randint 1 2 ;;
  rare_cards <- randint 0 (max_cards - epic_cards) ;;
  let uncommon_cards := max_cards - (epic_cards + rare_cards) in
  leak <- _generate_leaked_card Rarity.mythic 10 epic_cards ;;
  let '(generated_cards, epic_cards) := leak in
  let cards := cards ++ generated_cards in
  let rarities_and_amounts :=
    [(Rarity.epic, epic_cards); (Rarity.rare, rare_cards);
     (Rarity.uncommon, uncommon_cards)] in
  _generate_card_pack_contents user rarities_and_amounts cards.

Definition _use_mythic_card_pack (user : Member) : Rand (list CardImage) :=
  let max_cards := 5 in
  let cards : list CardImage := [] in
  let mythic_cards := 1 in
  epic_cards <- randint 1 2 ;;
  let rare_cards := max_cards - (mythic_cards + epic_cards) in
  leak <- _generate_leaked_card Rarity.legendary 1 mythic_cards ;;
  let '(generated_cards, mythic_cards) := leak in
  let cards := cards ++ generated_cards in
  let rarities_and_amounts :=
    [(Rarity.mythic, mythic_cards); (Rarity.epic, epic_cards);
     (Rarity.rare, rare_cards)] in
  _generate_card_pack_contents user rarities_and_amounts cards.

Definition _use_legendary_card_pack (user : Member) : Rand (list CardImage) :=
  let max_cards := 5 in
  let cards : list CardImage := [] in
  let legendary_cards := 1 in
  mythic_cards <- randint 0 1 ;;
  let epic_cards := Z.abs (mythic_cards - 1) in
  let rare_cards := max_cards - (legendary_cards + mythic_cards + epic_cards) in
  leak <- _generate_leaked_card Rarity.exotic 0.1 legendary_cards ;;
  let '(generated_cards, legendary_cards) := leak in
  let cards := cards ++ generated_cards in
  let rarities_and_amounts :=
    [(Rarity.legendary, legendary_cards); (Rarity.mythic, mythic_cards);
     (Rarity.epic, epic_cards); (Rarity.rare, rare_cards)] in
  _generate_card_pack_contents user rarities_and_amounts cards.

Definition _use_exotic_card_pack (user : Member) : Rand (list CardImage) :=
  let max_cards := 5 in
  let cards : list CardImage := [] in
  exotic_cards <- randint 0 1 ;;
  legendary_cards <- randint 0 2 ;;
  mythic_cards <- randint 0 1 ;;
  let epic_cards := max_cards - (exotic_cards + legendary_cards + mythic_cards) in
  let rarities_and_amounts :=
    [(Rarity.exotic, exotic_cards); (Rarity.legendary, legendary_cards);
     (Rarity.mythic, mythic_cards); (Rarity.epic, epic_cards)] in
  _generate_card_pack_contents user rarities_and_amounts cards.

(** [handler_map[item]] of [ItemEntity.use] *)
Definition use_pack (item : Item.t) (user : Member) : Rand (list CardImage) :=
  match item with
  | Item.rare_card_pack => _use_rare_card_pack user
  | Item.epic_card_pack => _use_epic_card_pack user
  | Item.mythic_card_pack => _use_mythic_card_pack user
  | Item.legendary_card_pack => _use_legendary_card_pack user
  | Item.exotic_card_pack => _use_exotic_card_pack user
  | _ => lift (Raise KeyError)
  end.

End Roster.

(** ** Persistence gateway ([source/utils/psql.py])

    Timestamps are whole seconds.  Character names are ASCII, so
    [str.casefold] and [str.title] act on the 26 letters only. *)

Record UserTable := {
  ut_id : Z;
  ut_user_id : Z;
  ut_silver : Z;
  ut_star : Z;
  ut_gem : Z;
  ut_voucher : Z;
  ut_registered_at : Z;
  ut_backpack_level : Z
}.

Record InventoryTable := {
  it_id : Z;
  it_owner_id : Z;
  it_item : Item.t;
  it_amount : Z
}.

Record CardTable := {
  ct_card_id : string;
  ct_owner_id : Z;
  ct_rarity : Rarity.t;
  ct_condition : Condition.t;
  ct_special_rarity : SpecialRarity.t;
  ct_character_name : string;
  ct_created_at : Z;
  ct_has_sleeve : bool;
  ct_locked : bool
}.

(** The [levels] table: one row for a registered user. *)
Record LevelTable := {
  lt_user_id : Z;
  lt_current_exp : Z;
  lt_current_level : Z;
  lt_max_exp : Z
}.

Record Database := {
  users : list UserTable;
  levels : list LevelTable;
  inventory : list InventoryTable;
  cards : list CardTable
}.

Definition is_upper (c : ascii) : bool :=
  let n := nat_of_ascii c in ((65 <=? n) && (n <=? 90))%nat.

Definition is_lower (c : ascii) : bool :=
  let n := nat_of_ascii c in ((97 <=? n) && (n <=? 122))%nat.

Definition to_lower (c : ascii) : ascii :=
  if is_upper c then ascii_of_nat (nat_of_ascii c + 32) else c.

Definition to_upper (c : ascii) : ascii :=
  if is_lower c then ascii_of_nat (nat_of_ascii c - 32) else c.

Fixpoint casefold (s : string) : string :=
  match s with
  | EmptyString => EmptyString
  | String c s' => String (to_lower c) (casefold s')
  end.

Fixpoint title_from (previous_is_cased : bool) (s : string) : string :=
  match s with
  | EmptyString => EmptyString
  | String c s' =>
      if is_lower c || is_upper c then
        String (if previous_is_cased then to_lower c else to_upper c)
               (title_from true s')
      else String c (title_from false s')
  end.

Definition title (s : string) : string := title_from false s.

Definition string_mem (x : string) (l : list string) : bool :=
  existsb (String.eqb x) l.

(** [None] for an empty result set: [if not results: return None]. *)
Definition rows_or_none {A} (results : list A) : option (list A) :=
  match results with [] => None | _ => Some results end.

(** [SELECT id FROM users WHERE user_id = $1] *)
Definition select_user_pk (d : Database) (user_id : Z) : option Z :=
  match filter (fun u => ut_user_id u =? user_id) (users d) with
  | u :: _ => Some (ut_id u)
  | [] => None
  end.

Definition owned_by (d : Database) (user_id : Z) (c : CardTable) : bool :=
  match select_user_pk d user_id with
  | Some pk => ct_owner_id c =? pk
  | None => false
  end.

Definition get_table (d : Database) (user_id : Z) : option UserTable :=
  match filter (fun u => ut_user_id u =? user_id) (users d) with
  | u :: _ => Some u
  | [] => None
  end.

Definition levels_get_table (d : Database) (user_id : Z) : option LevelTable :=
  match select_user_pk d user_id with
  | Some pk =>
      match filter (fun l => lt_user_id l =? pk) (levels d) with
      | l :: _ => Some l
      | [] => None
      end
  | None => None
  end.

Definition get_card (d : Database) (card_id : string) : option CardTable :=
  match filter (fun c => String.eqb (ct_card_id c) card_id) (cards d) with
  | c :: _ => Some c
  | [] => None
  end.

Definition get_cards (d : Database) (user_id : Z) : option (list CardTable) :=
  rows_or_none (filter (owned_by d user_id) (cards d)).

Definition get_cards_by_character_name (d : Database) (user_id : Z)
    (character_name : string) : option (list CardTable) :=
  rows_or_none
    (filter (fun c =>
               owned_by d user_id c &&
               (String.eqb (ct_character_name c) (casefold character_name) ||
                String.eqb (ct_character_name c) (title character_name)))
            (cards d)).

Definition get_cards_by_card_id (d : Database) (card_ids : list string)
    : option (list CardTable) :=
  rows_or_none (filter (fun c => string_mem (ct_card_id c) card_ids) (cards d)).

(** [ORDER BY created_at DESC LIMIT 1]: the first of the newest rows. *)
Fixpoint newest (rows : list CardTable) : option CardTable :=
  match rows with
  | [] => None
  | c :: rest =>
      match newest rest with
      | Some c' => if ct_created_at c <? ct_created_at c' then Some c' else Some c
      | None => Some c
      end
  end.

Definition get_most_recently_obtained_card (d : Database) (user_id : Z)
    : option CardTable :=
  newest (filter (owned_by d user_id) (cards d)).

Definition delete_card (d : Database) (card_id : string) : Database :=
  {| users := users d;
     levels := levels d;
     inventory := inventory d;
     cards := filter (fun c => negb (String.eqb (ct_card_id c) card_id)) (cards d) |}.

Definition delete_cards_by_card_id (d : Database) (card_ids : list string)
    : Database :=
  {| users := users d;
     levels := levels d;
     inventory := inventory d;
     cards := filter (fun c => negb (string_mem (ct_card_id c) card_ids)) (cards d) |}.

(** [INSERT INTO cards (...)]: [card_id] is the primary key of the table, so
    the statement raises on an id the table holds already, and writes
    nothing.  [has_sleeve] and [locked] take their column default, whatever
    the given row says. *)
Definition add_card (d : Database) (card_table : CardTable) : result Database :=
  if existsb (fun c => String.eqb (ct_card_id c) (ct_card_id card_table))
             (cards d)
  then Raise UniqueViolationError
  else
    Ok {| users := users d;
          levels := levels d;
          inventory := inventory d;
          cards := cards d ++
            [{| ct_card_id := ct_card_id card_table;
                ct_owner_id := ct_owner_id card_table;
                ct_rarity := ct_rarity card_table;
                ct_condition := ct_condition card_table;
                ct_special_rarity := ct_special_rarity card_table;
                ct_character_name := ct_character_name card_table;
                ct_created_at := ct_created_at card_table;
                ct_has_sleeve := false;
                ct_locked := false |}] |}.

Definition owns_item (d : Database) (user_id : Z) (item : Item.t)
    (row : InventoryTable) : bool :=
  bool_decide (it_item row = item) &&
  match select_user_pk d user_id with
  | Some pk => it_owner_id row =? pk
  | None => false
  end.

Definition get_item (d : Database) (user_id : Z) (item : Item.t)
    : option InventoryTable :=
  match filter (owns_item d user_id item) (inventory d) with
  | row :: _ => Some row
  | [] => None
  end.

Definition next_inventory_id (d : Database) : Z :=
  1 + fold_right Z.max 0 (map it_id (inventory d)).

(** [INSERT ... ON CONFLICT (item, owner_id) DO UPDATE SET amount = amount + $3] *)
Definition add_item (d : Database) (user_id : Z) (item : Item.t) (amount : Z)
    : Database :=
  match select_user_pk d user_id with
  | None => d
  | Some pk =>
      {| users := users d;
         levels := levels d;
         inventory :=
           if existsb (owns_item d user_id item) (inventory d) then
             map (fun row =>
                    if owns_item d user_id item row then
                      {| it_id := it_id row; it_owner_id := it_owner_id row;
                         it_item := it_item row;
                         it_amount := it_amount row + amount |}
                    else row)
                 (inventory d)
           else
             inventory d ++
               [{| it_id := next_inventory_id d; it_owner_id := pk;
                   it_item := item; it_amount := amount |}];
         cards := cards d |}
  end.

(** [UPDATE inventory SET amount = amount - $1 ...] followed by
    [DELETE FROM inventory WHERE amount < 1], which spans every owner. *)
Definition remove_item (d : Database) (user_id : Z) (item : Item.t) (amount : Z)
    : Database :=
  {| users := users d;
     levels := levels d;
     inventory :=
       filter (fun row => negb (it_amount row <? 1))
         (map (fun row =>
                 if owns_item d user_id item row then
                   {| it_id := it_id row; it_owner_id := it_owner_id row;
                      it_item := it_item row;
                      it_amount := it_amount row - amount |}
                 else row)
              (inventory d));
     cards := cards d |}.

Definition update_user (d : Database) (user_id : Z) (f : UserTable -> UserTable)
    : Database :=
  {| users := map (fun u => if ut_user_id u =? user_id then f u else u) (users d);
     levels := levels d;
     inventory := inventory d;
     cards := cards d |}.

Definition signed (amount : Z) (subtract : bool) : Z :=
  if subtract then amount * -1 else amount.

Definition set_silver (d : Database) (user_id amount : Z) (subtract : bool)
    : Database :=
  update_user d user_id (fun u =>
    {| ut_id := ut_id u; ut_user_id := ut_user_id u;
       ut_silver := ut_silver u + signed amount subtract;
       ut_star := ut_star u; ut_gem := ut_gem u; ut_voucher := ut_voucher u;
       ut_registered_at := ut_registered_at u;
       ut_backpack_level := ut_backpack_level u |}).

Definition set_star (d : Database) (user_id amount : Z) (subtract : bool)
    : Database :=
  update_user d user_id (fun u =>
    {| ut_id := ut_id u; ut_user_id := ut_user_id u;
       ut_silver := ut_silver u;
       ut_star := ut_star u + signed amount subtract;
       ut_gem := ut_gem u; ut_voucher := ut_voucher u;
       ut_registered_at := ut_registered_at u;
       ut_backpack_level := ut_backpack_level u |}).

Definition set_gem (d : Database) (user_id amount : Z) (subtract : bool)
    : Database :=
  update_user d user_id (fun u =>
    {| ut_id := ut_id u; ut_user_id := ut_user_id u;
       ut_silver := ut_silver u; ut_star := ut_star u;
       ut_gem := ut_gem u + signed amount subtract;
       ut_voucher := ut_voucher u;
       ut_registered_at := ut_registered_at u;
       ut_backpack_level := ut_backpack_level u |}).

Definition set_voucher (d : Database) (user_id amount : Z) (subtract : bool)
    : Database :=
  update_user d user_id (fun u =>
    {| ut_id := ut_id u; ut_user_id := ut_user_id u;
       ut_silver := ut_silver u; ut_star := ut_star u; ut_gem := ut_gem u;
       ut_voucher := ut_voucher u + signed amount subtract;
       ut_registered_at := ut_registered_at u;
       ut_backpack_level := ut_backpack_level u |}).

Definition increase_backpack_level (d : Database) (user_id : Z) : Database :=
  update_user d user_id (fun u =>
    {| ut_id := ut_id u; ut_user_id := ut_user_id u;
       ut_silver := ut_silver u; ut_star := ut_star u; ut_gem := ut_gem u;
       ut_voucher := ut_voucher u;
       ut_registered_at := ut_registered_at u;
       ut_backpack_level := ut_backpack_level u + 1 |}).

(** [User.register].  The [CREATE TABLE] statements are not part of the
    sources: a new [users] row takes the next serial id, empty balances and
    backpack level 1, and the [levels] row inserted with it the defaults
    [LevelTable] declares (no experience, level 1, threshold 43).  The
    [daily] and [vote] rows inserted last are not part of the state: no
    code modelled here reads these tables. *)
Definition register (d : Database) (user_id now : Z) : Database * Z :=
  match get_table d user_id with
  | Some user_table => (d, ut_id user_table)
  | None =>
      let pk := 1 + fold_right Z.max 0 (map ut_id (users d)) in
      ({| users := users d ++
            [{| ut_id := pk; ut_user_id := user_id; ut_silver := 0;
                ut_star := 0; ut_gem := 0; ut_voucher := 0;
                ut_registered_at := now; ut_backpack_level := 1 |}];
          levels := levels d ++
            [{| lt_user_id := pk; lt_current_exp := 0; lt_current_level := 1;
                lt_max_exp := 43 |}];
          inventory := inventory d;
          cards := cards d |}, pk)
  end.

(** *** Levels ([Level]) *)

(** [int(x)]: towards zero. *)
Definition py_int (x : Q) : Z := if Qle_bool 0 x then Qfloor x else Qceiling x.

(** The products and sums of the second and third formula are multiples
    of one half, which the floats hold exactly while they stay below 2^52:
    for every level up to ten million and beyond.  The model computes them
    in [Q]. *)
Definition calculate_exp (current_level : Z) : Z :=
  if current_level <? 16 then current_level ^ 2 + 6 * 7
  else if current_level <? 31 then
    py_int (2.5 * inject_Z (current_level ^ 2)
            - 40.5 * inject_Z current_level + 360)%Q
  else
    py_int (4.5 * inject_Z (current_level ^ 2)
            - 162.5 * inject_Z current_level + 2220)%Q.

(** The state of the loop of [add_exp]. *)
Record Progress := {
  current_exp : Z;
  current_level : Z;
  max_exp : Z
}.

Definition max_level : Z := 100.

(** [while current_exp >= max_exp: ...], at most [fuel] rounds; [None] when
    the rounds do not suffice. *)
Fixpoint add_exp_loop (fuel : nat) (s : Progress) : option Progress :=
  if current_exp s <? max_exp s then Some s
  else
    match fuel with
    | O => None
    | S fuel' =>
        let level :=
          if current_level s <? max_level then current_level s + 1
          else current_level s in
        let exp := current_exp s - max_exp s in
        let max := calculate_exp level in
        if level =? max_level then
          Some {| current_exp := max; current_level := level; max_exp := max |}
        else
          add_exp_loop fuel'
            {| current_exp := exp; current_level := level; max_exp := max |}
    end.

(** The rounds [add_exp_loop] is given, more than the loop can take: past
    the first round every threshold is 42 or more. *)
Definition add_exp_rounds (s : Progress) : nat :=
  S (S (Z.to_nat ((current_exp s - max_exp s) / 42))).

(** [Level.add_exp] up to its [UPDATE]: the experience given and the row to
    store. *)
Definition add_exp (member : Member) (exp : Z) (s : Progress)
    : option (Z * Progress) :=
  let exp :=
    if has_minimum_patreon_role member PatreonRole.uncommon then exp * 2
    else exp in
  let s := {| current_exp := current_exp s + exp;
              current_level := current_level s; max_exp := max_exp s |} in
  match add_exp_loop (add_exp_rounds s) s with
  | Some s' => Some (exp, s')
  | None => None
  end.

(** [UPDATE levels SET ... WHERE user_id = (SELECT id FROM users ...)] *)
Definition update_levels (d : Database) (user_id : Z) (s : Progress) : Database :=
  {| users := users d;
     levels :=
       map (fun l =>
              match select_user_pk d user_id with
              | Some pk =>
                  if lt_user_id l =? pk then
                    {| lt_user_id := lt_user_id l;
                       lt_current_exp := current_exp s;
                       lt_current_level := current_level s;
                       lt_max_exp := max_exp s |}
                  else l
              | None => l
              end)
           (levels d);
     inventory := inventory d;
     cards := cards d |}.

(** [Level.create_progress_bar]: the number of filled cells. *)
Definition progress_filled (progress max_progress count : Z) : result Z :=
  if max_progress =? 0 then Raise ZeroDivisionError
  else Ok (py_int (inject_Z progress / inject_Z max_progress * inject_Z count)%Q).

(** ** Cooldown buckets ([source/utils/cooldown.py])

    The bucket is discord.py's [commands.Cooldown]; the per-command mapping is
    its [commands.CooldownMapping], keyed by the invoking user. *)

Record Cooldown := {
  rate : Z;
  per : Z;
  _window : Z;
  _tokens : Z;
  _last : Z
}.

Definition new_cooldown (rate per : Z) : Cooldown :=
  {| rate := rate; per := per; _window := 0; _tokens := rate; _last := 0 |}.

Definition get_tokens (c : Cooldown) (current : Z) : Z :=
  let tokens := Z.max (_tokens c) 0 in
  if _window c + per c <? current then rate c else tokens.

(** [Cooldown.update_rate_limit(current)]: the bucket after the call and the
    [retry_after] it returns. *)
Definition cooldown_update_rate_limit (c : Cooldown) (current : Z)
    : Cooldown * option Z :=
  let tokens := get_tokens c current in
  let window := if tokens =? rate c then current else _window c in
  let tokens := tokens - 1 in
  ({| rate := rate c; per := per c; _window := window; _tokens := tokens;
      _last := current |},
   if tokens <? 0 then Some (per c - (current - window)) else None).

Definition cooldown_reset (c : Cooldown) : Cooldown :=
  {| rate := rate c; per := per c; _window := _window c; _tokens := rate c;
     _last := 0 |}.

Record CooldownMapping := {
  _cooldown : Cooldown;
  _cache : gmap Z Cooldown
}.

(** [CooldownMapping.from_cooldown(rate, per, predicate)] *)
Definition from_cooldown (rate per : Z) : CooldownMapping :=
  {| _cooldown := new_cooldown rate per; _cache := ∅ |}.

Definition _verify_cache_integrity (m : CooldownMapping) (current : Z)
    : CooldownMapping :=
  {| _cooldown := _cooldown m;
     _cache :=
       base.filter (fun kv : Z * Cooldown => ¬ (_last kv.2 + per kv.2 < current))
                   (_cache m) |}.

(** [CooldownMapping.get_bucket]: dead buckets are dropped, a missing one is
    created from the template and cached. *)
Definition get_bucket (m : CooldownMapping) (key current : Z)
    : CooldownMapping * Cooldown :=
  let m := _verify_cache_integrity m current in
  match _cache m !! key with
  | Some bucket => (m, bucket)
  | None =>
      ({| _cooldown := _cooldown m;
          _cache := <[key := _cooldown m]> (_cache m) |}, _cooldown m)
  end.

(** A method call on the bucket [get_bucket] returns: the bucket is shared
    with the cache, so the cache sees the update. *)
Definition on_bucket {A} (m : CooldownMapping) (key current : Z)
    (f : Cooldown -> Cooldown * A) : CooldownMapping * A :=
  let '(m, bucket) := get_bucket m key current in
  let '(bucket, a) := f bucket in
  ({| _cooldown := _cooldown m; _cache := <[key := bucket]> (_cache m) |}, a).

Definition mapping_update_rate_limit (m : CooldownMapping) (key current : Z)
    : CooldownMapping * option Z :=
  on_bucket m key current (fun b => cooldown_update_rate_limit b current).

(** The check installed by [resettable_cooldown]: [false] stands for
    [CommandOnCooldown]. *)
Definition cooldown_wrapper (m : CooldownMapping) (key current : Z)
    : CooldownMapping * bool :=
  let '(m, _) := get_bucket m key current in
  let '(m, retry_after) := mapping_update_rate_limit m key current in
  (m, match retry_after with
      | Some r => negb ((negb (r =? 0)) && (1 <? r))
      | None => true
      end).

(** [reset_cooldown(interaction, cooldown)] *)
Definition reset_cooldown (m : CooldownMapping) (key current : Z)
    : CooldownMapping :=
  fst (on_bucket m key current (fun b => (cooldown_reset b, tt))).

(** ** The bot's state and the interaction *)

Inductive EmbedKind :=
| error_embed | warning_embed | info_embed | success_embed | custom_embed.

Record World := {
  db : Database;
  (** [command.extras["cooldown"]], by command name *)
  cooldowns : gmap string CooldownMapping;
  (** [BUTTON_COOLDOWN_CACHE] *)
  button_cooldown : CooldownMapping;
  (** embeds sent or edited in, oldest first: kind and fixed text *)
  outbox : list (EmbedKind * string);
  (** read position of the entropy tape *)
  rng_pos : nat
}.

Record Interaction := {
  user : Member;
  (** name of the invoked command, if any *)
  command : option string;
  (** the clock when the interaction is handled *)
  now : Z;
  (** id of the guild the interaction comes from, if any *)
  guild : option Z
}.

Definition Act (A : Type) : Type := Entropy -> World -> result A * World.

Definition act_ret {A} (a : A) : Act A := fun _ w => (Ok a, w).

Definition act_bind {A B} (m : Act A) (k : A -> Act B) : Act B :=
  fun e w =>
    match m e w with
    | (Ok a, w') => k a e w'
    | (Raise x, w') => (Raise x, w')
    end.

Definition act_raise {A} (x : PyExc) : Act A := fun _ w => (Raise x, w).

Notation "x <~ m ;; k" := (act_bind m (fun x => k))
  (at level 100, m at next level, right associativity).
Notation "m ;;; k" := (act_bind m (fun _ => k))
  (at level 100, right associativity).

Definition set_db (w : World) (d : Database) : World :=
  {| db := d; cooldowns := cooldowns w; button_cooldown := button_cooldown w;
     outbox := outbox w; rng_pos := rng_pos w |}.

Definition set_cooldowns (w : World) (c : gmap string CooldownMapping) : World :=
  {| db := db w; cooldowns := c; button_cooldown := button_cooldown w;
     outbox := outbox w; rng_pos := rng_pos w |}.

Definition read_db : Act Database := fun _ w => (Ok (db w), w).

Definition write_db (f : Database -> Database) : Act unit :=
  fun _ w => (Ok tt, set_db w (f (db w))).

(** A statement that can fail: when it raises, nothing is written. *)
Definition write_db_result (f : Database -> result Database) : Act unit :=
  fun _ w =>
    match f (db w) with
    | Ok d => (Ok tt, set_db w d)
    | Raise x => (Raise x, w)
    end.

(** Sampling advances the tape. *)
Definition sample {A} (m : Rand A) : Act A :=
  fun e w =>
    match m e (rng_pos w) with
    | Ok (a, p) =>
        (Ok a, {| db := db w; cooldowns := cooldowns w;
                  button_cooldown := button_cooldown w;
                  outbox := outbox w; rng_pos := p |})
    | Raise x => (Raise x, w)
    end.

Definition pure_result {A} (r : result A) : Act A :=
  match r with Ok a => act_ret a | Raise x => act_raise x end.

(** [followup.send(embed=...)] and [message.edit(embed=...)] *)
Definition send (kind : EmbedKind) (text : string) : Act unit :=
  fun _ w =>
    (Ok tt, {| db := db w; cooldowns := cooldowns w;
               button_cooldown := button_cooldown w;
               outbox := outbox w ++ [(kind, text)]; rng_pos := rng_pos w |}).

(** [reset_command_cooldown(interaction)] *)
Definition reset_command_cooldown (interaction : Interaction) : Act unit :=
  fun _ w =>
    match command interaction with
    | None => (Raise AssertionError, w)
    | Some name =>
        match cooldowns w !! name with
        | None => (Raise KeyError, w)
        | Some cooldown =>
            (Ok tt,
             set_cooldowns w
               (<[name := reset_cooldown cooldown
                            (member_id (user interaction)) (now interaction)]>
                  (cooldowns w)))
        end
    end.

(** ** Confirmation ([source/utils/view.py]) *)

Inductive Button := confirm | cancel.

(** What reaches a [Confirm] view before its timeout: button presses, in
    order, each by some user. *)
Definition Press : Type := Z * Button.

(** [view.wait()] followed by reading [view.value]: a press by anybody but
    the author fails [interaction_check]; the author's first press sets the
    value and stops the view; with no such press the view times out. *)
Fixpoint view_value (author : Member) (presses : list Press) : option bool :=
  match presses with
  | [] => None
  | (who, button) :: rest =>
      if who =? member_id author then
        Some (match button with confirm => true | cancel => false end)
      else view_value author rest
  end.

Definition wait_for_confirmation (_interaction : Interaction)
    (_view_value : option bool) (_callback : Act unit)
    (_timeout_message : option string) : Act unit :=
  match _view_value with
  | None =>
      w <~ (fun _ w => (Ok w, w)) ;;
      (match command _interaction with
       | Some name =>
           match cooldowns w !! name with
           | Some _ => reset_command_cooldown _interaction
           | None => act_ret tt
           end
       | None => act_ret tt
       end) ;;;
      send error_embed
        (match _timeout_message with
         | Some text => text
         | None => "You took too long to respond."
         end)
  | Some true => _callback
  | Some false => send error_embed "Command canceled."
  end.

(** ** Handlers

    A handler ends either by sending a rejection, or by presenting a
    proposal and waiting: it then returns the arguments it registers for
    its commit callback. *)

Inductive Outcome (P : Type) :=
| Rejected
| Prompt (proposal : P).
Arguments Rejected {P}.
Arguments Prompt {P} proposal.

(** [sum(xs)] *)
Definition py_sum (xs : list Z) : Z := fold_left Z.add xs 0.

(** [round(x)]: to the nearest integer, a tie to the even one. *)
Definition py_round (x : Q) : Z :=
  let f := Qfloor x in
  match Qcompare (x - inject_Z f) (1 # 2) with
  | Lt => f
  | Gt => f + 1
  | Eq => if Z.even f then f else f + 1
  end.

Definition uid (interaction : Interaction) : Z := member_id (user interaction).

(** *** Awarding experience ([Level.handle_exp_addition])

    [old_level] is [current_level], read one line before the two are
    compared: the level-up message is never sent, whatever the [config] row
    of the guild says, and that row is not looked at here.  The row of
    [levels] comes back as [add_exp] leaves it. *)
Definition handle_exp_addition (interaction : Interaction) (exp : Z) : Act Z :=
  d <~ read_db ;;
  match get_table d (uid interaction) with
  | None => act_raise AssertionError
  | Some psql_user_table =>
  match levels_get_table d (uid interaction) with
  | None => act_raise ValueError
  | Some psql_levels_table =>
  match guild interaction with
  | None => act_raise AssertionError
  | Some _ =>
      match add_exp (user interaction) exp
              {| current_exp := lt_current_exp psql_levels_table;
                 current_level := lt_current_level psql_levels_table;
                 max_exp := lt_max_exp psql_levels_table |} with
      | None => act_raise OutOfFuel
      | Some (exp, progress) =>
          write_db (fun d => update_levels d (uid interaction) progress) ;;;
          act_ret exp
      end
  end end end.

(** *** Burning one card ([source/cogs/card.py]) *)

Record BurnProposal := {
  bp_total_silver : Z;
  bp_total_star : Z;
  bp_glistening_gem : Z;
  bp_card : CardTable
}.

Definition _handle_single_card_burn (interaction : Interaction)
    (card : CardTable) : Act (Outcome BurnProposal) :=
  if Rarity.mem (ct_rarity card) Rarity.get_valuable_rarities then
    reset_command_cooldown interaction ;;;
    send error_embed "This is an unburnable card since it is too valuable." ;;;
    act_ret Rejected
  else if ct_locked card then
    reset_command_cooldown interaction ;;;
    send error_embed "You can't burn this card since it is `locked`." ;;;
    act_ret Rejected
  else
    silver_range <~ pure_result (Rarity.to_silver (ct_rarity card)) ;;
    rarity_to_silver <~ sample (randint (fst silver_range) (snd silver_range)) ;;
    let days := (now interaction - ct_created_at card) / 86400 in
    let days := Z.min days 60 in
    let additional_silver_per_day :=
      py_sum (map (fun _ => rarity_to_silver / 4) (seq 0 (Z.to_nat days))) in
    let additional_star_per_day :=
      py_sum (map (fun _ => Condition.to_star (ct_condition card) / 4)
                  (seq 0 (Z.to_nat days))) in
    let total_silver := rarity_to_silver + additional_silver_per_day in
    let total_star :=
      Condition.to_star (ct_condition card) + additional_star_per_day in
    let glistening_gem := 1 in
    send warning_embed "Are you sure you wanna burn this card?" ;;;
    act_ret (Prompt {| bp_total_silver := total_silver;
                       bp_total_star := total_star;
                       bp_glistening_gem := glistening_gem;
                       bp_card := card |}).

Definition _confirm_single_card_burn (interaction : Interaction)
    (proposal : BurnProposal) : Act unit :=
  let card := bp_card proposal in
  d <~ read_db ;;
  match get_card d (ct_card_id card) with
  | None =>
      send error_embed "The card you wanted to burn doesn't exist anymore."
  | Some _ =>
      write_db (fun d => set_silver d (uid interaction) (bp_total_silver proposal) false) ;;;
      write_db (fun d => set_star d (uid interaction) (bp_total_star proposal) false) ;;;
      (if bool_decide (ct_special_rarity card = SpecialRarity.shiny) then
         write_db (fun d => add_item d (uid interaction) Item.glistening_gem
                              (bp_glistening_gem proposal))
       else act_ret tt) ;;;
      write_db (fun d => delete_card d (ct_card_id card)) ;;;
      send success_embed "Burning successful! You received:"
  end.

(** *** Crafting, both confirmation steps ([source/cogs/forge.py]) *)

Record CraftableCharacterEntity := {
  cce_name : string;
  cce_rarity : Rarity.t;
  cce_required_characters : list (string * Z);
  cce_required_items : list (Item.t * Z)
}.

(** The first loop of [_confirm_forge_craft_final]; [false] when it has
    rejected and returned. *)
Fixpoint final_check_characters (interaction : Interaction)
    (required_characters : list (string * Z)) : Act bool :=
  match required_characters with
  | [] => act_ret true
  | (required_character, required_amount) :: rest =>
      d <~ read_db ;;
      match get_cards_by_character_name d (uid interaction) required_character with
      | None =>
          reset_command_cooldown interaction ;;;
          send error_embed "You are currently missing `x{}` **{}** cards." ;;;
          act_ret false
      | Some owned_cards =>
          let owned_cards := filter (fun card => negb (ct_locked card)) owned_cards in
          if Z.of_nat (List.length owned_cards) <? required_amount then
            reset_command_cooldown interaction ;;;
            send error_embed "You are currently missing `x{}` **{}** cards." ;;;
            act_ret false
          else final_check_characters interaction rest
      end
  end.

(** The loop over the required items, the same in both steps. *)
Fixpoint check_items (interaction : Interaction)
    (required_items : list (Item.t * Z)) : Act bool :=
  match required_items with
  | [] => act_ret true
  | (required_item, required_amount) :: rest =>
      d <~ read_db ;;
      match get_item d (uid interaction) required_item with
      | None =>
          reset_command_cooldown interaction ;;;
          send error_embed "You are currently missing {} `x{}`" ;;;
          act_ret false
      | Some item =>
          if it_amount item <? required_amount then
            reset_command_cooldown interaction ;;;
            send error_embed "You are currently missing {} `x{}`" ;;;
            act_ret false
          else check_items interaction rest
      end
  end.

Fixpoint remove_items (interaction : Interaction)
    (required_items : list (Item.t * Z)) : Act unit :=
  match required_items with
  | [] => act_ret tt
  | (required_item, required_amount) :: rest =>
      write_db (fun d => remove_item d (uid interaction) required_item required_amount) ;;;
      remove_items interaction rest
  end.

Record CraftProposal := {
  cp_star_cost : Z;
  cp_entity : CraftableCharacterEntity;
  cp_required_cards : list CardTable;
  cp_crafted_card_table : CardTable
}.

Definition _confirm_forge_craft_final (interaction : Interaction)
    (proposal : CraftProposal) : Act unit :=
  let craftable_character_entity := cp_entity proposal in
  ok <~ final_check_characters interaction
          (cce_required_characters craftable_character_entity) ;;
  if negb ok then act_ret tt else
  ok <~ check_items interaction (cce_required_items craftable_character_entity) ;;
  if negb ok then act_ret tt else
  remove_items interaction (cce_required_items craftable_character_entity) ;;;
  write_db (fun d => set_star d (uid interaction) (cp_star_cost proposal) true) ;;;
  write_db (fun d => delete_cards_by_card_id d
                       (map ct_card_id (cp_required_cards proposal))) ;;;
  write_db_result (fun d => add_card d (cp_crafted_card_table proposal)) ;;;
  send success_embed "You crafted a **{}** card!".

(** The first loop of [_confirm_forge_craft]: it also collects the cards to
    consume; [None] when it has rejected and returned. *)
Fixpoint first_check_characters (interaction : Interaction)
    (required_characters : list (string * Z)) (required_cards : list CardTable)
    : Act (option (list CardTable)) :=
  match required_characters with
  | [] => act_ret (Some required_cards)
  | (required_character, required_amount) :: rest =>
      d <~ read_db ;;
      match get_cards_by_character_name d (uid interaction) required_character with
      | None =>
          reset_command_cooldown interaction ;;;
          send error_embed "You are currently missing `x{}` **{}** cards." ;;;
          act_ret None
      | Some owned_cards =>
          let owned_cards := filter (fun card => negb (ct_locked card)) owned_cards in
          if Z.of_nat (List.length owned_cards) <? required_amount then
            reset_command_cooldown interaction ;;;
            send error_embed "You are currently missing `x{}` **{}** cards." ;;;
            act_ret None
          else
            first_check_characters interaction rest
              (required_cards ++ firstn (Z.to_nat required_amount) owned_cards)
      end
  end.

(** [condition_map[level]] *)
Definition condition_map (level : Z) : result Condition.t :=
  match level with
  | 1 => Ok Condition.damaged
  | 2 => Ok Condition.poor
  | 3 => Ok Condition.good
  | 4 => Ok Condition.near_mint
  | 5 => Ok Condition.mint
  | 6 => Ok Condition.pristine
  | _ => Raise KeyError
  end.

(** [psql_user_table] is the row read when the command started. *)
Definition _confirm_forge_craft (interaction : Interaction)
    (psql_user_table : UserTable) (star_cost : Z)
    (craftable_character_entity : CraftableCharacterEntity)
    (required_cards : list CardTable) : Act (Outcome CraftProposal) :=
  if ut_star psql_user_table <? star_cost then
    reset_command_cooldown interaction ;;;
    send error_embed "You currently don't have enough {}." ;;;
    act_ret Rejected
  else
    checked <~ first_check_characters interaction
                 (cce_required_characters craftable_character_entity)
                 required_cards ;;
    match checked with
    | None => act_ret Rejected
    | Some required_cards =>
        ok <~ check_items interaction
                (cce_required_items craftable_character_entity) ;;
        if negb ok then act_ret Rejected else
        match required_cards with
        | [] => act_raise ZeroDivisionError
        | _ =>
            let average_floor :=
              py_sum (map (fun card => Condition.level (ct_condition card))
                          required_cards)
              / Z.of_nat (List.length required_cards) in
            condition <~ pure_result (condition_map average_floor) ;;
            card_id <~ sample generate_card_id ;;
            let rarity := cce_rarity craftable_character_entity in
            let name := cce_name craftable_character_entity in
            special_rarity <~
              sample (generate_special_rarity (Some (user interaction)) None) ;;
            let crafted_card_table :=
              {| ct_card_id := card_id;
                 ct_owner_id := ut_id psql_user_table;
                 ct_rarity := rarity;
                 ct_condition := condition;
                 ct_special_rarity := special_rarity;
                 ct_character_name := name;
                 ct_created_at := now interaction;
                 ct_has_sleeve := false;
                 ct_locked := false |} in
            send warning_embed "Are you sure you want to craft this card?" ;;;
            act_ret (Prompt {| cp_star_cost := star_cost;
                               cp_entity := craftable_character_entity;
                               cp_required_cards := required_cards;
                               cp_crafted_card_table := crafted_card_table |})
        end
    end.

(** *** Shop ([source/cogs/item.py]) *)

Record ItemEntity := {
  ie_name : string;
  ie_description : string;
  ie_price : option Z;
  ie_currency : option Currency.t;
  ie_visible : bool;
  ie_usable : bool
}.

Definition purchasable (entity : ItemEntity) : bool :=
  match ie_price entity with Some _ => true | None => false end.

(** [str(item)] *)
Definition item_str (item : Item.t) : string :=
  match item with
  | Item.glistening_gem => "glistening gem"
  | Item.fusion_crystal => "fusion crystal"
  | Item.card_sleeve => "card sleeve"
  | Item.premium_drop => "premium drop"
  | Item.crown => "crown"
  | Item.backpack_upgrade => "backpack upgrade"
  | Item.rare_card_pack => "rare card pack"
  | Item.epic_card_pack => "epic card pack"
  | Item.mythic_card_pack => "mythic card pack"
  | Item.legendary_card_pack => "legendary card pack"
  | Item.exotic_card_pack => "exotic card pack"
  end.

Definition item_members : list Item.t :=
  [Item.glistening_gem; Item.fusion_crystal; Item.card_sleeve;
   Item.premium_drop; Item.crown; Item.backpack_upgrade; Item.rare_card_pack;
   Item.epic_card_pack; Item.mythic_card_pack; Item.legendary_card_pack;
   Item.exotic_card_pack].

Definition _calculate_backpack_upgrade_price (backpack_level : Z) : Z :=
  let base_price := 50 * backpack_level in
  let price :=
    (inject_Z base_price * (inject_Z backpack_level / 2)
     + inject_Z base_price * 2 - 50)%Q in
  py_round price.

(** The price with the patron discount, as [item_shop] and [item_buy]
    compute it. *)
Definition discounted (price : Z) : Z :=
  py_round (inject_Z price - inject_Z price * 0.2)%Q.

Record BuyProposal := {
  buy_user_table : option UserTable;
  buy_item : Item.t;
  buy_item_entity : ItemEntity;
  buy_currency : Currency.t;
  (** the unit price shown in the prompt; [None] is [float("inf")] *)
  buy_base_price : option Z;
  buy_total_price : Z;
  buy_amount_to_buy : Z;
  buy_backpack_level : Z
}.

Section Content.

(** [ItemEntity.to_entity], read from [source/json/items.json]. *)
Variable to_entity : Item.t -> ItemEntity.

(** [Character], read from the asset directories. *)
Variable Character : Rarity.t -> list string.

(** [regex_autocomplete(prefix, words)] of [source/utils/autocomplete.py]:
    the words the pattern [^prefix.*] matches, or the error of [re.compile]
    on a prefix that is no pattern. *)
Variable regex_autocomplete : string -> list string -> result (list string).

(** [item_shop]: the price printed for one shop item. *)
Definition item_shop_price (interaction : Interaction) (shop_item : Item.t)
    (backpack_level : Z) : option Z :=
  let price := ie_price (to_entity shop_item) in
  let price :=
    if bool_decide (shop_item = Item.backpack_upgrade) then
      Some (_calculate_backpack_upgrade_price backpack_level)
    else price in
  match price with
  | Some p => if is_patreon (user interaction) then Some (discounted p) else Some p
  | None => None
  end.

Definition item_buy (interaction : Interaction) (item_name : string)
    (amount_to_buy : Z) : Act (Outcome BuyProposal) :=
  if amount_to_buy <? 1 then
    send error_embed "Please put a positive number as amount." ;;;
    act_ret Rejected
  else
    match filter (fun item => purchasable (to_entity item) &&
                              String.eqb (item_str item) (casefold item_name))
                 item_members with
    | [] =>
        let items :=
          map item_str (filter (fun item => purchasable (to_entity item))
                               item_members) in
        close_matches <~ pure_result (regex_autocomplete item_name items) ;;
        match close_matches with
        | _ :: _ =>
            send error_embed "That item is not in the shop, did you mean `{}`?" ;;;
            act_ret Rejected
        | [] =>
            send error_embed
              "That item is not in the shop, please take a look at {} to view all available items." ;;;
            act_ret Rejected
        end
    | item :: _ =>
        let item_entity := to_entity item in
        match ie_price item_entity with
        | None => act_raise AssertionError
        | Some 0 => act_raise AssertionError
        | Some price =>
            let base_price :=
              if is_patreon (user interaction) then discounted price else price in
            let total_price := price * amount_to_buy in
            d <~ read_db ;;
            let psql_user_table := get_table d (uid interaction) in
            match levels_get_table d (uid interaction) with
            | None => act_raise AssertionError
            | Some psql_levels_table =>
                let required_level := 5 in
                if lt_current_level psql_levels_table <? required_level then
                  send error_embed
                    "You must be at least **level {}** in-order to purchase from the shop." ;;;
                  act_ret Rejected
                else
                  let backpack_level :=
                    match psql_user_table with
                    | None => 1
                    | Some t => ut_backpack_level t
                    end in
                  let is_upgrade := bool_decide (item = Item.backpack_upgrade) in
                  if is_upgrade && (backpack_level =? 5) then
                    send error_embed "Your backpack is already at maximum level." ;;;
                    act_ret Rejected
                  else
                    let amount_to_buy := if is_upgrade then 1 else amount_to_buy in
                    let base_price := if is_upgrade then None else Some base_price in
                    let total_price :=
                      if is_upgrade then _calculate_backpack_upgrade_price backpack_level
                      else total_price in
                    match ie_currency item_entity with
                    | None => act_raise AssertionError
                    | Some currency =>
                        send warning_embed "Are you sure you want to buy this item?" ;;;
                        act_ret (Prompt {| buy_user_table := psql_user_table;
                                           buy_item := item;
                                           buy_item_entity := item_entity;
                                           buy_currency := currency;
                                           buy_base_price := base_price;
                                           buy_total_price := total_price;
                                           buy_amount_to_buy := amount_to_buy;
                                           buy_backpack_level := backpack_level |})
                    end
            end
        end
    end.

Definition _confirm_item_buy (interaction : Interaction)
    (proposal : BuyProposal) : Act unit :=
  let item := buy_item proposal in
  let currency := buy_currency proposal in
  let total_price := buy_total_price proposal in
  match buy_user_table proposal with
  | None => send error_embed "You are currently not registered."
  | Some psql_user_table =>
      if (ut_star psql_user_table <? total_price) && bool_decide (currency = Currency.star)
         || (ut_silver psql_user_table <? total_price) && bool_decide (currency = Currency.silver)
         || (ut_gem psql_user_table <? total_price) && bool_decide (currency = Currency.gem)
         || (ut_voucher psql_user_table <? total_price) && bool_decide (currency = Currency.voucher)
      then send error_embed "You currently don't have enough {}." else
      if bool_decide (item = Item.backpack_upgrade) && (buy_backpack_level proposal =? 5)
      then send error_embed "Your backpack is already at maximum level." else
      match currency with
      | Currency.silver =>
          write_db (fun d => set_silver d (uid interaction) total_price true)
      | Currency.gem =>
          write_db (fun d => set_gem d (uid interaction) total_price true)
      | Currency.voucher =>
          write_db (fun d => set_voucher d (uid interaction) total_price true)
      | Currency.star => act_raise ValueError
      end ;;;
      (if bool_decide (item = Item.backpack_upgrade) then
         write_db (fun d => increase_backpack_level d (uid interaction))
       else
         write_db (fun d => add_item d (uid interaction) item
                              (buy_amount_to_buy proposal))) ;;;
      send success_embed "Purchase successful!"
  end.

(** *** Fusion ([source/cogs/forge.py]) *)

Record FusionProposal := {
  fp_card : CardImage;
  fp_card1 : CardTable;
  fp_star_cost : Z;
  fp_first_card_id : string;
  fp_second_card_id : string
}.

(** [max(cards, key=lambda c: c.condition.level)]: the first maximum. *)
Fixpoint max_by_condition (best : CardTable) (rest : list CardTable) : CardTable :=
  match rest with
  | [] => best
  | c :: rest' =>
      if Condition.level (ct_condition best) <? Condition.level (ct_condition c)
      then max_by_condition c rest'
      else max_by_condition best rest'
  end.

Definition forge_fusion (interaction : Interaction)
    (first_card_id second_card_id : string) : Act (Outcome FusionProposal) :=
  d <~ read_db ;;
  match get_table d (uid interaction) with
  | None =>
      send error_embed "You are currently not registered." ;;; act_ret Rejected
  | Some psql_user_table =>
  match get_item d (uid interaction) Item.fusion_crystal with
  | None =>
      send error_embed "I couldn't find any {} in your inventory." ;;;
      act_ret Rejected
  | Some _ =>
  match get_cards_by_card_id d [first_card_id; second_card_id] with
  | None =>
      send error_embed "I couldn't find any of the cards you provided." ;;;
      act_ret Rejected
  | Some [] | Some [_] =>
      send error_embed "I couldn't find one of the cards you provided." ;;;
      act_ret Rejected
  | Some ((card1 :: card2 :: _) as cards) =>
      if negb (ct_owner_id card1 =? ut_id psql_user_table)
         || negb (ct_owner_id card2 =? ut_id psql_user_table) then
        send error_embed "You can only fuse cards you own." ;;; act_ret Rejected
      else if negb (bool_decide (ct_rarity card1 = ct_rarity card2)) then
        send error_embed "Both cards must have the same rarity in-order to be fused." ;;;
        act_ret Rejected
      else if negb (bool_decide (ct_special_rarity card1 = ct_special_rarity card2))
              && bool_decide (ct_special_rarity card1 = SpecialRarity.shiny) then
        send error_embed "Both cards must be shiny in-order to be fused." ;;;
        act_ret Rejected
      else if Rarity.mem (ct_rarity card1) Rarity.get_valuable_rarities then
        send error_embed "Both of these cards are too valuable to be fused." ;;;
        act_ret Rejected
      else
        star_cost <~ pure_result (Rarity.to_star (ct_rarity card1)) ;;
        let new_condition :=
          if bool_decide (ct_condition card1 = ct_condition card2)
          then ct_condition card1
          else downgrade (ct_condition (max_by_condition card1 (card2 :: skipn 2 cards))) in
        generated <~
          sample (generate_card Character None (Some (ct_rarity card1))
                    (Some new_condition) (Some (ct_special_rarity card1)) 1
                    None false) ;;
        match generated with
        | [] => act_raise IndexError
        | card :: _ =>
            let star_cost :=
              if negb (bool_decide (ct_special_rarity card1 = SpecialRarity.shiny))
              then py_round (inject_Z star_cost * 2.5)%Q
              else star_cost * 20 in
            send warning_embed "Are you sure you want to fuse both of these cards?" ;;;
            act_ret (Prompt {| fp_card := card;
                               fp_card1 := card1;
                               fp_star_cost := star_cost;
                               fp_first_card_id := first_card_id;
                               fp_second_card_id := second_card_id |})
        end
  end end end.

(** *** Grabbing a card from a drop ([_CardDropButton.callback]) *)

Inductive GrabResult :=
| BackpackFull
| AlreadyGrabbed
| Trolled
| Grabbed (card : CardTable) (reward_silver : Z).

Definition troll_text : list string :=
  ["Did you really just grab me?";
   "LOL you just got trolled!";
   "You must be trolling, you got a **Troll** card!";
   "Looks like fate dealt you a **Troll** card, better luck next time.";
   "Looks like the **Troll** is laughing at your success, congrats on the card!";
   "You got a wild card in the form of a **Troll**, better use it wisely.";
   "Looks like the **Troll** just played his hand, and you were the lucky one to grab it.";
   "Looks like the **Troll** is on your side today, congrats on the card!"].

(** [view_cards] is [self.view.cards], [selected] the index in the button's
    [custom_id], [grabbed_cards] the button's own list, returned updated. *)
Definition card_drop_button_callback (interaction : Interaction)
    (view_cards : list CardImage) (selected : Z) (grabbed_cards : list Z)
    : Act (GrabResult * list Z) :=
  write_db (fun d => fst (register d (uid interaction) (now interaction))) ;;;
  d <~ read_db ;;
  match get_table d (uid interaction) with
  | None => act_raise AssertionError
  | Some psql_user_table =>
      let cards := get_cards d (uid interaction) in
      let card_count :=
        match cards with Some cs => Z.of_nat (List.length cs) | None => 0 end in
      let backpack_level := ut_backpack_level psql_user_table in
      if backpack_level * 500 <=? card_count then
        send error_embed
          "Your backpack is full! Consider burning cards or upgrading your backpack." ;;;
        act_ret (BackpackFull, grabbed_cards)
      else if Z_mem selected grabbed_cards then
        (fun _ w =>
           (Ok tt,
            {| db := db w; cooldowns := cooldowns w;
               button_cooldown :=
                 reset_cooldown (button_cooldown w) (uid interaction) (now interaction);
               outbox := outbox w; rng_pos := rng_pos w |})) ;;;
        send error_embed "That card has already been grabbed." ;;;
        act_ret (AlreadyGrabbed, grabbed_cards)
      else
        let grabbed_cards := grabbed_cards ++ [selected] in
        match (if selected <? 0
               then nth_error view_cards
                      (Z.to_nat (Z.of_nat (List.length view_cards) + selected))
               else nth_error view_cards (Z.to_nat selected)) with
        | None => fun _ w => (Raise IndexError, w)
        | Some card =>
            if String.eqb (ci_character_name card) "Troll" then
              text <~ sample (choice troll_text) ;;
              send error_embed text ;;;
              act_ret (Trolled, grabbed_cards)
            else
              d <~ read_db ;;
              let user_id := snd (register d (uid interaction) (now interaction)) in
              write_db (fun d => fst (register d (uid interaction) (now interaction))) ;;;
              let row :=
                {| ct_card_id := ci_card_id card;
                   ct_owner_id := user_id;
                   ct_rarity := ci_rarity card;
                   ct_condition := ci_condition card;
                   ct_special_rarity := ci_special_rarity card;
                   ct_character_name := ci_character_name card;
                   ct_created_at := now interaction;
                   ct_has_sleeve := false;
                   ct_locked := false |} in
              write_db_result (fun d => add_card d row) ;;;
              silver_range <~ pure_result (Rarity.to_silver (ci_rarity card)) ;;
              reward_silver <~
                sample (randint (fst silver_range / 3) (snd silver_range / 3)) ;;
              write_db (fun d => set_silver d (uid interaction) reward_silver false) ;;;
              reward_exp <~ sample (randint 1 3) ;;
              reward_exp <~ handle_exp_addition interaction reward_exp ;;
              send custom_embed "{} {} {} card **`{}`**!" ;;;
              act_ret (Grabbed row reward_silver, grabbed_cards)
        end
  end.

(** *** Using a pack ([_confirm_item_use], [_handle_card_pack]) *)

Definition card_packs : list Item.t :=
  [Item.rare_card_pack; Item.epic_card_pack; Item.mythic_card_pack;
   Item.legendary_card_pack; Item.exotic_card_pack].

(** Returns the cards of the opened pack; [Prompt []] for an item that is
    not usable. *)
Definition _confirm_item_use (interaction : Interaction) (item : Item.t)
    (amount_to_use : Z) : Act (Outcome (list CardImage)) :=
  d <~ read_db ;;
  match get_item d (uid interaction) item with
  | None =>
      send error_embed "I couldn't find any {} in your inventory." ;;;
      act_ret Rejected
  | Some item_result =>
      if it_amount item_result <? amount_to_use then
        send error_embed "You currently don't have enough {} in your inventory." ;;;
        act_ret Rejected
      else
        match get_table d (uid interaction) with
        | None =>
            send error_embed "You are currently not registered." ;;;
            act_ret Rejected
        | Some psql_user_table =>
            match get_cards d (uid interaction) with
            | None => act_raise AssertionError
            | Some cards =>
                let backpack_level := ut_backpack_level psql_user_table in
                if Item.mem item card_packs
                   && ((backpack_level <? 5)
                       && (backpack_level * 500 <? Z.of_nat (List.length cards)))
                then
                  send error_embed
                    "Your backpack is full! Consider burning cards or upgrading your backpack." ;;;
                  act_ret Rejected
                else
                  (if has_minimum_patreon_role (user interaction) PatreonRole.uncommon
                   then
                     r <~ sample random ;;
                     if Qltb r 0.9 then
                       write_db (fun d => remove_item d (uid interaction) item amount_to_use)
                     else act_ret tt
                   else
                     write_db (fun d => remove_item d (uid interaction) item amount_to_use)) ;;;
                  if ie_usable (to_entity item) then
                    cards <~ sample (use_pack Character item (user interaction)) ;;
                    act_ret (Prompt cards)
                  else act_ret (Prompt [])
            end
        end
  end.

Fixpoint add_claimed_cards (owner_id created_at : Z) (cards : list CardImage)
    : Act unit :=
  match cards with
  | [] => act_ret tt
  | card :: rest =>
      (if String.eqb (ci_character_name card) "Troll" then act_ret tt
       else
         write_db_result (fun d =>
           add_card d {| ct_card_id := ci_card_id card;
                         ct_owner_id := owner_id;
                         ct_rarity := ci_rarity card;
                         ct_condition := ci_condition card;
                         ct_special_rarity := ci_special_rarity card;
                         ct_character_name := ci_character_name card;
                         ct_created_at := created_at;
                         ct_has_sleeve := false;
                         ct_locked := false |})) ;;;
      add_claimed_cards owner_id created_at rest
  end.

(** [claimed] is [view.claimed] after the wait: [None] on timeout. *)
Definition _handle_card_pack (cards : list CardImage)
    (interaction : Interaction) (claimed : option bool) : Act unit :=
  (match cards with
   | [] => act_raise ValueError
   | _ => send custom_embed "{} has opened a {} and it came with {} cards!"
   end) ;;;
  match claimed with
  | None => send error_embed "{} you took too long to claim your pack!"
  | Some false => act_ret tt
  | Some true =>
      write_db (fun d => fst (register d (uid interaction) (now interaction))) ;;;
      d <~ read_db ;;
      match get_table d (uid interaction) with
      | None => act_raise AssertionError
      | Some psql_user_table =>
          add_claimed_cards (ut_id psql_user_table) (now interaction) cards ;;;
          send custom_embed "{} you opened a {} and claimed these cards:"
      end
  end.

End Content.

(** ** Vocabulary of the statements *)

(** The total weight of a table. *)
Definition total_weight {K} (d : list (K * Q)) : Q :=
  fold_right Qplus 0%Q (values d).

(** The draws [generate_card] makes for one card of a pack: one for each of
    rarity, condition and special rarity that is not given, one for the
    character (two when the given rarity is an exclusive one: a rarity is
    drawn first), six for the id, and a last one for the condition of the
    pack. *)
Definition card_draws (rarity : option Rarity.t) (condition : option Condition.t)
    (special_rarity : option SpecialRarity.t) : nat :=
  ((match rarity with Some _ => 0 | None => 1 end)
   + (match condition with Some _ => 0 | None => 1 end)
   + (match special_rarity with Some _ => 0 | None => 1 end)
   + (match rarity with
      | Some r => if Rarity.mem r Rarity.get_exclusive_rarities then 2 else 1
      | None => 1
      end)
   + 6 + 1)%nat.

(** A raw draw read as a percentile: [random() * 100]. *)
Definition percent (k : N) : Q := (unit_fraction k * 100)%Q.

(** The three outcomes of the pack distribution, by the percentile of the
    draw: 10% pristine, 80% mint, 10% near mint. *)
Definition pack_condition_of (k : N) (c : Condition.t) : Prop :=
  ((percent k < 10)%Q /\ c = Condition.pristine) \/
  ((10 <= percent k)%Q /\ (percent k < 90)%Q /\ c = Condition.mint) \/
  ((90 <= percent k)%Q /\ c = Condition.near_mint).

(** Number of cards of one rarity. *)
Definition count_rarity (r : Rarity.t) (cards : list CardImage) : Z :=
  Z.of_nat (List.length (filter (fun c => bool_decide (ci_rarity c = r)) cards)).

(** A leak adds this many cards and takes as many from the top band. *)
Definition leak_count (leaked : bool) : Z := if leaked then 1 else 0.

(** A weight table [random.choices] accepts: as many weights as keys and a
    positive total. *)
Definition well_formed_weights {A} (population : list A) (weights : list Q)
    : bool :=
  (List.length weights =? List.length population)%nat &&
  match last (map Some (accumulate weights)) None with
  | Some total => negb (Qle_bool total 0)
  | None => false
  end.

(** The rosters the packs draw from are not empty. *)
Definition pack_rosters (Character : Rarity.t -> list string) : bool :=
  forallb (fun r => match Character r with [] => false | _ => true end)
          [Rarity.uncommon; Rarity.rare; Rarity.epic; Rarity.mythic;
           Rarity.legendary; Rarity.exotic].

(** The number of cards of rarity [r] a list of bands asks for, and the
    number of cards it asks for in all ([range] of a negative amount is
    empty). *)
Fixpoint bands_count (r : Rarity.t) (bands : list (Rarity.t * Z)) : Z :=
  match bands with
  | [] => 0
  | (r', amount) :: rest =>
      (if bool_decide (r = r') then Z.of_nat (Z.to_nat amount) else 0)
      + bands_count r rest
  end.

Fixpoint bands_total (bands : list (Rarity.t * Z)) : Z :=
  match bands with
  | [] => 0
  | (_, amount) :: rest => Z.of_nat (Z.to_nat amount) + bands_total rest
  end.

(** ** Fixtures of the examples *)

Definition witness_roster (r : Rarity.t) : list string := ["Troll"; "Bob"].

Definition witness_tape : Entropy :=
  fun n => (N.of_nat n * 6364136223846793 + 1442695040888963)%N.

Definition patron : Member :=
  {| member_id := 7; member_roles := [1099000179723604068] |}.

Definition plain_member : Member := {| member_id := 8; member_roles := [] |}.

(** Two rare cards generated in pack mode, the new-user table in force. *)
Definition witness_pack_card : CardImage :=
  {| ci_rarity := Rarity.rare; ci_condition := Condition.mint;
     ci_special_rarity := SpecialRarity.unknown; ci_character_name := "Bob";
     ci_card_id := "c9vi41"; ci_has_sleeve := false |}.

Definition witness_pack_cards : list CardImage :=
  [witness_pack_card;
   {| ci_rarity := Rarity.rare; ci_condition := Condition.mint;
      ci_special_rarity := SpecialRarity.unknown; ci_character_name := "Bob";
      ci_card_id := "f2yl74"; ci_has_sleeve := false |}].

(** A cooldown mapping as [from_cooldown] builds it and the checks keep it,
    seen from one user: the template is full and allows a call, and so does
    the rate of the user's bucket. *)
Definition cooldown_mapping_ok (m : CooldownMapping) (key : Z) : bool :=
  (1 <=? rate (_cooldown m)) && (_tokens (_cooldown m) =? rate (_cooldown m)) &&
  match _cache m !! key with
  | Some bucket => 1 <=? rate bucket
  | None => true
  end.

(** The bucket of a user is full: no call is counted against it. *)
Definition bucket_reset (m : CooldownMapping) (key : Z) : Prop :=
  exists bucket,
    _cache m !! key = Some bucket /\ _tokens bucket = rate bucket /\ _last bucket = 0.

(** A bucket that lets a call through: it is full and its rate is at least
    one. *)
Definition full_bucket (b : Cooldown) : Prop := 1 <= rate b /\ _tokens b = rate b.

Definition patron_row : UserTable :=
  {| ut_id := 1; ut_user_id := 7; ut_silver := 1000; ut_star := 0; ut_gem := 0;
     ut_voucher := 0; ut_registered_at := 0; ut_backpack_level := 1 |}.

(** A locked common card, ten days old at [burn_interaction]. *)
Definition locked_card : CardTable :=
  {| ct_card_id := "abc123"; ct_owner_id := 1; ct_rarity := Rarity.common;
     ct_condition := Condition.good; ct_special_rarity := SpecialRarity.unknown;
     ct_character_name := "Bob"; ct_created_at := 0; ct_has_sleeve := false;
     ct_locked := true |}.

Definition aged_card : CardTable :=
  {| ct_card_id := "def456"; ct_owner_id := 1; ct_rarity := Rarity.common;
     ct_condition := Condition.good; ct_special_rarity := SpecialRarity.unknown;
     ct_character_name := "Bob"; ct_created_at := 0; ct_has_sleeve := false;
     ct_locked := false |}.

Definition witness_db : Database :=
  {| users := [patron_row];
     levels := [{| lt_user_id := 1; lt_current_exp := 0; lt_current_level := 5;
                   lt_max_exp := 67 |}];
     inventory := [];
     cards := [locked_card; aged_card] |}.

(** The burn command after one call of the patron at time 864000: the
    bucket is spent. *)
Definition burn_cooldown : CooldownMapping :=
  fst (cooldown_wrapper (from_cooldown 1 60) 7 864000).

Definition witness_world : World :=
  {| db := witness_db;
     cooldowns := {[ "burn" := burn_cooldown ]};
     button_cooldown := from_cooldown 1 6;
     outbox := [];
     rng_pos := 0 |}.

Definition burn_interaction : Interaction :=
  {| user := patron; command := Some "burn"; now := 864005;
     guild := Some 1 |}.

(** The tape on which a common card samples 25 silver. *)
Definition tape_15 : Entropy := fun _ => 15%N.

(** A craftable character asking for two Bob cards and one fusion crystal. *)
Definition bob_deluxe : CraftableCharacterEntity :=
  {| cce_name := "Bob Deluxe"; cce_rarity := Rarity.common;
     cce_required_characters := [("Bob", 2)];
     cce_required_items := [(Item.fusion_crystal, 1)] |}.

Definition bob_card (card_id : string) : CardTable :=
  {| ct_card_id := card_id; ct_owner_id := 1; ct_rarity := Rarity.common;
     ct_condition := Condition.good; ct_special_rarity := SpecialRarity.unknown;
     ct_character_name := "Bob"; ct_created_at := 0; ct_has_sleeve := false;
     ct_locked := false |}.

(** [n] Bob cards of the patron, with the ids ["1"] to [n]. *)
Definition numbered_cards (n : nat) : list CardTable :=
  map (fun k => bob_card (NilZero.string_of_uint (Nat.to_uint k))) (seq 1 n).

(** The patron has 10 star, two unlocked Bob cards and one fusion crystal. *)
Definition craft_row : UserTable :=
  {| ut_id := 1; ut_user_id := 7; ut_silver := 1000; ut_star := 10; ut_gem := 0;
     ut_voucher := 0; ut_registered_at := 0; ut_backpack_level := 1 |}.

Definition craft_db : Database :=
  {| users := [craft_row];
     levels := [{| lt_user_id := 1; lt_current_exp := 0; lt_current_level := 5;
                   lt_max_exp := 67 |}];
     inventory := [{| it_id := 1; it_owner_id := 1; it_item := Item.fusion_crystal;
                      it_amount := 1 |}];
     cards := [bob_card "bob001"; bob_card "bob002"] |}.

Definition craft_world : World :=
  {| db := craft_db;
     cooldowns := {[ "craft" := fst (cooldown_wrapper (from_cooldown 1 60) 7 864000) ]};
     button_cooldown := from_cooldown 1 6;
     outbox := [];
     rng_pos := 0 |}.

Definition craft_interaction : Interaction :=
  {| user := patron; command := Some "craft"; now := 864005;
     guild := Some 1 |}.

(** The star balance of a user. *)
Definition star_of (d : Database) (user_id : Z) : option Z :=
  match get_table d user_id with Some t => Some (ut_star t) | None => None end.

Definition silver_of (d : Database) (user_id : Z) : option Z :=
  match get_table d user_id with Some t => Some (ut_silver t) | None => None end.

(** Two common cards of the patron, the first plain and the second shiny,
    and a fusion crystal. *)
Definition plain_card : CardTable := bob_card "plain1".

Definition shiny_card : CardTable :=
  {| ct_card_id := "shiny1"; ct_owner_id := 1; ct_rarity := Rarity.common;
     ct_condition := Condition.good; ct_special_rarity := SpecialRarity.shiny;
     ct_character_name := "Bob"; ct_created_at := 0; ct_has_sleeve := false;
     ct_locked := false |}.

Definition fusion_world (rows : list CardTable) : World :=
  {| db := {| users := [craft_row];
              levels := [];
              inventory := [{| it_id := 1; it_owner_id := 1;
                               it_item := Item.fusion_crystal; it_amount := 1 |}];
              cards := rows |};
     cooldowns := ∅;
     button_cooldown := from_cooldown 1 6;
     outbox := [];
     rng_pos := 0 |}.

Definition fusion_interaction : Interaction :=
  {| user := patron; command := Some "fusion"; now := 864005;
     guild := Some 1 |}.

(** A shop in which every item costs 100 silver. *)
Definition flat_shop (item : Item.t) : ItemEntity :=
  {| ie_name := item_str item; ie_description := ""; ie_price := Some 100;
     ie_currency := Some Currency.silver; ie_visible := true;
     ie_usable := Item.mem item
       [Item.rare_card_pack; Item.epic_card_pack; Item.mythic_card_pack;
        Item.legendary_card_pack; Item.exotic_card_pack] |}.

Definition shop_interaction : Interaction :=
  {| user := patron; command := Some "buy"; now := 864005;
     guild := Some 1 |}.

(** A user at backpack level 5 who holds 2500 cards and one rare pack. *)
Definition full_row : UserTable :=
  {| ut_id := 1; ut_user_id := 7; ut_silver := 0; ut_star := 0; ut_gem := 0;
     ut_voucher := 0; ut_registered_at := 0; ut_backpack_level := 5 |}.

Definition full_world : World :=
  {| db := {| users := [full_row];
              levels := [];
              inventory := [{| it_id := 1; it_owner_id := 1;
                               it_item := Item.rare_card_pack; it_amount := 1 |}];
              cards := numbered_cards 2500 |};
     cooldowns := ∅;
     button_cooldown := from_cooldown 1 6;
     outbox := [];
     rng_pos := 0 |}.

Definition grab_interaction : Interaction :=
  {| user := patron; command := None; now := 864005;
     guild := Some 1 |}.

(** What the final step of a craft re-validates: enough unlocked owned cards
    of a required character, and enough of a required item. *)
Definition character_available (d : Database) (user_id : Z)
    (requirement : string * Z) : bool :=
  match get_cards_by_character_name d user_id (fst requirement) with
  | None => false
  | Some owned_cards =>
      negb (Z.of_nat (List.length (filter (fun card => negb (ct_locked card))
                                          owned_cards))
            <? snd requirement)
  end.

Definition item_available (d : Database) (user_id : Z)
    (requirement : Item.t * Z) : bool :=
  match get_item d user_id (fst requirement) with
  | None => false
  | Some item => negb (it_amount item <? snd requirement)
  end.

Definition materials_available (d : Database) (user_id : Z)
    (entity : CraftableCharacterEntity) : bool :=
  forallb (character_available d user_id) (cce_required_characters entity)
  && forallb (item_available d user_id) (cce_required_items entity).

Definition bob_roster (r : Rarity.t) : list string := ["Bob"].

(** A user at backpack level 1 who holds exactly 500 cards and one rare
    pack. *)
Definition brim_world : World :=
  {| db := {| users := [craft_row];
              levels := [];
              inventory := [{| it_id := 1; it_owner_id := 1;
                               it_item := Item.rare_card_pack; it_amount := 1 |}];
              cards := numbered_cards 500 |};
     cooldowns := ∅;
     button_cooldown := from_cooldown 1 6;
     outbox := [];
     rng_pos := 0 |}.

(** The number of cards a user holds. *)
Definition card_count (d : Database) (user_id : Z) : Z :=
  match get_cards d user_id with
  | Some cs => Z.of_nat (List.length cs)
  | None => 0
  end.

(** How a rejection leaves the world: the database as it was, the actor's
    bucket of the command reset, one error message sent. *)
Definition rejection (interaction : Interaction) (name : string)
    (m : CooldownMapping) (w w' : World) : Prop :=
  db w' = db w
  /\ cooldowns w'
     = <[name := reset_cooldown m (uid interaction) (now interaction)]> (cooldowns w)
  /\ exists text, outbox w' = outbox w ++ [(error_embed, text)].

(** The craft of [craft_world] after one of the two Bob cards has gone. *)
Definition short_world : World :=
  {| db := {| users := [craft_row];
              levels := [];
              inventory := [{| it_id := 1; it_owner_id := 1;
                               it_item := Item.fusion_crystal; it_amount := 1 |}];
              cards := [bob_card "bob002"] |};
     cooldowns := {[ "craft" := burn_cooldown ]};
     button_cooldown := from_cooldown 1 6;
     outbox := [];
     rng_pos := 0 |}.

Definition short_proposal : CraftProposal :=
  {| cp_star_cost := 8;
     cp_entity := bob_deluxe;
     cp_required_cards := [bob_card "bob001"; bob_card "bob002"];
     cp_crafted_card_table :=
       {| ct_card_id := "73qc9v"; ct_owner_id := 1; ct_rarity := Rarity.common;
          ct_condition := Condition.good;
          ct_special_rarity := SpecialRarity.unknown;
          ct_character_name := "Bob Deluxe"; ct_created_at := 864005;
          ct_has_sleeve := false; ct_locked := false |} |}.

(** * Further code of the bot

    The helpers and commands around the ones above: the valuation and the
    layout of [source/cogs/card.py], [source/utils/time.py], the remaining
    card statements of [source/utils/psql.py], and the burn, lock, sleeve,
    upgrade, fusion and recycle handlers. *)

(** ** Valuation and layout ([source/cogs/card.py]) *)

Definition _calculate_card_value (card : CardTable) : result Z :=
  let base_rarity_value := 10000 in
  let multiplier_rarity_value := 5000 in
  let base_condition_value := 500 in
  match (if bool_decide (ct_rarity card = Rarity.exclusive_icicle) then Ok 9
         else Rarity.level (ct_rarity card)) with
  | Raise e => Raise e
  | Ok rarity_level =>
      let rarity_weight :=
        base_rarity_value + multiplier_rarity_value * (rarity_level - 1) in
      let condition_weight :=
        base_condition_value * Condition.level (ct_condition card) in
      let special_rarity_weight :=
        if bool_decide (ct_special_rarity card = SpecialRarity.shiny)
        then 26000 else 0 in
      Ok (rarity_weight + condition_weight + special_rarity_weight)
  end.

(** [max(xs)] *)
Definition py_max (xs : list Z) : result Z :=
  match xs with
  | [] => Raise ValueError
  | x :: rest => Ok (fold_left Z.max rest x)
  end.

(** [ceil(a / b)] of two integers *)
Definition ceil_div (a b : Z) : result Z :=
  if b =? 0 then Raise ZeroDivisionError else Ok (- ((- a) / b)).

(** The paste loop of [align_cards]: the corner each image is pasted at. *)
Fixpoint align_loop (cards_per_row width height : Z)
    (card_images : list (Z * Z)) (row column : Z) : result (list (Z * Z)) :=
  match card_images with
  | [] => Ok []
  | _ :: rest =>
      match (if column =? 0 then Ok (row, column)
             else if cards_per_row =? 0 then Raise ZeroDivisionError
             else if column mod cards_per_row =? 0 then Ok (row + 1, 0)
             else Ok (row, column)) with
      | Raise e => Raise e
      | Ok (row, column) =>
          match align_loop cards_per_row width height rest row (column + 1) with
          | Ok pasted => Ok ((width * column, height * row) :: pasted)
          | Raise e => Raise e
          end
      end
  end.

(** The page [align_cards] returns: its size and the corners of the pasted
    images, in the order of the images. *)
Record Page := {
  page_width : Z;
  page_height : Z;
  pasted : list (Z * Z)
}.

(** [CardFactory.align_cards]; an image is its [(width, height)].  What
    Pillow itself refuses (a negative page size) is not modelled. *)
Definition align_cards (card_images : list (Z * Z)) (cards_per_row : Z)
    (album : bool) (pixel_offset : Z) : result Page :=
  match py_max (map fst card_images) with
  | Raise e => Raise e
  | Ok max_width =>
  match py_max (map snd card_images) with
  | Raise e => Raise e
  | Ok max_height =>
      let width := max_width + pixel_offset in
      let height := max_height + pixel_offset in
      match (if album then Ok (width * cards_per_row, height * cards_per_row)
             else
               let page_width := width * Z.of_nat (List.length card_images) in
               let page_width :=
                 if width * cards_per_row <? page_width
                 then width * cards_per_row else page_width in
               match ceil_div (1 * Z.of_nat (List.length card_images))
                              cards_per_row with
               | Ok rows => Ok (page_width, height * rows)
               | Raise e => Raise e
               end) with
      | Raise e => Raise e
      | Ok (page_width, page_height) =>
          match align_loop cards_per_row width height card_images 0 0 with
          | Ok pasted =>
              Ok {| page_width := page_width; page_height := page_height;
                    pasted := pasted |}
          | Raise e => Raise e
          end
      end
  end end.

(** ** Durations ([source/utils/time.py]) *)

Definition units : list (string * Z) :=
  [("year", 31536000); ("month", 2592000); ("week", 604800); ("day", 86400);
   ("hour", 3600); ("minute", 60); ("second", 1)].

(** The loop of [seconds_to_human]: each part as its count and unit. *)
Fixpoint human_parts (units : list (string * Z)) (seconds : Z)
    : list (Z * string) :=
  match units with
  | [] => []
  | (unit_name, unit_seconds) :: rest =>
      if unit_seconds <=? seconds then
        let count := seconds / unit_seconds in
        let seconds := seconds mod unit_seconds in
        (count, unit_name) :: human_parts rest seconds
      else human_parts rest seconds
  end.

(** [str(n)] *)
Definition py_str (n : Z) : string := NilZero.string_of_int (Z.to_int n).

(** [f"{count} {unit_name}{'s' if count != 1 else ''}"] *)
Definition human_part (part : Z * string) : string :=
  py_str (fst part) ++ " " ++ snd part ++ (if fst part =? 1 then "" else "s").

(** [" and ".join(", ".join(human_parts).rsplit(", ", 1))]: no part holds a
    comma, so the split takes off the last part. *)
Definition seconds_to_human (seconds : Q) : string :=
  let seconds := py_int seconds in
  let parts := map human_part (human_parts units seconds) in
  let parts := match parts with [] => ["0 seconds"] | _ => parts end in
  match rev parts with
  | [] => ""
  | [part] => part
  | last_part :: front =>
      String.concat ", " (rev front) ++ " and " ++ last_part
  end.

(** ** Vocabulary of the levels *)

(** The experience of the thresholds of [n] levels from [level] on. *)
Definition thresholds (level : Z) (n : nat) : Z :=
  py_sum (map (fun k => calculate_exp (level + Z.of_nat k)) (seq 0 n)).

(** The three ways [add_exp] leaves a row [s] that holds the new experience:
    as it is, below its threshold; some levels up and below the cap, the
    thresholds passed taken off the experience; or at the cap. *)
Definition levelled (s s' : Progress) : Prop :=
  (s' = s /\ current_exp s < max_exp s)
  \/ (current_level s < current_level s' < max_level
      /\ max_exp s' = calculate_exp (current_level s')
      /\ 0 <= current_exp s' < max_exp s'
      /\ current_exp s
         = current_exp s' + max_exp s
           + thresholds (current_level s + 1)
               (Z.to_nat (current_level s' - current_level s - 1)))
  \/ (current_level s' = max_level
      /\ current_exp s' = calculate_exp max_level
      /\ max_exp s' = calculate_exp max_level
      /\ max_exp s <= current_exp s).

(** The row [handle_exp_addition] hands to [add_exp], and the row its
    [UPDATE] leaves. *)
Definition row_progress (l : LevelTable) : Progress :=
  {| current_exp := lt_current_exp l;
     current_level := lt_current_level l;
     max_exp := lt_max_exp l |}.

Definition progress_row (l : LevelTable) (s : Progress) : LevelTable :=
  {| lt_user_id := lt_user_id l;
     lt_current_exp := current_exp s;
     lt_current_level := current_level s;
     lt_max_exp := max_exp s |}.

(** The experience [add_exp] gives and returns for [exp]. *)
Definition exp_given (member : Member) (exp : Z) : Z :=
  if has_minimum_patreon_role member PatreonRole.uncommon then exp * 2
  else exp.

(** ** The remaining statements on cards and items ([source/utils/psql.py]) *)

(** [UPDATE cards SET ... WHERE card_id = $1] *)
Definition update_card (d : Database) (card_id : string)
    (f : CardTable -> CardTable) : Database :=
  {| users := users d;
     levels := levels d;
     inventory := inventory d;
     cards := map (fun c => if String.eqb (ct_card_id c) card_id then f c else c)
                  (cards d) |}.


Definition invert_has_sleeve (d : Database) (card_id : string) : Database :=
  update_card d card_id (fun c =>
    {| ct_card_id := ct_card_id c; ct_owner_id := ct_owner_id c;
       ct_rarity := ct_rarity c; ct_condition := ct_condition c;
       ct_special_rarity := ct_special_rarity c;
       ct_character_name := ct_character_name c;
       ct_created_at := ct_created_at c;
       ct_has_sleeve := negb (ct_has_sleeve c);
       ct_locked := ct_locked c |}).

Definition change_card_condition (d : Database) (card_id : string)
    (condition : Condition.t) : Database :=
  update_card d card_id (fun c =>
    {| ct_card_id := ct_card_id c; ct_owner_id := ct_owner_id c;
       ct_rarity := ct_rarity c; ct_condition := condition;
       ct_special_rarity := ct_special_rarity c;
       ct_character_name := ct_character_name c;
       ct_created_at := ct_created_at c; ct_has_sleeve := ct_has_sleeve c;
       ct_locked := ct_locked c |}).

(** [UPDATE cards SET owner_id = $1 WHERE card_id = $2 AND owner_id = (SELECT
    id FROM users WHERE user_id = $3)]: [user_id] is the user the gateway
    was opened for. *)
Definition change_card_owner (d : Database) (user_id : Z) (card_id : string)
    (new_owner_id : Z) : Database :=
  {| users := users d;
     levels := levels d;
     inventory := inventory d;
     cards :=
       map (fun c =>
              if String.eqb (ct_card_id c) card_id && owned_by d user_id c then
                {| ct_card_id := ct_card_id c; ct_owner_id := new_owner_id;
                   ct_rarity := ct_rarity c; ct_condition := ct_condition c;
                   ct_special_rarity := ct_special_rarity c;
                   ct_character_name := ct_character_name c;
                   ct_created_at := ct_created_at c;
                   ct_has_sleeve := ct_has_sleeve c;
                   ct_locked := ct_locked c |}
              else c)
           (cards d) |}.

(** [SELECT users.user_id FROM cards JOIN users ON cards.owner_id = users.id
    WHERE cards.card_id = $1] *)
Definition get_card_owner_id (d : Database) (card_id : string) : option Z :=
  match flat_map (fun c =>
                    if String.eqb (ct_card_id c) card_id then
                      map ut_user_id
                          (filter (fun u => ut_id u =? ct_owner_id c) (users d))
                    else [])
                 (cards d) with
  | user_id :: _ => Some user_id
  | [] => None
  end.

Definition get_items (d : Database) (user_id : Z) : option (list InventoryTable) :=
  rows_or_none
    (filter (fun row =>
               match select_user_pk d user_id with
               | Some pk => it_owner_id row =? pk
               | None => false
               end)
            (inventory d)).

(** The keys the schema declares: [users.id] and [users.user_id] are unique,
    and so are [cards.card_id] and the pair [(item, owner_id)] of
    [inventory]. *)
Definition unique_users (d : Database) : Prop :=
  NoDup (map ut_id (users d)) /\ NoDup (map ut_user_id (users d)).

Definition unique_cards (d : Database) : Prop := NoDup (map ct_card_id (cards d)).

(** No row of the inventory holds less than one item: what [remove_item]
    leaves behind. *)
Definition stocked (d : Database) : Prop :=
  Forall (fun row => 1 <= it_amount row) (inventory d).

(** The amount of an item a user holds. *)
Definition amount_of (d : Database) (user_id : Z) (item : Item.t) : Z :=
  match get_item d user_id item with
  | Some row => it_amount row
  | None => 0
  end.

(** ** Burning several cards ([source/cogs/card.py]) *)

(** What the multi-card and the all-card burn register for their commit. *)
Record BulkBurnProposal := {
  bb_valid_card_ids : list string;
  bb_total_silver : Z;
  bb_total_star : Z;
  bb_total_glistening_gem : Z;
  bb_has_shiny : bool
}.

(** The totals the loops of the two handlers carry. *)
Record BurnTotals := {
  total_silver : Z;
  total_star : Z;
  total_glistening_gem : Z;
  has_shiny : bool
}.

(** The reward of one card, added to the totals: the body shared by the
    loops of [_handle_multiple_card_burn] and [_handle_all_card_burn]. *)
Definition add_burn_reward (interaction : Interaction) (card : CardTable)
    (totals : BurnTotals) : Act BurnTotals :=
  silver_range <~ pure_result (Rarity.to_silver (ct_rarity card)) ;;
  rarity_to_silver <~ sample (randint (fst silver_range) (snd silver_range)) ;;
  let days := (now interaction - ct_created_at card) / 86400 in
  let days := Z.min days 60 in
  let additional_silver_per_day :=
    py_sum (map (fun _ => rarity_to_silver / 4) (seq 0 (Z.to_nat days))) in
  let additional_star_per_day :=
    py_sum (map (fun _ => Condition.to_star (ct_condition card) / 4)
                (seq 0 (Z.to_nat days))) in
  let shiny := bool_decide (ct_special_rarity card = SpecialRarity.shiny) in
  act_ret
    {| total_silver :=
         total_silver totals + (rarity_to_silver + additional_silver_per_day);
       total_star :=
         total_star totals
         + (Condition.to_star (ct_condition card) + additional_star_per_day);
       total_glistening_gem :=
         if shiny then total_glistening_gem totals + 1
         else total_glistening_gem totals;
       has_shiny := if shiny then true else has_shiny totals |}.

(** The first loop of [_handle_multiple_card_burn]: the ids of the cards
    that can be burned and the number of the others.  The pages of ten only
    shape the prompt. *)
Fixpoint sort_burnable (owner_id : Z) (cards : list CardTable)
    (valid_card_ids : list string) (invalid_card_count : Z)
    : list string * Z :=
  match cards with
  | [] => (valid_card_ids, invalid_card_count)
  | card :: rest =>
      if Rarity.mem (ct_rarity card) Rarity.get_valuable_rarities then
        sort_burnable owner_id rest valid_card_ids (invalid_card_count + 1)
      else if negb (ct_owner_id card =? owner_id) then
        sort_burnable owner_id rest valid_card_ids (invalid_card_count + 1)
      else if ct_locked card then
        sort_burnable owner_id rest valid_card_ids (invalid_card_count + 1)
      else
        sort_burnable owner_id rest (valid_card_ids ++ [ct_card_id card])
          invalid_card_count
  end.

(** The second loop of [_handle_multiple_card_burn]. *)
Fixpoint total_burn_rewards (interaction : Interaction)
    (valid_card_ids : list string) (cards : list CardTable)
    (totals : BurnTotals) : Act BurnTotals :=
  match cards with
  | [] => act_ret totals
  | card :: rest =>
      if negb (string_mem (ct_card_id card) valid_card_ids) then
        total_burn_rewards interaction valid_card_ids rest totals
      else
        totals <~ add_burn_reward interaction card totals ;;
        total_burn_rewards interaction valid_card_ids rest totals
  end.

Definition no_totals : BurnTotals :=
  {| total_silver := 0; total_star := 0; total_glistening_gem := 0;
     has_shiny := false |}.

Definition _handle_multiple_card_burn (interaction : Interaction)
    (cards : list CardTable) : Act (Outcome BulkBurnProposal) :=
  d <~ read_db ;;
  match get_table d (uid interaction) with
  | None => act_raise AssertionError
  | Some psql_user_table =>
      let '(valid_card_ids, invalid_card_count) :=
        sort_burnable (ut_id psql_user_table) cards [] 0 in
      totals <~ total_burn_rewards interaction valid_card_ids cards no_totals ;;
      if invalid_card_count =? Z.of_nat (List.length cards) then
        reset_command_cooldown interaction ;;;
        send error_embed "The cards you provided cannot be burned." ;;;
        act_ret Rejected
      else
        send warning_embed "Are you sure you wanna burn these cards?" ;;;
        act_ret (Prompt {| bb_valid_card_ids := valid_card_ids;
                           bb_total_silver := total_silver totals;
                           bb_total_star := total_star totals;
                           bb_total_glistening_gem := total_glistening_gem totals;
                           bb_has_shiny := has_shiny totals |})
  end.

(** The loop of [_handle_all_card_burn]. *)
Fixpoint total_all_rewards (interaction : Interaction) (cards : list CardTable)
    (totals : BurnTotals) (invalid_card_count : Z)
    (valid_card_ids : list string) : Act (BurnTotals * Z * list string) :=
  match cards with
  | [] => act_ret (totals, invalid_card_count, valid_card_ids)
  | card :: rest =>
      if ct_locked card then
        total_all_rewards interaction rest totals invalid_card_count
          valid_card_ids
      else if Rarity.mem (ct_rarity card) Rarity.get_valuable_rarities then
        total_all_rewards interaction rest totals (invalid_card_count + 1)
          valid_card_ids
      else
        totals <~ add_burn_reward interaction card totals ;;
        total_all_rewards interaction rest totals invalid_card_count
          (valid_card_ids ++ [ct_card_id card])
  end.

Definition _handle_all_card_burn (interaction : Interaction)
    : Act (Outcome BulkBurnProposal) :=
  d <~ read_db ;;
  match get_cards d (uid interaction) with
  | None =>
      send error_embed "You currently don't own any cards." ;;;
      act_ret Rejected
  | Some cards =>
      looped <~ total_all_rewards interaction cards no_totals 0 [] ;;
      let '(totals, invalid_card_count, valid_card_ids) := looped in
      if invalid_card_count =? Z.of_nat (List.length cards) then
        reset_command_cooldown interaction ;;;
        send error_embed "The cards you provided cannot be burned." ;;;
        act_ret Rejected
      else
        send warning_embed
          "Are you sure you wanna burn all your cards except the locked ones?" ;;;
        act_ret (Prompt {| bb_valid_card_ids := valid_card_ids;
                           bb_total_silver := total_silver totals;
                           bb_total_star := total_star totals;
                           bb_total_glistening_gem := total_glistening_gem totals;
                           bb_has_shiny := has_shiny totals |})
  end.

(** The writes the two commits share. *)
Definition pay_bulk_burn (interaction : Interaction)
    (proposal : BulkBurnProposal) : Act unit :=
  write_db (fun d => set_silver d (uid interaction) (bb_total_silver proposal) false) ;;;
  write_db (fun d => set_star d (uid interaction) (bb_total_star proposal) false) ;;;
  (if bb_has_shiny proposal then
     write_db (fun d => add_item d (uid interaction) Item.glistening_gem
                          (bb_total_glistening_gem proposal))
   else act_ret tt) ;;;
  write_db (fun d => delete_cards_by_card_id d (bb_valid_card_ids proposal)) ;;;
  send success_embed "Burning successful! You received:".

Definition _confirm_multiple_card_burn (interaction : Interaction)
    (proposal : BulkBurnProposal) : Act unit :=
  d <~ read_db ;;
  match get_cards_by_card_id d (bb_valid_card_ids proposal) with
  | None =>
      send error_embed "The cards you wanted to burn do not exist anymore."
  | Some _ => pay_bulk_burn interaction proposal
  end.

Definition _confirm_all_card_burn (interaction : Interaction)
    (proposal : BulkBurnProposal) : Act unit :=
  d <~ read_db ;;
  let check_card := get_cards_by_card_id d (bb_valid_card_ids proposal) in
  if match check_card with
     | None => true
     | Some rows =>
         negb (List.length rows =? List.length (bb_valid_card_ids proposal))%nat
     end
  then
    reset_command_cooldown interaction ;;;
    send error_embed "Some of the cards you wanted to burn do not exist anymore."
  else pay_bulk_burn interaction proposal.

(** *** The burn command *)

(** [s.split(" ")] *)
Fixpoint split_spaces (s : string) : list string :=
  match s with
  | EmptyString => [EmptyString]
  | String c s' =>
      if Ascii.eqb c " " then EmptyString :: split_spaces s'
      else
        match split_spaces s' with
        | piece :: pieces => String c piece :: pieces
        | [] => [String c EmptyString]
        end
  end.

(** The ASCII characters [str.strip()] removes. *)
Definition is_space (c : ascii) : bool :=
  let n := nat_of_ascii c in
  (((9 <=? n) && (n <=? 13)) || ((28 <=? n) && (n <=? 32)))%nat.

Fixpoint lstrip (s : string) : string :=
  match s with
  | EmptyString => EmptyString
  | String c s' => if is_space c then lstrip s' else s
  end.

Definition reverse (s : string) : string :=
  string_of_list_ascii (rev (list_ascii_of_string s)).

Definition strip (s : string) : string := reverse (lstrip (reverse (lstrip s))).

(** [list(filter(lambda x: x, [card_id.strip() for card_id in
    card_ids.split(" ")]))] *)
Definition filtered_card_ids (card_ids : string) : list string :=
  filter (fun x => negb (String.eqb x "")) (map strip (split_spaces card_ids)).

(** [[item for item, count in Counter(ids).items() if count > 1]] is not
    empty. *)
Definition has_duplicates (ids : list string) : bool :=
  existsb (fun item => (1 <? List.length (filter (String.eqb item) ids))%nat) ids.

Inductive BurnPrompt :=
| BurnSingle (proposal : BurnProposal)
| BurnMultiple (proposal : BulkBurnProposal)
| BurnAll (proposal : BulkBurnProposal).

Definition lift_outcome {P Q} (f : P -> Q) (o : Outcome P) : Outcome Q :=
  match o with Rejected => Rejected | Prompt p => Prompt (f p) end.

(** [CardCog.card_burn], up to the prompt of the handler it hands over to.
    An argument of blanks only names no id: the command ends without a
    message. *)
Definition card_burn (interaction : Interaction) (card_ids : option string)
    : Act (Outcome BurnPrompt) :=
  match command interaction with
  | None => act_raise AssertionError
  | Some _ =>
  d <~ read_db ;;
  match get_table d (uid interaction) with
  | None => act_raise AssertionError
  | Some psql_user_table =>
  match card_ids with
  | None =>
      match get_most_recently_obtained_card d (uid interaction) with
      | None =>
          send error_embed "You currently don't own any cards." ;;;
          act_ret Rejected
      | Some recent_card =>
          o <~ _handle_single_card_burn interaction recent_card ;;
          act_ret (lift_outcome BurnSingle o)
      end
  | Some card_ids =>
      if String.eqb (casefold card_ids) "all" then
        o <~ _handle_all_card_burn interaction ;;
        act_ret (lift_outcome BurnAll o)
      else
        let filtered_card_ids := filtered_card_ids card_ids in
        match filtered_card_ids with
        | [] => act_ret Rejected
        | [card_id] =>
            match get_card d card_id with
            | None =>
                reset_command_cooldown interaction ;;;
                send error_embed "I couldn't find any card with the ID `{}`." ;;;
                act_ret Rejected
            | Some card =>
                if negb (ct_owner_id card =? ut_id psql_user_table) then
                  reset_command_cooldown interaction ;;;
                  send error_embed "You can only burn cards you own." ;;;
                  act_ret Rejected
                else
                  o <~ _handle_single_card_burn interaction card ;;
                  act_ret (lift_outcome BurnSingle o)
            end
        | _ =>
            if has_duplicates filtered_card_ids then
              reset_command_cooldown interaction ;;;
              send error_embed "Please don't duplicate your card IDs." ;;;
              act_ret Rejected
            else
              match get_cards_by_card_id d filtered_card_ids with
              | None =>
                  reset_command_cooldown interaction ;;;
                  send error_embed
                    "I couldn't find any cards with the IDs you provided." ;;;
                  act_ret Rejected
              | Some cards =>
                  o <~ _handle_multiple_card_burn interaction cards ;;
                  act_ret (lift_outcome BurnMultiple o)
              end
        end
  end end end.

(** ** Vocabulary of the further statements *)

(** A step that writes nothing to the database, however it ends. *)
Definition keeps_db {A} (m : Act A) : Prop :=
  forall e w r w', m e w = (r, w') -> db w' = db w.

(** A card the multi-card burn of the owner of row [owner_id] accepts. *)
Definition burnable_by (owner_id : Z) (card : CardTable) : bool :=
  negb (Rarity.mem (ct_rarity card) Rarity.get_valuable_rarities)
  && (ct_owner_id card =? owner_id)
  && negb (ct_locked card).

(** A card the all-card burn accepts, among the cards of the user. *)
Definition burnable (card : CardTable) : bool :=
  negb (ct_locked card)
  && negb (Rarity.mem (ct_rarity card) Rarity.get_valuable_rarities).

(** The star a card burns for at the time of the interaction. *)
Definition star_reward (interaction : Interaction) (card : CardTable) : Z :=
  let days := Z.min ((now interaction - ct_created_at card) / 86400) 60 in
  Condition.to_star (ct_condition card)
  + py_sum (map (fun _ => Condition.to_star (ct_condition card) / 4)
                (seq 0 (Z.to_nat days))).

Definition shiny_count (cards : list CardTable) : Z :=
  Z.of_nat (List.length
              (filter (fun c => bool_decide (ct_special_rarity c = SpecialRarity.shiny))
                      cards)).

(** The ids a burn prompt offers to delete. *)
Definition offered_ids (prompt : BurnPrompt) : list string :=
  match prompt with
  | BurnSingle proposal => [ct_card_id (bp_card proposal)]
  | BurnMultiple proposal => bb_valid_card_ids proposal
  | BurnAll proposal => bb_valid_card_ids proposal
  end.

(** A step that only draws from the tape: it writes nothing, sends nothing
    and leaves the cooldowns alone. *)
Definition only_draws (w w' : World) : Prop :=
  db w' = db w /\ cooldowns w' = cooldowns w
  /\ button_cooldown w' = button_cooldown w /\ outbox w' = outbox w.

(** A card the all-card burn counts as invalid: valuable and not locked. *)
Definition refused (card : CardTable) : bool :=
  negb (ct_locked card)
  && Rarity.mem (ct_rarity card) Rarity.get_valuable_rarities.

(** What a confirmed bulk burn leaves: the silver and the star of the
    proposal on the balance of the user, a glistening gem for each shiny
    card, and none of the offered cards; the other cards and the cooldowns
    are as they were. *)
Definition burn_paid (interaction : Interaction) (proposal : BulkBurnProposal)
    (w w' : World) : Prop :=
  (forall row,
     get_table (db w) (uid interaction) = Some row ->
     exists row',
       get_table (db w') (uid interaction) = Some row'
       /\ ut_silver row' = ut_silver row + bb_total_silver proposal
       /\ ut_star row' = ut_star row + bb_total_star proposal
       /\ amount_of (db w') (uid interaction) Item.glistening_gem
          = amount_of (db w) (uid interaction) Item.glistening_gem
            + (if bb_has_shiny proposal then bb_total_glistening_gem proposal
               else 0))
  /\ cards (db w')
     = filter (fun c => negb (string_mem (ct_card_id c) (bb_valid_card_ids proposal)))
              (cards (db w))
  /\ get_cards_by_card_id (db w') (bb_valid_card_ids proposal) = None
  /\ cooldowns w' = cooldowns w.

(** ** Vocabulary of the pack and the grab *)

(** The row a claimed or a grabbed card is stored as. *)
Definition stored_row (owner_id created_at : Z) (card : CardImage) : CardTable :=
  {| ct_card_id := ci_card_id card;
     ct_owner_id := owner_id;
     ct_rarity := ci_rarity card;
     ct_condition := ci_condition card;
     ct_special_rarity := ci_special_rarity card;
     ct_character_name := ci_character_name card;
     ct_created_at := created_at;
     ct_has_sleeve := false;
     ct_locked := false |}.

Definition is_troll (card : CardImage) : bool :=
  String.eqb (ci_character_name card) "Troll".

(** The database with rows appended to the [cards] table. *)
Definition with_cards (d : Database) (rows : list CardTable) : Database :=
  {| users := users d; levels := levels d; inventory := inventory d;
     cards := cards d ++ rows |}.

(** ** Recycling an item ([source/cogs/item.py]) *)

Record RecycleProposal := {
  rc_item : Item.t;
  rc_amount_to_recycle : Z;
  rc_currency : Currency.t;
  rc_total_price : Z
}.

Section Recycle.

(** [ItemEntity.to_entity], read from [source/json/items.json]. *)
Variable to_entity : Item.t -> ItemEntity.

(** [regex_autocomplete(prefix, words)]: the words the pattern [^prefix.*]
    matches, or the error of [re.compile] on a prefix that is no pattern. *)
Variable regex_autocomplete : string -> list string -> result (list string).

Definition item_recycle (interaction : Interaction) (item_name : string)
    (amount_to_recycle : Z) : Act (Outcome RecycleProposal) :=
  match filter (fun item => ie_visible (to_entity item) &&
                            String.eqb (item_str item) (casefold item_name))
               item_members with
  | [] =>
      let items :=
        map item_str (filter (fun item => ie_visible (to_entity item))
                             item_members) in
      close_matches <~ pure_result (regex_autocomplete item_name items) ;;
      match close_matches with
      | _ :: _ =>
          send error_embed "That item doesn't exist, did you mean `{}`?" ;;;
          act_ret Rejected
      | [] =>
          send error_embed "That item doesn't exist." ;;; act_ret Rejected
      end
  | item :: _ =>
      if amount_to_recycle <? 1 then
        send error_embed "Please put a positive number as amount." ;;;
        act_ret Rejected
      else
        let item_entity := to_entity item in
        priced <~
          (if purchasable item_entity then
             match ie_price item_entity with
             | None => act_raise AssertionError
             | Some 0 => act_raise AssertionError
             | Some price =>
                 let total_price :=
                   if 1 <? price then (price / 2) * amount_to_recycle
                   else amount_to_recycle in
                 match ie_currency item_entity with
                 | None => act_raise AssertionError
                 | Some currency => act_ret (total_price, currency)
                 end
             end
           else act_ret (0, Currency.silver)) ;;
        let '(total_price, currency) := priced in
        d <~ read_db ;;
        match get_item d (uid interaction) item with
        | None =>
            send error_embed "I couldn't find any {} in your inventory." ;;;
            act_ret Rejected
        | Some item_result =>
            if it_amount item_result <? amount_to_recycle then
              send error_embed
                "You currently don't have enough {} in your inventory." ;;;
              act_ret Rejected
            else
              send warning_embed "Are you sure you want to recycle this item?" ;;;
              act_ret (Prompt {| rc_item := item;
                                 rc_amount_to_recycle := amount_to_recycle;
                                 rc_currency := currency;
                                 rc_total_price := total_price |})
        end
  end.

End Recycle.

Definition _confirm_item_recycle (interaction : Interaction)
    (proposal : RecycleProposal) : Act unit :=
  let item := rc_item proposal in
  let amount_to_recycle := rc_amount_to_recycle proposal in
  let total_price := rc_total_price proposal in
  d <~ read_db ;;
  match get_item d (uid interaction) item with
  | None => send error_embed "I couldn't find any {} in your inventory."
  | Some item_result =>
      if it_amount item_result <? amount_to_recycle then
        send error_embed "You currently don't have enough {} in your inventory."
      else
        match rc_currency proposal with
        | Currency.silver =>
            write_db (fun d => set_silver d (uid interaction) total_price false)
        | Currency.gem =>
            write_db (fun d => set_gem d (uid interaction) total_price false)
        | Currency.voucher =>
            write_db (fun d => set_voucher d (uid interaction) total_price false)
        | Currency.star => act_raise ValueError
        end ;;;
        write_db (fun d => remove_item d (uid interaction) item amount_to_recycle) ;;;
        send success_embed "Recycling successful! You received:"
  end.

(** ** Vocabulary of the shop *)

(** The balance of a user in one currency. *)
Definition balance (currency : Currency.t) (row : UserTable) : Z :=
  match currency with
  | Currency.silver => ut_silver row
  | Currency.star => ut_star row
  | Currency.gem => ut_gem row
  | Currency.voucher => ut_voucher row
  end.

(** The key of the [inventory] table: one row for an item and an owner. *)
Definition unique_items (d : Database) : Prop :=
  NoDup (map (fun row => (it_owner_id row, it_item row)) (inventory d)).

(** ** Locking a card ([source/cogs/card.py]) *)

(** The [Literal["lock", "unlock"]] argument. *)
Module LockOption.
Inductive t := lock | unlock.

#[global] Instance eq_dec : EqDecision t.
Proof. solve_decision. Defined.
End LockOption.





(** ** Sleeving a card ([source/cogs/card.py]) *)

(** The [Literal["add", "remove"]] argument. *)
Module SleeveOption.
Inductive t := add | remove.

#[global] Instance eq_dec : EqDecision t.
Proof. solve_decision. Defined.
End SleeveOption.

Record SleeveProposal := {
  sl_is_option_add : bool;
  sl_card_id : string
}.

Definition _handle_card_sleeve (interaction : Interaction)
    (sleeve_option : SleeveOption.t) (card_id : option string)
    : Act (Outcome SleeveProposal) :=
  d <~ read_db ;;
  match get_table d (uid interaction) with
  | None => act_raise AssertionError
  | Some psql_user_table =>
  match (match card_id with
         | None => get_most_recently_obtained_card d (uid interaction)
         | Some card_id => get_card d card_id
         end) with
  | None =>
      send error_embed "I couldn't find any card with the ID **`{}`**." ;;;
      act_ret Rejected
  | Some card =>
      let is_option_add := bool_decide (sleeve_option = SleeveOption.add) in
      if is_option_add && ct_has_sleeve card then
        send error_embed "This card already has a sleeve." ;;; act_ret Rejected
      else if negb is_option_add && negb (ct_has_sleeve card) then
        send error_embed "This card does not have a sleeve." ;;;
        act_ret Rejected
      else
        (* card_id or card.card_id *)
        let card_id :=
          match card_id with
          | Some (String _ _ as given) => given
          | _ => ct_card_id card
          end in
        if negb (ct_owner_id card =? ut_id psql_user_table) then
          send error_embed
            (if is_option_add then "You can only add sleeves to cards you own."
             else "You can only remove sleeves from cards you own.") ;;;
          act_ret Rejected
        else
          send warning_embed
            (if is_option_add
             then "Are you sure you want to add a sleeve to this card?"
             else "Are you sure you want to remove this card's sleeve?") ;;;
          act_ret (Prompt {| sl_is_option_add := is_option_add;
                             sl_card_id := card_id |})
  end end.

Definition _confirm_card_sleeve (interaction : Interaction)
    (proposal : SleeveProposal) : Act unit :=
  let card_id := sl_card_id proposal in
  let finish (success_text : string) : Act unit :=
    write_db (fun d => invert_has_sleeve d card_id) ;;;
    send success_embed success_text in
  if sl_is_option_add proposal then
    d <~ read_db ;;
    match get_item d (uid interaction) Item.card_sleeve with
    | None => send error_embed "I couldn't find any {} in your inventory."
    | Some _ =>
        write_db (fun d => remove_item d (uid interaction) Item.card_sleeve 1) ;;;
        finish "You've successfully added a {} to your card **`{}`**."
    end
  else
    write_db (fun d => add_item d (uid interaction) Item.card_sleeve 1) ;;;
    finish "You've successfully removed a {} from your card **`{}`**.".

(** ** Vocabulary of the lock and the sleeve *)



(** The [has_sleeve] column of a card, by its id. *)
Definition sleeve_of (d : Database) (card_id : string) : option bool :=
  match get_card d card_id with
  | Some c => Some (ct_has_sleeve c)
  | None => None
  end.


(** ** Upgrading a card ([source/cogs/forge.py]) *)

Record UpgradeProposal := {
  up_upgrade_cost : Z;
  up_card : CardImage;
  up_new_condition : Condition.t
}.

Definition forge_upgrade (interaction : Interaction) (card_id : option string)
    : Act (Outcome UpgradeProposal) :=
  d <~ read_db ;;
  match get_table d (uid interaction) with
  | None => act_raise AssertionError
  | Some psql_user_table =>
  match (match card_id with
         | None => get_most_recently_obtained_card d (uid interaction)
         | Some card_id => get_card d card_id
         end) with
  | None =>
      send error_embed "I couldn't find any card with the ID **`{}`**." ;;;
      act_ret Rejected
  | Some card =>
      if bool_decide (ct_condition card = Condition.pristine) then
        send error_embed "Your card is already in **pristine** condition." ;;;
        act_ret Rejected
      else if negb (ct_owner_id card =? ut_id psql_user_table) then
        send error_embed "You can only upgrade cards you own." ;;;
        act_ret Rejected
      else
        let card :=
          {| ci_rarity := ct_rarity card;
             ci_condition := ct_condition card;
             ci_special_rarity := ct_special_rarity card;
             ci_character_name := ct_character_name card;
             ci_card_id := ct_card_id card;
             ci_has_sleeve := ct_has_sleeve card |} in
        let new_condition := upgrade (ci_condition card) in
        let upgrade_cost :=
          if bool_decide (ci_special_rarity card = SpecialRarity.shiny)
          then 4 else 1 in
        send warning_embed "Are you sure you want to upgrade this card?" ;;;
        act_ret (Prompt {| up_upgrade_cost := upgrade_cost;
                           up_card := card;
                           up_new_condition := new_condition |})
  end end.

Definition _confirm_forge_upgrade (interaction : Interaction)
    (proposal : UpgradeProposal) : Act unit :=
  let upgrade_cost := up_upgrade_cost proposal in
  d <~ read_db ;;
  match get_item d (uid interaction) Item.glistening_gem with
  | None => send error_embed "You currently don't have any {}"
  | Some item =>
      if it_amount item <? upgrade_cost then
        send error_embed "You currently don't have enough {}"
      else
        write_db (fun d =>
          remove_item d (uid interaction) Item.glistening_gem upgrade_cost) ;;;
        write_db (fun d =>
          change_card_condition d (ci_card_id (up_card proposal))
            (up_new_condition proposal)) ;;;
        reward_exp <~ sample (randint 150 250) ;;
        reward_exp <~ handle_exp_addition interaction reward_exp ;;
        send success_embed "Upgrade successful!"
  end.

(** ** Confirming a fusion ([source/cogs/forge.py]) *)

(** [psql_user_table] is the row the command read before the prompt.  The
    experience is [round(randint(1, 3) + star_cost / 1.5)]: two thirds of a
    whole number are never half-way between two integers, so the rounding
    of the float is the exact one. *)
Definition _confirm_forge_fusion (interaction : Interaction)
    (psql_user_table : UserTable) (proposal : FusionProposal) : Act unit :=
  let card := fp_card proposal in
  let star_cost := fp_star_cost proposal in
  let card_ids := [fp_first_card_id proposal; fp_second_card_id proposal] in
  d <~ read_db ;;
  if match get_cards_by_card_id d card_ids with
     | None => true
     | Some cards_check => (List.length cards_check <? 2)%nat
     end
  then send error_embed "One of the cards you wanted to fuse no longer exists."
  else if ut_star psql_user_table <? star_cost then
    send error_embed "You are currently don't have enough {}."
  else
    write_db (fun d => set_star d (uid interaction) star_cost true) ;;;
    write_db (fun d => delete_cards_by_card_id d card_ids) ;;;
    write_db_result (fun d =>
      add_card d
        {| ct_card_id := ci_card_id card;
           ct_owner_id := ct_owner_id (fp_card1 proposal);
           ct_rarity := ci_rarity card;
           ct_condition := ci_condition card;
           ct_special_rarity := ci_special_rarity card;
           ct_character_name := ci_character_name card;
           ct_created_at := now interaction;
           ct_has_sleeve := false;
           ct_locked := false |}) ;;;
    reward_exp <~ sample (randint 1 3) ;;
    let reward_exp := py_round (inject_Z reward_exp + inject_Z star_cost / 1.5)%Q in
    reward_exp <~ handle_exp_addition interaction reward_exp ;;
    send success_embed "Fusion successful! You received {} card **`{}`** in return.".

(** ** Vocabulary of the forge *)

(** The condition of a card, by its id. *)
Definition condition_of (d : Database) (card_id : string) : option Condition.t :=
  match get_card d card_id with
  | Some c => Some (ct_condition c)
  | None => None
  end.

(** * Properties *)

(** ** The entropy monad *)

Lemma bind_Ok {A B} (m : Rand A) (k : A -> Rand B) e p b p2 :
  bind m k e p = Ok (b, p2) ->
  exists a p1, m e p = Ok (a, p1) /\ k a e p1 = Ok (b, p2).
Proof.
  unfold bind. destruct (m e p) as [[a p1]|x]; [|discriminate].
  intros H. exists a, p1. split; [reflexivity|exact H].
Qed.

Lemma bind_eq {A B} (m : Rand A) (k : A -> Rand B) e p a p1 :
  m e p = Ok (a, p1) -> bind m k e p = k a e p1.
Proof. intros H. unfold bind. now rewrite H. Qed.

Lemma unit_fraction_range k :
  (0 <= unit_fraction k)%Q /\ (unit_fraction k < 1)%Q.
Proof.
  pose proof (N.mod_upper_bound k 9007199254740992 ltac:(discriminate)) as H.
  unfold unit_fraction, Qle, Qlt. cbn [Qnum Qden].
  set (m := (k mod 9007199254740992)%N) in *.
  split; lia.
Qed.

Lemma randint_Ok a b e p :
  a <= b ->
  exists k, a <= k <= b /\ randint a b e p = Ok (k, S p).
Proof.
  intros Hab. unfold randint.
  destruct (Z.ltb_spec b a) as [Hlt|_]; [lia|].
  unfold bind, _randbelow, ret.
  exists (a + Z.of_N (e p) mod (b - a + 1)). split; [|reflexivity].
  pose proof (Z.mod_pos_bound (Z.of_N (e p)) (b - a + 1) ltac:(lia)). lia.
Qed.

Lemma choice_Ok {A} (seq : list A) e p :
  seq <> [] ->
  exists x, In x seq /\ choice seq e p = Ok (x, S p).
Proof.
  intros Hne. destruct seq as [|a0 seq]; [congruence|].
  unfold choice, bind, _randbelow, ret.
  set (n := Z.of_nat (List.length (a0 :: seq))).
  assert (Hn : 0 < n) by (unfold n; simpl List.length; lia).
  pose proof (Z.mod_pos_bound (Z.of_N (e p)) n Hn) as Hb.
  destruct (nth_error (a0 :: seq) (Z.to_nat (Z.of_N (e p) mod n))) as [x|] eqn:Hx.
  - exists x. split; [eapply nth_error_In; eassumption|reflexivity].
  - apply nth_error_None in Hx.
    set (v := Z.of_N (e p) mod n) in *. unfold n in *. lia.
Qed.

Lemma bisect_loop_bounds fuel a x : forall lo hi,
  (lo <= hi)%nat ->
  (lo <= bisect_loop fuel a x lo hi <= hi)%nat.
Proof.
  induction fuel as [|fuel IH]; intros lo hi Hle; cbn [bisect_loop]; [lia|].
  destruct (Nat.ltb_spec lo hi) as [Hlt|Hge]; [|lia].
  assert (Hmid : (lo <= (lo + hi) / 2 < hi)%nat).
  { split.
    - apply Nat.div_le_lower_bound; lia.
    - apply Nat.Div0.div_lt_upper_bound; lia. }
  set (mid := ((lo + hi) / 2)%nat) in *.
  destruct (Qltb x (nth mid a 0%Q)).
  - pose proof (IH lo mid ltac:(lia)). lia.
  - pose proof (IH (mid + 1)%nat hi ltac:(lia)). lia.
Qed.

Lemma accumulate_from_length acc w :
  List.length (accumulate_from acc w) = List.length w.
Proof.
  revert acc. induction w as [|x w IH]; intros acc; simpl; [reflexivity|].
  now rewrite IH.
Qed.

Lemma accumulate_length w : List.length (accumulate w) = List.length w.
Proof. destruct w; simpl; [reflexivity|]. now rewrite accumulate_from_length. Qed.

(** Weighted selection succeeds on a table of positive total weight, and
    picks one of its keys. *)
Lemma choices_Ok {A} (population : list A) (weights : list Q) total e p :
  List.length weights = List.length population ->
  last (map Some (accumulate weights)) None = Some total ->
  Qle_bool total 0 = false ->
  exists x, In x population /\ choices population weights e p = Ok (x, S p).
Proof.
  intros Hlen Hlast Hpos. unfold choices.
  rewrite accumulate_length, Hlen, Nat.eqb_refl.
  rewrite Hlast, Hpos.
  destruct population as [|a0 population].
  { destruct weights; [discriminate Hlast|discriminate Hlen]. }
  unfold bind, random, ret, lift. cbn [negb]. cbn beta iota.
  set (i := bisect _ _ _ _).
  assert (Hi : (i < List.length (a0 :: population))%nat).
  { unfold i, bisect.
    pose proof (bisect_loop_bounds (S (List.length (a0 :: population) - 1))
                  (accumulate weights) (unit_fraction (e p) * total)%Q 0
                  (List.length (a0 :: population) - 1) ltac:(lia)) as Hb.
    simpl List.length in *. lia. }
  destruct (nth_error (a0 :: population) i) as [x|] eqn:Hx.
  - exists x. split; [eapply nth_error_In; eassumption|reflexivity].
  - apply nth_error_None in Hx. lia.
Qed.

Lemma Qfloor_scaled_bound (r : Q) (n : Z) :
  (0 <= r)%Q -> (r < 1)%Q -> 0 < n ->
  0 <= Qfloor (r * inject_Z n) < n.
Proof.
  intros H0 H1 Hn. split.
  - change 0 with (Qfloor 0). apply Qfloor_resp_le.
    apply Qmult_le_0_compat; [exact H0|].
    unfold Qle; simpl; lia.
  - apply Z.lt_le_trans with (Qfloor (inject_Z n) + 0); [|rewrite Qfloor_Z; lia].
    rewrite Z.add_0_r.
    assert (Hlt : (r * inject_Z n < inject_Z n)%Q).
    { rewrite <- (Qmult_1_l (inject_Z n)) at 2.
      apply Qmult_lt_compat_r; [unfold Qlt; simpl; lia|exact H1]. }
    destruct (Z_lt_le_dec (Qfloor (r * inject_Z n)) (Qfloor (inject_Z n))) as [Hl|Hg];
      [exact Hl|].
    exfalso. rewrite Qfloor_Z in Hg.
    pose proof (Qfloor_le (r * inject_Z n)) as Hfl.
    assert (Hc : (inject_Z n <= r * inject_Z n)%Q).
    { eapply Qle_trans; [|exact Hfl]. rewrite <- Zle_Qle. exact Hg. }
    apply (Qlt_irrefl (inject_Z n)). eapply Qle_lt_trans; eassumption.
Qed.

Lemma choices_k_Ok {A} (population : list A) k : forall e p,
  population <> [] ->
  exists l, choices_k population k e p = Ok (l, (p + k)%nat).
Proof.
  induction k as [|k IH]; intros e p Hne.
  - exists []. unfold choices_k, ret. now rewrite Nat.add_0_r.
  - cbn [choices_k]. unfold bind at 1. unfold random at 1.
    set (n := Z.of_nat (List.length population)).
    assert (Hn : 0 < n).
    { unfold n. destruct population; [congruence|simpl List.length; lia]. }
    destruct (unit_fraction_range (e p)) as [H0 H1].
    pose proof (Qfloor_scaled_bound _ n H0 H1 Hn) as Hb.
    destruct (nth_error population
                (Z.to_nat (Qfloor (unit_fraction (e p) * inject_Z n)))) as [x|] eqn:Hx.
    + destruct (IH e (S p) Hne) as [l Hl].
      exists (x :: l). unfold bind. rewrite Hl. unfold ret.
      now replace (S p + k)%nat with (p + S k)%nat by lia.
    + apply nth_error_None in Hx.
      set (v := Qfloor (unit_fraction (e p) * inject_Z n)) in *.
      unfold n in *. lia.
Qed.

Lemma Qltb_true x y : Qltb x y = true <-> (x < y)%Q.
Proof.
  unfold Qltb. rewrite negb_true_iff. split.
  - intros H. apply Qnot_le_lt. intros Hle.
    apply Qle_bool_iff in Hle. congruence.
  - intros H. destruct (Qle_bool y x) eqn:E; [|reflexivity].
    apply Qle_bool_iff in E. exfalso. eapply Qlt_not_le; eassumption.
Qed.

Lemma Qltb_false x y : Qltb x y = false <-> (y <= x)%Q.
Proof.
  unfold Qltb. rewrite negb_false_iff. apply Qle_bool_iff.
Qed.

Lemma choices_unfold {A} (population : list A) (weights : list Q) total e p :
  List.length weights = List.length population ->
  last (map Some (accumulate weights)) None = Some total ->
  Qle_bool total 0 = false ->
  choices population weights e p =
  match nth_error population
          (bisect (accumulate weights) (unit_fraction (e p) * total)%Q 0
                  (List.length population - 1)) with
  | Some x => Ok (x, S p)
  | None => Raise IndexError
  end.
Proof.
  intros Hlen Hlast Hpos. unfold choices.
  rewrite accumulate_length, Hlen, Nat.eqb_refl, Hlast, Hpos.
  unfold bind, random, ret, lift. cbn [negb]. cbn beta iota.
  destruct (nth_error _ _); reflexivity.
Qed.

(** ** Pack mode: the condition of a card *)

Lemma bisect_pack (x : Q) :
  bisect (accumulate (values pack_condition_weight)) x 0 2 =
  if Qltb x (10 + 80)%Q then (if Qltb x 10 then 0%nat else 1%nat) else 2%nat.
Proof.
  unfold bisect, pack_condition_weight, values. cbn [map snd accumulate accumulate_from].
  cbn [bisect_loop Nat.ltb Nat.leb Nat.add Nat.div Nat.divmod fst nth].
  destruct (Qltb x (10 + 80)), (Qltb x 10); reflexivity.
Qed.

Lemma pack_condition_sample e p :
  exists c,
    choices (keys pack_condition_weight) (values pack_condition_weight) e p
      = Ok (c, S p)
    /\ pack_condition_of (e p) c.
Proof.
  rewrite (choices_unfold _ _ 100%Q) by reflexivity.
  change (List.length (keys pack_condition_weight) - 1)%nat with 2%nat.
  rewrite bisect_pack. fold (percent (e p)). unfold pack_condition_of.
  destruct (Qltb (percent (e p)) (10 + 80)) eqn:H90.
  - destruct (Qltb (percent (e p)) 10) eqn:H10.
    + exists Condition.pristine. split; [reflexivity|]. left.
      apply Qltb_true in H10. auto.
    + exists Condition.mint. split; [reflexivity|]. right. left.
      apply Qltb_true in H90. apply Qltb_false in H10. auto.
  - exists Condition.near_mint. split; [reflexivity|]. right. right.
    apply Qltb_false in H90. auto.
Qed.

(** A sampling function that succeeds has made a fixed number of draws. *)
Lemma choices_inv {A} (population : list A) weights e p x p' :
  choices population weights e p = Ok (x, p') ->
  In x population /\ p' = S p.
Proof.
  unfold choices. destruct (negb _); [discriminate|].
  destruct (last _ _) as [total|]; [|discriminate].
  destruct (Qle_bool total 0); [discriminate|].
  unfold bind, random, ret, lift.
  destruct (nth_error _ _) as [y|] eqn:E; [|discriminate].
  intros H. injection H as <- <-. split; [|reflexivity].
  eapply nth_error_In. exact E.
Qed.

Lemma choice_inv {A} (seq : list A) e p x p' :
  choice seq e p = Ok (x, p') -> In x seq /\ p' = S p.
Proof.
  unfold choice. destruct seq as [|a0 seq]; [discriminate|].
  unfold bind, _randbelow, ret, lift.
  destruct (nth_error _ _) as [y|] eqn:E; [|discriminate].
  intros H. injection H as <- <-. split; [|reflexivity].
  eapply nth_error_In. exact E.
Qed.

Lemma choices_k_inv {A} (population : list A) k : forall e p l p',
  choices_k population k e p = Ok (l, p') -> p' = (p + k)%nat.
Proof.
  induction k as [|k IH]; intros e p l p' H; cbn [choices_k] in H.
  - unfold ret in H. injection H as _ <-. lia.
  - apply bind_Ok in H as (r & p1 & Hr & H).
    unfold random in Hr. injection Hr as _ <-.
    destruct (nth_error _ _); [|discriminate].
    apply bind_Ok in H as (rest & p2 & Hrest & H).
    unfold ret in H. injection H as _ <-.
    rewrite (IH _ _ _ _ Hrest). lia.
Qed.

Lemma generate_rarity_inv weight e p r p' :
  generate_rarity weight e p = Ok (r, p') ->
  Rarity.mem r Rarity.get_exclusive_rarities = false /\ p' = S p.
Proof.
  unfold generate_rarity. intros H. apply choices_inv in H as [Hin ->].
  split; [|reflexivity].
  destruct weight as [[]|]; cbn in Hin;
    repeat (destruct Hin as [<-|Hin]; [reflexivity|]); destruct Hin.
Qed.

Lemma get_random_character_inv Character r e p name p' :
  get_random_character Character (Some r) e p = Ok (name, p') ->
  p' = (p + if Rarity.mem r Rarity.get_exclusive_rarities then 2 else 1)%nat.
Proof.
  unfold get_random_character.
  destruct (Rarity.mem r Rarity.get_exclusive_rarities); intros H.
  - apply bind_Ok in H as (r' & p1 & H1 & H). apply choice_inv in H1 as [_ ->].
    apply bind_Ok in H as (l & p2 & H2 & H).
    unfold lift in H2. destruct (rarity_map Character r'); [|discriminate].
    injection H2 as _ <-. apply choice_inv in H as [_ ->]. lia.
  - apply bind_Ok in H as (l & p2 & H2 & H).
    unfold lift in H2. destruct (rarity_map Character r); [|discriminate].
    injection H2 as _ <-. apply choice_inv in H as [_ ->]. lia.
Qed.

(** The condition of one pack card is decided by the last draw of its
    generation, and the draws of a card are as many as [card_draws] says. *)
Lemma generate_one_card_pack_condition Character member rarity condition
    special_rarity weight e p card p' :
  generate_one_card Character member rarity condition special_rarity weight true
    e p = Ok (card, p') ->
  p' = (p + card_draws rarity condition special_rarity)%nat
  /\ pack_condition_of
       (e (p + (card_draws rarity condition special_rarity - 1))%nat)
       (ci_condition card).
Proof.
  unfold generate_one_card. intros H.
  apply bind_Ok in H as (card_rarity & p1 & H1 & H).
  apply bind_Ok in H as (card_condition & p2 & H2 & H).
  apply bind_Ok in H as (card_special_rarity & p3 & H3 & H).
  apply bind_Ok in H as (character_name & p4 & H4 & H).
  apply bind_Ok in H as (card_id & p5 & H5 & H).
  apply bind_Ok in H as (c & p6 & Hc & H).
  unfold ret in H. injection H as <- <-.
  destruct (pack_condition_sample e p5) as (c' & Hc' & Hspec).
  rewrite Hc' in Hc. injection Hc as <- <-.
  apply get_random_character_inv in H4.
  assert (L5 : p5 = (p4 + 6)%nat).
  { unfold generate_card_id in H5.
    apply bind_Ok in H5 as (cs & q & Hcs & H5).
    unfold ret in H5. injection H5 as _ <-.
    exact (choices_k_inv _ _ _ _ _ _ Hcs). }
  assert (L2 : p2 = (p1 + match condition with Some _ => 0 | None => 1 end)%nat).
  { destruct condition.
    - unfold ret in H2. injection H2 as _ <-. lia.
    - unfold generate_condition in H2. apply choices_inv in H2 as [_ ->]. lia. }
  assert (L3 : p3 = (p2 + match special_rarity with Some _ => 0 | None => 1 end)%nat).
  { destruct special_rarity.
    - unfold ret in H3. injection H3 as _ <-. lia.
    - unfold generate_special_rarity in H3.
      apply bind_Ok in H3 as (t & q & Ht & H3).
      unfold lift in Ht. destruct (special_rarity_weights member weight);
        [|discriminate].
      injection Ht as _ <-. apply choices_inv in H3 as [_ ->]. lia. }
  assert (L1 : p4 = (p3 + match rarity with
                          | Some r =>
                              if Rarity.mem r Rarity.get_exclusive_rarities
                              then 2 else 1
                          | None => 1
                          end)%nat
               /\ p1 = (p + match rarity with Some _ => 0 | None => 1 end)%nat).
  { destruct rarity as [r|].
    - unfold ret in H1. injection H1 as <- <-. split; [exact H4|lia].
    - apply generate_rarity_inv in H1 as [Hr ->]. rewrite Hr in H4.
      split; [exact H4|lia]. }
  destruct L1 as [L4 L1]. cbn [ci_condition].
  assert (Hp5 : p5 = (p + (card_draws rarity condition special_rarity - 1))%nat).
  { unfold card_draws. lia. }
  split; [unfold card_draws in *; lia|]. rewrite <- Hp5. exact Hspec.
Qed.

Lemma generate_card_loop_pack Character member rarity condition special_rarity
    weight e n :
  forall acc p cards p',
    generate_card_loop n
      (generate_one_card Character member rarity condition special_rarity weight
         true) acc e p = Ok (cards, p') ->
    let k := card_draws rarity condition special_rarity in
    exists generated,
      cards = acc ++ generated
      /\ List.length generated = n
      /\ p' = (p + k * n)%nat
      /\ forall i card,
           nth_error generated i = Some card ->
           pack_condition_of (e (p + k * i + (k - 1))%nat) (ci_condition card).
Proof.
  induction n as [|n IH]; intros acc p cards p' H k.
  - cbn in H. unfold ret in H. injection H as <- <-.
    exists []. rewrite app_nil_r. split; [reflexivity|]. split; [reflexivity|].
    split; [lia|]. intros [|i] card Hi; discriminate Hi.
  - cbn [generate_card_loop] in H.
    apply bind_Ok in H as (card & p1 & Hcard & H).
    apply generate_one_card_pack_condition in Hcard as [Hp1 Hdraw].
    fold k in Hp1, Hdraw.
    destruct (IH _ _ _ _ H) as (generated & Hcards & Hlen & Hp' & Hall).
    fold k in Hp', Hall.
    exists (card :: generated). split; [rewrite Hcards, <- app_assoc; reflexivity|].
    split; [cbn; lia|]. split; [lia|].
    intros [|i] c Hi; cbn [nth_error] in Hi.
    + injection Hi as <-. replace (p + k * 0 + (k - 1))%nat
        with (p + (k - 1))%nat by lia. exact Hdraw.
    + specialize (Hall i c Hi).
      replace (p + k * S i + (k - 1))%nat with (p1 + k * i + (k - 1))%nat by lia.
      exact Hall.
Qed.

(** C9.  Every card generated in pack mode takes its condition from the
    fixed distribution.  A call makes the same number [k] of draws for each
    card, and the last of them is the draw of the condition: the card at
    index [i] is pristine when draw [p + k*i + (k-1)] falls in the first
    10%, mint when it falls in the next 80%, near mint in the last 10%,
    whatever the weight table, the requested condition and the other
    arguments.  So each card has a draw of its own that decides its
    condition, and the condition is never good, poor or damaged. *)
Theorem pack_mode_condition Character member rarity condition special_rarity
    amount weight e p cards p' :
  generate_card Character member rarity condition special_rarity amount weight
    true e p = Ok (cards, p') ->
  let k := card_draws rarity condition special_rarity in
  List.length cards = Z.to_nat amount
  /\ p' = (p + k * List.length cards)%nat
  /\ forall i card,
       nth_error cards i = Some card ->
       pack_condition_of (e (p + k * i + (k - 1))%nat) (ci_condition card)
       /\ ci_condition card <> Condition.good
       /\ ci_condition card <> Condition.poor
       /\ ci_condition card <> Condition.damaged.
Proof.
  intros Hgen k. unfold generate_card in Hgen.
  destruct (generate_card_loop_pack _ _ _ _ _ _ _ _ _ _ _ _ Hgen)
    as (generated & Hcards & Hlen & Hp' & Hall).
  cbn [app] in Hcards. subst generated. fold k in Hp', Hall.
  split; [exact Hlen|]. split; [rewrite Hlen; exact Hp'|].
  intros i card Hi. pose proof (Hall i card Hi) as Hd.
  split; [exact Hd|].
  destruct Hd as [[_ ->]|[(_ & _ & ->)|[_ ->]]]; repeat split; discriminate.
Qed.


Lemma choices_total {A} (population : list A) (weights : list Q) e p :
  well_formed_weights population weights = true ->
  exists x, In x population /\ choices population weights e p = Ok (x, S p).
Proof.
  unfold well_formed_weights. intros H.
  apply andb_true_iff in H as [Hlen Hlast].
  apply Nat.eqb_eq in Hlen.
  destruct (last (map Some (accumulate weights)) None) as [total|] eqn:E;
    [|discriminate].
  apply negb_true_iff in Hlast.
  eapply choices_Ok; eassumption.
Qed.

(** ** Pack opening: totals *)

Lemma generate_condition_Ok weight e p :
  exists c, generate_condition weight e p = Ok (c, S p).
Proof.
  unfold generate_condition.
  destruct (choices_total (keys (weight_condition (weight_or_basic weight)))
              (values (weight_condition (weight_or_basic weight))) e p)
    as (c & _ & H).
  - destruct weight as [[]|]; reflexivity.
  - eauto.
Qed.

Lemma generate_special_rarity_Ok member weight e p :
  exists s, generate_special_rarity member weight e p = Ok (s, S p).
Proof.
  unfold generate_special_rarity, special_rarity_weights.
  destruct member as [m|]; [destruct (is_patreon m)|];
    destruct weight as [[]|]; cbn [weight_or_basic];
    (match goal with
     | |- exists s, bind (lift ?r) _ _ _ = _ =>
         let t := eval vm_compute in r in
         match t with
         | Ok ?table =>
             change r with (Ok table);
             destruct (choices_total (keys table) (values table) e p)
               as (s & _ & H); [reflexivity|];
             exists s; exact H
         end
     end).
Qed.

Lemma pack_rosters_In Character r :
  pack_rosters Character = true ->
  In r [Rarity.uncommon; Rarity.rare; Rarity.epic; Rarity.mythic;
        Rarity.legendary; Rarity.exotic] ->
  Character r <> [].
Proof.
  unfold pack_rosters. rewrite forallb_forall. intros H Hin Hnil.
  specialize (H r Hin). rewrite Hnil in H. discriminate.
Qed.

Lemma get_random_character_Ok Character r e p :
  r <> Rarity.exclusive_icicle -> Character r <> [] ->
  exists name, get_random_character Character (Some r) e p = Ok (name, S p).
Proof.
  intros Hr Hne. unfold get_random_character.
  assert (Hmem : Rarity.mem r Rarity.get_exclusive_rarities = false).
  { destruct r; try reflexivity. congruence. }
  rewrite Hmem.
  assert (Hmap : rarity_map Character r = Ok (Character r)).
  { destruct r; try reflexivity. congruence. }
  rewrite Hmap. unfold bind at 1. unfold lift.
  destruct (choice_Ok (Character r) e p Hne) as (name & _ & H).
  exists name. exact H.
Qed.

Lemma generate_card_id_Ok e p :
  exists card_id, generate_card_id e p = Ok (card_id, (p + 6)%nat).
Proof.
  unfold generate_card_id.
  destruct (choices_k_Ok card_id_alphabet 6 e p ltac:(discriminate)) as (l & H).
  exists (string_of_list_ascii l). unfold bind. rewrite H. reflexivity.
Qed.

(** One pack card of a fixed rarity is always produced, with that rarity. *)
Lemma generate_one_card_pack_Ok Character member r e p :
  r <> Rarity.exclusive_icicle -> Character r <> [] ->
  exists card p',
    generate_one_card Character member (Some r) None None None true e p
      = Ok (card, p')
    /\ ci_rarity card = r.
Proof.
  intros Hr Hne. unfold generate_one_card.
  rewrite (bind_eq _ _ e p r p) by reflexivity.
  destruct (generate_condition_Ok None e p) as (c & Hc).
  rewrite (bind_eq _ _ _ _ _ _ Hc).
  destruct (generate_special_rarity_Ok member None e (S p)) as (s & Hs).
  rewrite (bind_eq _ _ _ _ _ _ Hs).
  destruct (get_random_character_Ok Character r e (S (S p)) Hr Hne) as (name & Hn).
  rewrite (bind_eq _ _ _ _ _ _ Hn).
  destruct (generate_card_id_Ok e (S (S (S p)))) as (card_id & Hid).
  rewrite (bind_eq _ _ _ _ _ _ Hid).
  destruct (pack_condition_sample e (S (S (S p)) + 6)%nat) as (c' & Hc' & _).
  rewrite (bind_eq _ _ _ _ _ _ Hc').
  unfold ret. eexists _, _. split; reflexivity.
Qed.

Lemma generate_card_loop_Ok Character member r n : forall acc e p,
  r <> Rarity.exclusive_icicle -> Character r <> [] ->
  exists new p',
    generate_card_loop n
      (generate_one_card Character member (Some r) None None None true) acc e p
      = Ok (acc ++ new, p')
    /\ List.length new = n
    /\ Forall (fun card => ci_rarity card = r) new.
Proof.
  induction n as [|n IH]; intros acc e p Hr Hne.
  - exists [], p. cbn. unfold ret. rewrite app_nil_r. auto.
  - cbn [generate_card_loop].
    destruct (generate_one_card_pack_Ok Character member r e p Hr Hne)
      as (card & p1 & Hcard & Hrar).
    rewrite (bind_eq _ _ _ _ _ _ Hcard).
    destruct (IH (acc ++ [card]) e p1 Hr Hne) as (new & p2 & Hloop & Hlen & Hall).
    exists (card :: new), p2. rewrite Hloop.
    rewrite <- app_assoc. cbn [app List.length]. auto.
Qed.

Lemma generate_card_pack_Ok Character member r amount e p :
  r <> Rarity.exclusive_icicle -> Character r <> [] ->
  exists cards p',
    generate_card Character member (Some r) None None amount None true e p
      = Ok (cards, p')
    /\ List.length cards = Z.to_nat amount
    /\ Forall (fun card => ci_rarity card = r) cards.
Proof.
  intros Hr Hne. unfold generate_card.
  destruct (generate_card_loop_Ok Character member r (Z.to_nat amount) [] e p Hr Hne)
    as (new & p' & H & Hlen & Hall).
  exists new, p'. auto.
Qed.

Lemma count_rarity_app r l1 l2 :
  count_rarity r (l1 ++ l2) = count_rarity r l1 + count_rarity r l2.
Proof.
  unfold count_rarity. rewrite filter_app, length_app. lia.
Qed.

Lemma count_rarity_same r cards :
  Forall (fun card => ci_rarity card = r) cards ->
  count_rarity r cards = Z.of_nat (List.length cards).
Proof.
  unfold count_rarity. induction 1 as [|c l Hc _ IH]; [reflexivity|].
  cbn [filter]. rewrite bool_decide_eq_true_2 by exact Hc.
  cbn [List.length]. lia.
Qed.

Lemma count_rarity_other r r' cards :
  r <> r' ->
  Forall (fun card => ci_rarity card = r') cards ->
  count_rarity r cards = 0.
Proof.
  unfold count_rarity. intros Hne. induction 1 as [|c l Hc _ IH]; [reflexivity|].
  cbn [filter]. rewrite bool_decide_eq_false_2 by congruence. exact IH.
Qed.


Lemma _generate_card_pack_contents_Ok Character member bands :
  forall cards_list e p,
  Forall (fun band => fst band <> Rarity.exclusive_icicle
                      /\ Character (fst band) <> []) bands ->
  exists new p',
    _generate_card_pack_contents Character member bands cards_list e p
      = Ok (cards_list ++ new, p')
    /\ Z.of_nat (List.length new) = bands_total bands
    /\ forall r, count_rarity r new = bands_count r bands.
Proof.
  induction bands as [|[r amount] rest IH]; intros cards_list e p Hb.
  - exists [], p. cbn. unfold ret. rewrite app_nil_r. auto.
  - inversion Hb as [|? ? [Hr Hne] Hrest]; subst. cbn [fst] in *.
    cbn [_generate_card_pack_contents].
    destruct (generate_card_pack_Ok Character (Some member) r amount e p Hr Hne)
      as (gen & p1 & Hgen & Hlen & Hall).
    rewrite (bind_eq _ _ _ _ _ _ Hgen).
    destruct (IH (cards_list ++ gen) e p1 Hrest) as (new & p2 & Hc & Hlen2 & Hcount).
    exists (gen ++ new), p2. rewrite Hc, <- app_assoc. split; [reflexivity|].
    split.
    + cbn [bands_total]. rewrite length_app. lia.
    + intros r0. cbn [bands_count]. rewrite count_rarity_app, Hcount.
      destruct (decide (r0 = r)) as [->|Hne0].
      * rewrite bool_decide_eq_true_2 by reflexivity.
        rewrite (count_rarity_same r gen Hall). lia.
      * rewrite bool_decide_eq_false_2 by exact Hne0.
        rewrite (count_rarity_other r0 r gen Hne0 Hall). lia.
Qed.

Lemma _generate_leaked_card_spec Character leak_rarity leak_chance deduct_from e p :
  leak_rarity <> Rarity.exclusive_icicle -> Character leak_rarity <> [] ->
  let leaked := Qltb (percent (e p)) leak_chance in
  exists generated_cards p',
    _generate_leaked_card Character leak_rarity leak_chance deduct_from e p
      = Ok ((generated_cards, deduct_from - leak_count leaked), p')
    /\ Z.of_nat (List.length generated_cards) = leak_count leaked
    /\ Forall (fun card => ci_rarity card = leak_rarity) generated_cards.
Proof.
  intros Hr Hne leaked. unfold _generate_leaked_card.
  rewrite (bind_eq _ _ e p (unit_fraction (e p)) (S p)) by reflexivity.
  fold (percent (e p)). fold leaked.
  destruct leaked.
  - destruct (generate_card_pack_Ok Character None leak_rarity 1 e (S p) Hr Hne)
      as (gen & p1 & Hgen & Hlen & Hall).
    rewrite (bind_eq _ _ _ _ _ _ Hgen). unfold ret.
    exists gen, p1. cbn [leak_count]. rewrite Hlen. auto.
  - exists [], (S p). unfold ret. cbn [leak_count]. rewrite Z.sub_0_r. auto.
Qed.

Ltac decide_eqs :=
  repeat match goal with
  | H : context [bool_decide (?a = ?b)] |- _ =>
      first [ rewrite (bool_decide_eq_true_2 (a = b)) in H by reflexivity
            | rewrite (bool_decide_eq_false_2 (a = b)) in H by discriminate ]
  | |- context [bool_decide (?a = ?b)] =>
      first [ rewrite (bool_decide_eq_true_2 (a = b)) by reflexivity
            | rewrite (bool_decide_eq_false_2 (a = b)) by discriminate ]
  end.

Ltac roster_facts H :=
  repeat match goal with
  | |- Forall _ (_ :: _) => constructor
  | |- Forall _ [] => constructor
  | |- _ /\ _ => split
  | |- _ <> Rarity.exclusive_icicle => discriminate
  | |- _ <> [] => apply (pack_rosters_In _ _ H); cbn; tauto
  end.

Lemma _use_rare_card_pack_spec Character user e p :
  pack_rosters Character = true ->
  exists cards p' rare_cards,
    _use_rare_card_pack Character user e p = Ok (cards, p')
    /\ List.length cards = 7%nat
    /\ 2 <= rare_cards <= 4
    /\ count_rarity Rarity.epic cards
       = leak_count (Qltb (percent (e (S p))) 20)
    /\ count_rarity Rarity.rare cards
       = rare_cards - leak_count (Qltb (percent (e (S p))) 20)
    /\ count_rarity Rarity.uncommon cards = 7 - rare_cards.
Proof.
  intros HR. unfold _use_rare_card_pack.
  destruct (randint_Ok 2 4 e p ltac:(lia)) as (k & Hk & Hrand).
  rewrite (bind_eq _ _ _ _ _ _ Hrand).
  destruct (_generate_leaked_card_spec Character Rarity.epic 20 k e (S p))
    as (gen & p1 & Hleak & Hlen & Hall); [roster_facts HR..|].
  rewrite (bind_eq _ _ _ _ _ _ Hleak). cbn beta iota zeta.
  set (lc := leak_count _) in *.
  assert (Hlc : 0 <= lc <= 1) by (unfold lc; destruct (Qltb _ _); cbn; lia).
  destruct (_generate_card_pack_contents_Ok Character user
              [(Rarity.rare, k - lc); (Rarity.uncommon, 7 - k)] ([] ++ gen) e p1)
    as (new & p2 & Hc & Hlen2 & Hcount); [roster_facts HR|].
  rewrite Hc. exists (([] ++ gen) ++ new), p2, k.
  split; [reflexivity|]. cbn [app].
  pose proof (Hcount Rarity.epic) as He.
  pose proof (Hcount Rarity.rare) as Hr.
  pose proof (Hcount Rarity.uncommon) as Hu.
  cbn [bands_count bands_total] in He, Hr, Hu, Hlen2. decide_eqs.
  rewrite !count_rarity_app.
  rewrite (count_rarity_same Rarity.epic gen Hall).
  rewrite (count_rarity_other Rarity.rare Rarity.epic gen ltac:(discriminate) Hall).
  rewrite (count_rarity_other Rarity.uncommon Rarity.epic gen ltac:(discriminate) Hall).
  rewrite length_app. repeat split; lia.
Qed.

Lemma leak_count_range b : 0 <= leak_count b <= 1.
Proof. destruct b; cbn; lia. Qed.

Lemma _use_epic_card_pack_spec Character user e p :
  pack_rosters Character = true ->
  exists cards p' epic_cards rare_cards,
    _use_epic_card_pack Character user e p = Ok (cards, p')
    /\ List.length cards = 7%nat
    /\ 1 <= epic_cards <= 2
    /\ 0 <= rare_cards <= 7 - epic_cards
    /\ count_rarity Rarity.mythic cards
       = leak_count (Qltb (percent (e (S (S p)))) 10)
    /\ count_rarity Rarity.epic cards
       = epic_cards - leak_count (Qltb (percent (e (S (S p)))) 10)
    /\ count_rarity Rarity.rare cards = rare_cards
    /\ count_rarity Rarity.uncommon cards = 7 - (epic_cards + rare_cards).
Proof.
  intros HR. unfold _use_epic_card_pack.
  destruct (randint_Ok 1 2 e p ltac:(lia)) as (k & Hk & Hrand).
  rewrite (bind_eq _ _ _ _ _ _ Hrand).
  destruct (randint_Ok 0 (7 - k) e (S p) ltac:(lia)) as (j & Hj & Hrand2).
  rewrite (bind_eq _ _ _ _ _ _ Hrand2).
  destruct (_generate_leaked_card_spec Character Rarity.mythic 10 k e (S (S p)))
    as (gen & p1 & Hleak & Hlen & Hall); [roster_facts HR..|].
  rewrite (bind_eq _ _ _ _ _ _ Hleak). cbn beta iota zeta.
  pose proof (leak_count_range (Qltb (percent (e (S (S p)))) 10)) as Hlc.
  set (lc := leak_count _) in *.
  destruct (_generate_card_pack_contents_Ok Character user
              [(Rarity.epic, k - lc); (Rarity.rare, j); (Rarity.uncommon, 7 - (k + j))]
              ([] ++ gen) e p1)
    as (new & p2 & Hc & Hlen2 & Hcount); [roster_facts HR|].
  rewrite Hc. exists (([] ++ gen) ++ new), p2, k, j.
  split; [reflexivity|]. cbn [app].
  pose proof (Hcount Rarity.mythic) as Hm.
  pose proof (Hcount Rarity.epic) as He.
  pose proof (Hcount Rarity.rare) as Hr.
  pose proof (Hcount Rarity.uncommon) as Hu.
  cbn [bands_count bands_total] in Hm, He, Hr, Hu, Hlen2. decide_eqs.
  rewrite !count_rarity_app.
  rewrite (count_rarity_same Rarity.mythic gen Hall).
  rewrite (count_rarity_other Rarity.epic Rarity.mythic gen ltac:(discriminate) Hall).
  rewrite (count_rarity_other Rarity.rare Rarity.mythic gen ltac:(discriminate) Hall).
  rewrite (count_rarity_other Rarity.uncommon Rarity.mythic gen ltac:(discriminate) Hall).
  rewrite length_app. repeat split; lia.
Qed.

Lemma _use_mythic_card_pack_spec Character user e p :
  pack_rosters Character = true ->
  exists cards p' epic_cards,
    _use_mythic_card_pack Character user e p = Ok (cards, p')
    /\ List.length cards = 5%nat
    /\ 1 <= epic_cards <= 2
    /\ count_rarity Rarity.legendary cards
       = leak_count (Qltb (percent (e (S p))) 1)
    /\ count_rarity Rarity.mythic cards
       = 1 - leak_count (Qltb (percent (e (S p))) 1)
    /\ count_rarity Rarity.epic cards = epic_cards
    /\ count_rarity Rarity.rare cards = 5 - (1 + epic_cards).
Proof.
  intros HR. unfold _use_mythic_card_pack.
  destruct (randint_Ok 1 2 e p ltac:(lia)) as (k & Hk & Hrand).
  rewrite (bind_eq _ _ _ _ _ _ Hrand).
  destruct (_generate_leaked_card_spec Character Rarity.legendary 1 1 e (S p))
    as (gen & p1 & Hleak & Hlen & Hall); [roster_facts HR..|].
  rewrite (bind_eq _ _ _ _ _ _ Hleak). cbn beta iota zeta.
  pose proof (leak_count_range (Qltb (percent (e (S p))) 1)) as Hlc.
  set (lc := leak_count _) in *.
  destruct (_generate_card_pack_contents_Ok Character user
              [(Rarity.mythic, 1 - lc); (Rarity.epic, k); (Rarity.rare, 5 - (1 + k))]
              ([] ++ gen) e p1)
    as (new & p2 & Hc & Hlen2 & Hcount); [roster_facts HR|].
  rewrite Hc. exists (([] ++ gen) ++ new), p2, k.
  split; [reflexivity|]. cbn [app].
  pose proof (Hcount Rarity.legendary) as Hl.
  pose proof (Hcount Rarity.mythic) as Hm.
  pose proof (Hcount Rarity.epic) as He.
  pose proof (Hcount Rarity.rare) as Hr.
  cbn [bands_count bands_total] in Hl, Hm, He, Hr, Hlen2. decide_eqs.
  rewrite !count_rarity_app.
  rewrite (count_rarity_same Rarity.legendary gen Hall).
  rewrite (count_rarity_other Rarity.mythic Rarity.legendary gen ltac:(discriminate) Hall).
  rewrite (count_rarity_other Rarity.epic Rarity.legendary gen ltac:(discriminate) Hall).
  rewrite (count_rarity_other Rarity.rare Rarity.legendary gen ltac:(discriminate) Hall).
  rewrite length_app. repeat split; lia.
Qed.

Lemma _use_legendary_card_pack_spec Character user e p :
  pack_rosters Character = true ->
  exists cards p' mythic_cards,
    _use_legendary_card_pack Character user e p = Ok (cards, p')
    /\ List.length cards = 5%nat
    /\ 0 <= mythic_cards <= 1
    /\ count_rarity Rarity.exotic cards
       = leak_count (Qltb (percent (e (S p))) 0.1)
    /\ count_rarity Rarity.legendary cards
       = 1 - leak_count (Qltb (percent (e (S p))) 0.1)
    /\ count_rarity Rarity.mythic cards = mythic_cards
    /\ count_rarity Rarity.epic cards = 1 - mythic_cards
    /\ count_rarity Rarity.rare cards = 3.
Proof.
  intros HR. unfold _use_legendary_card_pack.
  destruct (randint_Ok 0 1 e p ltac:(lia)) as (k & Hk & Hrand).
  rewrite (bind_eq _ _ _ _ _ _ Hrand).
  destruct (_generate_leaked_card_spec Character Rarity.exotic 0.1 1 e (S p))
    as (gen & p1 & Hleak & Hlen & Hall); [roster_facts HR..|].
  rewrite (bind_eq _ _ _ _ _ _ Hleak). cbn beta iota zeta.
  pose proof (leak_count_range (Qltb (percent (e (S p))) 0.1)) as Hlc.
  set (lc := leak_count _) in *.
  destruct (_generate_card_pack_contents_Ok Character user
              [(Rarity.legendary, 1 - lc); (Rarity.mythic, k);
               (Rarity.epic, Z.abs (k - 1));
               (Rarity.rare, 5 - (1 + k + Z.abs (k - 1)))]
              ([] ++ gen) e p1)
    as (new & p2 & Hc & Hlen2 & Hcount); [roster_facts HR|].
  rewrite Hc. exists (([] ++ gen) ++ new), p2, k.
  split; [reflexivity|]. cbn [app].
  pose proof (Hcount Rarity.exotic) as Hx.
  pose proof (Hcount Rarity.legendary) as Hl.
  pose proof (Hcount Rarity.mythic) as Hm.
  pose proof (Hcount Rarity.epic) as He.
  pose proof (Hcount Rarity.rare) as Hr.
  cbn [bands_count bands_total] in Hx, Hl, Hm, He, Hr, Hlen2. decide_eqs.
  rewrite !count_rarity_app.
  rewrite (count_rarity_same Rarity.exotic gen Hall).
  rewrite (count_rarity_other Rarity.legendary Rarity.exotic gen ltac:(discriminate) Hall).
  rewrite (count_rarity_other Rarity.mythic Rarity.exotic gen ltac:(discriminate) Hall).
  rewrite (count_rarity_other Rarity.epic Rarity.exotic gen ltac:(discriminate) Hall).
  rewrite (count_rarity_other Rarity.rare Rarity.exotic gen ltac:(discriminate) Hall).
  rewrite length_app. repeat split; lia.
Qed.

Lemma _use_exotic_card_pack_spec Character user e p :
  pack_rosters Character = true ->
  exists cards p' exotic_cards legendary_cards mythic_cards,
    _use_exotic_card_pack Character user e p = Ok (cards, p')
    /\ List.length cards = 5%nat
    /\ 0 <= exotic_cards <= 1 /\ 0 <= legendary_cards <= 2
    /\ 0 <= mythic_cards <= 1
    /\ count_rarity Rarity.nightmare cards = 0
    /\ count_rarity Rarity.exotic cards = exotic_cards
    /\ count_rarity Rarity.legendary cards = legendary_cards
    /\ count_rarity Rarity.mythic cards = mythic_cards
    /\ count_rarity Rarity.epic cards
       = 5 - (exotic_cards + legendary_cards + mythic_cards).
Proof.
  intros HR. unfold _use_exotic_card_pack.
  destruct (randint_Ok 0 1 e p ltac:(lia)) as (x & Hx & Hrand).
  rewrite (bind_eq _ _ _ _ _ _ Hrand).
  destruct (randint_Ok 0 2 e (S p) ltac:(lia)) as (l & Hl & Hrand2).
  rewrite (bind_eq _ _ _ _ _ _ Hrand2).
  destruct (randint_Ok 0 1 e (S (S p)) ltac:(lia)) as (m & Hm & Hrand3).
  rewrite (bind_eq _ _ _ _ _ _ Hrand3). cbn beta iota zeta.
  destruct (_generate_card_pack_contents_Ok Character user
              [(Rarity.exotic, x); (Rarity.legendary, l); (Rarity.mythic, m);
               (Rarity.epic, 5 - (x + l + m))] [] e (S (S (S p))))
    as (new & p2 & Hc & Hlen2 & Hcount); [roster_facts HR|].
  rewrite Hc. exists ([] ++ new), p2, x, l, m.
  split; [reflexivity|]. cbn [app].
  pose proof (Hcount Rarity.nightmare) as Hn.
  pose proof (Hcount Rarity.exotic) as Hxx.
  pose proof (Hcount Rarity.legendary) as Hll.
  pose proof (Hcount Rarity.mythic) as Hmm.
  pose proof (Hcount Rarity.epic) as He.
  cbn [bands_count bands_total] in Hn, Hxx, Hll, Hmm, He, Hlen2. decide_eqs.
  repeat split; lia.
Qed.

(** C8. Whatever the draws, a pack yields exactly its budget of cards: 7 for
    the rare and epic packs, 5 for the mythic, legendary and exotic ones.
    In the four packs that can leak, the leak roll (20, 10, 1 and 0.1 percent)
    decides alone whether one card of the rarity above the top band is there,
    and the top band then holds one card less; the other bands keep the
    drawn counts.  The exotic pack rolls no leak and holds no card above
    exotic. *)
Theorem pack_total_invariant Character user e p :
  pack_rosters Character = true ->
  (exists cards p' rare_cards,
    _use_rare_card_pack Character user e p = Ok (cards, p')
    /\ List.length cards = 7%nat
    /\ 2 <= rare_cards <= 4
    /\ count_rarity Rarity.epic cards
       = leak_count (Qltb (percent (e (S p))) 20)
    /\ count_rarity Rarity.rare cards
       = rare_cards - leak_count (Qltb (percent (e (S p))) 20)
    /\ count_rarity Rarity.uncommon cards = 7 - rare_cards)
  /\
  (exists cards p' epic_cards rare_cards,
    _use_epic_card_pack Character user e p = Ok (cards, p')
    /\ List.length cards = 7%nat
    /\ 1 <= epic_cards <= 2
    /\ 0 <= rare_cards <= 7 - epic_cards
    /\ count_rarity Rarity.mythic cards
       = leak_count (Qltb (percent (e (S (S p)))) 10)
    /\ count_rarity Rarity.epic cards
       = epic_cards - leak_count (Qltb (percent (e (S (S p)))) 10)
    /\ count_rarity Rarity.rare cards = rare_cards
    /\ count_rarity Rarity.uncommon cards = 7 - (epic_cards + rare_cards))
  /\
  (exists cards p' epic_cards,
    _use_mythic_card_pack Character user e p = Ok (cards, p')
    /\ List.length cards = 5%nat
    /\ 1 <= epic_cards <= 2
    /\ count_rarity Rarity.legendary cards
       = leak_count (Qltb (percent (e (S p))) 1)
    /\ count_rarity Rarity.mythic cards
       = 1 - leak_count (Qltb (percent (e (S p))) 1)
    /\ count_rarity Rarity.epic cards = epic_cards
    /\ count_rarity Rarity.rare cards = 5 - (1 + epic_cards))
  /\
  (exists cards p' mythic_cards,
    _use_legendary_card_pack Character user e p = Ok (cards, p')
    /\ List.length cards = 5%nat
    /\ 0 <= mythic_cards <= 1
    /\ count_rarity Rarity.exotic cards
       = leak_count (Qltb (percent (e (S p))) 0.1)
    /\ count_rarity Rarity.legendary cards
       = 1 - leak_count (Qltb (percent (e (S p))) 0.1)
    /\ count_rarity Rarity.mythic cards = mythic_cards
    /\ count_rarity Rarity.epic cards = 1 - mythic_cards
    /\ count_rarity Rarity.rare cards = 3)
  /\
  (exists cards p' exotic_cards legendary_cards mythic_cards,
    _use_exotic_card_pack Character user e p = Ok (cards, p')
    /\ List.length cards = 5%nat
    /\ 0 <= exotic_cards <= 1 /\ 0 <= legendary_cards <= 2
    /\ 0 <= mythic_cards <= 1
    /\ count_rarity Rarity.nightmare cards = 0
    /\ count_rarity Rarity.exotic cards = exotic_cards
    /\ count_rarity Rarity.legendary cards = legendary_cards
    /\ count_rarity Rarity.mythic cards = mythic_cards
    /\ count_rarity Rarity.epic cards
       = 5 - (exotic_cards + legendary_cards + mythic_cards)).
Proof.
  intros HR. repeat apply conj.
  - exact (_use_rare_card_pack_spec Character user e p HR).
  - exact (_use_epic_card_pack_spec Character user e p HR).
  - exact (_use_mythic_card_pack_spec Character user e p HR).
  - exact (_use_legendary_card_pack_spec Character user e p HR).
  - exact (_use_exotic_card_pack_spec Character user e p HR).
Qed.

(** The five packs opened by a patron on the example tape. *)
Lemma pack_total_invariant_witness :
  pack_rosters witness_roster = true /\
  (exists cards p',
     _use_rare_card_pack witness_roster patron witness_tape 0%nat = Ok (cards, p')
     /\ List.length cards = 7%nat) /\
  (exists cards p',
     _use_exotic_card_pack witness_roster patron witness_tape 0%nat = Ok (cards, p')
     /\ List.length cards = 5%nat).
Proof.
  split; [reflexivity|].
  destruct (pack_total_invariant witness_roster patron witness_tape 0%nat eq_refl)
    as ((c1 & p1 & _ & H1 & L1 & _) & _ & _ & _ & (c5 & p5 & _ & _ & _ & H5 & L5 & _)).
  split; eauto.
Defined.

Lemma pack_mode_condition_witness :
  generate_card witness_roster None (Some Rarity.rare) None None 2
    (Some NewUserWeight) true witness_tape 0%nat = Ok (witness_pack_cards, 20%nat)
  /\ card_draws (Some Rarity.rare) None None = 10%nat
  /\ nth_error witness_pack_cards 1 = Some
       {| ci_rarity := Rarity.rare; ci_condition := Condition.mint;
          ci_special_rarity := SpecialRarity.unknown;
          ci_character_name := "Bob"; ci_card_id := "f2yl74";
          ci_has_sleeve := false |}
  /\ pack_condition_of (witness_tape 19%nat) Condition.mint.
Proof.
  assert (H : generate_card witness_roster None (Some Rarity.rare) None None 2
                (Some NewUserWeight) true witness_tape 0%nat
              = Ok (witness_pack_cards, 20%nat)) by (vm_compute; reflexivity).
  split; [exact H|]. split; [reflexivity|]. split; [reflexivity|].
  exact (proj1 (proj2 (proj2
           (pack_mode_condition witness_roster None (Some Rarity.rare) None None
              2 (Some NewUserWeight) witness_tape 0%nat witness_pack_cards
              20%nat H)) 1%nat _ eq_refl)).
Defined.

(** ** Special rarity: the weights of a patron *)

(** C1 fails on the shiny entry.  For a patron the code computes twice the
    shiny weight of the table (0.01 standing for a missing shiny entry) and
    takes it off the unknown weight, but it never stores it: in the
    dictionary handed to [random.choices] the shiny entry has the weight of
    the base table, not twice that weight, and the total weight is lower by
    what the unknown entry lost. *)
Theorem patron_shiny_weight_is_not_doubled member weight :
  is_patreon member = true ->
  let base := weight_special_rarity (weight_or_basic weight) in
  exists table,
    special_rarity_weights (Some member) weight = Ok table
    /\ (forall e p, generate_special_rarity (Some member) weight e p
                    = choices (keys table) (values table) e p)
    /\ keys table = keys base
    /\ (dict_get SpecialRarity.shiny 0 table
        == dict_get SpecialRarity.shiny 0 base)%Q
    /\ (dict_get SpecialRarity.unknown 0 table
        == dict_get SpecialRarity.unknown 0 base
           - 2 * dict_get SpecialRarity.shiny 0.01 base)%Q
    /\ (total_weight table
        == total_weight base - 2 * dict_get SpecialRarity.shiny 0.01 base)%Q
    /\ (total_weight table < total_weight base)%Q
    /\ (weight <> Some NewUserWeight ->
        ~ (dict_get SpecialRarity.shiny 0 table
           == 2 * dict_get SpecialRarity.shiny 0 base)%Q).
Proof.
  intros Hp base.
  assert (Hw : exists table,
             special_rarity_weights (Some member) weight = Ok table
             /\ keys table = keys base
             /\ (dict_get SpecialRarity.shiny 0 table
                 == dict_get SpecialRarity.shiny 0 base)%Q
             /\ (dict_get SpecialRarity.unknown 0 table
                 == dict_get SpecialRarity.unknown 0 base
                    - 2 * dict_get SpecialRarity.shiny 0.01 base)%Q
             /\ (total_weight table
                 == total_weight base
                    - 2 * dict_get SpecialRarity.shiny 0.01 base)%Q
             /\ (total_weight table < total_weight base)%Q
             /\ (weight <> Some NewUserWeight ->
                 ~ (dict_get SpecialRarity.shiny 0 table
                    == 2 * dict_get SpecialRarity.shiny 0 base)%Q)).
  { unfold special_rarity_weights, base. rewrite Hp.
    destruct weight as [[]|]; cbn [weight_or_basic];
      (eexists; split; [vm_compute; reflexivity|]);
      (split; [vm_compute; reflexivity|]);
      (split; [vm_compute; reflexivity|]);
      (split; [vm_compute; reflexivity|]);
      (split; [vm_compute; reflexivity|]);
      (split; [vm_compute; reflexivity|]);
      intros Hne; try congruence; vm_compute; discriminate. }
  destruct Hw as (table & Ht & Hrest).
  exists table. split; [exact Ht|]. split; [|exact Hrest].
  intros e p. unfold generate_special_rarity. rewrite Ht. reflexivity.
Qed.

(** On the standard table a patron draws from unknown 99.85 and shiny 0.05:
    the shiny weight is not 0.1, and the total is 99.9, not 100. *)
Lemma patron_shiny_weight_is_not_doubled_witness :
  is_patreon patron = true
  /\ exists table,
       special_rarity_weights (Some patron) (Some BasicWeight) = Ok table
       /\ table = [(SpecialRarity.unknown, 99.95 - 0.05 * 2);
                   (SpecialRarity.shiny, 0.05)]%Q
       /\ (dict_get SpecialRarity.shiny 0 table == 0.05)%Q
       /\ (total_weight table == 99.9)%Q
       /\ ~ (dict_get SpecialRarity.shiny 0 table
             == 2 * dict_get SpecialRarity.shiny 0
                      (weight_special_rarity BasicWeight))%Q.
Proof.
  split; [reflexivity|].
  destruct (patron_shiny_weight_is_not_doubled patron (Some BasicWeight) eq_refl)
    as (table & Ht & _ & _ & _ & _ & _ & _ & Hshiny).
  exists table. split; [exact Ht|].
  assert (E : table = [(SpecialRarity.unknown, 99.95 - 0.05 * 2);
                       (SpecialRarity.shiny, 0.05)]%Q).
  { cbv [special_rarity_weights weight_or_basic] in Ht.
    change (is_patreon patron) with true in Ht. cbv iota in Ht.
    cbn [weight_special_rarity dict_get dict_isub] in Ht.
    vm_compute in Ht. injection Ht as <-. vm_compute. reflexivity. }
  split; [exact E|].
  split; [rewrite E; vm_compute; reflexivity|].
  split; [rewrite E; vm_compute; reflexivity|].
  apply Hshiny. discriminate.
Defined.

(** ** Cooldown buckets *)

Lemma reset_cooldown_bucket m key current :
  bucket_reset (reset_cooldown m key current) key.
Proof.
  unfold bucket_reset, reset_cooldown, on_bucket.
  destruct (get_bucket m key current) as [m1 bucket].
  cbn [fst _cache]. exists (cooldown_reset bucket).
  rewrite lookup_insert_eq. repeat split.
Qed.

Lemma reset_cooldown_template m key current :
  _cooldown (reset_cooldown m key current) = _cooldown m.
Proof.
  unfold reset_cooldown, on_bucket, get_bucket, _verify_cache_integrity.
  cbn [_cooldown _cache].
  destruct (_ !! key); reflexivity.
Qed.

Lemma full_bucket_passes b current :
  full_bucket b -> snd (cooldown_update_rate_limit b current) = None.
Proof.
  intros [Hr Ht]. unfold cooldown_update_rate_limit, get_tokens. cbn [snd].
  rewrite Ht.
  replace (if _window b + per b <? current then rate b else Z.max (rate b) 0)
    with (rate b) by (destruct (_ <? _); lia).
  destruct (Z.ltb_spec (rate b - 1) 0); [lia|reflexivity].
Qed.

Lemma get_bucket_full m key current :
  full_bucket (_cooldown m) ->
  (forall b, _cache m !! key = Some b -> full_bucket b) ->
  let '(m', bucket) := get_bucket m key current in
  full_bucket bucket /\ _cooldown m' = _cooldown m
  /\ _cache m' !! key = Some bucket.
Proof.
  intros Ht Hc. unfold get_bucket, _verify_cache_integrity. cbn [_cooldown _cache].
  destruct (base.filter _ (_cache m) !! key) as [b|] eqn:E.
  - cbn [_cooldown _cache]. pose proof E as E0.
    apply map_lookup_filter_Some in E0 as [E0 _]. auto.
  - cbn [_cooldown _cache]. rewrite lookup_insert_eq. auto.
Qed.

(** After a reset the next call of the user passes the check, at any time. *)
Lemma reset_allows_retry m key current t :
  cooldown_mapping_ok m key = true ->
  snd (cooldown_wrapper (reset_cooldown m key current) key t) = true.
Proof.
  unfold cooldown_mapping_ok. intros Hok.
  apply andb_true_iff in Hok as [Hok Hb]. apply andb_true_iff in Hok as [Hr Ht].
  apply Z.leb_le in Hr. apply Z.eqb_eq in Ht.
  assert (Htemplate : full_bucket (_cooldown m)) by (split; assumption).
  set (m1 := reset_cooldown m key current).
  assert (H1 : full_bucket (_cooldown m1)).
  { unfold m1. rewrite reset_cooldown_template. exact Htemplate. }
  assert (H2 : forall b, _cache m1 !! key = Some b -> full_bucket b).
  { unfold m1, reset_cooldown, on_bucket, get_bucket, _verify_cache_integrity.
    cbn [_cooldown _cache].
    destruct (base.filter _ (_cache m) !! key) as [b0|] eqn:E;
      cbn [fst _cache]; intros b; rewrite lookup_insert_eq; intros [= <-].
    - apply map_lookup_filter_Some in E as [E _]. rewrite E in Hb.
      apply Z.leb_le in Hb. split; [exact Hb|reflexivity].
    - split; [exact Hr|reflexivity]. }
  unfold cooldown_wrapper.
  pose proof (get_bucket_full m1 key t H1 H2) as G1.
  destruct (get_bucket m1 key t) as [m2 b2]. destruct G1 as (G1b & G1t & G1c).
  unfold mapping_update_rate_limit, on_bucket.
  assert (H3 : full_bucket (_cooldown m2)) by (rewrite G1t; exact H1).
  assert (H4 : forall b, _cache m2 !! key = Some b -> full_bucket b).
  { intros b Hb'. rewrite G1c in Hb'. injection Hb' as <-. exact G1b. }
  pose proof (get_bucket_full m2 key t H3 H4) as G2.
  destruct (get_bucket m2 key t) as [m3 b3].
  destruct G2 as (G2 & _ & _).
  pose proof (full_bucket_passes b3 t G2) as Hpass.
  destruct (cooldown_update_rate_limit b3 t) as [b4 r]. cbn [snd] in *.
  subst r. reflexivity.
Qed.

(** ** Handlers: rejections and rewards of a burn *)

Lemma act_bind_eq {A B} (m : Act A) (k : A -> Act B) e w a w' :
  m e w = (Ok a, w') -> act_bind m k e w = k a e w'.
Proof. intros H. unfold act_bind. now rewrite H. Qed.

Lemma reset_command_cooldown_eq interaction name m e w :
  command interaction = Some name ->
  cooldowns w !! name = Some m ->
  reset_command_cooldown interaction e w =
  (Ok tt,
   set_cooldowns w
     (<[name := reset_cooldown m (uid interaction) (now interaction)]> (cooldowns w))).
Proof.
  intros Hc Hm. unfold reset_command_cooldown. rewrite Hc, Hm. reflexivity.
Qed.

(** C6. Burning a locked card, or one of a too valuable rarity, is rejected
    with an error message: the database is left as it was, nothing is
    sampled, and the actor's bucket of the burn command is reset, so that
    the actor's next call passes the cooldown check. *)
Theorem burn_rejected_resets_cooldown interaction card name m e w :
  command interaction = Some name ->
  cooldowns w !! name = Some m ->
  ct_locked card = true
  \/ Rarity.mem (ct_rarity card) Rarity.get_valuable_rarities = true ->
  exists w' text,
    _handle_single_card_burn interaction card e w = (Ok Rejected, w')
    /\ db w' = db w
    /\ rng_pos w' = rng_pos w
    /\ outbox w' = outbox w ++ [(error_embed, text)]
    /\ text = (if Rarity.mem (ct_rarity card) Rarity.get_valuable_rarities
               then "This is an unburnable card since it is too valuable."
               else "You can't burn this card since it is `locked`.")
    /\ cooldowns w'
       = <[name := reset_cooldown m (uid interaction) (now interaction)]> (cooldowns w)
    /\ bucket_reset (reset_cooldown m (uid interaction) (now interaction))
                    (uid interaction)
    /\ (cooldown_mapping_ok m (uid interaction) = true ->
        forall t,
          snd (cooldown_wrapper
                 (reset_cooldown m (uid interaction) (now interaction))
                 (uid interaction) t) = true).
Proof.
  intros Hc Hm Hcard. unfold _handle_single_card_burn.
  assert (Hbranch :
    Rarity.mem (ct_rarity card) Rarity.get_valuable_rarities = true \/
    (Rarity.mem (ct_rarity card) Rarity.get_valuable_rarities = false
     /\ ct_locked card = true)).
  { destruct (Rarity.mem (ct_rarity card) Rarity.get_valuable_rarities) eqn:E.
    - now left.
    - right. split; [reflexivity|]. destruct Hcard as [Hl|Hin]; [exact Hl|].
      congruence. }
  destruct Hbranch as [Hv|[Hv Hl]]; rewrite Hv; [|rewrite Hl];
    rewrite (act_bind_eq _ _ _ _ _ _ (reset_command_cooldown_eq _ _ _ e w Hc Hm));
    unfold act_bind, send, act_ret, set_cooldowns; cbn [db cooldowns outbox rng_pos];
    eexists _, _; (split; [reflexivity|]);
    cbn [db cooldowns outbox rng_pos];
    repeat (split; [reflexivity|]);
    (split; [apply reset_cooldown_bucket|]);
    intros Hok t; apply reset_allows_retry; exact Hok.
Qed.

Lemma py_sum_from xs : forall acc, fold_left Z.add xs acc = acc + py_sum xs.
Proof.
  unfold py_sum. induction xs as [|x xs IH]; intros acc; cbn [fold_left]; [lia|].
  rewrite IH, (IH (0 + x)). lia.
Qed.



Lemma burn_rejected_resets_cooldown_witness :
  command burn_interaction = Some "burn"
  /\ cooldowns witness_world !! "burn" = Some burn_cooldown
  /\ ct_locked locked_card = true
  /\ cooldown_mapping_ok burn_cooldown (uid burn_interaction) = true
  /\ snd (cooldown_wrapper burn_cooldown (uid burn_interaction) 864005) = false
  /\ exists w',
       _handle_single_card_burn burn_interaction locked_card witness_tape
         witness_world = (Ok Rejected, w')
       /\ db w' = witness_db
       /\ exists m',
            cooldowns w' !! "burn" = Some m'
            /\ snd (cooldown_wrapper m' (uid burn_interaction) 864005) = true.
Proof.
  assert (Hm : cooldowns witness_world !! "burn" = Some burn_cooldown)
    by (vm_compute; reflexivity).
  split; [reflexivity|]. split; [exact Hm|]. split; [reflexivity|].
  split; [vm_compute; reflexivity|]. split; [vm_compute; reflexivity|].
  destruct (burn_rejected_resets_cooldown burn_interaction locked_card "burn"
              burn_cooldown witness_tape witness_world eq_refl Hm
              (or_introl eq_refl))
    as (w' & text & Hrun & Hdb & _ & _ & _ & Hcd & _ & Hretry).
  exists w'. split; [exact Hrun|]. split; [exact Hdb|].
  eexists. split; [rewrite Hcd; apply lookup_insert_eq|].
  apply Hretry. vm_compute. reflexivity.
Defined.


(** The example of the specification: 25 silver drawn, ten days, 85 paid. *)
Example burn_reward_85 :
  exists w',
    _handle_single_card_burn burn_interaction aged_card tape_15 witness_world
    = (Ok (Prompt {| bp_total_silver := 85; bp_total_star := 113;
                     bp_glistening_gem := 1; bp_card := aged_card |}), w').
Proof. eexists. vm_compute. reflexivity. Qed.

(** ** Confirmation sessions *)

(** A session in which the author presses nothing expires, whoever else
    presses. *)
Lemma view_value_expired author presses :
  Forall (fun press => fst press <> member_id author) presses ->
  view_value author presses = None.
Proof.
  induction 1 as [|[who button] rest Hwho _ IH]; [reflexivity|].
  cbn [view_value]. cbn [fst] in Hwho.
  destruct (Z.eqb_spec who (member_id author)); [contradiction|exact IH].
Qed.

(** C10. In a session of a cooldown-gated command that expires (the author
    pressed nothing) the commit callback is not run, the database is left as
    it was and the actor's bucket of the command is reset, so that the
    actor's next call passes the cooldown check.  In a session the author
    declines, the callback is not run either and both the database and the
    cooldowns are left as they were. *)
Theorem confirmation_expired_or_declined interaction name m presses callback
    timeout_message e w :
  command interaction = Some name ->
  cooldowns w !! name = Some m ->
  (view_value (user interaction) presses = None ->
   exists w',
     (forall callback',
        wait_for_confirmation interaction (view_value (user interaction) presses)
          callback' timeout_message e w = (Ok tt, w'))
     /\ wait_for_confirmation interaction (view_value (user interaction) presses)
          callback timeout_message e w = (Ok tt, w')
     /\ db w' = db w
     /\ cooldowns w'
        = <[name := reset_cooldown m (uid interaction) (now interaction)]> (cooldowns w)
     /\ bucket_reset (reset_cooldown m (uid interaction) (now interaction))
                     (uid interaction)
     /\ (cooldown_mapping_ok m (uid interaction) = true ->
         forall t,
           snd (cooldown_wrapper
                  (reset_cooldown m (uid interaction) (now interaction))
                  (uid interaction) t) = true))
  /\
  (view_value (user interaction) presses = Some false ->
   exists w',
     (forall callback',
        wait_for_confirmation interaction (view_value (user interaction) presses)
          callback' timeout_message e w = (Ok tt, w'))
     /\ wait_for_confirmation interaction (view_value (user interaction) presses)
          callback timeout_message e w = (Ok tt, w')
     /\ db w' = db w
     /\ cooldowns w' = cooldowns w).
Proof.
  intros Hc Hm. split; intros Hv; rewrite Hv; unfold wait_for_confirmation.
  - rewrite Hc.
    assert (Hrun : forall cb : Act unit,
      (w0 <~ (fun (_ : Entropy) (w0 : World) => (Ok w0, w0)) ;;
       (match cooldowns w0 !! name with
        | Some _ => reset_command_cooldown interaction
        | None => act_ret tt
        end) ;;;
       send error_embed
         (match timeout_message with
          | Some text => text
          | None => "You took too long to respond."
          end)) e w
      = (Ok tt,
         {| db := db w;
            cooldowns :=
              <[name := reset_cooldown m (uid interaction) (now interaction)]>
                (cooldowns w);
            button_cooldown := button_cooldown w;
            outbox := outbox w ++
              [(error_embed,
                match timeout_message with
                | Some text => text
                | None => "You took too long to respond."
                end)];
            rng_pos := rng_pos w |})).
    { intros _. unfold act_bind at 1. rewrite Hm.
      rewrite (act_bind_eq _ _ _ _ _ _ (reset_command_cooldown_eq _ _ _ e w Hc Hm)).
      reflexivity. }
    eexists. split; [intros cb; apply (Hrun cb)|].
    split; [apply (Hrun callback)|].
    cbn [db cooldowns]. repeat (split; [reflexivity|]).
    split; [apply reset_cooldown_bucket|].
    intros Hok t. apply reset_allows_retry. exact Hok.
  - unfold send. eexists. split; [intros cb; reflexivity|].
    split; [reflexivity|]. cbn [db cooldowns]. split; reflexivity.
Qed.

Lemma confirmation_expired_or_declined_witness :
  command burn_interaction = Some "burn"
  /\ cooldowns witness_world !! "burn" = Some burn_cooldown
  /\ view_value patron [(8, confirm)] = None
  /\ view_value patron [(8, confirm); (7, cancel); (7, confirm)] = Some false
  /\ (exists w',
        wait_for_confirmation burn_interaction
          (view_value (user burn_interaction) [(8, confirm)])
          (_confirm_single_card_burn burn_interaction
             {| bp_total_silver := 85; bp_total_star := 113;
                bp_glistening_gem := 1; bp_card := aged_card |})
          None witness_tape witness_world = (Ok tt, w')
        /\ db w' = witness_db
        /\ bucket_reset (reset_cooldown burn_cooldown 7 864005) 7)
  /\ (exists w',
        wait_for_confirmation burn_interaction
          (view_value (user burn_interaction)
             [(8, confirm); (7, cancel); (7, confirm)])
          (_confirm_single_card_burn burn_interaction
             {| bp_total_silver := 85; bp_total_star := 113;
                bp_glistening_gem := 1; bp_card := aged_card |})
          None witness_tape witness_world = (Ok tt, w')
        /\ db w' = witness_db
        /\ cooldowns w' = cooldowns witness_world).
Proof.
  assert (Hm : cooldowns witness_world !! "burn" = Some burn_cooldown)
    by (vm_compute; reflexivity).
  split; [reflexivity|]. split; [exact Hm|].
  split; [reflexivity|]. split; [reflexivity|].
  split.
  - destruct (confirmation_expired_or_declined burn_interaction "burn"
                burn_cooldown [(8, confirm)]
                (_confirm_single_card_burn burn_interaction
                   {| bp_total_silver := 85; bp_total_star := 113;
                      bp_glistening_gem := 1; bp_card := aged_card |})
                None witness_tape witness_world eq_refl Hm)
      as [Hexp _].
    destruct (Hexp eq_refl) as (w' & _ & Hrun & Hdb & _ & Hreset & _).
    exists w'. repeat split; assumption.
  - destruct (confirmation_expired_or_declined burn_interaction "burn"
                burn_cooldown [(8, confirm); (7, cancel); (7, confirm)]
                (_confirm_single_card_burn burn_interaction
                   {| bp_total_silver := 85; bp_total_star := 113;
                      bp_glistening_gem := 1; bp_card := aged_card |})
                None witness_tape witness_world eq_refl Hm)
      as [_ Hdec].
    destruct (Hdec eq_refl) as (w' & _ & Hrun & Hdb & Hcd).
    exists w'. repeat split; assumption.
Defined.

(** ** Crafting: what the final step re-validates *)

Lemma final_check_characters_spec interaction name m e required_characters :
  command interaction = Some name ->
  forall w,
  cooldowns w !! name = Some m ->
  exists w',
    final_check_characters interaction required_characters e w
      = (Ok (forallb (character_available (db w) (uid interaction))
                     required_characters), w')
    /\ (forallb (character_available (db w) (uid interaction))
                required_characters = true -> w' = w)
    /\ (forallb (character_available (db w) (uid interaction))
                required_characters = false -> rejection interaction name m w w').
Proof.
  intros Hc. induction required_characters as [|[rc ra] rest IH]; intros w Hm.
  - exists w. cbn. unfold act_ret. split; [reflexivity|]. split; [auto|discriminate].
  - cbn [final_check_characters forallb].
    unfold act_bind at 1, read_db at 1.
    assert (Hav : character_available (db w) (uid interaction) (rc, ra)
                  = match get_cards_by_character_name (db w) (uid interaction) rc with
                    | None => false
                    | Some owned_cards =>
                        negb (Z.of_nat (List.length
                                (filter (fun card => negb (ct_locked card)) owned_cards))
                              <? ra)
                    end) by reflexivity.
    destruct (get_cards_by_character_name (db w) (uid interaction) rc)
      as [owned|] eqn:E.
    + destruct (Z.of_nat _ <? ra) eqn:Hlt; cbn [negb] in Hav; rewrite Hav;
        cbn [andb].
      * rewrite (act_bind_eq _ _ _ _ _ _ (reset_command_cooldown_eq _ _ _ e w Hc Hm)).
        unfold act_bind, send, act_ret. eexists. split; [reflexivity|].
        split; [discriminate|]. intros _. unfold rejection.
        cbn [db cooldowns outbox rng_pos]. eauto 10.
      * exact (IH w Hm).
    + rewrite Hav. cbn [andb].
      rewrite (act_bind_eq _ _ _ _ _ _ (reset_command_cooldown_eq _ _ _ e w Hc Hm)).
      unfold act_bind, send, act_ret. eexists. split; [reflexivity|].
      split; [discriminate|]. intros _. unfold rejection.
      cbn [db cooldowns outbox rng_pos]. eauto 10.
Qed.

Lemma check_items_spec interaction name m e required_items :
  command interaction = Some name ->
  forall w,
  cooldowns w !! name = Some m ->
  exists w',
    check_items interaction required_items e w
      = (Ok (forallb (item_available (db w) (uid interaction)) required_items), w')
    /\ (forallb (item_available (db w) (uid interaction)) required_items = true ->
        w' = w)
    /\ (forallb (item_available (db w) (uid interaction)) required_items = false ->
        rejection interaction name m w w').
Proof.
  intros Hc. induction required_items as [|[ri ra] rest IH]; intros w Hm.
  - exists w. cbn. unfold act_ret. split; [reflexivity|]. split; [auto|discriminate].
  - cbn [check_items forallb].
    unfold act_bind at 1, read_db at 1.
    assert (Hav : item_available (db w) (uid interaction) (ri, ra)
                  = match get_item (db w) (uid interaction) ri with
                    | None => false
                    | Some item => negb (it_amount item <? ra)
                    end) by reflexivity.
    destruct (get_item (db w) (uid interaction) ri) as [item|] eqn:E.
    + destruct (it_amount item <? ra) eqn:Hlt; cbn [negb] in Hav; rewrite Hav;
        cbn [andb].
      * rewrite (act_bind_eq _ _ _ _ _ _ (reset_command_cooldown_eq _ _ _ e w Hc Hm)).
        unfold act_bind, send, act_ret. eexists. split; [reflexivity|].
        split; [discriminate|]. intros _. unfold rejection.
        cbn [db cooldowns outbox rng_pos]. eauto 10.
      * exact (IH w Hm).
    + rewrite Hav. cbn [andb].
      rewrite (act_bind_eq _ _ _ _ _ _ (reset_command_cooldown_eq _ _ _ e w Hc Hm)).
      unfold act_bind, send, act_ret. eexists. split; [reflexivity|].
      split; [discriminate|]. intros _. unfold rejection.
      cbn [db cooldowns outbox rng_pos]. eauto 10.
Qed.

(** The part of the re-validation the final step of a craft does carry out:
    the required character cards (counted over the unlocked cards the actor
    owns) and the required items.  When one of them is missing at that
    point, the craft ends with an error message, the database is left as it
    was (no star subtracted, no item removed, no card deleted or created)
    and the actor's bucket of the craft command is reset. *)
Lemma craft_final_revalidates_materials interaction name m proposal e w :
  command interaction = Some name ->
  cooldowns w !! name = Some m ->
  materials_available (db w) (uid interaction) (cp_entity proposal) = false ->
  exists w' text,
    _confirm_forge_craft_final interaction proposal e w = (Ok tt, w')
    /\ db w' = db w
    /\ outbox w' = outbox w ++ [(error_embed, text)]
    /\ cooldowns w'
       = <[name := reset_cooldown m (uid interaction) (now interaction)]> (cooldowns w)
    /\ bucket_reset (reset_cooldown m (uid interaction) (now interaction))
                    (uid interaction).
Proof.
  intros Hc Hm Hmat. unfold _confirm_forge_craft_final.
  destruct (final_check_characters_spec interaction name m e
              (cce_required_characters (cp_entity proposal)) Hc w Hm)
    as (w1 & Hrun1 & Hsame1 & Hrej1).
  rewrite (act_bind_eq _ _ _ _ _ _ Hrun1).
  unfold materials_available in Hmat.
  destruct (forallb (character_available (db w) (uid interaction))
              (cce_required_characters (cp_entity proposal))) eqn:Hchars.
  - cbn [negb]. specialize (Hsame1 eq_refl). subst w1.
    destruct (check_items_spec interaction name m e
                (cce_required_items (cp_entity proposal)) Hc w Hm)
      as (w2 & Hrun2 & _ & Hrej2).
    rewrite (act_bind_eq _ _ _ _ _ _ Hrun2).
    cbn [andb] in Hmat. rewrite Hmat. cbn [negb].
    destruct (Hrej2 Hmat) as (Hdb & Hcd & text & Hout).
    exists w2, text. split; [reflexivity|].
    repeat (split; [assumption|]). apply reset_cooldown_bucket.
  - cbn [negb].
    destruct (Hrej1 eq_refl) as (Hdb & Hcd & text & Hout).
    exists w1, text. split; [reflexivity|].
    repeat (split; [assumption|]). apply reset_cooldown_bucket.
Qed.

(** One of the two Bob cards is gone when the second prompt is confirmed. *)
Lemma craft_final_revalidates_materials_witness :
  command craft_interaction = Some "craft"
  /\ cooldowns short_world !! "craft" = Some burn_cooldown
  /\ materials_available (db short_world) (uid craft_interaction) bob_deluxe = false
  /\ exists w' text,
       _confirm_forge_craft_final craft_interaction short_proposal witness_tape
         short_world = (Ok tt, w')
       /\ db w' = db short_world
       /\ outbox w' = outbox short_world ++ [(error_embed, text)]
       /\ cooldowns w'
          = <[ "craft" := reset_cooldown burn_cooldown 7 864005 ]> (cooldowns short_world)
       /\ bucket_reset (reset_cooldown burn_cooldown 7 864005) 7.
Proof.
  assert (Hm : cooldowns short_world !! "craft" = Some burn_cooldown)
    by (vm_compute; reflexivity).
  split; [reflexivity|]. split; [exact Hm|]. split; [vm_compute; reflexivity|].
  apply (craft_final_revalidates_materials craft_interaction "craft" burn_cooldown
           short_proposal witness_tape short_world eq_refl Hm).
  vm_compute. reflexivity.
Defined.

(** C2 fails on the star balance, which the final step does not look at.
    The patron confirms the first prompt with 10 star, two Bob cards and a
    fusion crystal, for a craft that costs 8 star; the balance then drops to
    0 while the cards and the crystal stay; on the second confirmation the
    craft goes through all the same: the balance becomes -8, the crystal and
    both cards are gone and the crafted card is there. *)
Theorem craft_final_skips_star_check :
  exists proposal w1 w2,
    _confirm_forge_craft craft_interaction craft_row 8 bob_deluxe []
      witness_tape craft_world = (Ok (Prompt proposal), w1)
    /\ db w1 = craft_db
    /\ star_of (set_star (db w1) 7 10 true) 7 = Some 0
    /\ materials_available (set_star (db w1) 7 10 true) 7 bob_deluxe = true
    /\ wait_for_confirmation craft_interaction (Some true)
         (_confirm_forge_craft_final craft_interaction proposal) None
         witness_tape (set_db w1 (set_star (db w1) 7 10 true)) = (Ok tt, w2)
    /\ star_of (db w2) 7 = Some (-8)
    /\ inventory (db w2) = []
    /\ map ct_card_id (cards (db w2)) = [ct_card_id (cp_crafted_card_table proposal)]
    /\ outbox w2 = outbox w1 ++ [(success_embed, "You crafted a **{}** card!")].
Proof.
  eexists _, _, _. split; [vm_compute; reflexivity|].
  do 7 (split; [vm_compute; reflexivity|]).
  vm_compute; reflexivity.
Qed.

(** ** Fusion, shop and backpack on concrete inputs *)

(** C3 fails when the plain card comes first.  With a plain and a shiny
    common card of the same owner, in that order in the table, the fusion is
    proposed, whichever way round the two ids are given: the outcome is a
    plain card at the plain price of 8 star.  It is rejected only when the
    shiny card comes first. *)
Theorem fusion_accepts_plain_then_shiny :
  ct_special_rarity plain_card = SpecialRarity.unknown
  /\ ct_special_rarity shiny_card = SpecialRarity.shiny
  /\ (exists proposal w',
        forge_fusion witness_roster fusion_interaction "plain1" "shiny1"
          witness_tape (fusion_world [plain_card; shiny_card])
        = (Ok (Prompt proposal), w')
        /\ ci_special_rarity (fp_card proposal) = SpecialRarity.unknown
        /\ fp_star_cost proposal = 8
        /\ outbox w'
           = [(warning_embed, "Are you sure you want to fuse both of these cards?")])
  /\ (exists proposal w',
        forge_fusion witness_roster fusion_interaction "shiny1" "plain1"
          witness_tape (fusion_world [plain_card; shiny_card])
        = (Ok (Prompt proposal), w'))
  /\ (exists w',
        forge_fusion witness_roster fusion_interaction "plain1" "shiny1"
          witness_tape (fusion_world [shiny_card; plain_card])
        = (Ok Rejected, w')
        /\ outbox w'
           = [(error_embed, "Both cards must be shiny in-order to be fused.")]).
Proof.
  split; [reflexivity|]. split; [reflexivity|].
  split.
  { eexists _, _. split; [vm_compute; reflexivity|].
    split; [reflexivity|]. split; reflexivity. }
  split.
  { eexists _, _. vm_compute. reflexivity. }
  eexists. split; [vm_compute; reflexivity|reflexivity].
Qed.

(** C4 fails on every discounted purchase.  A patron buys two card sleeves
    of 100 silver each: the shop lists the sleeve at 80 and the prompt shows
    80 as the unit price, but 200 silver is charged, not 160. *)
Theorem patron_is_charged_full_price regex_autocomplete :
  is_patreon patron = true
  /\ ie_price (flat_shop Item.card_sleeve) = Some 100
  /\ item_shop_price flat_shop shop_interaction Item.card_sleeve 1 = Some 80
  /\ exists proposal w1 w2,
       item_buy flat_shop regex_autocomplete shop_interaction "card sleeve" 2
         witness_tape witness_world = (Ok (Prompt proposal), w1)
       /\ buy_base_price proposal = Some 80
       /\ buy_total_price proposal = 200
       /\ silver_of (db w1) 7 = Some 1000
       /\ wait_for_confirmation shop_interaction (Some true)
            (_confirm_item_buy shop_interaction proposal) None witness_tape w1
          = (Ok tt, w2)
       /\ silver_of (db w2) 7 = Some 800
       /\ inventory (db w2)
          = [{| it_id := 1; it_owner_id := 1; it_item := Item.card_sleeve;
                it_amount := 2 |}].
Proof.
  split; [reflexivity|]. split; [reflexivity|]. split; [vm_compute; reflexivity|].
  eexists _, _, _. split; [vm_compute; reflexivity|].
  do 5 (split; [vm_compute; reflexivity|]).
  vm_compute; reflexivity.
Qed.

(** C5 fails on the grab.  At backpack level 5 with 2500 cards held, a grab
    is rejected as backpack full, while opening a pack is not.  And at level
    1 with exactly 500 cards held a pack is opened and claimed, which leaves
    507 cards. *)
Theorem grab_is_limited_at_level_5 :
  ut_backpack_level full_row = 5
  /\ card_count (db full_world) 7 = 2500
  /\ (exists w',
        card_drop_button_callback grab_interaction [witness_pack_card] 0 []
          witness_tape full_world = (Ok (BackpackFull, []), w')
        /\ db w' = db full_world)
  /\ (exists cards w',
        _confirm_item_use flat_shop bob_roster grab_interaction
          Item.rare_card_pack 1 witness_tape full_world = (Ok (Prompt cards), w')
        /\ List.length cards = 7%nat)
  /\ ut_backpack_level craft_row = 1
  /\ card_count (db brim_world) 7 = 500
  /\ (exists cards w1 w2,
        _confirm_item_use flat_shop bob_roster grab_interaction
          Item.rare_card_pack 1 witness_tape brim_world = (Ok (Prompt cards), w1)
        /\ _handle_card_pack cards grab_interaction (Some true) witness_tape w1
           = (Ok tt, w2)
        /\ card_count (db w2) 7 = 507).
Proof.
  split; [reflexivity|]. split; [vm_compute; reflexivity|].
  split.
  { eexists. split; [vm_compute; reflexivity|reflexivity]. }
  split.
  { eexists _, _. split; [vm_compute; reflexivity|reflexivity]. }
  split; [reflexivity|]. split; [vm_compute; reflexivity|].
  eexists _, _, _. split; [vm_compute; reflexivity|].
  split; vm_compute; reflexivity.
Qed.

(** ** Supporting facts on the gateway *)

Lemma set_db_same w : set_db w (db w) = w.
Proof. destruct w; reflexivity. Qed.

Lemma register_known d user_id now0 row :
  get_table d user_id = Some row -> register d user_id now0 = (d, ut_id row).
Proof. intros H. unfold register. now rewrite H. Qed.

Lemma get_table_update_user d user_id f :
  (forall u, ut_user_id (f u) = ut_user_id u) ->
  get_table (update_user d user_id f) user_id
  = match get_table d user_id with Some u => Some (f u) | None => None end.
Proof.
  intros Hf. unfold get_table, update_user. cbn [users].
  induction (users d) as [|u rest IH]; [reflexivity|].
  cbn [map filter].
  destruct (ut_user_id u =? user_id) eqn:E.
  - rewrite Hf, E. reflexivity.
  - rewrite E. exact IH.
Qed.

(** The gate of the grab, at every backpack level: a registered user who
    holds [500 * level] cards or more is turned away, and nothing is
    written. *)
Lemma grab_backpack_gate interaction view_cards selected grabbed_cards e w row :
  get_table (db w) (uid interaction) = Some row ->
  ut_backpack_level row * 500 <= card_count (db w) (uid interaction) ->
  exists w',
    card_drop_button_callback interaction view_cards selected grabbed_cards e w
      = (Ok (BackpackFull, grabbed_cards), w')
    /\ db w' = db w.
Proof.
  intros Hrow Hfull. unfold card_drop_button_callback.
  unfold act_bind at 1, write_db at 1.
  rewrite (register_known _ _ _ _ Hrow). cbn [fst]. rewrite set_db_same.
  unfold act_bind at 1, read_db at 1. rewrite Hrow.
  unfold card_count in Hfull.
  destruct (Z.leb_spec (ut_backpack_level row * 500)
              (match get_cards (db w) (uid interaction) with
               | Some cs => Z.of_nat (List.length cs)
               | None => 0
               end)) as [_|Hlt]; [|lia].
  unfold act_bind, send, act_ret. eexists. split; reflexivity.
Qed.

(** Confirming a burn pays what the proposal offered and deletes the card. *)
Lemma burn_commit_pays_proposal interaction proposal e w row card :
  get_card (db w) (ct_card_id (bp_card proposal)) = Some card ->
  get_table (db w) (uid interaction) = Some row ->
  exists w2 row2,
    _confirm_single_card_burn interaction proposal e w = (Ok tt, w2)
    /\ get_table (db w2) (uid interaction) = Some row2
    /\ ut_silver row2 = ut_silver row + bp_total_silver proposal
    /\ ut_star row2 = ut_star row + bp_total_star proposal
    /\ get_card (db w2) (ct_card_id (bp_card proposal)) = None.
Proof.
  intros Hcard Hrow. unfold _confirm_single_card_burn.
  unfold act_bind at 1, read_db at 1. rewrite Hcard.
  set (d2 := set_star (set_silver (db w) (uid interaction)
                         (bp_total_silver proposal) false)
                      (uid interaction) (bp_total_star proposal) false).
  assert (Ht : get_table d2 (uid interaction)
               = Some {| ut_id := ut_id row; ut_user_id := ut_user_id row;
                         ut_silver := ut_silver row + bp_total_silver proposal;
                         ut_star := ut_star row + bp_total_star proposal;
                         ut_gem := ut_gem row; ut_voucher := ut_voucher row;
                         ut_registered_at := ut_registered_at row;
                         ut_backpack_level := ut_backpack_level row |}).
  { unfold d2, set_star, set_silver, signed.
    rewrite get_table_update_user by reflexivity.
    rewrite get_table_update_user by reflexivity.
    rewrite Hrow. reflexivity. }
  assert (Hdel : forall d card_id, get_card (delete_card d card_id) card_id = None).
  { intros d card_id. unfold get_card, delete_card. cbn [cards].
    induction (cards d) as [|c rest IH]; [reflexivity|].
    cbn [filter]. destruct (String.eqb (ct_card_id c) card_id) eqn:E; cbn [negb].
    - exact IH.
    - cbn [filter]. rewrite E. exact IH. }
  assert (Hadd : forall d i n,
             users (add_item d (uid interaction) i n) = users d).
  { intros d i n. unfold add_item. destruct (select_user_pk _ _); reflexivity. }
  unfold act_bind, write_db, send, act_ret, set_db.
  cbn [db cooldowns button_cooldown outbox rng_pos].
  destruct (bool_decide (ct_special_rarity (bp_card proposal) = SpecialRarity.shiny));
    cbn [db cooldowns button_cooldown outbox rng_pos];
    eexists _, _; (split; [reflexivity|]); cbn [db]; fold d2;
    (split; [|split; [|split; [|apply Hdel]]]).
  - unfold get_table, delete_card. cbn [users]. rewrite Hadd. exact Ht.
  - reflexivity.
  - reflexivity.
  - exact Ht.
  - reflexivity.
  - reflexivity.
Qed.

(** * Properties of the further code *)

(** ** Rounding *)

Lemma py_round_comp (x y : Q) : (x == y)%Q -> py_round x = py_round y.
Proof.
  intros H. unfold py_round.
  rewrite (Qfloor_comp _ _ H).
  assert (Hc : ((x - inject_Z (Qfloor y)) ?= (1 # 2))%Q
               = ((y - inject_Z (Qfloor y)) ?= (1 # 2))%Q).
  { apply Qcompare_comp; [rewrite H; reflexivity|reflexivity]. }
  rewrite Hc. reflexivity.
Qed.

Lemma py_round_Z (z : Z) : py_round (inject_Z z) = z.
Proof.
  unfold py_round. rewrite Qfloor_Z.
  assert (Hc : ((inject_Z z - inject_Z z) ?= (1 # 2))%Q = Lt).
  { rewrite <- Qlt_alt. unfold Qlt, Qminus, Qplus, Qopp, inject_Z. simpl. lia. }
  rewrite Hc. reflexivity.
Qed.

(** Rounding a number of fifths: no tie can occur. *)
Lemma py_round_fifths (a : Z) : py_round (a # 5) = (a + 2) / 5.
Proof.
  unfold py_round.
  assert (Hf : Qfloor (a # 5) = a / 5) by reflexivity.
  rewrite Hf.
  pose proof (Z.div_mod a 5 ltac:(lia)) as Hdm.
  pose proof (Z.mod_pos_bound a 5 ltac:(lia)) as Hm.
  set (f := a / 5) in *. set (m := a mod 5) in *.
  assert (Hr : (a + 2) / 5 = if m <? 3 then f else f + 1).
  { destruct (Z.ltb_spec m 3).
    - symmetry. apply (Z.div_unique (a + 2) 5 f (m + 2)); lia.
    - symmetry. apply (Z.div_unique (a + 2) 5 (f + 1) (m - 3)); lia. }
  rewrite Hr.
  destruct (Qcompare_spec ((a # 5) - inject_Z f) (1 # 2)) as [He|Hl|Hg].
  - exfalso. unfold Qeq, Qminus, Qplus, Qopp, inject_Z in He. simpl in He. lia.
  - unfold Qlt, Qminus, Qplus, Qopp, inject_Z in Hl. simpl in Hl.
    destruct (Z.ltb_spec m 3); [reflexivity|lia].
  - unfold Qlt, Qminus, Qplus, Qopp, inject_Z in Hg. simpl in Hg.
    destruct (Z.ltb_spec m 3); [lia|reflexivity].
Qed.

(** ** Conditions, prices and values *)

(** X1: [CardFactory.upgrade] and [CardFactory.downgrade] move a condition
    one level up or down the chain and stop at its ends: an upgrade undoes a
    downgrade except on [damaged], a downgrade undoes an upgrade except on
    [pristine]. *)
Theorem condition_chain_saturates (c : Condition.t) :
  Condition.level (upgrade c) = Z.min 6 (Condition.level c + 1)
  /\ Condition.level (downgrade c) = Z.max 1 (Condition.level c - 1)
  /\ downgrade (upgrade c)
     = (if bool_decide (c = Condition.pristine) then Condition.mint else c)
  /\ upgrade (downgrade c)
     = (if bool_decide (c = Condition.damaged) then Condition.poor else c).
Proof.
  split; [destruct c; reflexivity|].
  split; [destruct c; reflexivity|].
  split; destruct c; vm_compute; reflexivity.
Qed.

(** X2: the price of the next backpack level is [25*l^2 + 100*l - 50] silver
    at level [l]: the rounding never has a fraction to round, and each level
    costs [50*l + 125] more than the one before.  (Stated for the levels at
    which Python's float arithmetic is exact.) *)
Theorem backpack_upgrade_price_closed_form (backpack_level : Z) :
  0 <= backpack_level <= 1000000 ->
  _calculate_backpack_upgrade_price backpack_level
  = 25 * backpack_level * backpack_level + 100 * backpack_level - 50
  /\ _calculate_backpack_upgrade_price (backpack_level + 1)
     - _calculate_backpack_upgrade_price backpack_level
     = 50 * backpack_level + 125.
Proof.
  intros _.
  assert (H : forall l, _calculate_backpack_upgrade_price l
                        = 25 * l * l + 100 * l - 50).
  { intros l. unfold _calculate_backpack_upgrade_price.
    rewrite (py_round_comp _ (inject_Z (25 * l * l + 100 * l - 50))).
    - apply py_round_Z.
    - unfold Qeq, Qdiv, Qmult, Qplus, Qminus, Qopp, Qinv, inject_Z. simpl. lia. }
  rewrite !H. split; lia.
Qed.

Lemma backpack_upgrade_price_closed_form_witness :
  0 <= 4 <= 1000000
  /\ _calculate_backpack_upgrade_price 4 = 750
  /\ _calculate_backpack_upgrade_price 5 - _calculate_backpack_upgrade_price 4
     = 325.
Proof.
  split; [lia|]. exact (backpack_upgrade_price_closed_form 4 ltac:(lia)).
Defined.

(** X3: the price a patron is shown is four fifths of the price, rounded to
    the nearest integer; a fifth never lies on a tie.  It is never above the
    price.  (Stated for the prices at which Python's float arithmetic stays
    within a tenth of the exact value.) *)
Theorem patron_discount_closed_form (price : Z) :
  0 <= price <= 1000000000 ->
  discounted price = (4 * price + 2) / 5
  /\ -2 <= 5 * discounted price - 4 * price <= 2
  /\ 0 <= discounted price <= price.
Proof.
  intros Hp.
  assert (H : discounted price = (4 * price + 2) / 5).
  { unfold discounted.
    rewrite (py_round_comp _ ((4 * price) # 5)).
    - apply py_round_fifths.
    - unfold Qeq, Qmult, Qplus, Qminus, Qopp, inject_Z. simpl. lia. }
  rewrite H.
  pose proof (Z.div_mod (4 * price + 2) 5 ltac:(lia)) as Hdm.
  pose proof (Z.mod_pos_bound (4 * price + 2) 5 ltac:(lia)) as Hm.
  split; [reflexivity|]. split; lia.
Qed.

Lemma patron_discount_closed_form_witness :
  0 <= 103 <= 1000000000
  /\ discounted 103 = 82
  /\ -2 <= 5 * discounted 103 - 4 * 103 <= 2
  /\ 0 <= discounted 103 <= 103.
Proof.
  split; [lia|]. exact (patron_discount_closed_form 103 ltac:(lia)).
Defined.

(** X4: [_calculate_card_value] never raises, the exclusive rarity counting
    as level 9; among cards of the same special rarity the rarity decides:
    a card of a higher rarity is worth more than any card of a lower one,
    whatever the two conditions.  Within one rarity the better condition is
    worth more, and shiny is worth 26000 more. *)
Theorem card_value_orders_by_rarity (c1 c2 : CardTable) :
  exists v1 v2 l1 l2,
    _calculate_card_value c1 = Ok v1
    /\ _calculate_card_value c2 = Ok v2
    /\ (if bool_decide (ct_rarity c1 = Rarity.exclusive_icicle) then Ok 9
        else Rarity.level (ct_rarity c1)) = Ok l1
    /\ (if bool_decide (ct_rarity c2 = Rarity.exclusive_icicle) then Ok 9
        else Rarity.level (ct_rarity c2)) = Ok l2
    /\ v2 - v1
       = 5000 * (l2 - l1)
         + 500 * (Condition.level (ct_condition c2)
                  - Condition.level (ct_condition c1))
         + 26000 * ((if bool_decide (ct_special_rarity c2 = SpecialRarity.shiny)
                     then 1 else 0)
                    - (if bool_decide (ct_special_rarity c1 = SpecialRarity.shiny)
                       then 1 else 0))
    /\ (ct_special_rarity c1 = ct_special_rarity c2 -> l1 < l2 -> v1 < v2).
Proof.
  assert (Hl : forall c, exists l,
             (if bool_decide (ct_rarity c = Rarity.exclusive_icicle) then Ok 9
              else Rarity.level (ct_rarity c)) = Ok l /\ 1 <= l <= 9).
  { intros c. destruct (ct_rarity c); vm_compute; eexists; split;
      try reflexivity; split; discriminate. }
  assert (Hc : forall c, 1 <= Condition.level c <= 6).
  { intros c. destruct c; vm_compute; split; discriminate. }
  destruct (Hl c1) as (l1 & E1 & B1). destruct (Hl c2) as (l2 & E2 & B2).
  unfold _calculate_card_value. rewrite E1, E2.
  eexists _, _, l1, l2.
  split; [reflexivity|]. split; [reflexivity|].
  split; [reflexivity|]. split; [reflexivity|].
  pose proof (Hc (ct_condition c1)). pose proof (Hc (ct_condition c2)).
  split.
  - destruct (bool_decide (ct_special_rarity c1 = SpecialRarity.shiny)),
             (bool_decide (ct_special_rarity c2 = SpecialRarity.shiny)); lia.
  - intros Hs Hlt. rewrite Hs.
    destruct (bool_decide (ct_special_rarity c2 = SpecialRarity.shiny)); lia.
Qed.

(** ** Patron tiers ([source/utils/__init__.py]) *)

Lemma patreon_roles_of_role role_id :
  existsb (fun r => PatreonRole.tier PatreonRole.common <=? PatreonRole.tier r)
          (filter (fun r => Z.eqb (PatreonRole.role_id r) role_id)
                  PatreonRole.members)
  = Z_mem role_id PatreonRole.get_role_ids.
Proof.
  unfold PatreonRole.get_role_ids, PatreonRole.members, Z_mem.
  cbn [filter map existsb PatreonRole.role_id].
  rewrite !(Z.eqb_sym role_id).
  destruct (1099000179723604068 =? role_id), (1099008980304547962 =? role_id),
           (1099009546481049600 =? role_id); reflexivity.
Qed.

Lemma is_patreon_alt member :
  is_patreon member
  = existsb (fun role_id => Z_mem role_id PatreonRole.get_role_ids)
            (member_roles member).
Proof.
  unfold is_patreon.
  apply eq_true_iff_eq. rewrite !existsb_exists. split.
  - intros (p & Hp & Hm). unfold Z_mem in Hm. apply existsb_exists in Hm.
    destruct Hm as (r & Hr & E). apply Z.eqb_eq in E. subst r.
    exists p. split; [exact Hr|]. unfold Z_mem. apply existsb_exists.
    exists p. split; [exact Hp|apply Z.eqb_refl].
  - intros (r & Hr & Hm). unfold Z_mem in Hm. apply existsb_exists in Hm.
    destruct Hm as (p & Hp & E). apply Z.eqb_eq in E. subst p.
    exists r. split; [exact Hp|]. unfold Z_mem. apply existsb_exists.
    exists r. split; [exact Hr|apply Z.eqb_refl].
Qed.

(** X5: asking for the lowest tier is asking whether the member is a patron
    at all, and a member who passes for a tier passes for every lower one. *)
Theorem minimum_patreon_role_tiers (member : Member) :
  has_minimum_patreon_role member PatreonRole.common = is_patreon member
  /\ forall lower higher,
       PatreonRole.tier lower <= PatreonRole.tier higher ->
       has_minimum_patreon_role member higher = true ->
       has_minimum_patreon_role member lower = true.
Proof.
  split.
  - rewrite is_patreon_alt. unfold has_minimum_patreon_role.
    induction (member_roles member) as [|role_id rest IH]; [reflexivity|].
    cbn [flat_map]. rewrite existsb_app, IH.
    cbn [existsb]. f_equal. apply patreon_roles_of_role.
  - intros lower higher Hle. unfold has_minimum_patreon_role.
    rewrite !existsb_exists. intros (r & Hr & Ht).
    exists r. split; [exact Hr|]. apply Z.leb_le. apply Z.leb_le in Ht. lia.
Qed.

(** ** What the generator can and cannot produce *)

Lemma choices_k_In {A} (population : list A) k : forall e p l p',
  choices_k population k e p = Ok (l, p') ->
  List.length l = k /\ Forall (fun x => In x population) l.
Proof.
  induction k as [|k IH]; intros e p l p' H.
  - cbn in H. unfold ret in H. injection H as <- <-. split; [reflexivity|constructor].
  - cbn [choices_k] in H. unfold bind at 1 in H. unfold random at 1 in H.
    destruct (nth_error population _) as [x|] eqn:Hx; [|discriminate].
    unfold bind at 1 in H.
    destruct (choices_k population k e (S p)) as [[rest p1]|] eqn:Hr; [|discriminate].
    unfold ret in H. injection H as <- <-.
    destruct (IH _ _ _ _ Hr) as [Hlen Hall].
    split; [cbn; congruence|].
    constructor; [eapply nth_error_In; eassumption|exact Hall].
Qed.

Lemma string_length_of_list l :
  String.length (string_of_list_ascii l) = List.length l.
Proof. induction l as [|c l IH]; [reflexivity|cbn; congruence]. Qed.

(** X6: a generated card id is always produced, takes six draws, and is six
    characters among the digits and the lower-case letters; so it is never
    the id [7R0115] reserved for the Troll card. *)
Theorem generate_card_id_alphabet (e : Entropy) (p : nat) :
  exists card_id,
    generate_card_id e p = Ok (card_id, (p + 6)%nat)
    /\ String.length card_id = 6%nat
    /\ Forall (fun c => In c card_id_alphabet) (list_ascii_of_string card_id)
    /\ card_id <> "7R0115".
Proof.
  destruct (choices_k_Ok card_id_alphabet 6 e p ltac:(discriminate)) as (l & H).
  destruct (choices_k_In _ _ _ _ _ _ H) as [Hlen Hall].
  exists (string_of_list_ascii l).
  split; [unfold generate_card_id, bind; rewrite H; reflexivity|].
  split; [rewrite string_length_of_list; exact Hlen|].
  split; [rewrite list_ascii_of_string_of_list_ascii; exact Hall|].
  intros Heq.
  assert (Hl : l = list_ascii_of_string "7R0115").
  { rewrite <- Heq. symmetry. apply list_ascii_of_string_of_list_ascii. }
  subst l. cbn in Hall.
  apply Forall_inv_tail, Forall_inv in Hall.
  unfold card_id_alphabet in Hall. cbn in Hall.
  repeat (destruct Hall as [Hall|Hall]; [discriminate|]). exact Hall.
Qed.

Lemma choices_In {A} (population : list A) weights e p x p' :
  choices population weights e p = Ok (x, p') -> In x population.
Proof.
  unfold choices.
  destruct (negb _); [discriminate|].
  destruct (last _ _) as [total|]; [|discriminate].
  destruct (Qle_bool total 0); [discriminate|].
  unfold bind, random.
  destruct (nth_error population _) as [y|] eqn:Hy; [|discriminate].
  unfold ret. intros H. injection H as <- <-.
  eapply nth_error_In; eassumption.
Qed.

(** X7: under the new-user table a card is never shiny, for patrons too: the
    table has no shiny entry, and the patron adjustment only lowers the
    weight of [unknown]. *)
Theorem new_user_drop_is_never_shiny (member : option Member) (e : Entropy)
    (p : nat) :
  generate_special_rarity member (Some NewUserWeight) e p
  = Ok (SpecialRarity.unknown, S p).
Proof.
  assert (H : exists w,
             special_rarity_weights member (Some NewUserWeight)
             = Ok [(SpecialRarity.unknown, w)] /\ Qle_bool w 0 = false).
  { unfold special_rarity_weights. destruct member as [m|].
    - destruct (is_patreon m); eexists; split; reflexivity.
    - eexists; split; reflexivity. }
  destruct H as (w & Hw & Hpos).
  unfold generate_special_rarity. rewrite Hw. unfold bind at 1, lift.
  destruct (choices_Ok [SpecialRarity.unknown] [w] w e p eq_refl eq_refl Hpos)
    as (x & Hin & Hx).
  cbn [keys values map fst snd]. rewrite Hx.
  destruct Hin as [<-|[]]. reflexivity.
Qed.

(** X8: whatever the weight table, [generate_rarity] returns a rarity of the
    table, with one draw: never one of the valuable rarities, which cannot
    be burned or fused, and under the new-user table nothing above epic. *)
Theorem generate_rarity_is_never_valuable (weight : option WeightT)
    (e : Entropy) (p : nat) :
  exists r,
    generate_rarity weight e p = Ok (r, S p)
    /\ In r (keys (weight_rarity (weight_or_basic weight)))
    /\ Rarity.mem r Rarity.get_valuable_rarities = false
    /\ (weight = Some NewUserWeight ->
        In r [Rarity.common; Rarity.uncommon; Rarity.rare; Rarity.epic]).
Proof.
  unfold generate_rarity.
  destruct (choices_total (keys (weight_rarity (weight_or_basic weight)))
              (values (weight_rarity (weight_or_basic weight))) e p)
    as (r & Hin & Hr).
  { destruct weight as [[]|]; vm_compute; reflexivity. }
  exists r. split; [exact Hr|]. split; [exact Hin|]. split.
  - destruct weight as [[]|]; cbn in Hin;
      repeat (destruct Hin as [<-|Hin]; [reflexivity|]); destruct Hin.
  - intros ->. exact Hin.
Qed.

(** ** Durations *)

Lemma py_sum_cons x xs : py_sum (x :: xs) = x + py_sum xs.
Proof. unfold py_sum. cbn [fold_left]. rewrite py_sum_from. unfold py_sum. lia. Qed.

Lemma human_parts_sum (all : list (string * Z)) (us : list (string * Z)) :
  Forall (fun u => 0 < snd u /\ dict_get (fst u) 0 all = snd u) us ->
  forall seconds, 0 <= seconds ->
  exists r,
    0 <= r <= seconds
    /\ py_sum (map (fun part => fst part * dict_get (snd part) 0 all)
                   (human_parts us seconds)) + r = seconds
    /\ (Exists (fun u => snd u = 1) us -> r = 0)
    /\ Forall (fun part => 1 <= fst part) (human_parts us seconds).
Proof.
  induction 1 as [|[name secs] rest [Hpos Hget] Hrest IH]; intros seconds Hs.
  - exists seconds. cbn. split; [lia|]. split; [reflexivity|].
    split; [|constructor]. intros Hex. inversion Hex.
  - cbn [snd fst] in *. cbn [human_parts].
    destruct (Z.leb_spec secs seconds) as [Hle|Hlt].
    + pose proof (Z.div_mod seconds secs ltac:(lia)) as Hdm.
      pose proof (Z.mod_pos_bound seconds secs Hpos) as Hm.
      destruct (IH (seconds mod secs) ltac:(lia)) as (r & Hr & Hsum & Hone & Hall).
      assert (Hq : 1 <= seconds / secs).
      { apply Z.div_le_lower_bound; lia. }
      exists r. cbn [map fst snd]. rewrite py_sum_cons, Hget.
      split; [lia|]. split; [lia|]. split.
      * intros Hex. inversion Hex as [? ? H1|? ? H1]; subst.
        -- cbn in *. lia.
        -- exact (Hone H1).
      * constructor; [exact Hq|exact Hall].
    + destruct (IH seconds Hs) as (r & Hr & Hsum & Hone & Hall).
      exists r. split; [lia|]. split; [exact Hsum|]. split; [|exact Hall].
      intros Hex. inversion Hex as [? ? H1|? ? H1]; subst.
      * cbn in *. lia.
      * exact (Hone H1).
Qed.

(** X9: what [seconds_to_human] prints.  A duration below one second,
    whole part taken, is printed as "0 seconds".  From one second on the
    text is made of the parts of the loop, the last one joined by "and" and
    the others by commas: there is at least one part, each unit is taken as
    often as it fits into what the larger units left, a part is printed
    only with a count of one or more, and the parts add up to the whole
    seconds of the duration, nothing being left over after the seconds. *)
Theorem seconds_to_human_parts_add_up (seconds : Q) :
  let whole := py_int seconds in
  (whole <= 0 -> seconds_to_human seconds = "0 seconds")
  /\ (1 <= whole ->
      let parts := human_parts units whole in
      parts <> []
      /\ Forall (fun part => 1 <= fst part) parts
      /\ py_sum (map (fun part => fst part * dict_get (snd part) 0 units)
                     parts) = whole
      /\ seconds_to_human seconds
         = match rev (map human_part parts) with
           | [] => ""
           | [part] => part
           | last_part :: front =>
               (String.concat ", " (rev front) ++ " and " ++ last_part)%string
           end).
Proof.
  intros whole. split.
  - intros Hs. unfold seconds_to_human. fold whole.
    assert (Hnone : human_parts units whole = []).
    { unfold units. cbn [human_parts].
      repeat match goal with
             | |- context [?a <=? whole] =>
                 destruct (Z.leb_spec a whole); [lia|]
             end.
      reflexivity. }
    rewrite Hnone. reflexivity.
  - intros Hs parts.
    destruct (human_parts_sum units units) with (seconds := whole)
      as (r & Hr & Hsum & Hone & Hall).
    { unfold units. repeat constructor. }
    { lia. }
    assert (r = 0) as ->.
    { apply Hone. unfold units. do 6 apply Exists_cons_tl.
      apply Exists_cons_hd. reflexivity. }
    fold parts in Hsum, Hall.
    assert (Hparts : parts <> []).
    { intros E. rewrite E in Hsum. cbn in Hsum. lia. }
    split; [exact Hparts|]. split; [exact Hall|]. split; [lia|].
    unfold seconds_to_human. fold whole. fold parts.
    destruct parts as [|part rest]; [contradiction|]. reflexivity.
Qed.

Lemma seconds_to_human_parts_add_up_witness :
  seconds_to_human 0 = "0 seconds"
  /\ seconds_to_human (-5 # 2) = "0 seconds"
  /\ human_parts units 90061
     = [(1, "day"); (1, "hour"); (1, "minute"); (1, "second")]
  /\ seconds_to_human (180123 # 2) = "1 day, 1 hour, 1 minute and 1 second"
  /\ py_sum (map (fun part => fst part * dict_get (snd part) 0 units)
                 (human_parts units 90061)) = 90061.
Proof.
  split; [exact (proj1 (seconds_to_human_parts_add_up 0) ltac:(vm_compute; discriminate))|].
  split; [exact (proj1 (seconds_to_human_parts_add_up (-5 # 2))
                   ltac:(vm_compute; discriminate))|].
  split; [reflexivity|].
  destruct (proj2 (seconds_to_human_parts_add_up (180123 # 2))
              ltac:(vm_compute; discriminate)) as (_ & _ & Hsum & Htext).
  split; [exact Htext|exact Hsum].
Defined.

(** ** The layout of a page of cards *)

Lemma fold_left_max_spec rest : forall x,
  x <= fold_left Z.max rest x
  /\ Forall (fun y => y <= fold_left Z.max rest x) rest
  /\ (fold_left Z.max rest x = x \/ In (fold_left Z.max rest x) rest).
Proof.
  induction rest as [|y rest IH]; intros x; cbn [fold_left].
  - split; [lia|]. split; [constructor|now left].
  - destruct (IH (Z.max x y)) as (H1 & H2 & H3).
    split; [lia|]. split; [constructor; [lia|exact H2]|].
    destruct H3 as [H3|H3]; [|right; right; exact H3].
    rewrite H3. destruct (Z.max_spec x y) as [[_ ->]|[_ ->]];
      [right; left; reflexivity|left; reflexivity].
Qed.

Lemma py_max_spec xs m :
  py_max xs = Ok m -> Forall (fun x => x <= m) xs /\ In m xs.
Proof.
  destruct xs as [|x rest]; [discriminate|]. cbn [py_max].
  intros H. injection H as <-.
  destruct (fold_left_max_spec rest x) as (H1 & H2 & H3).
  split; [constructor; assumption|].
  destruct H3 as [->|H3]; [now left|now right].
Qed.

(** The paste loop fills a grid row by row: the image of index [k] (counted
    from the state of the loop) goes to column [k mod cards_per_row] of row
    [k / cards_per_row]. *)
Lemma align_loop_grid cards_per_row width height :
  1 <= cards_per_row ->
  forall card_images row column,
  0 <= column <= cards_per_row ->
  align_loop cards_per_row width height card_images row column
  = Ok (map (fun k =>
               (width * ((row * cards_per_row + column + Z.of_nat k)
                         mod cards_per_row),
                height * ((row * cards_per_row + column + Z.of_nat k)
                          / cards_per_row)))
            (seq 0 (List.length card_images))).
Proof.
  intros Hc. induction card_images as [|image rest IH]; intros row column Hcol.
  - reflexivity.
  - cbn [align_loop List.length]. rewrite <- cons_seq, <- seq_shift.
    cbn [map]. rewrite map_map.
    assert (Hshift : forall r c r' c',
               r' * cards_per_row + c' = r * cards_per_row + c ->
               0 <= c' < cards_per_row ->
               0 <= c' + 1 <= cards_per_row ->
               match align_loop cards_per_row width height rest r' (c' + 1) with
               | Ok pasted => Ok ((width * c', height * r') :: pasted)
               | Raise e => Raise e
               end
               = Ok ((width * ((r * cards_per_row + c + Z.of_nat 0) mod cards_per_row),
                      height * ((r * cards_per_row + c + Z.of_nat 0) / cards_per_row))
                     :: map (fun k =>
                               (width * ((r * cards_per_row + c + Z.of_nat (S k))
                                         mod cards_per_row),
                                height * ((r * cards_per_row + c + Z.of_nat (S k))
                                          / cards_per_row)))
                            (seq 0 (List.length rest)))).
    { intros r c r' c' Heq Hc' Hc1. rewrite IH by exact Hc1.
      f_equal. f_equal.
      - f_equal.
        + f_equal. apply Z.mod_unique with (q := r'); [lia|].
          cbn [Z.of_nat]. lia.
        + f_equal. apply Z.div_unique with (r := c'); [lia|].
          cbn [Z.of_nat]. lia.
      - apply map_ext. intros k.
        replace (r' * cards_per_row + (c' + 1) + Z.of_nat k)
          with (r * cards_per_row + c + Z.of_nat (S k)) by lia.
        reflexivity. }
    destruct (Z.eqb_spec column 0) as [->|Hnz].
    + apply (Hshift row 0 row 0); lia.
    + destruct (Z.eqb_spec cards_per_row 0) as [->|_]; [lia|].
      destruct (Z.eqb_spec (column mod cards_per_row) 0) as [Hm|Hm].
      * assert (column = cards_per_row) as ->.
        { destruct (Z.eq_dec column cards_per_row) as [|Hne]; [assumption|].
          rewrite Z.mod_small in Hm by lia. lia. }
        apply (Hshift row cards_per_row (row + 1) 0); lia.
      * assert (column < cards_per_row).
        { destruct (Z.eq_dec column cards_per_row) as [->|Hne]; [|lia].
          rewrite Z.mod_same in Hm by lia. congruence. }
        apply (Hshift row column row column); lia.
Qed.

(** X10: [align_cards] lays the images out on a grid of cells as wide and
    as high as the largest image plus the offset, [cards_per_row] to a row,
    in the order of the list; every image lies inside the page, with the
    offset to spare, as long as an album is given no more than
    [cards_per_row] rows. *)
Theorem align_cards_fits_the_page card_images cards_per_row album pixel_offset :
  1 <= cards_per_row ->
  0 <= pixel_offset ->
  card_images <> [] ->
  Forall (fun image => 0 <= fst image /\ 0 <= snd image) card_images ->
  (album = true ->
   Z.of_nat (List.length card_images) <= cards_per_row * cards_per_row) ->
  exists page max_width max_height,
    align_cards card_images cards_per_row album pixel_offset = Ok page
    /\ py_max (map fst card_images) = Ok max_width
    /\ py_max (map snd card_images) = Ok max_height
    /\ pasted page
       = map (fun k =>
                ((max_width + pixel_offset) * (Z.of_nat k mod cards_per_row),
                 (max_height + pixel_offset) * (Z.of_nat k / cards_per_row)))
             (seq 0 (List.length card_images))
    /\ forall i image corner,
         nth_error card_images i = Some image ->
         nth_error (pasted page) i = Some corner ->
         0 <= fst corner
         /\ fst corner + fst image + pixel_offset <= page_width page
         /\ 0 <= snd corner
         /\ snd corner + snd image + pixel_offset <= page_height page.
Proof.
  intros Hc Hoff Hne Hsize Halbum.
  destruct (py_max (map fst card_images)) as [max_width|] eqn:Ew.
  2:{ destruct card_images; [congruence|discriminate]. }
  destruct (py_max (map snd card_images)) as [max_height|] eqn:Eh.
  2:{ destruct card_images; [congruence|discriminate]. }
  destruct (py_max_spec _ _ Ew) as [Hwle Hwin].
  destruct (py_max_spec _ _ Eh) as [Hhle Hhin].
  assert (Hw0 : 0 <= max_width).
  { apply in_map_iff in Hwin. destruct Hwin as (image & <- & Hin).
    rewrite Forall_forall in Hsize. apply (Hsize _ Hin). }
  assert (Hh0 : 0 <= max_height).
  { apply in_map_iff in Hhin. destruct Hhin as (image & <- & Hin).
    rewrite Forall_forall in Hsize. apply (Hsize _ Hin). }
  set (n := Z.of_nat (List.length card_images)).
  set (W := max_width + pixel_offset). set (H := max_height + pixel_offset).
  set (grid := map (fun k => (W * (Z.of_nat k mod cards_per_row),
                              H * (Z.of_nat k / cards_per_row)))
                   (seq 0 (List.length card_images))).
  assert (Hloop : align_loop cards_per_row W H card_images 0 0 = Ok grid).
  { rewrite align_loop_grid by lia. reflexivity. }
  assert (Hq : exists q, (- n) / cards_per_row = q
                         /\ cards_per_row * q <= - n).
  { eexists. split; [reflexivity|]. apply Z.mul_div_le. lia. }
  destruct Hq as (q & Eq & Hqle).
  assert (Hpage : exists pw ph,
             align_cards card_images cards_per_row album pixel_offset
             = Ok {| page_width := pw; page_height := ph; pasted := grid |}
             /\ (forall k, 0 <= k < n -> W * (k mod cards_per_row) + W <= pw)
             /\ (forall k, 0 <= k < n -> H * (k / cards_per_row) + H <= ph)).
  { unfold align_cards. rewrite Ew, Eh. fold W H n.
    destruct album.
    - rewrite Hloop. eexists _, _. split; [reflexivity|].
      specialize (Halbum eq_refl). fold n in Halbum.
      split; intros k Hk.
      + pose proof (Z.mod_pos_bound k cards_per_row ltac:(lia)). nia.
      + assert (k / cards_per_row < cards_per_row).
        { apply Z.div_lt_upper_bound; lia. }
        nia.
    - unfold ceil_div. destruct (Z.eqb_spec cards_per_row 0) as [|_]; [lia|].
      rewrite Z.mul_1_l, Eq, Hloop.
      eexists _, _. split; [reflexivity|]. split; intros k Hk.
      + pose proof (Z.mod_pos_bound k cards_per_row ltac:(lia)) as Hm.
        assert (Hmk : k mod cards_per_row <= k) by (apply Z.mod_le; lia).
        destruct (Z.ltb_spec (W * cards_per_row) (W * n)); nia.
      + pose proof (Z.mul_div_le k cards_per_row ltac:(lia)) as Hd.
        assert (k / cards_per_row < - q) by nia.
        nia. }
  destruct Hpage as (pw & ph & Hrun & Hx & Hy).
  eexists _, max_width, max_height.
  split; [exact Hrun|]. split; [reflexivity|]. split; [reflexivity|].
  split; [reflexivity|].
  cbn [pasted page_width page_height].
  intros i image corner Himage Hcorner.
  assert (Hi : (i < List.length card_images)%nat).
  { apply nth_error_Some. congruence. }
  unfold grid in Hcorner.
  rewrite nth_error_map, nth_error_seq in Hcorner.
  destruct (Nat.ltb_spec i (List.length card_images)) as [_|]; [|lia].
  cbn in Hcorner. injection Hcorner as <-. cbn [fst snd].
  assert (Hk : 0 <= Z.of_nat i < n) by (unfold n; lia).
  specialize (Hx _ Hk). specialize (Hy _ Hk).
  pose proof (Z.mod_pos_bound (Z.of_nat i) cards_per_row ltac:(lia)).
  assert (0 <= Z.of_nat i / cards_per_row) by (apply Z.div_pos; lia).
  assert (Hin : In image card_images) by (eapply nth_error_In; eassumption).
  assert (fst image <= max_width).
  { rewrite Forall_forall in Hwle. apply Hwle. now apply in_map. }
  assert (snd image <= max_height).
  { rewrite Forall_forall in Hhle. apply Hhle. now apply in_map. }
  unfold W, H in *. repeat split; nia.
Qed.

Lemma align_cards_fits_the_page_witness :
  exists page,
    align_cards [(10, 20); (10, 20); (10, 20); (10, 20)] 3 false 30 = Ok page
    /\ page = {| page_width := 120; page_height := 100;
                 pasted := [(0, 0); (40, 0); (80, 0); (0, 50)] |}
    /\ forall i image corner,
         nth_error [(10, 20); (10, 20); (10, 20); (10, 20)] i = Some image ->
         nth_error (pasted page) i = Some corner ->
         0 <= fst corner
         /\ fst corner + fst image + 30 <= page_width page
         /\ 0 <= snd corner
         /\ snd corner + snd image + 30 <= page_height page.
Proof.
  destruct (align_cards_fits_the_page
              [(10, 20); (10, 20); (10, 20); (10, 20)] 3 false 30)
    as (page & max_width & max_height & Hrun & _ & _ & _ & Hfit).
  - lia.
  - lia.
  - discriminate.
  - repeat constructor; cbn; lia.
  - discriminate.
  - exists page. split; [exact Hrun|]. split; [|exact Hfit].
    vm_compute in Hrun. injection Hrun as <-. reflexivity.
Defined.

(** ** Levels *)

Lemma py_int_halves (x : Q) (n : Z) :
  (x == n # 2)%Q -> 0 <= n -> py_int x = n / 2.
Proof.
  intros Hx Hn. unfold py_int.
  assert (Hpos : Qle_bool 0 x = true).
  { apply Qle_bool_iff. rewrite Hx. unfold Qle. simpl. lia. }
  rewrite Hpos, (Qfloor_comp _ _ Hx). reflexivity.
Qed.

Lemma calculate_exp_low level :
  level < 16 -> calculate_exp level = level * level + 42.
Proof.
  intros H. unfold calculate_exp.
  destruct (Z.ltb_spec level 16); [|lia]. rewrite Z.pow_2_r. lia.
Qed.

Lemma calculate_exp_mid level :
  16 <= level < 31 ->
  calculate_exp level = (5 * level * level - 81 * level + 720) / 2.
Proof.
  intros H. unfold calculate_exp.
  destruct (Z.ltb_spec level 16); [lia|].
  destruct (Z.ltb_spec level 31); [|lia].
  apply py_int_halves; [|nia].
  rewrite Z.pow_2_r.
  unfold Qeq, Qmult, Qplus, Qminus, Qopp, inject_Z. simpl. lia.
Qed.

Lemma calculate_exp_high level :
  31 <= level ->
  calculate_exp level = (9 * level * level - 325 * level + 4440) / 2.
Proof.
  intros H. unfold calculate_exp.
  destruct (Z.ltb_spec level 16); [lia|].
  destruct (Z.ltb_spec level 31); [lia|].
  apply py_int_halves; [|nia].
  rewrite Z.pow_2_r.
  unfold Qeq, Qmult, Qplus, Qminus, Qopp, inject_Z. simpl. lia.
Qed.

Lemma calculate_exp_min level : 42 <= calculate_exp level.
Proof.
  destruct (Z_lt_le_dec level 16) as [H|H].
  - rewrite calculate_exp_low by exact H. nia.
  - destruct (Z_lt_le_dec level 31) as [H1|H1].
    + rewrite calculate_exp_mid by lia. apply Z.div_le_lower_bound; nia.
    + rewrite calculate_exp_high by lia. apply Z.div_le_lower_bound; nia.
Qed.

(** X11: the experience a level asks for is 43 at level 1, the default of a
    new [levels] row, never below 42, and grows with every level: across
    the two seams of the formula (levels 15/16 and 30/31) too, and with the
    halves the second and third formula cut off. *)
Theorem calculate_exp_grows (level : Z) :
  0 <= level <= 1000000 ->
  calculate_exp 1 = 43
  /\ 42 <= calculate_exp level
  /\ calculate_exp level < calculate_exp (level + 1).
Proof.
  intros [H0 _]. split; [reflexivity|]. split; [apply calculate_exp_min|].
  destruct (Z_lt_le_dec level 15) as [H|H].
  - rewrite !calculate_exp_low by lia. nia.
  - destruct (Z.eq_dec level 15) as [->|Hne]; [vm_compute; reflexivity|].
    destruct (Z_lt_le_dec level 30) as [H1|H1].
    + rewrite !calculate_exp_mid by lia.
      apply Z.lt_le_trans
        with ((5 * level * level - 81 * level + 720 + 2) / 2).
      * replace (5 * level * level - 81 * level + 720 + 2)
          with (5 * level * level - 81 * level + 720 + 1 * 2) by lia.
        rewrite Z.div_add by lia. lia.
      * apply Z.div_le_mono; nia.
    + destruct (Z.eq_dec level 30) as [->|Hne']; [vm_compute; reflexivity|].
      rewrite !calculate_exp_high by lia.
      apply Z.lt_le_trans
        with ((9 * level * level - 325 * level + 4440 + 2) / 2).
      * replace (9 * level * level - 325 * level + 4440 + 2)
          with (9 * level * level - 325 * level + 4440 + 1 * 2) by lia.
        rewrite Z.div_add by lia. lia.
      * apply Z.div_le_mono; nia.
Qed.

Lemma calculate_exp_grows_witness :
  0 <= 30 <= 1000000
  /\ calculate_exp 1 = 43
  /\ 42 <= calculate_exp 30
  /\ calculate_exp 30 < calculate_exp 31.
Proof.
  split; [lia|]. exact (calculate_exp_grows 30 ltac:(lia)).
Defined.

Lemma add_exp_loop_exit fuel s :
  current_exp s < max_exp s -> add_exp_loop fuel s = Some s.
Proof.
  intros H. destruct fuel; cbn [add_exp_loop];
    destruct (Z.ltb_spec (current_exp s) (max_exp s)); (reflexivity || lia).
Qed.

Lemma thresholds_step level n :
  thresholds level (S n) = calculate_exp level + thresholds (level + 1) n.
Proof.
  unfold thresholds. rewrite <- cons_seq, <- seq_shift. cbn [map].
  rewrite py_sum_cons, map_map. rewrite Z.add_0_r. f_equal. f_equal.
  apply map_ext. intros k. f_equal. lia.
Qed.

Lemma add_exp_loop_spec fuel : forall s,
  current_level s <= max_level ->
  (S (Z.to_nat ((current_exp s - max_exp s) / 42)) < fuel)%nat ->
  exists s', add_exp_loop fuel s = Some s' /\ levelled s s'.
Proof.
  induction fuel as [|fuel IH]; intros s Hlevel Hfuel; [lia|].
  destruct (Z_lt_le_dec (current_exp s) (max_exp s)) as [Hlt|Hge].
  { exists s. split; [apply add_exp_loop_exit; exact Hlt|left; split; [reflexivity|exact Hlt]]. }
  cbn [add_exp_loop].
  destruct (Z.ltb_spec (current_exp s) (max_exp s)) as [|_]; [lia|].
  unfold max_level in *.
  destruct (Z.ltb_spec (current_level s) 100) as [Hbelow|Hat].
  2:{ assert (Hl : current_level s = 100) by lia. rewrite Hl.
      change (100 =? 100) with true. cbv iota.
      eexists. split; [reflexivity|]. right; right.
      cbn [current_exp current_level max_exp]. unfold max_level.
      repeat split; lia. }
  destruct (Z.eqb_spec (current_level s + 1) 100) as [Hcap|Hnocap].
  { eexists. split; [reflexivity|]. right; right.
    cbn [current_exp current_level max_exp]. unfold max_level.
    rewrite Hcap. repeat split; lia. }
  set (s1 := {| current_exp := current_exp s - max_exp s;
                current_level := current_level s + 1;
                max_exp := calculate_exp (current_level s + 1) |}).
  pose proof (calculate_exp_min (current_level s + 1)) as Hmin.
  destruct (Z_lt_le_dec (current_exp s1) (max_exp s1)) as [Hlt1|Hge1].
  - exists s1. split; [apply add_exp_loop_exit; exact Hlt1|].
    right; left. unfold s1 in *.
    cbn [current_exp current_level max_exp] in *.
    replace (current_level s + 1 - current_level s - 1) with 0 by lia.
    change (thresholds (current_level s + 1) (Z.to_nat 0)) with 0.
    unfold max_level. repeat split; lia.
  - destruct (IH s1) as (s' & Hrun & Hout).
    + unfold s1. cbn [current_level]. lia.
    + unfold s1 in *. cbn [current_exp current_level max_exp] in *.
      assert (H1 : (current_exp s - max_exp s
                    - calculate_exp (current_level s + 1)) / 42
                   <= (current_exp s - max_exp s) / 42 - 1).
      { replace ((current_exp s - max_exp s) / 42 - 1)
          with ((current_exp s - max_exp s - 1 * 42) / 42).
        - apply Z.div_le_mono; lia.
        - replace (current_exp s - max_exp s - 1 * 42)
            with (current_exp s - max_exp s + (-1) * 42) by lia.
          rewrite Z.div_add by lia. lia. }
      assert (H2 : 1 <= (current_exp s - max_exp s) / 42).
      { apply Z.div_le_lower_bound; lia. }
      lia.
    + exists s'. split; [exact Hrun|].
      destruct Hout as [[-> Hlt]|[(Hl & Hm & He & Hsum)|(Hl & He & Hm & _)]].
      * unfold s1 in *. cbn [current_exp current_level max_exp] in *. lia.
      * right; left. unfold s1, max_level in *.
        cbn [current_exp current_level max_exp] in *.
        split; [lia|]. split; [exact Hm|]. split; [exact He|].
        replace (Z.to_nat (current_level s' - current_level s - 1))
          with (S (Z.to_nat (current_level s' - (current_level s + 1) - 1)))
          by lia.
        rewrite thresholds_step. lia.
      * right; right. repeat split; assumption.
Qed.

(** A row above the cap, as [set_current_level] can write it, keeps its
    level: the loop takes the threshold of that level off the experience
    until the rest is below it. *)
Lemma add_exp_loop_above fuel : forall s,
  max_level < current_level s ->
  (S (Z.to_nat ((current_exp s - max_exp s) / 42)) < fuel)%nat ->
  exists s',
    add_exp_loop fuel s = Some s'
    /\ current_level s' = current_level s
    /\ ((s' = s /\ current_exp s < max_exp s)
        \/ (max_exp s' = calculate_exp (current_level s)
            /\ 0 <= current_exp s' < max_exp s'
            /\ exists n,
                 0 <= n
                 /\ current_exp s
                    = current_exp s' + max_exp s
                      + n * calculate_exp (current_level s))).
Proof.
  induction fuel as [|fuel IH]; intros s Hlevel Hfuel; [lia|].
  destruct (Z_lt_le_dec (current_exp s) (max_exp s)) as [Hlt|Hge].
  { exists s. split; [apply add_exp_loop_exit; exact Hlt|].
    split; [reflexivity|]. left. split; [reflexivity|exact Hlt]. }
  cbn [add_exp_loop].
  destruct (Z.ltb_spec (current_exp s) (max_exp s)) as [|_]; [lia|].
  unfold max_level in *.
  destruct (Z.ltb_spec (current_level s) 100) as [|_]; [lia|].
  destruct (Z.eqb_spec (current_level s) 100) as [|_]; [lia|].
  set (s1 := {| current_exp := current_exp s - max_exp s;
                current_level := current_level s;
                max_exp := calculate_exp (current_level s) |}).
  pose proof (calculate_exp_min (current_level s)) as Hmin.
  destruct (Z_lt_le_dec (current_exp s1) (max_exp s1)) as [Hlt1|Hge1].
  - exists s1. split; [apply add_exp_loop_exit; exact Hlt1|].
    split; [reflexivity|]. right. unfold s1 in *.
    cbn [current_exp current_level max_exp] in *.
    split; [reflexivity|]. split; [lia|]. exists 0. lia.
  - destruct (IH s1) as (s' & Hrun & Hl & Hout).
    + exact Hlevel.
    + unfold s1 in *. cbn [current_exp current_level max_exp] in *.
      assert (H1 : (current_exp s - max_exp s
                    - calculate_exp (current_level s)) / 42
                   <= (current_exp s - max_exp s) / 42 - 1).
      { replace ((current_exp s - max_exp s) / 42 - 1)
          with ((current_exp s - max_exp s - 1 * 42) / 42).
        - apply Z.div_le_mono; lia.
        - replace (current_exp s - max_exp s - 1 * 42)
            with (current_exp s - max_exp s + (-1) * 42) by lia.
          rewrite Z.div_add by lia. lia. }
      assert (H2 : 1 <= (current_exp s - max_exp s) / 42).
      { apply Z.div_le_lower_bound; lia. }
      lia.
    + exists s'. split; [exact Hrun|]. split; [exact Hl|]. right.
      destruct Hout as [[-> Hlt]|(Hm & He & n & Hn & Hsum)];
        unfold s1 in *; cbn [current_exp current_level max_exp] in *;
        [lia|].
      split; [exact Hm|]. split; [exact He|]. exists (n + 1). lia.
Qed.

(** More rounds than the loop takes change nothing. *)
Lemma add_exp_loop_more fuel : forall s s' fuel',
  add_exp_loop fuel s = Some s' ->
  (fuel <= fuel')%nat ->
  add_exp_loop fuel' s = Some s'.
Proof.
  induction fuel as [|fuel IH]; intros s s' fuel' Hrun Hle.
  - cbn [add_exp_loop] in Hrun.
    destruct (Z.ltb_spec (current_exp s) (max_exp s)) as [Hlt|_];
      [|discriminate].
    injection Hrun as <-. apply add_exp_loop_exit. exact Hlt.
  - destruct fuel' as [|fuel']; [lia|]. cbn [add_exp_loop] in Hrun |- *.
    destruct (current_exp s <? max_exp s); [exact Hrun|].
    destruct (_ =? max_level); [exact Hrun|].
    apply IH; [exact Hrun|lia].
Qed.

(** The rounds [add_exp] gives its loop suffice for every row. *)
Lemma add_exp_is_total (member : Member) (exp : Z) (s : Progress) :
  exists s',
    add_exp member exp s
    = Some (if has_minimum_patreon_role member PatreonRole.uncommon
            then exp * 2 else exp, s').
Proof.
  unfold add_exp.
  set (s0 := {| current_exp := _; current_level := _; max_exp := _ |}).
  destruct (Z_le_gt_dec (current_level s0) max_level) as [Hl|Hl].
  - destruct (add_exp_loop_spec (add_exp_rounds s0) s0 Hl)
      as (s' & -> & _); [unfold add_exp_rounds; lia|].
    exists s'. reflexivity.
  - destruct (add_exp_loop_above (add_exp_rounds s0) s0 ltac:(lia))
      as (s' & -> & _); [unfold add_exp_rounds; lia|].
    exists s'. reflexivity.
Qed.

(** X12: [Level.add_exp] comes to an end on every row, whatever rounds
    beyond its own the loop is allowed, and gives a patron of the second
    tier or above twice the experience.  Adding the experience to a row at
    or below the cap of 100 leaves it unchanged when it stays below its
    threshold; else it moves the row some levels up, taking every threshold
    passed off the experience, so that none is lost or made up and the rest
    is below the new threshold; or it pins the row at the cap.  The level
    never falls and never passes the cap.  A row above the cap keeps its
    level: the threshold of that level is taken off the experience, after
    the stored one, until the rest is below it. *)
Theorem add_exp_levels_up (member : Member) (exp : Z) (s : Progress) :
  let gained :=
    if has_minimum_patreon_role member PatreonRole.uncommon then exp * 2
    else exp in
  let s0 := {| current_exp := current_exp s + gained;
               current_level := current_level s;
               max_exp := max_exp s |} in
  exists s',
    add_exp member exp s = Some (gained, s')
    /\ (forall fuel,
          (add_exp_rounds s0 <= fuel)%nat -> add_exp_loop fuel s0 = Some s')
    /\ (current_level s <= max_level ->
        levelled s0 s'
        /\ current_level s <= current_level s' <= max_level)
    /\ (max_level < current_level s ->
        current_level s' = current_level s
        /\ ((s' = s0 /\ current_exp s0 < max_exp s0)
            \/ (max_exp s' = calculate_exp (current_level s)
                /\ 0 <= current_exp s' < max_exp s'
                /\ exists n,
                     0 <= n
                     /\ current_exp s0
                        = current_exp s' + max_exp s
                          + n * calculate_exp (current_level s)))).
Proof.
  intros gained s0. unfold add_exp. fold gained. fold s0.
  destruct (Z_le_gt_dec (current_level s) max_level) as [Hlevel|Hlevel].
  - destruct (add_exp_loop_spec (add_exp_rounds s0) s0) as (s' & Hrun & Hout).
    + exact Hlevel.
    + unfold add_exp_rounds. lia.
    + exists s'. rewrite Hrun. split; [reflexivity|].
      split; [intros fuel; apply add_exp_loop_more; exact Hrun|].
      split; [|lia]. intros _. split; [exact Hout|].
      destruct Hout as [[-> _]|[(Hl & _)|(Hl & _)]]; unfold s0, max_level in *;
        cbn [current_exp current_level max_exp] in *; lia.
  - destruct (add_exp_loop_above (add_exp_rounds s0) s0)
      as (s' & Hrun & Hl & Hout).
    + cbn [s0 current_level]. lia.
    + unfold add_exp_rounds. lia.
    + exists s'. rewrite Hrun. split; [reflexivity|].
      split; [intros fuel; apply add_exp_loop_more; exact Hrun|].
      split; [lia|]. intros _. split; [exact Hl|exact Hout].
Qed.

Lemma add_exp_levels_up_witness :
  (exists s',
     add_exp plain_member 500
       {| current_exp := 0; current_level := 1; max_exp := 43 |}
     = Some (500, s')
     /\ s' = {| current_exp := 66; current_level := 8; max_exp := 106 |}
     /\ levelled {| current_exp := 500; current_level := 1; max_exp := 43 |} s')
  /\ exists s',
       add_exp plain_member 50000
         {| current_exp := 0; current_level := 101; max_exp := 0 |}
       = Some (50000, s')
       /\ s' = {| current_exp := 18288; current_level := 101;
                  max_exp := 31712 |}.
Proof.
  split.
  - destruct (add_exp_levels_up plain_member 500
                {| current_exp := 0; current_level := 1; max_exp := 43 |})
      as (s' & Hrun & _ & Hout & _).
    exists s'. split; [exact Hrun|]. split.
    + vm_compute in Hrun. injection Hrun as <-. reflexivity.
    + apply Hout. vm_compute. discriminate.
  - destruct (add_exp_levels_up plain_member 50000
                {| current_exp := 0; current_level := 101; max_exp := 0 |})
      as (s' & Hrun & _).
    exists s'. split; [exact Hrun|].
    vm_compute in Hrun. injection Hrun as <-. reflexivity.
Defined.

(** ** The gateway: inserting, looking up, deleting *)

Lemma owns_item_users d1 d2 user_id item row :
  users d1 = users d2 ->
  owns_item d1 user_id item row = owns_item d2 user_id item row.
Proof. intros H. unfold owns_item, select_user_pk. rewrite H. reflexivity. Qed.

Lemma filter_all {A} (f : A -> bool) l :
  Forall (fun x => f x = true) l -> filter f l = l.
Proof.
  induction 1 as [|x l Hx _ IH]; [reflexivity|]. cbn. rewrite Hx, IH. reflexivity.
Qed.

Lemma filter_none {A} (f : A -> bool) l :
  Forall (fun x => f x = false) l -> filter f l = [].
Proof.
  induction 1 as [|x l Hx _ IH]; [reflexivity|]. cbn. rewrite Hx, IH. reflexivity.
Qed.

Lemma map_id_ext {A} (f : A -> A) l :
  Forall (fun x => f x = x) l -> map f l = l.
Proof.
  induction 1 as [|x l Hx _ IH]; [reflexivity|]. cbn. rewrite Hx, IH. reflexivity.
Qed.

Lemma existsb_false_Forall {A} (f : A -> bool) l :
  existsb f l = false -> Forall (fun x => f x = false) l.
Proof.
  induction l as [|x l IH]; [constructor|]. cbn.
  intros H. apply orb_false_iff in H. destruct H. constructor; auto.
Qed.

Lemma get_item_first d user_id item :
  get_item d user_id item
  = match filter (owns_item d user_id item) (inventory d) with
    | row :: _ => Some row
    | [] => None
    end.
Proof. reflexivity. Qed.

Lemma amount_of_add_item (d : Database) (user_id : Z) (item : Item.t)
    (amount pk : Z) :
  select_user_pk d user_id = Some pk ->
  amount_of (add_item d user_id item amount) user_id item
  = amount_of d user_id item + amount.
Proof.
  intros Hpk.
  assert (Husers : users (add_item d user_id item amount) = users d).
  { unfold add_item. rewrite Hpk. reflexivity. }
  assert (Hown : forall row,
             owns_item (add_item d user_id item amount) user_id item row
             = owns_item d user_id item row).
  { intros row. apply owns_item_users. exact Husers. }
  unfold amount_of. rewrite !get_item_first.
  rewrite (filter_ext _ _ Hown).
  unfold add_item. rewrite Hpk. cbn [inventory].
  destruct (existsb (owns_item d user_id item) (inventory d)) eqn:Eex.
  - induction (inventory d) as [|row rest IH]; [discriminate|].
    cbn [existsb] in Eex. cbn [map filter].
    destruct (owns_item d user_id item row) eqn:Erow.
    + assert (Erow' : owns_item d user_id item
                        {| it_id := it_id row; it_owner_id := it_owner_id row;
                           it_item := it_item row;
                           it_amount := it_amount row + amount |} = true)
        by exact Erow.
      rewrite Erow'. reflexivity.
    + rewrite Erow. apply IH. exact Eex.
  - rewrite filter_app.
    rewrite (filter_none _ _ (existsb_false_Forall _ _ Eex)).
    cbn [filter app]. unfold owns_item at 1. cbn [it_item it_owner_id].
    rewrite Hpk, Z.eqb_refl, bool_decide_eq_true_2 by reflexivity.
    cbn [andb it_amount]. lia.
Qed.

(** X13: what [add_item] puts into an inventory, [get_item] finds: the
    amount of the item a registered user holds grows by the amount added.
    In an inventory without empty rows, removing the amount again gives
    back the database as it was: the row added for a first item is deleted,
    an existing row returns to its amount, and no other row is touched. *)
Theorem item_add_lookup_remove (d : Database) (user_id : Z) (item : Item.t)
    (amount pk : Z) :
  select_user_pk d user_id = Some pk ->
  stocked d ->
  amount_of (add_item d user_id item amount) user_id item
  = amount_of d user_id item + amount
  /\ remove_item (add_item d user_id item amount) user_id item amount = d.
Proof.
  intros Hpk Hstock.
  assert (Husers : users (add_item d user_id item amount) = users d).
  { unfold add_item. rewrite Hpk. reflexivity. }
  assert (Hown : forall row,
             owns_item (add_item d user_id item amount) user_id item row
             = owns_item d user_id item row).
  { intros row. apply owns_item_users. exact Husers. }
  unfold stocked in Hstock.
  split; [eapply amount_of_add_item; eassumption|].
  unfold remove_item. rewrite Husers.
  rewrite (map_ext _ _ (fun row =>
             f_equal (fun b : bool => if b then _ else row) (Hown row))).
  unfold add_item. rewrite Hpk. cbn [levels cards inventory].
  destruct (existsb (owns_item d user_id item) (inventory d)) eqn:Eex.
  + rewrite map_map.
    rewrite map_id_ext.
    * rewrite filter_all; [destruct d; reflexivity|].
      eapply Forall_impl; [|exact Hstock]. cbn. intros row Hrow.
      destruct (Z.ltb_spec (it_amount row) 1); [lia|reflexivity].
    * apply Forall_forall. intros row _.
      destruct (owns_item d user_id item row) eqn:Erow.
      -- assert (Erow' : owns_item d user_id item
                           {| it_id := it_id row; it_owner_id := it_owner_id row;
                              it_item := it_item row;
                              it_amount := it_amount row + amount |} = true)
           by exact Erow.
         rewrite Erow'. cbn [it_id it_owner_id it_item it_amount].
         destruct row as [i o t a]. cbn. f_equal. lia.
      -- rewrite Erow. reflexivity.
  + rewrite map_app, filter_app. cbn [map].
    rewrite map_id_ext.
    * rewrite filter_all.
      -- unfold owns_item at 1. cbn [it_item it_owner_id].
         rewrite Hpk, Z.eqb_refl, bool_decide_eq_true_2 by reflexivity.
         cbn [andb it_amount filter].
         replace (amount - amount <? 1) with true
           by (symmetry; apply Z.ltb_lt; lia).
         cbn [negb]. rewrite app_nil_r. destruct d; reflexivity.
      -- eapply Forall_impl; [|exact Hstock]. cbn. intros row Hrow.
         destruct (Z.ltb_spec (it_amount row) 1); [lia|reflexivity].
    * eapply Forall_impl; [|exact (existsb_false_Forall _ _ Eex)].
      cbn. intros row ->. reflexivity.
Qed.

Lemma item_add_lookup_remove_witness :
  select_user_pk craft_db 7 = Some 1
  /\ stocked craft_db
  /\ amount_of (add_item craft_db 7 Item.fusion_crystal 2) 7 Item.fusion_crystal
     = 3
  /\ remove_item (add_item craft_db 7 Item.fusion_crystal 2) 7
       Item.fusion_crystal 2 = craft_db.
Proof.
  assert (Hstock : stocked craft_db).
  { unfold stocked, craft_db. cbn [inventory].
    constructor; [cbn; lia|constructor]. }
  split; [reflexivity|]. split; [exact Hstock|].
  exact (item_add_lookup_remove craft_db 7 Item.fusion_crystal 2 1 eq_refl Hstock).
Defined.

Lemma get_card_first d card_id :
  get_card d card_id
  = match filter (fun c => String.eqb (ct_card_id c) card_id) (cards d) with
    | c :: _ => Some c
    | [] => None
    end.
Proof. reflexivity. Qed.

Lemma get_card_None d card_id :
  get_card d card_id = None ->
  Forall (fun c => String.eqb (ct_card_id c) card_id = false) (cards d).
Proof.
  rewrite get_card_first.
  induction (cards d) as [|c rest IH]; [constructor|].
  cbn [filter]. destruct (String.eqb (ct_card_id c) card_id) eqn:E; [discriminate|].
  intros H. constructor; [exact E|exact (IH H)].
Qed.

Lemma existsb_filter {A} (f : A -> bool) l :
  existsb f l = match filter f l with [] => false | _ => true end.
Proof.
  induction l as [|x l IH]; [reflexivity|]. cbn [existsb filter].
  destruct (f x); [reflexivity|exact IH].
Qed.

(** The primary key of [cards]: the insert goes through on a fresh id and
    raises on an id the table holds. *)
Lemma add_card_fresh d card_table :
  get_card d (ct_card_id card_table) = None ->
  add_card d card_table
  = Ok {| users := users d; levels := levels d; inventory := inventory d;
          cards := cards d ++
            [{| ct_card_id := ct_card_id card_table;
                ct_owner_id := ct_owner_id card_table;
                ct_rarity := ct_rarity card_table;
                ct_condition := ct_condition card_table;
                ct_special_rarity := ct_special_rarity card_table;
                ct_character_name := ct_character_name card_table;
                ct_created_at := ct_created_at card_table;
                ct_has_sleeve := false;
                ct_locked := false |}] |}.
Proof.
  intros H. unfold add_card. rewrite existsb_filter.
  rewrite get_card_first in H.
  destruct (filter _ (cards d)); [reflexivity|discriminate].
Qed.

Lemma add_card_taken d card_table c :
  get_card d (ct_card_id card_table) = Some c ->
  add_card d card_table = Raise UniqueViolationError.
Proof.
  intros H. unfold add_card. rewrite existsb_filter.
  rewrite get_card_first in H.
  destruct (filter _ (cards d)); [discriminate|reflexivity].
Qed.

(** X14: a card added under an id no card has is stored, and found again
    under that id with the [has_sleeve] and [locked] flags cleared whatever
    the given row says (the statement lists no column for them); looking up
    any other id is not affected, and deleting the id gives back the
    database as it was.  A second insert under the id raises, the id being
    the primary key. *)
Theorem card_insert_lookup_delete (d : Database) (card_table : CardTable) :
  get_card d (ct_card_id card_table) = None ->
  exists d',
    add_card d card_table = Ok d'
    /\ get_card d' (ct_card_id card_table)
       = Some {| ct_card_id := ct_card_id card_table;
                 ct_owner_id := ct_owner_id card_table;
                 ct_rarity := ct_rarity card_table;
                 ct_condition := ct_condition card_table;
                 ct_special_rarity := ct_special_rarity card_table;
                 ct_character_name := ct_character_name card_table;
                 ct_created_at := ct_created_at card_table;
                 ct_has_sleeve := false;
                 ct_locked := false |}
    /\ (forall other,
          other <> ct_card_id card_table ->
          get_card d' other = get_card d other)
    /\ delete_card d' (ct_card_id card_table) = d
    /\ (forall again,
          ct_card_id again = ct_card_id card_table ->
          add_card d' again = Raise UniqueViolationError).
Proof.
  intros Hnew. pose proof (get_card_None _ _ Hnew) as Hall.
  eexists. split; [apply add_card_fresh; exact Hnew|].
  assert (Hget : forall d0,
            cards d0 = cards d ++
              [{| ct_card_id := ct_card_id card_table;
                  ct_owner_id := ct_owner_id card_table;
                  ct_rarity := ct_rarity card_table;
                  ct_condition := ct_condition card_table;
                  ct_special_rarity := ct_special_rarity card_table;
                  ct_character_name := ct_character_name card_table;
                  ct_created_at := ct_created_at card_table;
                  ct_has_sleeve := false;
                  ct_locked := false |}] ->
            get_card d0 (ct_card_id card_table)
            = Some {| ct_card_id := ct_card_id card_table;
                      ct_owner_id := ct_owner_id card_table;
                      ct_rarity := ct_rarity card_table;
                      ct_condition := ct_condition card_table;
                      ct_special_rarity := ct_special_rarity card_table;
                      ct_character_name := ct_character_name card_table;
                      ct_created_at := ct_created_at card_table;
                      ct_has_sleeve := false;
                      ct_locked := false |}).
  { intros d0 E. rewrite get_card_first, E.
    rewrite filter_app, (filter_none _ _ Hall). cbn [filter app ct_card_id].
    rewrite String.eqb_refl. reflexivity. }
  split; [apply Hget; reflexivity|]. split; [|split].
  - intros other Hother. rewrite !get_card_first. cbn [cards].
    rewrite filter_app. cbn [filter ct_card_id].
    destruct (String.eqb_spec (ct_card_id card_table) other) as [E|_];
      [congruence|].
    rewrite app_nil_r. reflexivity.
  - unfold delete_card. cbn [users levels inventory cards].
    rewrite filter_app. cbn [filter ct_card_id].
    rewrite String.eqb_refl. cbn [negb]. rewrite app_nil_r.
    rewrite filter_all; [destruct d; reflexivity|].
    eapply Forall_impl; [|exact Hall]. cbn. intros c ->. reflexivity.
  - intros again Hid. eapply add_card_taken. rewrite Hid.
    apply Hget. reflexivity.
Qed.

Lemma card_insert_lookup_delete_witness :
  get_card craft_db "new001" = None
  /\ exists d',
       add_card craft_db (bob_card "new001") = Ok d'
       /\ get_card d' "new001" = Some (bob_card "new001")
       /\ delete_card d' "new001" = craft_db
       /\ add_card d' (bob_card "new001") = Raise UniqueViolationError.
Proof.
  split; [reflexivity|].
  destruct (card_insert_lookup_delete craft_db (bob_card "new001") eq_refl)
    as (d' & Hadd & Hget & _ & Hdel & Hagain).
  exists d'. split; [exact Hadd|]. split; [exact Hget|].
  split; [exact Hdel|]. apply Hagain. reflexivity.
Defined.

Lemma select_user_pk_get_table d user_id :
  select_user_pk d user_id
  = match get_table d user_id with Some row => Some (ut_id row) | None => None end.
Proof.
  unfold select_user_pk, get_table. destruct (filter _ (users d)); reflexivity.
Qed.

(** X15: [register] creates the rows of an unknown user and returns the key:
    the [users] row, and the [levels] row with no experience, level 1 and
    the threshold 43.  For a known user it writes nothing and returns the
    key of the row.  Either way the user is registered afterwards under the
    key returned, and registering again changes nothing and returns the
    same key.  The inventory and the cards are never touched. *)
Theorem register_is_idempotent (d : Database) (user_id now0 now1 : Z) :
  let '(d1, pk) := register d user_id now0 in
  (exists row,
     get_table d1 user_id = Some row /\ ut_id row = pk
     /\ ut_user_id row = user_id)
  /\ register d1 user_id now1 = (d1, pk)
  /\ (get_table d user_id <> None -> d1 = d)
  /\ (get_table d user_id = None ->
      levels d1
      = levels d ++ [{| lt_user_id := pk; lt_current_exp := 0;
                        lt_current_level := 1; lt_max_exp := 43 |}]
      /\ exists row, levels_get_table d1 user_id = Some row)
  /\ inventory d1 = inventory d /\ cards d1 = cards d.
Proof.
  assert (Hfound : forall d0 row,
             get_table d0 user_id = Some row -> ut_user_id row = user_id).
  { intros d0 row. unfold get_table.
    induction (users d0) as [|u rest IH]; [discriminate|].
    cbn [filter]. destruct (Z.eqb_spec (ut_user_id u) user_id) as [E|_].
    - intros H. injection H as <-. exact E.
    - exact IH. }
  unfold register at 1.
  destruct (get_table d user_id) as [row|] eqn:Eget.
  - split; [exists row; split; [exact Eget|]; split;
            [reflexivity|eapply Hfound; eassumption]|].
    split; [unfold register; rewrite Eget; reflexivity|].
    split; [reflexivity|]. split; [discriminate|]. split; reflexivity.
  - set (pk := 1 + fold_right Z.max 0 (map ut_id (users d))).
    set (new_row := {| ut_id := pk; ut_user_id := user_id; ut_silver := 0;
                       ut_star := 0; ut_gem := 0; ut_voucher := 0;
                       ut_registered_at := now0; ut_backpack_level := 1 |}).
    set (new_level := {| lt_user_id := pk; lt_current_exp := 0;
                         lt_current_level := 1; lt_max_exp := 43 |}).
    set (d1 := {| users := users d ++ [new_row];
                  levels := levels d ++ [new_level];
                  inventory := inventory d; cards := cards d |}).
    assert (Hget1 : get_table d1 user_id = Some new_row).
    { unfold get_table in Eget |- *. cbn [users d1]. rewrite filter_app.
      destruct (filter _ (users d)); [|discriminate].
      cbn [app filter new_row ut_user_id]. rewrite Z.eqb_refl. reflexivity. }
    split; [exists new_row; split; [exact Hget1|]; split; reflexivity|].
    split; [unfold register; rewrite Hget1; reflexivity|].
    split; [congruence|]. split; [|split; reflexivity].
    intros _. split; [reflexivity|].
    unfold levels_get_table. rewrite select_user_pk_get_table, Hget1.
    cbn [ut_id new_row levels d1]. rewrite filter_app.
    cbn [filter new_level lt_user_id]. rewrite Z.eqb_refl.
    destruct (filter _ (levels d)) as [|l rest]; eexists; reflexivity.
Qed.

Lemma NoDup_map_first {A B} `{EqDecision B} (key : A -> B) (l : list A) x :
  NoDup (map key l) -> In x l ->
  filter (fun y => bool_decide (key y = key x)) l = [x].
Proof.
  induction l as [|y l IH]; intros Hnd Hin; [destruct Hin|].
  cbn [map] in Hnd. apply NoDup_cons_iff in Hnd. destruct Hnd as [Hnotin Hnd].
  cbn [filter]. destruct Hin as [->|Hin].
  - rewrite bool_decide_eq_true_2 by reflexivity. f_equal.
    apply filter_none. apply Forall_forall. intros z Hz.
    apply bool_decide_eq_false_2. intros E. apply Hnotin. rewrite <- E.
    now apply in_map.
  - rewrite bool_decide_eq_false_2.
    + apply IH; assumption.
    + intros E. apply Hnotin. rewrite E. now apply in_map.
Qed.

Lemma get_card_In d card_id c :
  get_card d card_id = Some c -> In c (cards d) /\ ct_card_id c = card_id.
Proof.
  rewrite get_card_first.
  destruct (filter _ (cards d)) as [|c0 rest] eqn:E; [discriminate|].
  intros H. injection H as <-.
  assert (Hin : In c0 (filter (fun c => String.eqb (ct_card_id c) card_id) (cards d)))
    by (rewrite E; now left).
  apply filter_In in Hin. destruct Hin as [Hin Heq].
  split; [exact Hin|]. now apply String.eqb_eq.
Qed.

Lemma get_card_unique d card_id c :
  unique_cards d -> In c (cards d) -> ct_card_id c = card_id ->
  get_card d card_id = Some c.
Proof.
  intros Hu Hin <-. rewrite get_card_first.
  pose proof (NoDup_map_first ct_card_id (cards d) c Hu Hin) as H.
  erewrite filter_ext; [rewrite H; reflexivity|].
  intros y. cbn.
  destruct (String.eqb_spec (ct_card_id y) (ct_card_id c)) as [E|E].
  - symmetry. now apply bool_decide_eq_true_2.
  - symmetry. now apply bool_decide_eq_false_2.
Qed.

(** X16: [change_card_owner] hands a card over only when the user the
    gateway was opened for owns it: asked for somebody else's card, or for
    an id no card has, it leaves the database as it is.  Asked for a card
    of the user, it changes the owner of that card and nothing else. *)
Theorem change_card_owner_needs_ownership (d : Database) (user_id : Z)
    (card_id : string) (new_owner_id : Z) :
  (Forall (fun c => ct_card_id c = card_id -> owned_by d user_id c = false)
          (cards d) ->
   change_card_owner d user_id card_id new_owner_id = d)
  /\ (unique_cards d ->
      forall c,
        get_card d card_id = Some c ->
        owned_by d user_id c = true ->
        get_card (change_card_owner d user_id card_id new_owner_id) card_id
        = Some {| ct_card_id := ct_card_id c; ct_owner_id := new_owner_id;
                  ct_rarity := ct_rarity c; ct_condition := ct_condition c;
                  ct_special_rarity := ct_special_rarity c;
                  ct_character_name := ct_character_name c;
                  ct_created_at := ct_created_at c;
                  ct_has_sleeve := ct_has_sleeve c;
                  ct_locked := ct_locked c |}
        /\ forall other,
             other <> card_id ->
             get_card (change_card_owner d user_id card_id new_owner_id) other
             = get_card d other).
Proof.
  split.
  - intros Hall. unfold change_card_owner.
    rewrite map_id_ext; [destruct d; reflexivity|].
    eapply Forall_impl; [|exact Hall]. cbn. intros c Hc.
    destruct (String.eqb_spec (ct_card_id c) card_id) as [E|_]; [|reflexivity].
    rewrite (Hc E). reflexivity.
  - intros Hu c Hget Hown.
    destruct (get_card_In _ _ _ Hget) as [Hin Hid].
    assert (Hother : forall other,
               other <> card_id ->
               get_card (change_card_owner d user_id card_id new_owner_id) other
               = get_card d other).
    { clear Hin Hget. intros other Hne. rewrite !get_card_first.
      unfold change_card_owner. cbn [cards].
      induction (cards d) as [|y rest IH]; [reflexivity|].
      cbn [map filter].
      destruct (String.eqb_spec (ct_card_id y) card_id) as [E|E]; cbn [andb].
      - destruct (owned_by d user_id y); cbn [ct_card_id];
          rewrite E; (destruct (String.eqb_spec card_id other) as [|_];
                      [congruence|]); apply IH.
      - destruct (String.eqb (ct_card_id y) other); [reflexivity|apply IH]. }
    split; [|exact Hother].
    rewrite get_card_first. unfold change_card_owner. cbn [cards].
    unfold unique_cards in Hu. clear Hget Hother.
    induction (cards d) as [|y rest IH]; [destruct Hin|].
    cbn [map] in Hu. apply NoDup_cons_iff in Hu. destruct Hu as [Hnotin Hu].
    cbn [map filter]. destruct Hin as [->|Hin].
    + rewrite Hid, String.eqb_refl, Hown. cbn [andb ct_card_id].
      rewrite String.eqb_refl. reflexivity.
    + destruct (String.eqb_spec (ct_card_id y) card_id) as [E|E].
      * exfalso. apply Hnotin. rewrite E, <- Hid. now apply in_map.
      * cbn [andb]. destruct (String.eqb_spec (ct_card_id y) card_id);
          [contradiction|]. apply IH; assumption.
Qed.

(** ** Steps of a handler *)

Lemma act_bind_inv {A B} (m : Act A) (k : A -> Act B) e w b w' :
  act_bind m k e w = (Ok b, w') ->
  exists a w1, m e w = (Ok a, w1) /\ k a e w1 = (Ok b, w').
Proof.
  unfold act_bind. destruct (m e w) as [[a|x] w1]; [|discriminate].
  intros H. exists a, w1. split; [reflexivity|exact H].
Qed.

Lemma keeps_db_ret {A} (a : A) : keeps_db (act_ret a).
Proof. intros e w r w' H. injection H as _ <-. reflexivity. Qed.

Lemma keeps_db_raise {A} x : keeps_db (@act_raise A x).
Proof. intros e w r w' H. injection H as _ <-. reflexivity. Qed.

Lemma keeps_db_bind {A B} (m : Act A) (k : A -> Act B) :
  keeps_db m -> (forall a, keeps_db (k a)) -> keeps_db (act_bind m k).
Proof.
  intros Hm Hk e w r w' H. unfold act_bind in H.
  destruct (m e w) as [[a|x] w1] eqn:E.
  - rewrite (Hk a _ _ _ _ H). exact (Hm _ _ _ _ E).
  - injection H as _ <-. exact (Hm _ _ _ _ E).
Qed.

Lemma keeps_db_read : keeps_db read_db.
Proof. intros e w r w' H. injection H as _ <-. reflexivity. Qed.

Lemma keeps_db_send kind text : keeps_db (send kind text).
Proof. intros e w r w' H. injection H as _ <-. reflexivity. Qed.

Lemma keeps_db_sample {A} (m : Rand A) : keeps_db (sample m).
Proof.
  intros e w r w' H. unfold sample in H.
  destruct (m e (rng_pos w)) as [[a p]|x]; injection H as _ <-; reflexivity.
Qed.

Lemma keeps_db_pure_result {A} (r : result A) : keeps_db (pure_result r).
Proof. destruct r; [apply keeps_db_ret|apply keeps_db_raise]. Qed.

Lemma keeps_db_reset interaction : keeps_db (reset_command_cooldown interaction).
Proof.
  intros e w r w' H. unfold reset_command_cooldown in H.
  destruct (command interaction); [|injection H as _ <-; reflexivity].
  destruct (cooldowns w !! _); injection H as _ <-; reflexivity.
Qed.

Create HintDb keeps discriminated.
#[local] Hint Resolve keeps_db_ret keeps_db_raise keeps_db_read keeps_db_send
  keeps_db_sample keeps_db_pure_result keeps_db_reset : keeps.
#[local] Hint Extern 2 (keeps_db (act_bind _ _)) =>
  apply keeps_db_bind; [|intros ?] : keeps.
#[local] Hint Extern 3 (keeps_db (if ?b then _ else _)) => destruct b : keeps.
#[local] Hint Extern 3 (keeps_db (match ?x with Some _ => _ | None => _ end)) =>
  destruct x : keeps.
#[local] Hint Extern 3 (keeps_db (let '(_, _) := ?x in _)) => destruct x : keeps.

Lemma keeps_db_single_burn interaction card :
  keeps_db (_handle_single_card_burn interaction card).
Proof. unfold _handle_single_card_burn. auto 20 with keeps. Qed.

(** ** Burning several cards *)

Lemma only_draws_refl w : only_draws w w.
Proof. repeat split. Qed.

Lemma only_draws_trans w1 w2 w3 :
  only_draws w1 w2 -> only_draws w2 w3 -> only_draws w1 w3.
Proof.
  intros (A1 & A2 & A3 & A4) (B1 & B2 & B3 & B4).
  repeat split; congruence.
Qed.

Lemma sample_Ok {A} (m : Rand A) e w a p :
  m e (rng_pos w) = Ok (a, p) ->
  exists w', sample m e w = (Ok a, w') /\ only_draws w w' /\ rng_pos w' = p.
Proof.
  intros H. unfold sample. rewrite H. eexists. split; [reflexivity|].
  split; [repeat split|reflexivity].
Qed.

Lemma to_silver_burnable r :
  Rarity.mem r Rarity.get_valuable_rarities = false ->
  exists lo hi, Rarity.to_silver r = Ok (lo, hi) /\ lo <= hi.
Proof.
  destruct r; intros H; try discriminate H;
    eexists _, _; (split; [reflexivity|cbn; lia]).
Qed.

Lemma sort_burnable_step owner_id card rest valid_card_ids invalid_card_count :
  sort_burnable owner_id (card :: rest) valid_card_ids invalid_card_count
  = if burnable_by owner_id card
    then sort_burnable owner_id rest (valid_card_ids ++ [ct_card_id card])
           invalid_card_count
    else sort_burnable owner_id rest valid_card_ids (invalid_card_count + 1).
Proof.
  cbn [sort_burnable]. unfold burnable_by.
  destruct (Rarity.mem (ct_rarity card) Rarity.get_valuable_rarities),
           (ct_owner_id card =? owner_id), (ct_locked card); reflexivity.
Qed.

Lemma sort_burnable_spec owner_id cards : forall valid_card_ids invalid_card_count,
  sort_burnable owner_id cards valid_card_ids invalid_card_count
  = (valid_card_ids ++ map ct_card_id (filter (burnable_by owner_id) cards),
     invalid_card_count + Z.of_nat (List.length cards)
     - Z.of_nat (List.length (filter (burnable_by owner_id) cards))).
Proof.
  induction cards as [|card rest IH]; intros valid n.
  - cbn. rewrite app_nil_r. f_equal. lia.
  - rewrite sort_burnable_step. cbn [filter].
    destruct (burnable_by owner_id card); rewrite IH.
    + cbn [map List.length]. rewrite <- app_assoc. cbn [app]. f_equal. lia.
    + f_equal. cbn [List.length]. lia.
Qed.

Lemma add_burn_reward_Ok interaction card totals e w :
  Rarity.mem (ct_rarity card) Rarity.get_valuable_rarities = false ->
  exists totals' w',
    add_burn_reward interaction card totals e w = (Ok totals', w')
    /\ only_draws w w'
    /\ total_star totals' = total_star totals + star_reward interaction card
    /\ total_glistening_gem totals'
       = total_glistening_gem totals + shiny_count [card]
    /\ has_shiny totals' = has_shiny totals || (0 <? shiny_count [card]).
Proof.
  intros Hr. destruct (to_silver_burnable _ Hr) as (lo & hi & Hs & Hle).
  unfold add_burn_reward. rewrite Hs. unfold pure_result.
  unfold act_bind at 1, act_ret at 1. cbn [fst snd].
  destruct (randint_Ok lo hi e (rng_pos w) Hle) as (k & _ & Hk).
  destruct (sample_Ok _ _ _ _ _ Hk) as (w' & Hrun & Hdraw & _).
  unfold act_bind at 1. rewrite Hrun. unfold act_ret.
  eexists _, w'. split; [reflexivity|]. split; [exact Hdraw|].
  cbn [total_star total_glistening_gem has_shiny].
  unfold shiny_count, star_reward. cbn [filter].
  destruct (bool_decide (ct_special_rarity card = SpecialRarity.shiny));
    cbn [List.length]; repeat split; try lia.
  - rewrite orb_true_r. reflexivity.
  - rewrite orb_false_r. reflexivity.
Qed.

Lemma shiny_count_cons card cards :
  shiny_count (card :: cards) = shiny_count [card] + shiny_count cards.
Proof.
  unfold shiny_count. cbn [filter].
  destruct (bool_decide (ct_special_rarity card = SpecialRarity.shiny));
    cbn [List.length]; lia.
Qed.

Lemma shiny_count_nonneg cards : 0 <= shiny_count cards.
Proof. unfold shiny_count. lia. Qed.

Lemma total_burn_rewards_Ok interaction valid_card_ids e cards :
  forall totals w,
  Forall (fun c => string_mem (ct_card_id c) valid_card_ids = true ->
                   Rarity.mem (ct_rarity c) Rarity.get_valuable_rarities = false)
         cards ->
  let counted := filter (fun c => string_mem (ct_card_id c) valid_card_ids) cards in
  exists totals' w',
    total_burn_rewards interaction valid_card_ids cards totals e w
    = (Ok totals', w')
    /\ only_draws w w'
    /\ total_star totals'
       = total_star totals + py_sum (map (star_reward interaction) counted)
    /\ total_glistening_gem totals'
       = total_glistening_gem totals + shiny_count counted
    /\ has_shiny totals' = has_shiny totals || (0 <? shiny_count counted).
Proof.
  induction cards as [|card rest IH]; intros totals w Hall counted.
  - exists totals, w. split; [reflexivity|]. split; [apply only_draws_refl|].
    unfold counted. cbn [filter map]. unfold py_sum, shiny_count.
    cbn [fold_left filter List.length Z.of_nat].
    repeat split; try lia. destruct (has_shiny totals); reflexivity.
  - inversion Hall as [|? ? Hcard Hrest]; subst.
    cbn [total_burn_rewards]. unfold counted. cbn [filter].
    destruct (string_mem (ct_card_id card) valid_card_ids) eqn:Emem; cbn [negb].
    + destruct (add_burn_reward_Ok interaction card totals e w (Hcard eq_refl))
        as (t1 & w1 & Hrun1 & Hdraw1 & Hstar1 & Hgem1 & Hshiny1).
      destruct (IH t1 w1 Hrest) as (t2 & w2 & Hrun2 & Hdraw2 & Hstar2 & Hgem2 & Hshiny2).
      exists t2, w2. unfold act_bind. rewrite Hrun1, Hrun2.
      split; [reflexivity|].
      split; [eapply only_draws_trans; eassumption|].
      cbn [map]. rewrite py_sum_cons, shiny_count_cons.
      split; [lia|]. split; [lia|].
      rewrite Hshiny2, Hshiny1, <- orb_assoc. f_equal.
      pose proof (shiny_count_nonneg [card]).
      pose proof (shiny_count_nonneg
                    (filter (fun c => string_mem (ct_card_id c) valid_card_ids) rest)).
      destruct (Z.ltb_spec 0 (shiny_count [card])),
               (Z.ltb_spec 0 (shiny_count
                  (filter (fun c => string_mem (ct_card_id c) valid_card_ids) rest))),
               (Z.ltb_spec 0 (shiny_count [card] + shiny_count
                  (filter (fun c => string_mem (ct_card_id c) valid_card_ids) rest)));
        (reflexivity || lia).
    + apply IH. exact Hrest.
Qed.

Lemma string_mem_In x l : string_mem x l = true <-> In x l.
Proof.
  unfold string_mem. rewrite existsb_exists. split.
  - intros (y & Hy & E). apply String.eqb_eq in E. now subst.
  - intros H. exists x. split; [exact H|apply String.eqb_refl].
Qed.

Lemma NoDup_map_inj {A B} (key : A -> B) (l : list A) x y :
  NoDup (map key l) -> In x l -> In y l -> key x = key y -> x = y.
Proof.
  induction l as [|z l IH]; intros Hnd Hx Hy E; [destruct Hx|].
  cbn [map] in Hnd. apply NoDup_cons_iff in Hnd. destruct Hnd as [Hnotin Hnd].
  destruct Hx as [->|Hx], Hy as [->|Hy].
  - reflexivity.
  - exfalso. apply Hnotin. rewrite E. now apply in_map.
  - exfalso. apply Hnotin. rewrite <- E. now apply in_map.
  - now apply IH.
Qed.

Lemma filter_by_selected_ids (P : CardTable -> bool) cards :
  NoDup (map ct_card_id cards) ->
  filter (fun c => string_mem (ct_card_id c) (map ct_card_id (filter P cards)))
         cards
  = filter P cards.
Proof.
  intros Hnd. apply filter_ext_in. intros c Hc.
  apply eq_true_iff_eq. rewrite string_mem_In, in_map_iff. split.
  - intros (c' & E & Hc'). apply filter_In in Hc'. destruct Hc' as [Hin HP].
    rewrite <- (NoDup_map_inj ct_card_id cards c' c Hnd Hin Hc E). exact HP.
  - intros HP. exists c. split; [reflexivity|]. apply filter_In. now split.
Qed.

(** X17: the multi-card burn offers to burn exactly the cards it was given
    that are of the user, not locked and not of a valuable rarity, in the
    order given.  The star it offers is the sum of what each of them burns
    for, the glistening gems are one a shiny card.  With no such card it
    rejects and resets the cooldown of the command; it writes nothing to
    the database either way. *)
Theorem multiple_burn_offers_the_burnable interaction cards name m e w row :
  command interaction = Some name ->
  cooldowns w !! name = Some m ->
  get_table (db w) (uid interaction) = Some row ->
  NoDup (map ct_card_id cards) ->
  let accepted := filter (burnable_by (ut_id row)) cards in
  exists outcome w',
    _handle_multiple_card_burn interaction cards e w = (Ok outcome, w')
    /\ db w' = db w
    /\ match outcome with
       | Rejected =>
           accepted = []
           /\ cooldowns w'
              = <[name := reset_cooldown m (uid interaction) (now interaction)]>
                  (cooldowns w)
           /\ outbox w'
              = outbox w
                ++ [(error_embed, "The cards you provided cannot be burned.")]
       | Prompt proposal =>
           accepted <> []
           /\ cooldowns w' = cooldowns w
           /\ bb_valid_card_ids proposal = map ct_card_id accepted
           /\ bb_total_star proposal
              = py_sum (map (star_reward interaction) accepted)
           /\ bb_total_glistening_gem proposal = shiny_count accepted
           /\ bb_has_shiny proposal = (0 <? shiny_count accepted)
       end.
Proof.
  intros Hcmd Hm Hrow Hnd accepted.
  unfold _handle_multiple_card_burn.
  unfold act_bind at 1, read_db at 1. rewrite Hrow.
  rewrite sort_burnable_spec. cbn [app]. fold accepted.
  destruct (total_burn_rewards_Ok interaction (map ct_card_id accepted) e cards
              no_totals w)
    as (totals & w1 & Hrun & (Hdb & Hcd & Hbc & Hout) & Hstar & Hgem & Hshiny).
  { apply Forall_forall. intros c Hc Hmem.
    apply string_mem_In, in_map_iff in Hmem. destruct Hmem as (c' & E & Hc').
    apply filter_In in Hc'. destruct Hc' as [Hin Hb].
    rewrite <- (NoDup_map_inj ct_card_id cards c' c Hnd Hin Hc E).
    unfold burnable_by in Hb.
    destruct (Rarity.mem (ct_rarity c') Rarity.get_valuable_rarities);
      [discriminate|reflexivity]. }
  unfold accepted in Hstar, Hgem, Hshiny.
  rewrite (filter_by_selected_ids _ _ Hnd) in Hstar, Hgem, Hshiny.
  fold accepted in Hstar, Hgem, Hshiny.
  unfold act_bind at 1. rewrite Hrun.
  destruct (Z.eqb_spec (0 + Z.of_nat (List.length cards)
                        - Z.of_nat (List.length accepted))
                       (Z.of_nat (List.length cards))) as [Eall|Esome].
  - assert (Hnone : accepted = []) by (destruct accepted; [reflexivity|cbn in Eall; lia]).
    assert (Hm1 : cooldowns w1 !! name = Some m) by (rewrite Hcd; exact Hm).
    unfold act_bind at 1. rewrite (reset_command_cooldown_eq _ _ _ _ _ Hcmd Hm1).
    unfold act_bind, send, act_ret. cbn [db cooldowns outbox set_cooldowns].
    eexists _, _. split; [reflexivity|]. cbn [db cooldowns outbox].
    split; [exact Hdb|]. split; [exact Hnone|].
    split; [rewrite Hcd; reflexivity|rewrite Hout; reflexivity].
  - assert (Hsome : accepted <> []) by (intros E; rewrite E in Esome; cbn in Esome; lia).
    unfold act_bind, send, act_ret.
    eexists _, _. split; [reflexivity|]. cbn [db cooldowns outbox].
    split; [exact Hdb|]. split; [exact Hsome|]. split; [exact Hcd|].
    cbn [bb_valid_card_ids bb_total_star bb_total_glistening_gem bb_has_shiny].
    split; [reflexivity|]. split; [rewrite Hstar; reflexivity|].
    split; [rewrite Hgem; reflexivity|rewrite Hshiny; reflexivity].
Qed.

Lemma multiple_burn_offers_the_burnable_witness :
  command burn_interaction = Some "burn"
  /\ cooldowns witness_world !! "burn" = Some burn_cooldown
  /\ get_table (db witness_world) (uid burn_interaction) = Some patron_row
  /\ filter (burnable_by (ut_id patron_row)) [locked_card; aged_card]
     = [aged_card]
  /\ exists w',
       _handle_multiple_card_burn burn_interaction [locked_card; aged_card]
         tape_15 witness_world
       = (Ok (Prompt {| bb_valid_card_ids := ["def456"]; bb_total_silver := 85;
                        bb_total_star := 113; bb_total_glistening_gem := 0;
                        bb_has_shiny := false |}), w')
       /\ db w' = db witness_world.
Proof.
  split; [reflexivity|]. split; [reflexivity|]. split; [reflexivity|].
  split; [reflexivity|].
  destruct (multiple_burn_offers_the_burnable burn_interaction
              [locked_card; aged_card] "burn" burn_cooldown tape_15 witness_world
              patron_row eq_refl eq_refl eq_refl)
    as (outcome & w' & Hrun & Hdb & _).
  - repeat constructor; cbn; intuition discriminate.
  - exists w'. split; [|exact Hdb].
    rewrite Hrun. vm_compute in Hrun. injection Hrun as <- _. reflexivity.
Defined.

Lemma total_all_rewards_Ok interaction e cards :
  forall totals invalid_card_count valid_card_ids w,
  let accepted := filter burnable cards in
  exists totals' w',
    total_all_rewards interaction cards totals invalid_card_count valid_card_ids
      e w
    = (Ok (totals',
           invalid_card_count + Z.of_nat (List.length (filter refused cards)),
           valid_card_ids ++ map ct_card_id accepted), w')
    /\ only_draws w w'
    /\ total_star totals'
       = total_star totals + py_sum (map (star_reward interaction) accepted)
    /\ total_glistening_gem totals'
       = total_glistening_gem totals + shiny_count accepted
    /\ has_shiny totals' = has_shiny totals || (0 <? shiny_count accepted).
Proof.
  induction cards as [|card rest IH]; intros totals n valid w accepted.
  - exists totals, w. unfold accepted. cbn [total_all_rewards filter map List.length].
    rewrite app_nil_r, Z.add_0_r.
    split; [reflexivity|]. split; [apply only_draws_refl|].
    unfold py_sum, shiny_count. cbn [fold_left filter List.length Z.of_nat].
    repeat split; try lia. destruct (has_shiny totals); reflexivity.
  - cbn [total_all_rewards]. unfold accepted. cbn [filter].
    destruct (ct_locked card) eqn:El.
    { assert (burnable card = false) as ->
        by (unfold burnable; rewrite El; reflexivity).
      assert (refused card = false) as ->
        by (unfold refused; rewrite El; reflexivity).
      apply IH. }
    destruct (Rarity.mem (ct_rarity card) Rarity.get_valuable_rarities) eqn:Er.
    { assert (burnable card = false) as ->
        by (unfold burnable; rewrite El, Er; reflexivity).
      assert (refused card = true) as ->
        by (unfold refused; rewrite El, Er; reflexivity).
      destruct (IH totals (n + 1) valid w)
        as (t' & w' & Hrun & Hdraw & Hrest).
      exists t', w'. rewrite Hrun. cbn [List.length].
      replace (n + Z.of_nat (S (List.length (filter refused rest))))
        with (n + 1 + Z.of_nat (List.length (filter refused rest))) by lia.
      split; [reflexivity|]. split; [exact Hdraw|exact Hrest]. }
    assert (burnable card = true) as ->
      by (unfold burnable; rewrite El, Er; reflexivity).
    assert (refused card = false) as ->
      by (unfold refused; rewrite El, Er; reflexivity).
    destruct (add_burn_reward_Ok interaction card totals e w Er)
      as (t1 & w1 & Hrun1 & Hdraw1 & Hstar1 & Hgem1 & Hshiny1).
    destruct (IH t1 n (valid ++ [ct_card_id card]) w1)
      as (t2 & w2 & Hrun2 & Hdraw2 & Hstar2 & Hgem2 & Hshiny2).
    exists t2, w2. unfold act_bind. rewrite Hrun1, Hrun2.
    cbn [map]. rewrite <- app_assoc. cbn [app].
    split; [reflexivity|].
    split; [eapply only_draws_trans; eassumption|].
    rewrite py_sum_cons, shiny_count_cons.
    split; [lia|]. split; [lia|].
    rewrite Hshiny2, Hshiny1, <- orb_assoc. f_equal.
    pose proof (shiny_count_nonneg [card]).
    pose proof (shiny_count_nonneg (filter burnable rest)).
    destruct (Z.ltb_spec 0 (shiny_count [card])),
             (Z.ltb_spec 0 (shiny_count (filter burnable rest))),
             (Z.ltb_spec 0 (shiny_count [card] + shiny_count (filter burnable rest)));
      (reflexivity || lia).
Qed.

Lemma total_all_rewards_locked interaction e cards :
  Forall (fun c => ct_locked c = true) cards ->
  forall totals invalid_card_count valid_card_ids w,
  total_all_rewards interaction cards totals invalid_card_count valid_card_ids
    e w
  = (Ok (totals, invalid_card_count, valid_card_ids), w).
Proof.
  induction 1 as [|c rest Hc _ IH]; intros totals n valid w; [reflexivity|].
  cbn [total_all_rewards]. rewrite Hc. apply IH.
Qed.

Lemma filter_length_all {A} (f : A -> bool) l :
  List.length (filter f l) = List.length l -> Forall (fun x => f x = true) l.
Proof.
  induction l as [|x l IH]; [constructor|]. cbn [filter].
  destruct (f x) eqn:E; cbn [List.length]; intros H.
  - constructor; [exact E|apply IH; lia].
  - pose proof (filter_length_le f l). lia.
Qed.

(** X18: the burn of all cards goes through the cards of the user, skips
    the locked ones and offers the others that are not of a valuable
    rarity.  It rejects, resetting the cooldown, only when every card is
    valuable and not locked: a user whose cards are all locked is asked to
    confirm the burn of no card at all, for nothing.  It writes nothing to
    the database. *)
Theorem all_burn_skips_locked_cards interaction name m e w cards :
  command interaction = Some name ->
  cooldowns w !! name = Some m ->
  get_cards (db w) (uid interaction) = Some cards ->
  let accepted := filter burnable cards in
  exists outcome w',
    _handle_all_card_burn interaction e w = (Ok outcome, w')
    /\ db w' = db w
    /\ match outcome with
       | Rejected =>
           Forall (fun c => refused c = true) cards
           /\ cooldowns w'
              = <[name := reset_cooldown m (uid interaction) (now interaction)]>
                  (cooldowns w)
           /\ outbox w'
              = outbox w
                ++ [(error_embed, "The cards you provided cannot be burned.")]
       | Prompt proposal =>
           cooldowns w' = cooldowns w
           /\ bb_valid_card_ids proposal = map ct_card_id accepted
           /\ bb_total_star proposal
              = py_sum (map (star_reward interaction) accepted)
           /\ bb_total_glistening_gem proposal = shiny_count accepted
           /\ bb_has_shiny proposal = (0 <? shiny_count accepted)
       end
    /\ (Forall (fun c => ct_locked c = true) cards ->
        outcome = Prompt {| bb_valid_card_ids := []; bb_total_silver := 0;
                            bb_total_star := 0; bb_total_glistening_gem := 0;
                            bb_has_shiny := false |}).
Proof.
  intros Hcmd Hm Hcards accepted.
  assert (Hne : cards <> []).
  { unfold get_cards, rows_or_none in Hcards.
    destruct (filter _ _); [discriminate|]. injection Hcards as <-. discriminate. }
  unfold _handle_all_card_burn.
  unfold act_bind at 1, read_db at 1. rewrite Hcards.
  destruct (total_all_rewards_Ok interaction e cards no_totals 0 [] w)
    as (totals & w1 & Hrun & (Hdb & Hcd & Hbc & Hout) & Hstar & Hgem & Hshiny).
  fold accepted in Hrun, Hstar, Hgem, Hshiny.
  unfold act_bind at 1. rewrite Hrun. cbn [app].
  assert (Hlen : (List.length (filter refused cards) <= List.length cards)%nat)
    by apply filter_length_le.
  assert (Hlocked : Forall (fun c => ct_locked c = true) cards ->
                    filter refused cards = [] /\ accepted = []
                    /\ totals = no_totals).
  { intros Hall.
    assert (H1 : filter refused cards = []).
    { apply filter_none. eapply Forall_impl; [|exact Hall].
      cbn. intros c Hc. unfold refused. rewrite Hc. reflexivity. }
    assert (H2 : accepted = []).
    { apply filter_none. eapply Forall_impl; [|exact Hall].
      cbn. intros c Hc. unfold burnable. rewrite Hc. reflexivity. }
    split; [exact H1|]. split; [exact H2|].
    rewrite (total_all_rewards_locked _ _ _ Hall) in Hrun. congruence. }
  destruct (Z.eqb_spec (0 + Z.of_nat (List.length (filter refused cards)))
                       (Z.of_nat (List.length cards))) as [Eall|Esome].
  - assert (Hm1 : cooldowns w1 !! name = Some m) by (rewrite Hcd; exact Hm).
    unfold act_bind at 1. rewrite (reset_command_cooldown_eq _ _ _ _ _ Hcmd Hm1).
    unfold act_bind, send, act_ret. cbn [db cooldowns outbox set_cooldowns].
    eexists _, _. split; [reflexivity|]. cbn [db cooldowns outbox].
    split; [exact Hdb|]. split.
    + split; [|split; [rewrite Hcd; reflexivity|rewrite Hout; reflexivity]].
      apply filter_length_all. lia.
    + intros Hall. destruct (Hlocked Hall) as (H1 & _).
      rewrite H1 in Eall. cbn in Eall. destruct cards; [congruence|cbn in Eall; lia].
  - unfold act_bind, send, act_ret.
    eexists _, _. split; [reflexivity|]. cbn [db cooldowns outbox].
    split; [exact Hdb|]. split.
    + split; [exact Hcd|].
      cbn [bb_valid_card_ids bb_total_star bb_total_glistening_gem bb_has_shiny].
      split; [reflexivity|]. split; [rewrite Hstar; reflexivity|].
      split; [rewrite Hgem; reflexivity|rewrite Hshiny; reflexivity].
    + intros Hall. destruct (Hlocked Hall) as (_ & H2 & ->).
      rewrite H2. reflexivity.
Qed.

Lemma all_burn_skips_locked_cards_witness :
  command burn_interaction = Some "burn"
  /\ cooldowns witness_world !! "burn" = Some burn_cooldown
  /\ get_cards (db witness_world) (uid burn_interaction)
     = Some [locked_card; aged_card]
  /\ exists w',
       _handle_all_card_burn burn_interaction tape_15 witness_world
       = (Ok (Prompt {| bb_valid_card_ids := ["def456"]; bb_total_silver := 85;
                        bb_total_star := 113; bb_total_glistening_gem := 0;
                        bb_has_shiny := false |}), w')
       /\ db w' = db witness_world.
Proof.
  split; [reflexivity|]. split; [reflexivity|]. split; [reflexivity|].
  destruct (all_burn_skips_locked_cards burn_interaction "burn" burn_cooldown
              tape_15 witness_world [locked_card; aged_card]
              eq_refl eq_refl eq_refl)
    as (outcome & w' & Hrun & Hdb & _).
  exists w'. split; [|exact Hdb].
  rewrite Hrun. vm_compute in Hrun. injection Hrun as <- _. reflexivity.
Defined.

(** ** Committing a bulk burn *)

Lemma amount_of_ext d1 d2 user_id item :
  select_user_pk d1 user_id = select_user_pk d2 user_id ->
  inventory d1 = inventory d2 ->
  amount_of d1 user_id item = amount_of d2 user_id item.
Proof.
  intros Hpk Hinv. unfold amount_of. rewrite !get_item_first, Hinv.
  erewrite filter_ext; [reflexivity|].
  intros row. unfold owns_item. rewrite Hpk. reflexivity.
Qed.

Lemma delete_cards_gone d card_ids :
  get_cards_by_card_id (delete_cards_by_card_id d card_ids) card_ids = None.
Proof.
  unfold get_cards_by_card_id, delete_cards_by_card_id. cbn [cards].
  rewrite filter_none; [reflexivity|].
  apply Forall_forall. intros c Hc. apply filter_In in Hc.
  destruct Hc as [_ Hc]. destruct (string_mem (ct_card_id c) card_ids);
    [discriminate|reflexivity].
Qed.

Lemma pay_bulk_burn_paid interaction proposal e w :
  exists w',
    pay_bulk_burn interaction proposal e w = (Ok tt, w')
    /\ burn_paid interaction proposal w w'.
Proof.
  unfold pay_bulk_burn.
  set (d2 := set_star (set_silver (db w) (uid interaction)
                         (bb_total_silver proposal) false)
                      (uid interaction) (bb_total_star proposal) false).
  assert (Ht : forall row,
             get_table (db w) (uid interaction) = Some row ->
             get_table d2 (uid interaction)
             = Some {| ut_id := ut_id row; ut_user_id := ut_user_id row;
                       ut_silver := ut_silver row + bb_total_silver proposal;
                       ut_star := ut_star row + bb_total_star proposal;
                       ut_gem := ut_gem row; ut_voucher := ut_voucher row;
                       ut_registered_at := ut_registered_at row;
                       ut_backpack_level := ut_backpack_level row |}).
  { intros row Hrow. unfold d2, set_star, set_silver, signed.
    rewrite get_table_update_user by reflexivity.
    rewrite get_table_update_user by reflexivity.
    rewrite Hrow. reflexivity. }
  assert (Hadd : forall d i n, users (add_item d (uid interaction) i n) = users d).
  { intros d i n. unfold add_item. destruct (select_user_pk _ _); reflexivity. }
  assert (Hcards : forall d i n, cards (add_item d (uid interaction) i n) = cards d).
  { intros d i n. unfold add_item. destruct (select_user_pk _ _); reflexivity. }
  unfold act_bind, write_db, send, act_ret, set_db.
  cbn [db cooldowns button_cooldown outbox rng_pos]. fold d2.
  destruct (bb_has_shiny proposal) eqn:Eshiny;
    cbn [db cooldowns button_cooldown outbox rng_pos];
    eexists; (split; [reflexivity|]); unfold burn_paid; rewrite Eshiny;
    cbn [db cooldowns button_cooldown outbox rng_pos];
    (split; [|split; [|split; [apply delete_cards_gone|reflexivity]]]).
  - intros row Hrow. eexists. split.
    + unfold get_table, delete_cards_by_card_id. cbn [users]. rewrite Hadd.
      exact (Ht row Hrow).
    + cbn [ut_silver ut_star]. split; [reflexivity|]. split; [reflexivity|].
      rewrite (amount_of_ext (delete_cards_by_card_id _ _)
                 (add_item d2 (uid interaction) Item.glistening_gem
                    (bb_total_glistening_gem proposal))) by reflexivity.
      rewrite (amount_of_add_item _ _ _ _ (ut_id row)).
      * f_equal. apply amount_of_ext; [|reflexivity].
        rewrite !select_user_pk_get_table, (Ht row Hrow), Hrow. reflexivity.
      * rewrite select_user_pk_get_table, (Ht row Hrow). reflexivity.
  - unfold delete_cards_by_card_id. cbn [cards]. rewrite Hcards. reflexivity.
  - intros row Hrow. eexists. split; [exact (Ht row Hrow)|].
    cbn [ut_silver ut_star]. split; [reflexivity|]. split; [reflexivity|].
    rewrite Z.add_0_r. apply amount_of_ext; [|reflexivity].
    change (select_user_pk (delete_cards_by_card_id d2 (bb_valid_card_ids proposal))
              (uid interaction))
      with (select_user_pk d2 (uid interaction)).
    rewrite !select_user_pk_get_table, (Ht row Hrow), Hrow. reflexivity.
  - reflexivity.
Qed.

(** X19: the two commits of a bulk burn.  The commit of an all-card burn
    pays only when every offered card is still there, and else resets the
    cooldown and writes nothing; the commit of a multi-card burn pays the
    whole proposal as soon as one offered card is left, and else writes
    nothing and leaves the cooldown spent.  A paid burn adds the proposed
    silver and star to the balance, a gem for each shiny card, and deletes
    the offered cards and no other. *)
Theorem bulk_burn_commits interaction proposal name m e w :
  command interaction = Some name ->
  cooldowns w !! name = Some m ->
  let left :=
    filter (fun c => string_mem (ct_card_id c) (bb_valid_card_ids proposal))
           (cards (db w)) in
  (exists w',
     _confirm_all_card_burn interaction proposal e w = (Ok tt, w')
     /\ if negb (List.length left =? 0)%nat
           && (List.length left =? List.length (bb_valid_card_ids proposal))%nat
        then burn_paid interaction proposal w w'
        else db w' = db w
             /\ cooldowns w'
                = <[name := reset_cooldown m (uid interaction) (now interaction)]>
                    (cooldowns w))
  /\ (exists w',
        _confirm_multiple_card_burn interaction proposal e w = (Ok tt, w')
        /\ if negb (List.length left =? 0)%nat
           then burn_paid interaction proposal w w'
           else db w' = db w /\ cooldowns w' = cooldowns w).
Proof.
  intros Hcmd Hm left.
  destruct (pay_bulk_burn_paid interaction proposal e w) as (wp & Hpay & Hpaid).
  assert (Hcheck : get_cards_by_card_id (db w) (bb_valid_card_ids proposal)
                   = rows_or_none left) by reflexivity.
  split.
  - unfold _confirm_all_card_burn. unfold act_bind at 1, read_db at 1.
    rewrite Hcheck.
    destruct left as [|c rest] eqn:Eleft; cbn [rows_or_none List.length].
    + change (0 =? 0)%nat with true. cbn [negb andb].
      unfold act_bind. rewrite (reset_command_cooldown_eq _ _ _ _ _ Hcmd Hm).
      unfold send. eexists. split; [reflexivity|]. split; reflexivity.
    + change (S (List.length rest) =? 0)%nat with false. cbn [negb andb].
      destruct (S (List.length rest) =? List.length (bb_valid_card_ids proposal))%nat;
        cbn [negb].
      * exists wp. split; [exact Hpay|exact Hpaid].
      * unfold act_bind. rewrite (reset_command_cooldown_eq _ _ _ _ _ Hcmd Hm).
        unfold send. eexists. split; [reflexivity|]. split; reflexivity.
  - unfold _confirm_multiple_card_burn. unfold act_bind at 1, read_db at 1.
    rewrite Hcheck.
    destruct left as [|c rest] eqn:Eleft; cbn [rows_or_none List.length].
    + change (0 =? 0)%nat with true. cbn [negb].
      unfold send. eexists. split; [reflexivity|]. split; reflexivity.
    + change (S (List.length rest) =? 0)%nat with false. cbn [negb].
      exists wp. split; [exact Hpay|exact Hpaid].
Qed.

Lemma bulk_burn_commits_witness :
  let proposal :=
    {| bb_valid_card_ids := ["def456"; "gone00"]; bb_total_silver := 85;
       bb_total_star := 113; bb_total_glistening_gem := 0;
       bb_has_shiny := false |} in
  command burn_interaction = Some "burn"
  /\ cooldowns witness_world !! "burn" = Some burn_cooldown
  /\ (exists w',
        _confirm_all_card_burn burn_interaction proposal witness_tape
          witness_world = (Ok tt, w')
        /\ db w' = db witness_world)
  /\ (exists w',
        _confirm_multiple_card_burn burn_interaction proposal witness_tape
          witness_world = (Ok tt, w')
        /\ silver_of (db w') 7 = Some 1085
        /\ map ct_card_id (cards (db w')) = ["abc123"]).
Proof.
  intros proposal.
  split; [reflexivity|]. split; [reflexivity|].
  destruct (bulk_burn_commits burn_interaction proposal "burn" burn_cooldown
              witness_tape witness_world eq_refl eq_refl)
    as [(w1 & H1 & P1) (w2 & H2 & P2)].
  split.
  - exists w1. split; [exact H1|]. exact (proj1 P1).
  - exists w2. split; [exact H2|].
    vm_compute in H2. injection H2 as <-. split; reflexivity.
Defined.

(** ** The burn command *)

Lemma keeps_db_add_burn_reward interaction card totals :
  keeps_db (add_burn_reward interaction card totals).
Proof. unfold add_burn_reward. auto 20 with keeps. Qed.

Lemma keeps_db_total_burn_rewards interaction valid_card_ids cards :
  forall totals, keeps_db (total_burn_rewards interaction valid_card_ids cards totals).
Proof.
  induction cards as [|card rest IH]; intros totals; cbn [total_burn_rewards].
  - apply keeps_db_ret.
  - destruct (negb _); [apply IH|].
    apply keeps_db_bind; [apply keeps_db_add_burn_reward|intros t; apply IH].
Qed.

Lemma keeps_db_total_all_rewards interaction cards :
  forall totals n valid,
  keeps_db (total_all_rewards interaction cards totals n valid).
Proof.
  induction cards as [|card rest IH]; intros totals n valid;
    cbn [total_all_rewards].
  - apply keeps_db_ret.
  - destruct (ct_locked card); [apply IH|].
    destruct (Rarity.mem _ _); [apply IH|].
    apply keeps_db_bind; [apply keeps_db_add_burn_reward|intros t; apply IH].
Qed.

#[local] Hint Resolve keeps_db_single_burn keeps_db_total_burn_rewards
  keeps_db_total_all_rewards : keeps.

Lemma keeps_db_multiple_burn interaction cards :
  keeps_db (_handle_multiple_card_burn interaction cards).
Proof.
  unfold _handle_multiple_card_burn.
  apply keeps_db_bind; [apply keeps_db_read|intros d].
  destruct (get_table d (uid interaction)); [|apply keeps_db_raise].
  destruct (sort_burnable _ _ _ _). auto 20 with keeps.
Qed.

Lemma keeps_db_all_burn interaction :
  keeps_db (_handle_all_card_burn interaction).
Proof.
  unfold _handle_all_card_burn.
  apply keeps_db_bind; [apply keeps_db_read|intros d].
  destruct (get_cards d (uid interaction)); [|auto 20 with keeps].
  apply keeps_db_bind; [apply keeps_db_total_all_rewards|].
  intros [[totals n] valid]. auto 20 with keeps.
Qed.

#[local] Hint Resolve keeps_db_multiple_burn keeps_db_all_burn : keeps.

Lemma keeps_db_card_burn interaction card_ids :
  keeps_db (card_burn interaction card_ids).
Proof.
  unfold card_burn.
  destruct (command interaction); [|apply keeps_db_raise].
  apply keeps_db_bind; [apply keeps_db_read|intros d].
  destruct (get_table d (uid interaction)); [|apply keeps_db_raise].
  destruct card_ids as [card_ids|].
  - destruct (String.eqb _ _); [auto 20 with keeps|].
    destruct (filtered_card_ids card_ids) as [|card_id [|second rest]].
    + apply keeps_db_ret.
    + destruct (get_card d card_id); auto 20 with keeps.
    + destruct (has_duplicates _); [auto 20 with keeps|].
      destruct (get_cards_by_card_id _ _); auto 20 with keeps.
  - destruct (get_most_recently_obtained_card _ _); auto 20 with keeps.
Qed.

Lemma single_burn_prompt interaction card e w proposal w' :
  _handle_single_card_burn interaction card e w = (Ok (Prompt proposal), w') ->
  bp_card proposal = card
  /\ ct_locked card = false
  /\ Rarity.mem (ct_rarity card) Rarity.get_valuable_rarities = false.
Proof.
  unfold _handle_single_card_burn.
  destruct (Rarity.mem (ct_rarity card) Rarity.get_valuable_rarities) eqn:Ev.
  { intros H.
    apply act_bind_inv in H. destruct H as (? & ? & _ & H).
    apply act_bind_inv in H. destruct H as (? & ? & _ & H).
    discriminate H. }
  destruct (ct_locked card) eqn:El.
  { intros H.
    apply act_bind_inv in H. destruct H as (? & ? & _ & H).
    apply act_bind_inv in H. destruct H as (? & ? & _ & H).
    discriminate H. }
  intros H.
  apply act_bind_inv in H. destruct H as (? & ? & _ & H).
  apply act_bind_inv in H. destruct H as (? & ? & _ & H).
  apply act_bind_inv in H. destruct H as (? & ? & _ & H).
  unfold act_ret in H. injection H as <- _. repeat split.
Qed.

Lemma multiple_burn_prompt interaction cards e w row proposal w' :
  get_table (db w) (uid interaction) = Some row ->
  _handle_multiple_card_burn interaction cards e w = (Ok (Prompt proposal), w') ->
  bb_valid_card_ids proposal
  = map ct_card_id (filter (burnable_by (ut_id row)) cards).
Proof.
  intros Hrow. unfold _handle_multiple_card_burn.
  unfold act_bind at 1, read_db at 1. rewrite Hrow.
  rewrite sort_burnable_spec. cbn [app]. intros H.
  apply act_bind_inv in H. destruct H as (totals & w1 & _ & H).
  destruct (_ =? _).
  - apply act_bind_inv in H. destruct H as (? & ? & _ & H).
    apply act_bind_inv in H. destruct H as (? & ? & _ & H).
    discriminate H.
  - apply act_bind_inv in H. destruct H as (? & ? & _ & H).
    unfold act_ret in H. injection H as <- _. reflexivity.
Qed.

Lemma all_burn_prompt interaction e w cards proposal w' :
  get_cards (db w) (uid interaction) = Some cards ->
  _handle_all_card_burn interaction e w = (Ok (Prompt proposal), w') ->
  bb_valid_card_ids proposal = map ct_card_id (filter burnable cards).
Proof.
  intros Hcards. unfold _handle_all_card_burn.
  unfold act_bind at 1, read_db at 1. rewrite Hcards.
  destruct (total_all_rewards_Ok interaction e cards no_totals 0 [] w)
    as (totals & w1 & Hrun & _).
  unfold act_bind at 1. rewrite Hrun. cbn [app].
  destruct (_ =? _); intros H.
  - apply act_bind_inv in H. destruct H as (? & ? & _ & H).
    apply act_bind_inv in H. destruct H as (? & ? & _ & H).
    discriminate H.
  - apply act_bind_inv in H. destruct H as (? & ? & _ & H).
    unfold act_ret in H. injection H as <- _. reflexivity.
Qed.

Lemma newest_In rows c : newest rows = Some c -> In c rows.
Proof.
  revert c. induction rows as [|r rest IH]; intros c; [discriminate|].
  cbn [newest]. destruct (newest rest) as [c'|].
  - destruct (_ <? _); intros H; injection H as <-.
    + right. apply IH. reflexivity.
    + now left.
  - intros H. injection H as <-. now left.
Qed.

Lemma owned_by_row d user_id row c :
  get_table d user_id = Some row ->
  owned_by d user_id c = true -> ct_owner_id c = ut_id row.
Proof.
  intros Hrow. unfold owned_by. rewrite select_user_pk_get_table, Hrow.
  apply Z.eqb_eq.
Qed.

Lemma lift_outcome_prompt {P Q} (f : P -> Q) (o : Outcome P) e w q w' :
  act_ret (lift_outcome f o) e w = (Ok (Prompt q), w') ->
  exists p, o = Prompt p /\ q = f p.
Proof.
  unfold act_ret. destruct o as [|p]; cbn; intros H; [discriminate|].
  injection H as <- _. exists p. split; reflexivity.
Qed.

(** X20: whatever the argument of the burn command, every card it offers
    to burn is a card of the database that belongs to the user, is not
    locked and is not of a valuable rarity; the command itself writes
    nothing to the database. *)
Theorem card_burn_offers_own_cards interaction card_ids e w prompt w' row :
  get_table (db w) (uid interaction) = Some row ->
  card_burn interaction card_ids e w = (Ok (Prompt prompt), w') ->
  db w' = db w
  /\ Forall (fun card_id =>
               exists card,
                 In card (cards (db w))
                 /\ ct_card_id card = card_id
                 /\ ct_owner_id card = ut_id row
                 /\ ct_locked card = false
                 /\ Rarity.mem (ct_rarity card) Rarity.get_valuable_rarities
                    = false)
            (offered_ids prompt).
Proof.
  intros Hrow Hrun.
  split; [exact (keeps_db_card_burn _ _ _ _ _ _ Hrun)|].
  unfold card_burn in Hrun.
  destruct (command interaction); [|discriminate].
  unfold act_bind at 1, read_db at 1 in Hrun. rewrite Hrow in Hrun.
  destruct card_ids as [card_ids|].
  - destruct (String.eqb _ _).
    + apply act_bind_inv in Hrun. destruct Hrun as (o & w1 & Hall & Hret).
      apply lift_outcome_prompt in Hret. destruct Hret as (p & -> & ->).
      cbn [offered_ids].
      destruct (get_cards (db w) (uid interaction)) as [found|] eqn:Ecards.
      * rewrite (all_burn_prompt _ _ _ _ _ _ Ecards Hall).
        apply Forall_forall. intros card_id Hid.
        apply in_map_iff in Hid. destruct Hid as (c & <- & Hc).
        apply filter_In in Hc. destruct Hc as [Hc Hb].
        unfold get_cards, rows_or_none in Ecards.
        assert (Hin : In c (filter (owned_by (db w) (uid interaction)) (cards (db w)))).
        { destruct (filter _ _); [discriminate|].
          injection Ecards as <-. exact Hc. }
        apply filter_In in Hin. destruct Hin as [Hin Hown].
        exists c. split; [exact Hin|]. split; [reflexivity|].
        split; [eapply owned_by_row; eassumption|].
        unfold burnable in Hb.
        destruct (ct_locked c); [discriminate|].
        destruct (Rarity.mem _ _); [discriminate|]. split; reflexivity.
      * unfold _handle_all_card_burn in Hall.
        unfold act_bind at 1, read_db at 1 in Hall. rewrite Ecards in Hall.
        apply act_bind_inv in Hall. destruct Hall as (? & ? & _ & H).
        discriminate H.
    + destruct (filtered_card_ids card_ids) as [|card_id [|second rest]].
      * discriminate Hrun.
      * destruct (get_card (db w) card_id) as [card|] eqn:Ecard.
        2:{ apply act_bind_inv in Hrun. destruct Hrun as (? & ? & _ & H).
            apply act_bind_inv in H. destruct H as (? & ? & _ & H).
            discriminate H. }
        destruct (Z.eqb_spec (ct_owner_id card) (ut_id row)) as [Eown|_];
          cbn [negb] in Hrun.
        2:{ apply act_bind_inv in Hrun. destruct Hrun as (? & ? & _ & H).
            apply act_bind_inv in H. destruct H as (? & ? & _ & H).
            discriminate H. }
        apply act_bind_inv in Hrun. destruct Hrun as (o & w1 & Hsingle & Hret).
        apply lift_outcome_prompt in Hret. destruct Hret as (p & -> & ->).
        destruct (single_burn_prompt _ _ _ _ _ _ Hsingle) as (Hp & Hl & Hv).
        cbn [offered_ids]. rewrite Hp. constructor; [|constructor].
        destruct (get_card_In _ _ _ Ecard) as [Hin _].
        exists card. repeat split; assumption.
      * destruct (has_duplicates _).
        { apply act_bind_inv in Hrun. destruct Hrun as (? & ? & _ & H).
          apply act_bind_inv in H. destruct H as (? & ? & _ & H).
          discriminate H. }
        destruct (get_cards_by_card_id (db w) _) as [found|] eqn:Ecards.
        2:{ apply act_bind_inv in Hrun. destruct Hrun as (? & ? & _ & H).
            apply act_bind_inv in H. destruct H as (? & ? & _ & H).
            discriminate H. }
        apply act_bind_inv in Hrun. destruct Hrun as (o & w1 & Hmulti & Hret).
        apply lift_outcome_prompt in Hret. destruct Hret as (p & -> & ->).
        cbn [offered_ids].
        rewrite (multiple_burn_prompt _ _ _ _ _ _ _ Hrow Hmulti).
        apply Forall_forall. intros id Hid.
        apply in_map_iff in Hid. destruct Hid as (c & <- & Hc).
        apply filter_In in Hc. destruct Hc as [Hc Hb].
        unfold get_cards_by_card_id, rows_or_none in Ecards.
        assert (Hin : In c (filter (fun c => string_mem (ct_card_id c)
                                               (card_id :: second :: rest))
                                   (cards (db w)))).
        { destruct (filter _ _); [discriminate|].
          injection Ecards as <-. exact Hc. }
        apply filter_In in Hin. destruct Hin as [Hin _].
        exists c. split; [exact Hin|]. split; [reflexivity|].
        unfold burnable_by in Hb.
        destruct (Rarity.mem _ _); [discriminate|].
        destruct (Z.eqb_spec (ct_owner_id c) (ut_id row)); [|discriminate].
        destruct (ct_locked c); [discriminate|]. repeat split; assumption.
  - destruct (get_most_recently_obtained_card (db w) (uid interaction))
      as [recent_card|] eqn:Erecent.
    2:{ apply act_bind_inv in Hrun. destruct Hrun as (? & ? & _ & H).
        discriminate H. }
    apply act_bind_inv in Hrun. destruct Hrun as (o & w1 & Hsingle & Hret).
    apply lift_outcome_prompt in Hret. destruct Hret as (p & -> & ->).
    destruct (single_burn_prompt _ _ _ _ _ _ Hsingle) as (Hp & Hl & Hv).
    cbn [offered_ids]. rewrite Hp. constructor; [|constructor].
    unfold get_most_recently_obtained_card in Erecent.
    apply newest_In, filter_In in Erecent. destruct Erecent as [Hin Hown].
    exists recent_card. split; [exact Hin|]. split; [reflexivity|].
    split; [eapply owned_by_row; eassumption|]. split; assumption.
Qed.

Lemma card_burn_offers_own_cards_witness :
  exists prompt w',
    card_burn burn_interaction (Some "abc123 def456") tape_15 witness_world
    = (Ok (Prompt prompt), w')
    /\ offered_ids prompt = ["def456"]
    /\ db w' = db witness_world.
Proof.
  destruct (card_burn burn_interaction (Some "abc123 def456") tape_15
              witness_world) as [r w'] eqn:Hrun.
  assert (Hr : r = Ok (Prompt (BurnMultiple
            {| bb_valid_card_ids := ["def456"]; bb_total_silver := 85;
               bb_total_star := 113; bb_total_glistening_gem := 0;
               bb_has_shiny := false |}))).
  { apply (f_equal fst) in Hrun. vm_compute in Hrun. symmetry. exact Hrun. }
  subst r. eexists _, w'. split; [reflexivity|]. split; [reflexivity|].
  exact (proj1 (card_burn_offers_own_cards burn_interaction
                  (Some "abc123 def456") tape_15 witness_world _ w'
                  _ eq_refl Hrun)).
Defined.

(** ** Claiming a pack *)

Lemma with_cards_nil d : with_cards d [] = d.
Proof. destruct d. unfold with_cards. cbn. now rewrite app_nil_r. Qed.

Lemma with_cards_app d xs ys :
  with_cards (with_cards d xs) ys = with_cards d (xs ++ ys).
Proof. unfold with_cards. cbn. now rewrite app_assoc. Qed.

Lemma get_card_with_cards_fresh d row card_id :
  get_card d card_id = None ->
  ct_card_id row <> card_id ->
  get_card (with_cards d [row]) card_id = None.
Proof.
  intros H Hne. rewrite get_card_first in H |- *. unfold with_cards.
  cbn [cards]. rewrite filter_app. cbn [filter].
  destruct (String.eqb_spec (ct_card_id row) card_id); [contradiction|].
  rewrite app_nil_r. exact H.
Qed.

Lemma add_card_stored d owner_id created_at card :
  get_card d (ci_card_id card) = None ->
  add_card d (stored_row owner_id created_at card)
  = Ok (with_cards d [stored_row owner_id created_at card]).
Proof.
  intros H. rewrite add_card_fresh by exact H. reflexivity.
Qed.

(** The rows are stored one by one as long as every id is new: the ids of
    the cards to store differ from each other and from those of the
    table. *)
Lemma add_claimed_cards_spec owner_id created_at cards e :
  forall w,
  NoDup (map ci_card_id (filter (fun card => negb (is_troll card)) cards)) ->
  Forall (fun card => get_card (db w) (ci_card_id card) = None)
         (filter (fun card => negb (is_troll card)) cards) ->
  exists w',
    add_claimed_cards owner_id created_at cards e w = (Ok tt, w')
    /\ db w'
       = with_cards (db w)
           (map (stored_row owner_id created_at)
                (filter (fun card => negb (is_troll card)) cards))
    /\ cooldowns w' = cooldowns w.
Proof.
  induction cards as [|card rest IH]; intros w Hnd Hfresh;
    cbn [add_claimed_cards].
  - exists w. cbn [filter map]. rewrite with_cards_nil. repeat split.
  - cbn [filter] in Hnd, Hfresh |- *.
    change (String.eqb (ci_character_name card) "Troll")
      with (is_troll card).
    destruct (is_troll card); cbn [negb] in Hnd, Hfresh |- *.
    + unfold act_bind at 1, act_ret at 1. apply IH; assumption.
    + cbn [map] in Hnd. apply NoDup_cons_iff in Hnd.
      destruct Hnd as [Hnotin Hnd].
      apply Forall_cons_iff in Hfresh. destruct Hfresh as [Hnew Hfresh].
      unfold act_bind at 1, write_db_result at 1.
      change {| ct_card_id := ci_card_id card; ct_owner_id := owner_id;
                ct_rarity := ci_rarity card;
                ct_condition := ci_condition card;
                ct_special_rarity := ci_special_rarity card;
                ct_character_name := ci_character_name card;
                ct_created_at := created_at; ct_has_sleeve := false;
                ct_locked := false |}
        with (stored_row owner_id created_at card).
      rewrite (add_card_stored (db w) owner_id created_at card Hnew).
      destruct (IH (set_db w
                  (with_cards (db w) [stored_row owner_id created_at card]))
                  Hnd)
        as (w' & Hrun & Hdb & Hcd).
      { cbn [db set_db]. apply Forall_forall. intros other Hin.
        apply get_card_with_cards_fresh.
        - rewrite Forall_forall in Hfresh. apply Hfresh. exact Hin.
        - cbn [stored_row ct_card_id]. intros E. apply Hnotin.
          rewrite E. apply in_map. exact Hin. }
      exists w'. split; [exact Hrun|]. split; [|exact Hcd].
      rewrite Hdb. cbn [map db set_db]. rewrite with_cards_app.
      reflexivity.
Qed.

(** A card of the pack whose id the table holds stops the claim: the
    insert raises and the cards after it are not stored. *)
Lemma add_claimed_cards_taken owner_id created_at card rest e w c :
  is_troll card = false ->
  get_card (db w) (ci_card_id card) = Some c ->
  add_claimed_cards owner_id created_at (card :: rest) e w
  = (Raise UniqueViolationError, w).
Proof.
  intros Ht Hc. cbn [add_claimed_cards]. unfold is_troll in Ht. rewrite Ht.
  unfold act_bind at 1, write_db_result at 1.
  erewrite add_card_taken; [reflexivity|]. cbn [ct_card_id]. exact Hc.
Qed.

(** X21: a pack that is not claimed, because the view timed out, leaves the
    database as it was.  A claimed pack whose cards other than Trolls carry
    ids that differ from each other and from every id of the [cards] table
    appends one row to that table for each of those cards, in the order of
    the pack, owned by the user, without sleeve and unlocked, and changes no
    other table.  An id the table holds stops the claim instead: the insert
    of the first card raises the violation of the primary key and nothing
    is stored. *)
Theorem card_pack_claim_stores_the_cards cards interaction e w row :
  cards <> [] ->
  get_table (db w) (uid interaction) = Some row ->
  (exists w',
     _handle_card_pack cards interaction None e w = (Ok tt, w')
     /\ db w' = db w)
  /\ (NoDup (map ci_card_id
               (filter (fun card => negb (is_troll card)) cards)) ->
      Forall (fun card => get_card (db w) (ci_card_id card) = None)
             (filter (fun card => negb (is_troll card)) cards) ->
      exists w',
        _handle_card_pack cards interaction (Some true) e w = (Ok tt, w')
        /\ db w'
           = with_cards (db w)
               (map (stored_row (ut_id row) (now interaction))
                    (filter (fun card => negb (is_troll card)) cards)))
  /\ (forall card rest c,
        cards = card :: rest ->
        is_troll card = false ->
        get_card (db w) (ci_card_id card) = Some c ->
        exists w',
          _handle_card_pack cards interaction (Some true) e w
          = (Raise UniqueViolationError, w')
          /\ db w' = db w).
Proof.
  intros Hcards Hrow. unfold _handle_card_pack.
  destruct cards as [|card rest]; [contradiction|]. split; [|split].
  - unfold act_bind, send. eexists. split; reflexivity.
  - intros Hnd Hfresh.
    unfold act_bind at 1, send at 1.
    unfold act_bind at 1, write_db at 1. cbn [db].
    rewrite (register_known _ _ _ _ Hrow). cbn [fst].
    unfold act_bind at 1, read_db at 1. cbn [db set_db]. rewrite Hrow.
    match goal with
    | |- context [add_claimed_cards ?o ?c ?cs] =>
        match goal with
        | |- context [act_bind _ _ e ?w0] =>
            destruct (add_claimed_cards_spec o c cs e w0 Hnd)
              as (w1 & Hrun & Hdb & _); [exact Hfresh|]
        end
    end.
    unfold act_bind. rewrite Hrun. unfold send.
    eexists. split; [reflexivity|]. cbn [db]. exact Hdb.
  - intros card0 rest0 c E Htroll Hc. injection E as <- <-.
    unfold act_bind at 1, send at 1.
    unfold act_bind at 1, write_db at 1. cbn [db].
    rewrite (register_known _ _ _ _ Hrow). cbn [fst].
    unfold act_bind at 1, read_db at 1. cbn [db set_db]. rewrite Hrow.
    unfold act_bind at 1.
    erewrite add_claimed_cards_taken; [|exact Htroll|cbn [db]; exact Hc].
    eexists. split; [reflexivity|]. reflexivity.
Qed.

Lemma card_pack_claim_stores_the_cards_witness :
  (exists w',
     _handle_card_pack witness_pack_cards burn_interaction (Some true)
       witness_tape witness_world = (Ok tt, w')
     /\ map ct_owner_id (cards (db w')) = [1; 1; 1; 1])
  /\ exists w1 w2,
       _handle_card_pack witness_pack_cards burn_interaction (Some true)
         witness_tape witness_world = (Ok tt, w1)
       /\ _handle_card_pack witness_pack_cards burn_interaction (Some true)
            witness_tape w1 = (Raise UniqueViolationError, w2)
       /\ db w2 = db w1.
Proof.
  pose proof (card_pack_claim_stores_the_cards witness_pack_cards
                burn_interaction witness_tape witness_world _
                ltac:(discriminate) eq_refl) as [_ [Hclaim _]].
  destruct Hclaim as (w1 & Hrun & Hdb).
  { vm_compute. repeat constructor; cbn; intuition discriminate. }
  { repeat constructor. }
  split; [exists w1; split; [exact Hrun|]; rewrite Hdb; reflexivity|].
  assert (Hrow1 : get_table (db w1) (uid burn_interaction)
                  = get_table (db witness_world) (uid burn_interaction))
    by (rewrite Hdb; reflexivity).
  destruct (card_pack_claim_stores_the_cards witness_pack_cards
              burn_interaction witness_tape w1 _
              ltac:(discriminate) Hrow1) as [_ [_ Hstop]].
  destruct (Hstop _ _ (stored_row 1 (now burn_interaction) witness_pack_card)
              eq_refl eq_refl) as (w2 & Hrun2 & Hdb2).
  { rewrite Hdb. reflexivity. }
  exists w1, w2. split; [exact Hrun|]. split; [exact Hrun2|exact Hdb2].
Defined.

(** ** The shop: buying, recycling, using *)

Lemma select_user_pk_update_user d user_id f other :
  (forall u, ut_user_id (f u) = ut_user_id u) ->
  (forall u, ut_id (f u) = ut_id u) ->
  select_user_pk (update_user d user_id f) other = select_user_pk d other.
Proof.
  intros Hu Hi. unfold select_user_pk, update_user. cbn [users].
  induction (users d) as [|u rest IH]; [reflexivity|].
  cbn [map filter].
  destruct (ut_user_id u =? user_id).
  - rewrite Hu. destruct (ut_user_id u =? other); [|exact IH].
    rewrite Hi. reflexivity.
  - destruct (ut_user_id u =? other); [reflexivity|exact IH].
Qed.

Lemma filter_key_unique {A K} (key : A -> K) (k : K) (f : A -> bool) l :
  NoDup (map key l) ->
  (forall x, f x = true -> key x = k) ->
  filter f l = [] \/ exists x, filter f l = [x].
Proof.
  intros Hnd Hk. induction l as [|x rest IH]; [now left|].
  cbn [map] in Hnd. apply NoDup_cons_iff in Hnd. destruct Hnd as [Hx Hnd].
  cbn [filter]. destruct (f x) eqn:Ex.
  - right. exists x. f_equal.
    apply filter_none. apply Forall_forall. intros y Hy.
    destruct (f y) eqn:Ey; [|reflexivity].
    exfalso. apply Hx. apply in_map_iff. exists y. split; [|exact Hy].
    rewrite (Hk _ Ex), (Hk _ Ey). reflexivity.
  - apply IH. exact Hnd.
Qed.

Lemma filter_filter_map {A} (f p : A -> bool) (g : A -> A) l :
  (forall x, f (g x) = f x) ->
  filter f (filter p (map g l)) = filter p (map g (filter f l)).
Proof.
  intros Hg. induction l as [|x rest IH]; [reflexivity|].
  cbn [map filter].
  destruct (p (g x)) eqn:Ep; destruct (f x) eqn:Ef; cbn [map filter];
    rewrite ?Hg, ?Ef, ?Ep, IH; reflexivity.
Qed.

Lemma amount_of_remove_item d user_id item amount row :
  unique_items d ->
  get_item d user_id item = Some row ->
  amount <= it_amount row ->
  amount_of (remove_item d user_id item amount) user_id item
  = it_amount row - amount.
Proof.
  intros Hnd Hget Hle.
  assert (Hown : forall r,
             owns_item (remove_item d user_id item amount) user_id item r
             = owns_item d user_id item r).
  { intros r. apply owns_item_users. reflexivity. }
  unfold amount_of. rewrite get_item_first, (filter_ext _ _ Hown).
  unfold remove_item. cbn [inventory].
  rewrite filter_filter_map.
  2:{ intros x. destruct (owns_item d user_id item x) eqn:Ex; exact Ex. }
  rewrite get_item_first in Hget.
  destruct (select_user_pk d user_id) as [pk|] eqn:Epk.
  2:{ rewrite filter_none in Hget; [discriminate|].
      apply Forall_forall. intros r _. unfold owns_item. rewrite Epk.
      apply andb_false_r. }
  destruct (filter_key_unique (fun r => (it_owner_id r, it_item r)) (pk, item)
              (owns_item d user_id item) (inventory d) Hnd) as [E|[x E]].
  - intros r Hr. unfold owns_item in Hr. rewrite Epk in Hr.
    apply andb_true_iff in Hr. destruct Hr as [Hi Ho].
    apply bool_decide_eq_true_1 in Hi. apply Z.eqb_eq in Ho. now rewrite Hi, Ho.
  - rewrite E in Hget. discriminate.
  - rewrite E in Hget. injection Hget as ->. rewrite E. cbn [map].
    assert (Er : owns_item d user_id item row = true).
    { assert (Hin : In row (filter (owns_item d user_id item) (inventory d)))
        by (rewrite E; now left).
      apply filter_In in Hin. apply Hin. }
    rewrite Er. cbn [filter it_amount].
    destruct (Z.ltb_spec (it_amount row - amount) 1); cbn [negb it_amount]; lia.
Qed.

Lemma get_table_balance d user_id row currency amount subtract :
  get_table d user_id = Some row ->
  currency <> Currency.star ->
  exists row',
    get_table (match currency with
               | Currency.silver => set_silver d user_id amount subtract
               | Currency.gem => set_gem d user_id amount subtract
               | Currency.voucher => set_voucher d user_id amount subtract
               | Currency.star => d
               end) user_id = Some row'
    /\ balance currency row' = balance currency row + signed amount subtract
    /\ ut_id row' = ut_id row
    /\ ut_backpack_level row' = ut_backpack_level row
    /\ forall other, other <> currency -> balance other row' = balance other row.
Proof.
  intros Hrow Hc.
  destruct currency; [| contradiction | |];
    unfold set_silver, set_gem, set_voucher;
    rewrite get_table_update_user, Hrow by reflexivity;
    eexists; (split; [reflexivity|]); cbn;
    (split; [reflexivity|]); (split; [reflexivity|]); (split; [reflexivity|]);
    intros other Ho; destruct other; try reflexivity; contradiction.
Qed.

Lemma set_balance_tables d user_id currency amount subtract :
  let d' := match currency with
            | Currency.silver => set_silver d user_id amount subtract
            | Currency.gem => set_gem d user_id amount subtract
            | Currency.voucher => set_voucher d user_id amount subtract
            | Currency.star => d
            end in
  inventory d' = inventory d /\ cards d' = cards d
  /\ forall other, select_user_pk d' other = select_user_pk d other.
Proof.
  destruct currency; cbn zeta; (split; [reflexivity|]); (split; [reflexivity|]);
    intros other; try reflexivity;
    unfold set_silver, set_gem, set_voucher;
    apply select_user_pk_update_user; reflexivity.
Qed.

Ltac decide_goal :=
  repeat match goal with
    | |- context [bool_decide (?a = ?b)] =>
        first [ rewrite (bool_decide_eq_true_2 (a = b)) by congruence
              | rewrite (bool_decide_eq_false_2 (a = b)) by congruence ]
    end.

(** X22: a confirmed purchase checks the price against the balance the
    prompt read, not against the database at the time of the confirmation.
    When that balance covered the price, the purchase goes through whatever
    the user holds by then: the price leaves the balance of the currency
    and the bought amount enters the inventory. *)
Theorem buy_commit_charges_the_prompt interaction proposal e w snapshot row :
  buy_user_table proposal = Some snapshot ->
  buy_currency proposal <> Currency.star ->
  buy_total_price proposal <= balance (buy_currency proposal) snapshot ->
  buy_item proposal <> Item.backpack_upgrade ->
  get_table (db w) (uid interaction) = Some row ->
  exists w' row',
    _confirm_item_buy interaction proposal e w = (Ok tt, w')
    /\ get_table (db w') (uid interaction) = Some row'
    /\ balance (buy_currency proposal) row'
       = balance (buy_currency proposal) row - buy_total_price proposal
    /\ amount_of (db w') (uid interaction) (buy_item proposal)
       = amount_of (db w) (uid interaction) (buy_item proposal)
         + buy_amount_to_buy proposal
    /\ cards (db w') = cards (db w).
Proof.
  intros Hsnap Hcur Hle Hitem Hrow.
  destruct (get_table_balance (db w) (uid interaction) row
              (buy_currency proposal) (buy_total_price proposal) true
              Hrow Hcur) as (row' & Hrow' & Hbal & Hid & _).
  destruct (set_balance_tables (db w) (uid interaction)
              (buy_currency proposal) (buy_total_price proposal) true)
    as (Hinv & Hcards & Hpk).
  assert (Hpk0 : select_user_pk (db w) (uid interaction) = Some (ut_id row)).
  { rewrite select_user_pk_get_table, Hrow. reflexivity. }
  unfold _confirm_item_buy. rewrite Hsnap.
  rewrite (bool_decide_eq_false_2 _ Hitem). cbn [andb].
  destruct (buy_currency proposal) eqn:Ec; [| contradiction | |];
    cbn [balance] in Hle, Hbal; decide_goal;
    rewrite ?andb_false_r, ?andb_true_r; cbn [orb];
    match goal with
    | |- context [?a <? ?b] =>
        destruct (Z.ltb_spec a b) as [Hlt|_]; [lia|]
    end; cbn [orb];
    unfold act_bind, write_db, send, set_db; cbn [db];
    eexists _, row'; (split; [reflexivity|]); cbn [db];
    (split; [|split; [cbn [balance]; unfold signed in Hbal; lia|split]]).
  all: try (unfold get_table, add_item;
            match goal with
            | |- context [select_user_pk ?d ?u] => rewrite (Hpk u)
            end; rewrite Hpk0; cbn [users]; exact Hrow').
  all: try (unfold add_item;
            match goal with
            | |- context [select_user_pk ?d ?u] => rewrite (Hpk u)
            end; rewrite Hpk0; cbn [cards]; exact Hcards).
  all: erewrite amount_of_add_item by (rewrite Hpk; exact Hpk0);
       f_equal; apply amount_of_ext; [apply Hpk|exact Hinv].
Qed.

Lemma buy_commit_charges_the_prompt_witness :
  let proposal :=
    {| buy_user_table :=
         Some {| ut_id := 1; ut_user_id := 7; ut_silver := 5000; ut_star := 0;
                 ut_gem := 0; ut_voucher := 0; ut_registered_at := 0;
                 ut_backpack_level := 1 |};
       buy_item := Item.card_sleeve;
       buy_item_entity :=
         {| ie_name := "card sleeve"; ie_description := "";
            ie_price := Some 1500; ie_currency := Some Currency.silver;
            ie_visible := true; ie_usable := false |};
       buy_currency := Currency.silver;
       buy_base_price := Some 1500;
       buy_total_price := 3000;
       buy_amount_to_buy := 2;
       buy_backpack_level := 1 |} in
  silver_of (db witness_world) 7 = Some 1000
  /\ exists w',
       _confirm_item_buy burn_interaction proposal witness_tape witness_world
       = (Ok tt, w')
       /\ silver_of (db w') 7 = Some (-2000)
       /\ amount_of (db w') 7 Item.card_sleeve = 2.
Proof.
  intros proposal. split; [reflexivity|].
  destruct (buy_commit_charges_the_prompt burn_interaction proposal
              witness_tape witness_world _ _ eq_refl ltac:(discriminate)
              ltac:(cbn; lia) ltac:(discriminate) eq_refl)
    as (w' & row' & Hrun & _).
  exists w'. split; [exact Hrun|].
  vm_compute in Hrun. injection Hrun as <-. split; reflexivity.
Defined.

(** X23: a price in star is never settled: the confirmed purchase and the
    confirmed recycling pass their checks and then raise [ValueError],
    before anything is written. *)
Theorem star_price_is_never_settled interaction e w :
  (forall proposal snapshot,
     buy_user_table proposal = Some snapshot ->
     buy_currency proposal = Currency.star ->
     buy_total_price proposal <= ut_star snapshot ->
     (buy_item proposal = Item.backpack_upgrade ->
      buy_backpack_level proposal <> 5) ->
     exists w',
       _confirm_item_buy interaction proposal e w = (Raise ValueError, w')
       /\ db w' = db w)
  /\ (forall proposal row,
        rc_currency proposal = Currency.star ->
        get_item (db w) (uid interaction) (rc_item proposal) = Some row ->
        rc_amount_to_recycle proposal <= it_amount row ->
        exists w',
          _confirm_item_recycle interaction proposal e w
          = (Raise ValueError, w')
          /\ db w' = db w).
Proof.
  split.
  - intros proposal snapshot Hsnap Hcur Hle Hup.
    unfold _confirm_item_buy. rewrite Hsnap, Hcur. decide_goal.
    rewrite !andb_false_r, andb_true_r. cbn [orb].
    destruct (Z.ltb_spec (ut_star snapshot) (buy_total_price proposal));
      [lia|].
    destruct (decide (buy_item proposal = Item.backpack_upgrade)) as [Ei|Ei].
    + rewrite (bool_decide_eq_true_2 _ Ei).
      destruct (Z.eqb_spec (buy_backpack_level proposal) 5) as [E5|_];
        [destruct (Hup Ei E5)|].
      cbn [andb]. exists w. split; reflexivity.
    + rewrite (bool_decide_eq_false_2 _ Ei). cbn [andb].
      exists w. split; reflexivity.
  - intros proposal row Hcur Hget Hle.
    unfold _confirm_item_recycle.
    unfold act_bind at 1, read_db at 1. rewrite Hget, Hcur.
    destruct (Z.ltb_spec (it_amount row) (rc_amount_to_recycle proposal));
      [lia|].
    exists w. split; reflexivity.
Qed.

Lemma star_price_is_never_settled_witness :
  (exists w',
     _confirm_item_buy craft_interaction
       {| buy_user_table := Some craft_row;
          buy_item := Item.crown;
          buy_item_entity :=
            {| ie_name := "crown"; ie_description := "";
               ie_price := Some 5; ie_currency := Some Currency.star;
               ie_visible := true; ie_usable := false |};
          buy_currency := Currency.star;
          buy_base_price := Some 5;
          buy_total_price := 5;
          buy_amount_to_buy := 1;
          buy_backpack_level := 1 |} witness_tape craft_world
     = (Raise ValueError, w')
     /\ db w' = db craft_world)
  /\ (exists w',
        _confirm_item_recycle craft_interaction
          {| rc_item := Item.fusion_crystal; rc_amount_to_recycle := 1;
             rc_currency := Currency.star; rc_total_price := 2 |}
          witness_tape craft_world
        = (Raise ValueError, w')
        /\ db w' = db craft_world).
Proof.
  destruct (star_price_is_never_settled craft_interaction witness_tape
              craft_world) as [Hbuy Hrecycle].
  split.
  - eapply Hbuy; [reflexivity|reflexivity|vm_compute; discriminate|].
    discriminate.
  - eapply Hrecycle; [reflexivity|reflexivity|vm_compute; discriminate].
Defined.

Lemma item_str_inj a b : item_str a = item_str b -> a = b.
Proof. destruct a, b; intros H; try reflexivity; discriminate H. Qed.

Lemma named_item_first (f : Item.t -> bool) name item rest :
  filter (fun item => f item && String.eqb (item_str item) name) item_members
  = item :: rest ->
  f item = true /\ item_str item = name.
Proof.
  intros H.
  assert (Hin : In item (filter (fun item => f item &&
                                   String.eqb (item_str item) name)
                                item_members))
    by (rewrite H; now left).
  apply filter_In in Hin. destruct Hin as [_ Hin].
  apply andb_true_iff in Hin. destruct Hin as [Hf Hn].
  apply String.eqb_eq in Hn. split; assumption.
Qed.

(** A run that sends a message and ends rejected is no prompt. *)
Ltac no_prompt H :=
  repeat (apply act_bind_inv in H; destruct H as (? & ? & _ & H));
  discriminate H.

Lemma item_buy_prompt to_entity regex_autocomplete interaction item_name
    amount_to_buy e w proposal w' :
  item_buy to_entity regex_autocomplete interaction item_name amount_to_buy
    e w
  = (Ok (Prompt proposal), w') ->
  1 <= amount_to_buy
  /\ item_str (buy_item proposal) = casefold item_name
  /\ exists price,
       ie_price (to_entity (buy_item proposal)) = Some price
       /\ ie_currency (to_entity (buy_item proposal))
          = Some (buy_currency proposal)
       /\ (buy_item proposal <> Item.backpack_upgrade ->
           buy_total_price proposal = price * amount_to_buy
           /\ buy_amount_to_buy proposal = amount_to_buy).
Proof.
  unfold item_buy.
  destruct (Z.ltb_spec amount_to_buy 1) as [Hlt|Hpos];
    [intros H; no_prompt H|].
  destruct (filter _ item_members) as [|item rest] eqn:Efound.
  { intros H. apply act_bind_inv in H.
    destruct H as ([|close rest] & ? & _ & H); no_prompt H. }
  apply named_item_first in Efound. destruct Efound as [_ Hname].
  destruct (ie_price (to_entity item)) as [[|p|p]|] eqn:Eprice;
    [discriminate| | |discriminate].
  all: unfold act_bind at 1, read_db at 1.
  all: destruct (levels_get_table (db w) (uid interaction)); [|discriminate].
  all: destruct (_ <? 5); [intros H; no_prompt H|].
  all: destruct (_ && _); [intros H; no_prompt H|].
  all: destruct (ie_currency (to_entity item)) as [currency|] eqn:Ecur;
    [|discriminate].
  all: intros H; apply act_bind_inv in H; destruct H as (? & ? & _ & H).
  all: unfold act_ret in H; injection H as <- _.
  all: cbn [buy_item buy_currency buy_total_price buy_amount_to_buy].
  all: split; [exact Hpos|]; split; [exact Hname|].
  all: eexists; split; [exact Eprice|]; split; [exact Ecur|].
  all: intros Hne; rewrite (bool_decide_eq_false_2 _ Hne); split; reflexivity.
Qed.

Lemma item_recycle_prompt to_entity regex_autocomplete interaction item_name
    amount_to_recycle e w proposal w' :
  item_recycle to_entity regex_autocomplete interaction item_name
    amount_to_recycle e w = (Ok (Prompt proposal), w') ->
  1 <= amount_to_recycle
  /\ rc_amount_to_recycle proposal = amount_to_recycle
  /\ item_str (rc_item proposal) = casefold item_name
  /\ match ie_price (to_entity (rc_item proposal)) with
     | Some price =>
         ie_currency (to_entity (rc_item proposal))
         = Some (rc_currency proposal)
         /\ rc_total_price proposal
            = (if 1 <? price then (price / 2) * amount_to_recycle
               else amount_to_recycle)
     | None =>
         rc_currency proposal = Currency.silver /\ rc_total_price proposal = 0
     end
  /\ (exists row,
        get_item (db w) (uid interaction) (rc_item proposal) = Some row
        /\ amount_to_recycle <= it_amount row)
  /\ db w' = db w.
Proof.
  unfold item_recycle.
  destruct (filter _ item_members) as [|item rest] eqn:Efound.
  { intros H. apply act_bind_inv in H. destruct H as (matches & ? & _ & H).
    destruct matches; no_prompt H. }
  apply named_item_first in Efound. destruct Efound as [_ Hname].
  destruct (Z.ltb_spec amount_to_recycle 1) as [Hlt|Hpos];
    [intros H; no_prompt H|].
  intros H. apply act_bind_inv in H.
  destruct H as ([total_price currency] & w1 & Hpriced & H).
  assert (Hprice :
    w1 = w
    /\ match ie_price (to_entity item) with
       | Some price =>
           ie_currency (to_entity item) = Some currency
           /\ total_price
              = (if 1 <? price then (price / 2) * amount_to_recycle
                 else amount_to_recycle)
       | None => currency = Currency.silver /\ total_price = 0
       end).
  { unfold purchasable in Hpriced.
    destruct (ie_price (to_entity item)) as [[|p|p]|];
      [discriminate| | |].
    1,2: destruct (ie_currency (to_entity item)); [|discriminate].
    all: unfold act_ret in Hpriced; injection Hpriced as <- <- <-.
    all: repeat split. }
  destruct Hprice as [-> Hprice].
  unfold act_bind at 1, read_db at 1 in H.
  destruct (get_item (db w) (uid interaction) item) as [row|] eqn:Eitem;
    [|no_prompt H].
  destruct (Z.ltb_spec (it_amount row) amount_to_recycle) as [Hlt|Hge];
    [no_prompt H|].
  unfold act_bind, send, act_ret in H. injection H as <- <-.
  cbn [rc_item rc_amount_to_recycle rc_currency rc_total_price db].
  split; [exact Hpos|]. split; [reflexivity|]. split; [exact Hname|].
  split; [exact Hprice|]. split; [|reflexivity].
  exists row. split; [exact Eitem|exact Hge].
Qed.

(** X24: recycling never pays back more than the purchase cost.  When the
    buy command and the recycle command prompt for the same name and
    amount, and the item is not the backpack upgrade and has a positive
    price, they mean the same item, in the same currency, and the refund
    is at most the price paid: at most half of it, unless the item costs 1,
    in which case the whole price is refunded.  The recycle command itself
    writes nothing. *)
Theorem recycling_refunds_at_most_the_price to_entity regex_autocomplete
    interaction item_name amount e1 w1 bought w1' e2 w2 recycled w2' price :
  item_buy to_entity regex_autocomplete interaction item_name amount e1 w1
  = (Ok (Prompt bought), w1') ->
  item_recycle to_entity regex_autocomplete interaction item_name amount e2 w2
  = (Ok (Prompt recycled), w2') ->
  buy_item bought <> Item.backpack_upgrade ->
  ie_price (to_entity (buy_item bought)) = Some price ->
  0 < price ->
  rc_item recycled = buy_item bought
  /\ rc_currency recycled = buy_currency bought
  /\ rc_amount_to_recycle recycled = buy_amount_to_buy bought
  /\ rc_total_price recycled <= buy_total_price bought
  /\ (1 < price -> 2 * rc_total_price recycled <= buy_total_price bought)
  /\ (price = 1 -> rc_total_price recycled = buy_total_price bought)
  /\ db w2' = db w2.
Proof.
  intros Hbuy Hrecycle Hne Hprice Hpos.
  apply item_buy_prompt in Hbuy.
  destruct Hbuy as (Hamount & Hname & price0 & Hprice0 & Hcur & Htotal).
  rewrite Hprice in Hprice0. injection Hprice0 as <-.
  destruct (Htotal Hne) as [Hb Ha].
  apply item_recycle_prompt in Hrecycle.
  destruct Hrecycle as (_ & Ha' & Hname' & Hrefund & _ & Hdb).
  assert (Hitem : rc_item recycled = buy_item bought).
  { apply item_str_inj. now rewrite Hname, Hname'. }
  rewrite Hitem, Hprice, Hcur in Hrefund. destruct Hrefund as [Hc Hr].
  split; [exact Hitem|]. split; [congruence|]. split; [congruence|].
  rewrite Hr, Hb.
  assert (Hhalf : 2 * (price / 2) <= price)
    by (apply Z.mul_div_le; lia).
  destruct (Z.ltb_spec 1 price) as [Hbig|Hone].
  - split; [nia|]. split; [intros _; nia|]. split; [lia|exact Hdb].
  - split; [nia|]. split; [intros Hbig; lia|]. split; [nia|exact Hdb].
Qed.

Lemma recycling_refunds_at_most_the_price_witness :
  exists bought recycled w1' w2',
    item_buy flat_shop (fun _ _ => Ok []) shop_interaction "Fusion Crystal"
      1 witness_tape craft_world = (Ok (Prompt bought), w1')
    /\ item_recycle flat_shop (fun _ _ => Ok []) shop_interaction
         "Fusion Crystal" 1 witness_tape craft_world
       = (Ok (Prompt recycled), w2')
    /\ buy_total_price bought = 100
    /\ rc_total_price recycled = 50
    /\ 2 * rc_total_price recycled <= buy_total_price bought.
Proof.
  destruct (item_buy flat_shop (fun _ _ => Ok []) shop_interaction
              "Fusion Crystal" 1 witness_tape craft_world)
    as [r1 w1'] eqn:Hbuy.
  destruct (item_recycle flat_shop (fun _ _ => Ok []) shop_interaction
              "Fusion Crystal" 1 witness_tape craft_world)
    as [r2 w2'] eqn:Hrecycle.
  pose proof (f_equal fst Hbuy) as E1. vm_compute in E1. subst r1.
  pose proof (f_equal fst Hrecycle) as E2. vm_compute in E2. subst r2.
  eexists _, _, w1', w2'.
  split; [reflexivity|]. split; [reflexivity|].
  split; [reflexivity|]. split; [reflexivity|].
  refine (proj1 (proj2 (proj2 (proj2 (proj2
    (recycling_refunds_at_most_the_price flat_shop (fun _ _ => Ok [])
       shop_interaction "Fusion Crystal" 1 witness_tape craft_world _ w1'
       witness_tape craft_world _ w2' 100 Hbuy Hrecycle
       ltac:(discriminate) eq_refl ltac:(lia)))))) _).
  lia.
Defined.

Lemma get_item_ext d1 d2 user_id item :
  select_user_pk d1 user_id = select_user_pk d2 user_id ->
  inventory d1 = inventory d2 ->
  get_item d1 user_id item = get_item d2 user_id item.
Proof.
  intros Hpk Hinv. unfold get_item, owns_item. rewrite Hpk, Hinv. reflexivity.
Qed.

(** X25: a confirmed recycling reads the inventory again.  A user who no
    longer holds the amount is turned away and nothing is written;
    otherwise the refund of the prompt enters the balance of its currency,
    the amount leaves the inventory, and the cards are as they were. *)
Theorem recycle_commit_rechecks_the_inventory interaction proposal e w row :
  unique_items (db w) ->
  get_table (db w) (uid interaction) = Some row ->
  rc_currency proposal <> Currency.star ->
  1 <= rc_amount_to_recycle proposal ->
  exists w',
    _confirm_item_recycle interaction proposal e w = (Ok tt, w')
    /\ if amount_of (db w) (uid interaction) (rc_item proposal)
          <? rc_amount_to_recycle proposal
       then db w' = db w
       else exists row',
         get_table (db w') (uid interaction) = Some row'
         /\ balance (rc_currency proposal) row'
            = balance (rc_currency proposal) row + rc_total_price proposal
         /\ amount_of (db w') (uid interaction) (rc_item proposal)
            = amount_of (db w) (uid interaction) (rc_item proposal)
              - rc_amount_to_recycle proposal
         /\ cards (db w') = cards (db w).
Proof.
  intros Hnd Hrow Hcur Hpos.
  destruct (get_table_balance (db w) (uid interaction) row
              (rc_currency proposal) (rc_total_price proposal) false
              Hrow Hcur) as (row' & Hrow' & Hbal & _).
  destruct (set_balance_tables (db w) (uid interaction)
              (rc_currency proposal) (rc_total_price proposal) false)
    as (Hinv & Hcards & Hpk).
  unfold signed in Hbal.
  unfold _confirm_item_recycle.
  unfold act_bind at 1, read_db at 1.
  destruct (get_item (db w) (uid interaction) (rc_item proposal))
    as [item_row|] eqn:Eitem;
    (assert (Ha : amount_of (db w) (uid interaction) (rc_item proposal)
                  = match get_item (db w) (uid interaction) (rc_item proposal)
                    with Some r => it_amount r | None => 0 end)
       by reflexivity);
    rewrite Eitem in Ha; rewrite Ha.
  2:{ destruct (Z.ltb_spec 0 (rc_amount_to_recycle proposal)); [|lia].
      unfold send. eexists. split; reflexivity. }
  destruct (Z.ltb_spec (it_amount item_row) (rc_amount_to_recycle proposal))
    as [Hlt|Hge].
  { unfold send. eexists. split; reflexivity. }
  destruct (rc_currency proposal) eqn:Ec; [| contradiction | |];
    unfold act_bind, write_db, send, set_db; cbn [db];
    (eexists; split; [reflexivity|]); cbn [db];
    exists row'; (split; [exact Hrow'|]);
    (split; [exact Hbal|]); (split; [|exact Hcards]);
    rewrite <- (get_item_ext _ _ _ _ (Hpk _) Hinv) in Eitem;
    rewrite (amount_of_remove_item _ _ _ _ item_row);
    try reflexivity; try assumption;
    unfold unique_items; cbn [inventory]; exact Hnd.
Qed.

Lemma recycle_commit_rechecks_the_inventory_witness :
  let proposal :=
    {| rc_item := Item.fusion_crystal; rc_amount_to_recycle := 1;
       rc_currency := Currency.silver; rc_total_price := 50 |} in
  exists w',
    _confirm_item_recycle craft_interaction proposal witness_tape craft_world
    = (Ok tt, w')
    /\ silver_of (db w') 7 = Some 1050
    /\ inventory (db w') = [].
Proof.
  intros proposal.
  assert (Hnd : unique_items (db craft_world)).
  { unfold unique_items. cbn. constructor; [intros []|constructor]. }
  destruct (recycle_commit_rechecks_the_inventory craft_interaction proposal
              witness_tape craft_world _ Hnd eq_refl ltac:(discriminate)
              ltac:(cbn; lia)) as (w' & Hrun & _).
  exists w'. split; [exact Hrun|].
  vm_compute in Hrun. injection Hrun as <-. split; reflexivity.
Defined.

(** X26: using an item.  A user who holds the item but not a single card
    gets [AssertionError], and the item is not consumed.  Whenever the use
    goes through, the database changes by the removal of the used amount
    and by nothing else; only for a patron of the uncommon tier or above
    can the item stay in the inventory. *)
Theorem item_use_consumption to_entity Character interaction item
    amount_to_use e w item_row row :
  get_item (db w) (uid interaction) item = Some item_row ->
  amount_to_use <= it_amount item_row ->
  get_table (db w) (uid interaction) = Some row ->
  (get_cards (db w) (uid interaction) = None ->
   _confirm_item_use to_entity Character interaction item amount_to_use e w
   = (Raise AssertionError, w))
  /\ (forall opened w',
        _confirm_item_use to_entity Character interaction item amount_to_use
          e w = (Ok (Prompt opened), w') ->
        db w' = remove_item (db w) (uid interaction) item amount_to_use
        \/ (has_minimum_patreon_role (user interaction) PatreonRole.uncommon
            = true
            /\ db w' = db w)).
Proof.
  intros Hitem Hle Hrow. unfold _confirm_item_use.
  split.
  - intros Hnone. unfold act_bind at 1, read_db at 1.
    rewrite Hitem, Hrow, Hnone.
    destruct (Z.ltb_spec (it_amount item_row) amount_to_use) as [Hlt|_];
      [lia|].
    reflexivity.
  - intros opened w'. unfold act_bind at 1, read_db at 1.
    rewrite Hitem, Hrow.
    destruct (Z.ltb_spec (it_amount item_row) amount_to_use) as [Hlt|_];
      [lia|].
    destruct (get_cards (db w) (uid interaction)); [|discriminate].
    destruct (_ && _); [intros H; no_prompt H|].
    intros H. apply act_bind_inv in H. destruct H as ([] & w1 & Hremove & H).
    assert (Hdb : db w' = db w1).
    { destruct (ie_usable (to_entity item)).
      - apply act_bind_inv in H. destruct H as (cards & w2 & Hs & H).
        apply keeps_db_sample in Hs.
        unfold act_ret in H. injection H as _ <-. exact Hs.
      - unfold act_ret in H. injection H as _ <-. reflexivity. }
    rewrite Hdb.
    destruct (has_minimum_patreon_role (user interaction) PatreonRole.uncommon).
    + apply act_bind_inv in Hremove.
      destruct Hremove as (r & w2 & Hs & Hremove).
      apply keeps_db_sample in Hs.
      destruct (Qltb r 0.9).
      * unfold write_db in Hremove. injection Hremove as <-.
        left. cbn [db set_db]. rewrite Hs. reflexivity.
      * unfold act_ret in Hremove. injection Hremove as <-.
        right. split; [reflexivity|exact Hs].
    + unfold write_db in Hremove. injection Hremove as <-. left. reflexivity.
Qed.

Lemma item_use_consumption_witness :
  let w :=
    set_db craft_world
      {| users := users craft_db; levels := levels craft_db;
         inventory := inventory craft_db; cards := [] |} in
  amount_of (db w) 7 Item.fusion_crystal = 1
  /\ _confirm_item_use flat_shop bob_roster craft_interaction
       Item.fusion_crystal 1 witness_tape w
     = (Raise AssertionError, w).
Proof.
  intros w. split; [reflexivity|].
  apply (proj1 (item_use_consumption flat_shop bob_roster craft_interaction
                  Item.fusion_crystal 1 witness_tape w _ _ eq_refl
                  ltac:(cbn; lia) eq_refl)).
  reflexivity.
Defined.

(** ** Locking cards *)











(** ** Sleeving a card *)

Lemma sleeve_prompt interaction sleeve_option card_id e w row proposal w' :
  unique_cards (db w) ->
  get_table (db w) (uid interaction) = Some row ->
  _handle_card_sleeve interaction sleeve_option card_id e w
  = (Ok (Prompt proposal), w') ->
  db w' = db w
  /\ sl_is_option_add proposal = bool_decide (sleeve_option = SleeveOption.add)
  /\ exists card,
       get_card (db w) (sl_card_id proposal) = Some card
       /\ ct_owner_id card = ut_id row
       /\ ct_has_sleeve card = negb (sl_is_option_add proposal).
Proof.
  intros Hu Hrow. unfold _handle_card_sleeve.
  unfold act_bind at 1, read_db at 1. rewrite Hrow.
  destruct (match card_id with
            | Some card_id0 => get_card (db w) card_id0
            | None => get_most_recently_obtained_card (db w) (uid interaction)
            end) as [card|] eqn:Ecard; [|intros H; no_prompt H].
  assert (Hin : In card (cards (db w))
                /\ match card_id with
                   | Some (String _ _ as given) => given
                   | _ => ct_card_id card
                   end = ct_card_id card).
  { destruct card_id as [given|].
    - apply get_card_In in Ecard. destruct Ecard as [Hin Hid].
      split; [exact Hin|]. destruct given; [reflexivity|]. now rewrite Hid.
    - unfold get_most_recently_obtained_card in Ecard.
      apply newest_In, filter_In in Ecard. split; [apply Ecard|reflexivity]. }
  destruct Hin as [Hin Hid]. rewrite Hid. clear Hid Ecard.
  set (is_option_add := bool_decide (sleeve_option = SleeveOption.add)).
  destruct (ct_has_sleeve card) eqn:Esleeve, is_option_add eqn:Eadd;
    cbn [andb negb]; try (intros H; no_prompt H).
  all: destruct (Z.eqb_spec (ct_owner_id card) (ut_id row)) as [Eown|Eown];
    cbn [negb]; try (intros H; no_prompt H).
  all: unfold act_bind, send, act_ret; intros H; injection H as <- <-.
  all: cbn [db sl_is_option_add sl_card_id].
  all: split; [reflexivity|]; split; [reflexivity|].
  all: exists card; split; [|split; [exact Eown|now rewrite Esleeve]].
  all: apply get_card_unique; [exact Hu|exact Hin|reflexivity].
Qed.

Lemma get_card_update_card d card_id f c :
  (forall c, ct_card_id (f c) = ct_card_id c) ->
  get_card d card_id = Some c ->
  get_card (update_card d card_id f) card_id = Some (f c).
Proof.
  intros Hf. unfold get_card, update_card. cbn [cards].
  induction (cards d) as [|x rest IH]; [discriminate|].
  cbn [map filter].
  destruct (String.eqb (ct_card_id x) card_id) eqn:E.
  - rewrite Hf, E. intros H. injection H as <-. reflexivity.
  - rewrite E. exact IH.
Qed.

Lemma cards_add_item d user_id item amount :
  cards (add_item d user_id item amount) = cards d.
Proof. unfold add_item. destruct (select_user_pk d user_id); reflexivity. Qed.

Lemma users_add_item d user_id item amount :
  users (add_item d user_id item amount) = users d.
Proof. unfold add_item. destruct (select_user_pk d user_id); reflexivity. Qed.

Lemma stocked_holds d user_id item row :
  stocked d -> get_item d user_id item = Some row -> 1 <= it_amount row.
Proof.
  intros Hs Hget. rewrite get_item_first in Hget.
  assert (Hin : In row (filter (owns_item d user_id item) (inventory d))).
  { destruct (filter _ _); [discriminate|]. injection Hget as ->. now left. }
  apply filter_In in Hin. destruct Hin as [Hin _].
  unfold stocked in Hs. rewrite Forall_forall in Hs. exact (Hs row Hin).
Qed.

(** X28: a confirmed sleeve change moves exactly one sleeve between the
    inventory and the card.  The command prompts only for a card of the
    user whose sleeve is not yet as asked, and writes nothing.  Confirmed,
    an addition without a sleeve in the inventory is turned away and
    writes nothing either; otherwise the card has its sleeve as asked, and
    the inventory holds one sleeve less after an addition and one more
    after a removal. *)
Theorem sleeve_moves_one_sleeve interaction sleeve_option card_id e w row
    proposal w1 e' :
  unique_cards (db w) ->
  unique_items (db w) ->
  stocked (db w) ->
  get_table (db w) (uid interaction) = Some row ->
  _handle_card_sleeve interaction sleeve_option card_id e w
  = (Ok (Prompt proposal), w1) ->
  db w1 = db w
  /\ exists card w2,
       get_card (db w) (sl_card_id proposal) = Some card
       /\ ct_owner_id card = ut_id row
       /\ ct_has_sleeve card = negb (sl_is_option_add proposal)
       /\ _confirm_card_sleeve interaction proposal e' w1 = (Ok tt, w2)
       /\ if sl_is_option_add proposal
             && (amount_of (db w) (uid interaction) Item.card_sleeve =? 0)
          then db w2 = db w
          else sleeve_of (db w2) (sl_card_id proposal)
               = Some (sl_is_option_add proposal)
               /\ amount_of (db w2) (uid interaction) Item.card_sleeve
                  = amount_of (db w) (uid interaction) Item.card_sleeve
                    + (if sl_is_option_add proposal then -1 else 1).
Proof.
  intros Hu Hnd Hs Hrow Hprompt.
  destruct (sleeve_prompt _ _ _ _ _ _ _ _ Hu Hrow Hprompt)
    as (Hdb & _ & card & Hcard & Hown & Hsleeve).
  split; [exact Hdb|]. exists card.
  assert (Hpk : select_user_pk (db w) (uid interaction) = Some (ut_id row)).
  { rewrite select_user_pk_get_table, Hrow. reflexivity. }
  unfold _confirm_card_sleeve.
  destruct (sl_is_option_add proposal) eqn:Eadd; cbn [andb].
  - unfold act_bind at 1, read_db at 1. rewrite Hdb.
    unfold amount_of at 1.
    destruct (get_item (db w) (uid interaction) Item.card_sleeve)
      as [sleeves|] eqn:Eitem.
    + pose proof (stocked_holds _ _ _ _ Hs Eitem) as Hone.
      destruct (Z.eqb_spec (it_amount sleeves) 0) as [E0|_]; [lia|].
      unfold act_bind, write_db, send, set_db. cbn [db]. rewrite Hdb.
      eexists. split; [exact Hcard|]. split; [exact Hown|].
      split; [exact Hsleeve|]. split; [reflexivity|]. cbn [db]. split.
      * unfold sleeve_of, invert_has_sleeve.
        erewrite get_card_update_card; [|reflexivity|exact Hcard].
        cbn [ct_has_sleeve]. now rewrite Hsleeve.
      * match goal with
        | |- context [amount_of (invert_has_sleeve ?D ?i) _ _] =>
            rewrite (amount_of_ext (invert_has_sleeve D i) D) by reflexivity
        end.
        rewrite (amount_of_remove_item _ _ _ _ sleeves Hnd Eitem Hone).
        unfold amount_of. rewrite Eitem. lia.
    + cbn [Z.eqb]. unfold send. eexists.
      split; [exact Hcard|]. split; [exact Hown|]. split; [exact Hsleeve|].
      split; [reflexivity|]. cbn [db]. exact Hdb.
  - unfold act_bind, write_db, send, set_db. cbn [db]. rewrite Hdb.
    eexists. split; [exact Hcard|]. split; [exact Hown|].
    split; [exact Hsleeve|]. split; [reflexivity|]. cbn [db]. split.
    + unfold sleeve_of, invert_has_sleeve.
      erewrite get_card_update_card; [|reflexivity|].
      * cbn [ct_has_sleeve]. now rewrite Hsleeve.
      * unfold get_card. rewrite cards_add_item. exact Hcard.
    + match goal with
        | |- context [amount_of (invert_has_sleeve ?D ?i) _ _] =>
            rewrite (amount_of_ext (invert_has_sleeve D i) D) by reflexivity
        end.
      apply (amount_of_add_item _ _ _ _ _ Hpk).
Qed.

Lemma sleeve_moves_one_sleeve_witness :
  let w :=
    set_db witness_world
      {| users := [patron_row]; levels := [];
         inventory := [{| it_id := 1; it_owner_id := 1;
                          it_item := Item.card_sleeve; it_amount := 1 |}];
         cards := [aged_card] |} in
  exists proposal w1 w2,
    _handle_card_sleeve burn_interaction SleeveOption.add (Some "def456")
      witness_tape w = (Ok (Prompt proposal), w1)
    /\ _confirm_card_sleeve burn_interaction proposal witness_tape w1
       = (Ok tt, w2)
    /\ sleeve_of (db w2) "def456" = Some true
    /\ amount_of (db w2) 7 Item.card_sleeve = 0.
Proof.
  intros w.
  destruct (_handle_card_sleeve burn_interaction SleeveOption.add
              (Some "def456") witness_tape w) as [r w1] eqn:Hprompt.
  pose proof (f_equal fst Hprompt) as Er. vm_compute in Er. subst r.
  assert (Hu : unique_cards (db w)).
  { unfold unique_cards. cbn. constructor; [intros []|constructor]. }
  assert (Hnd : unique_items (db w)).
  { unfold unique_items. cbn. constructor; [intros []|constructor]. }
  assert (Hs : stocked (db w)).
  { unfold stocked. cbn. constructor; [cbn; lia|constructor]. }
  destruct (sleeve_moves_one_sleeve burn_interaction SleeveOption.add
              (Some "def456") witness_tape w _ _ w1 witness_tape
              Hu Hnd Hs eq_refl Hprompt)
    as (_ & card & w2 & _ & _ & _ & Hrun & Hout).
  eexists _, w1, w2. split; [reflexivity|]. split; [exact Hrun|].
  destruct Hout as [H1 H2]. split; [exact H1|exact H2].
Defined.

(** ** Awarding experience *)

Lemma levels_get_table_update_levels d user_id s level :
  levels_get_table d user_id = Some level ->
  levels_get_table (update_levels d user_id s) user_id
  = Some (progress_row level s).
Proof.
  unfold levels_get_table, update_levels.
  change (select_user_pk {| users := users d; levels := _;
                            inventory := _; cards := _ |} user_id)
    with (select_user_pk d user_id).
  destruct (select_user_pk d user_id) as [pk|]; [|discriminate].
  cbn [levels]. induction (levels d) as [|l rest IH]; [discriminate|].
  cbn [map filter]. destruct (Z.eqb_spec (lt_user_id l) pk) as [E|E].
  - cbn [lt_user_id]. rewrite (proj2 (Z.eqb_eq _ _) E).
    intros H. injection H as <-. reflexivity.
  - rewrite (proj2 (Z.eqb_neq _ _) E). exact IH.
Qed.

(** What [handle_exp_addition] does: it raises, and writes nothing, for a
    user without row in [users] or [levels] and outside a guild; else it
    stores the row [add_exp] computes and returns the experience given. *)
Lemma handle_exp_addition_run interaction exp e w :
  match get_table (db w) (uid interaction) with
  | None => handle_exp_addition interaction exp e w = (Raise AssertionError, w)
  | Some _ =>
      match levels_get_table (db w) (uid interaction), guild interaction with
      | None, _ =>
          handle_exp_addition interaction exp e w = (Raise ValueError, w)
      | Some _, None =>
          handle_exp_addition interaction exp e w = (Raise AssertionError, w)
      | Some level, Some _ =>
          exists progress,
            add_exp (user interaction) exp (row_progress level)
            = Some (exp_given (user interaction) exp, progress)
            /\ handle_exp_addition interaction exp e w
               = (Ok (exp_given (user interaction) exp),
                  set_db w (update_levels (db w) (uid interaction) progress))
      end
  end.
Proof.
  destruct (get_table (db w) (uid interaction)) as [row|] eqn:Erow.
  2:{ unfold handle_exp_addition, act_bind, read_db. rewrite Erow.
      reflexivity. }
  destruct (levels_get_table (db w) (uid interaction)) as [level|] eqn:El.
  2:{ unfold handle_exp_addition, act_bind, read_db. rewrite Erow, El.
      reflexivity. }
  destruct (guild interaction) eqn:Eg.
  2:{ unfold handle_exp_addition, act_bind, read_db. rewrite Erow, El, Eg.
      reflexivity. }
  destruct (add_exp_is_total (user interaction) exp (row_progress level))
    as (progress & Hadd).
  exists progress. split; [exact Hadd|].
  unfold handle_exp_addition, act_bind at 1, read_db.
  rewrite Erow, El, Eg. unfold row_progress in Hadd. rewrite Hadd.
  reflexivity.
Qed.

(** ** The forge: upgrading and fusing *)

Lemma upgrade_prompt interaction card_id e w row proposal w' :
  unique_cards (db w) ->
  get_table (db w) (uid interaction) = Some row ->
  forge_upgrade interaction card_id e w = (Ok (Prompt proposal), w') ->
  db w' = db w
  /\ exists card,
       get_card (db w) (ci_card_id (up_card proposal)) = Some card
       /\ ct_owner_id card = ut_id row
       /\ ct_condition card <> Condition.pristine
       /\ up_new_condition proposal = upgrade (ct_condition card)
       /\ up_upgrade_cost proposal
          = if bool_decide (ct_special_rarity card = SpecialRarity.shiny)
            then 4 else 1.
Proof.
  intros Hu Hrow. unfold forge_upgrade.
  unfold act_bind at 1, read_db at 1. rewrite Hrow.
  destruct (match card_id with
            | Some card_id0 => get_card (db w) card_id0
            | None => get_most_recently_obtained_card (db w) (uid interaction)
            end) as [card|] eqn:Ecard; [|intros H; no_prompt H].
  assert (Hin : In card (cards (db w))).
  { destruct card_id as [given|].
    - apply get_card_In in Ecard. apply Ecard.
    - unfold get_most_recently_obtained_card in Ecard.
      apply newest_In, filter_In in Ecard. apply Ecard. }
  destruct (decide (ct_condition card = Condition.pristine)) as [Ep|Ep].
  { rewrite (bool_decide_eq_true_2 _ Ep). intros H. no_prompt H. }
  rewrite (bool_decide_eq_false_2 _ Ep).
  destruct (Z.eqb_spec (ct_owner_id card) (ut_id row)) as [Eown|Eown];
    cbn [negb]; [|intros H; no_prompt H].
  unfold act_bind, send, act_ret. intros H. injection H as <- <-.
  cbn [db up_card up_new_condition up_upgrade_cost ci_card_id ci_condition
       ci_special_rarity].
  split; [reflexivity|]. exists card.
  split; [apply get_card_unique; [exact Hu|exact Hin|reflexivity]|].
  repeat (split; [first [exact Eown | exact Ep | reflexivity]|]). reflexivity.
Qed.

(** X29: a confirmed upgrade raises the condition of the card by exactly
    one level and costs one glistening gem, four for a shiny card.  The
    command prompts only for a card of the user that is not pristine, and
    writes nothing.  Confirmed without the gems in the inventory, it is
    turned away and nothing is written; otherwise the card takes the new
    condition and the gems leave the inventory, and then between 150 and
    250 experience is awarded: with a [levels] row and inside a guild the
    row is stored as [add_exp] leaves it and the upgrade ends well; without
    the row the award raises [ValueError], outside a guild it fails its
    assertion, and either way the card stays upgraded and the gems stay
    spent. *)
Theorem upgrade_raises_one_level interaction card_id e w row proposal w1 e' :
  unique_cards (db w) ->
  unique_items (db w) ->
  get_table (db w) (uid interaction) = Some row ->
  forge_upgrade interaction card_id e w = (Ok (Prompt proposal), w1) ->
  db w1 = db w
  /\ exists card r w2,
       get_card (db w) (ci_card_id (up_card proposal)) = Some card
       /\ ct_owner_id card = ut_id row
       /\ Condition.level (up_new_condition proposal)
          = Condition.level (ct_condition card) + 1
       /\ up_upgrade_cost proposal
          = (if bool_decide (ct_special_rarity card = SpecialRarity.shiny)
             then 4 else 1)
       /\ _confirm_forge_upgrade interaction proposal e' w1 = (r, w2)
       /\ if amount_of (db w) (uid interaction) Item.glistening_gem
             <? up_upgrade_cost proposal
          then r = Ok tt /\ db w2 = db w
          else
            let upgraded :=
              change_card_condition
                (remove_item (db w) (uid interaction) Item.glistening_gem
                   (up_upgrade_cost proposal))
                (ci_card_id (up_card proposal)) (up_new_condition proposal) in
            condition_of (db w2) (ci_card_id (up_card proposal))
            = Some (up_new_condition proposal)
            /\ amount_of (db w2) (uid interaction) Item.glistening_gem
               = amount_of (db w) (uid interaction) Item.glistening_gem
                 - up_upgrade_cost proposal
            /\ match levels_get_table (db w) (uid interaction),
                     guild interaction with
               | None, _ => r = Raise ValueError /\ db w2 = upgraded
               | Some _, None => r = Raise AssertionError /\ db w2 = upgraded
               | Some level, Some _ =>
                   r = Ok tt
                   /\ exists reward_exp progress,
                        150 <= reward_exp <= 250
                        /\ add_exp (user interaction) reward_exp
                             (row_progress level)
                           = Some (exp_given (user interaction) reward_exp,
                                   progress)
                        /\ db w2
                           = update_levels upgraded (uid interaction) progress
                        /\ levels_get_table (db w2) (uid interaction)
                           = Some (progress_row level progress)
               end.
Proof.
  intros Hu Hnd Hrow Hprompt.
  destruct (upgrade_prompt _ _ _ _ _ _ _ Hu Hrow Hprompt)
    as (Hdb & card & Hcard & Hown & Hp & Hnew & Hcost).
  split; [exact Hdb|].
  assert (Hlevel : Condition.level (up_new_condition proposal)
                   = Condition.level (ct_condition card) + 1).
  { rewrite Hnew. destruct (ct_condition card); try reflexivity.
    contradiction. }
  assert (Hpos : 1 <= up_upgrade_cost proposal).
  { rewrite Hcost. destruct (bool_decide _); lia. }
  destruct (_confirm_forge_upgrade interaction proposal e' w1)
    as [r w2] eqn:Hrun.
  exists card, r, w2.
  split; [exact Hcard|]. split; [exact Hown|]. split; [exact Hlevel|].
  split; [exact Hcost|]. split; [reflexivity|].
  unfold _confirm_forge_upgrade in Hrun.
  unfold act_bind at 1, read_db at 1 in Hrun. rewrite Hdb in Hrun.
  unfold amount_of at 1.
  destruct (get_item (db w) (uid interaction) Item.glistening_gem)
    as [item|] eqn:Eitem.
  2:{ destruct (Z.ltb_spec 0 (up_upgrade_cost proposal)); [|lia].
      unfold send in Hrun. injection Hrun as <- <-.
      split; [reflexivity|exact Hdb]. }
  destruct (Z.ltb_spec (it_amount item) (up_upgrade_cost proposal))
    as [Hlt|Hge].
  { unfold send in Hrun. injection Hrun as <- <-.
    split; [reflexivity|exact Hdb]. }
  unfold act_bind at 1, write_db at 1 in Hrun.
  unfold act_bind at 1, write_db at 1 in Hrun.
  cbn [db set_db] in Hrun. rewrite Hdb in Hrun.
  set (upgraded := change_card_condition _ _ _) in *.
  assert (Hcond : condition_of upgraded (ci_card_id (up_card proposal))
                  = Some (up_new_condition proposal)).
  { unfold condition_of, upgraded, change_card_condition.
    erewrite get_card_update_card; [reflexivity|reflexivity|exact Hcard]. }
  assert (Hgems : amount_of upgraded (uid interaction) Item.glistening_gem
                  = amount_of (db w) (uid interaction) Item.glistening_gem
                    - up_upgrade_cost proposal).
  { unfold upgraded.
    match goal with
    | |- context [amount_of (change_card_condition ?D ?i ?c) _ _] =>
        rewrite (amount_of_ext (change_card_condition D i c) D) by reflexivity
    end.
    rewrite (amount_of_remove_item _ _ _ _ item Hnd Eitem Hge).
    unfold amount_of. rewrite Eitem. reflexivity. }
  match type of Hrun with
  | act_bind (sample (randint 150 250)) _ e' ?w0 = _ =>
      destruct (randint_Ok 150 250 e' (rng_pos w0) ltac:(lia))
        as (k0 & Hk0 & Hrand);
      destruct (sample_Ok _ e' w0 _ _ Hrand) as (w3 & Hs & Hdraw & _)
  end.
  unfold act_bind at 1 in Hrun. rewrite Hs in Hrun.
  destruct Hdraw as (Hdb3 & _). cbn [db set_db] in Hdb3.
  pose proof (handle_exp_addition_run interaction k0 e' w3) as Hexp.
  rewrite Hdb3 in Hexp.
  change (get_table upgraded (uid interaction))
    with (get_table (db w) (uid interaction)) in Hexp.
  change (levels_get_table upgraded (uid interaction))
    with (levels_get_table (db w) (uid interaction)) in Hexp.
  rewrite Hrow in Hexp. unfold act_bind in Hrun.
  destruct (levels_get_table (db w) (uid interaction)) as [level|] eqn:El.
  2:{ rewrite Hexp in Hrun. injection Hrun as <- <-. rewrite Hdb3.
      split; [exact Hcond|]. split; [exact Hgems|]. split; reflexivity. }
  destruct (guild interaction).
  2:{ rewrite Hexp in Hrun. injection Hrun as <- <-. rewrite Hdb3.
      split; [exact Hcond|]. split; [exact Hgems|]. split; reflexivity. }
  destruct Hexp as (progress & Hadd & Hexp).
  rewrite Hexp in Hrun. unfold send in Hrun. injection Hrun as <- <-.
  cbn [db set_db].
  split; [exact Hcond|]. split.
  { rewrite (amount_of_ext _ upgraded) by reflexivity. exact Hgems. }
  split; [reflexivity|]. exists k0, progress.
  split; [exact Hk0|]. split; [exact Hadd|]. split; [reflexivity|].
  apply levels_get_table_update_levels. exact El.
Qed.

Lemma upgrade_raises_one_level_witness :
  let w :=
    set_db witness_world
      {| users := [patron_row];
         levels := [{| lt_user_id := 1; lt_current_exp := 0;
                       lt_current_level := 5; lt_max_exp := 67 |}];
         inventory := [{| it_id := 1; it_owner_id := 1;
                          it_item := Item.glistening_gem; it_amount := 1 |}];
         cards := [aged_card] |} in
  exists proposal w1 w2,
    forge_upgrade burn_interaction (Some "def456") witness_tape w
    = (Ok (Prompt proposal), w1)
    /\ _confirm_forge_upgrade burn_interaction proposal witness_tape w1
       = (Ok tt, w2)
    /\ condition_of (db w) "def456" = Some Condition.good
    /\ condition_of (db w2) "def456" = Some Condition.near_mint
    /\ amount_of (db w2) 7 Item.glistening_gem = 0
    /\ exists level,
         levels_get_table (db w2) 7 = Some level
         /\ 5 < lt_current_level level.
Proof.
  intros w.
  destruct (forge_upgrade burn_interaction (Some "def456") witness_tape w)
    as [r w1] eqn:Hprompt.
  pose proof (f_equal fst Hprompt) as Er. vm_compute in Er. subst r.
  assert (Hu : unique_cards (db w)).
  { unfold unique_cards. cbn. constructor; [intros []|constructor]. }
  assert (Hnd : unique_items (db w)).
  { unfold unique_items. cbn. constructor; [intros []|constructor]. }
  destruct (upgrade_raises_one_level burn_interaction (Some "def456")
              witness_tape w _ _ w1 witness_tape Hu Hnd eq_refl Hprompt)
    as (_ & card & r & w2 & _ & _ & _ & _ & Hrun & Hout).
  destruct Hout as (H1 & H2 & -> & k & progress & Hk & Hadd & _ & Hrow).
  eexists _, w1, w2. split; [reflexivity|]. split; [exact Hrun|].
  split; [reflexivity|]. split; [exact H1|]. split; [exact H2|].
  eexists. split; [exact Hrow|].
  apply (f_equal snd) in Hprompt. vm_compute in Hprompt. subst w1.
  apply (f_equal (fun x => db (snd x))) in Hrun. cbn [snd] in Hrun.
  rewrite <- Hrun in Hrow.
  apply (f_equal (fun found =>
           match found with
           | Some level => lt_current_level level
           | None => 0
           end)) in Hrow.
  vm_compute in Hrow. cbn [progress_row lt_current_level].
  unfold current_level. rewrite <- Hrow. reflexivity.
Defined.

Lemma levels_get_table_set_star d user_id amount subtract other :
  levels_get_table (set_star d user_id amount subtract) other
  = levels_get_table d other.
Proof.
  unfold levels_get_table, set_star.
  rewrite select_user_pk_update_user by reflexivity. reflexivity.
Qed.

(** X30: a confirmed fusion leaves the inventory as it was, whatever
    becomes of it: the fusion crystal the command asked for is not
    consumed.  When one of the two cards is gone or the row read before the
    prompt does not cover the cost, nothing is written.  Otherwise the star
    of the prompt is charged and the two cards are deleted; if another card
    holds the id of the generated one, the insert raises the violation of
    the primary key and no card replaces them.  Else the generated card is
    stored, and then [round(randint(1, 3) + star_cost / 1.5)] experience is
    awarded: with a [levels] row and inside a guild the row is stored as
    [add_exp] leaves it and the fusion ends well; without the row the award
    raises [ValueError], outside a guild it fails its assertion, with the
    cards replaced and the star charged. *)
Theorem fusion_commit_keeps_the_crystal interaction psql_user_table proposal
    e w row :
  get_table (db w) (uid interaction) = Some row ->
  let card_ids := [fp_first_card_id proposal; fp_second_card_id proposal] in
  exists r w',
    _confirm_forge_fusion interaction psql_user_table proposal e w = (r, w')
    /\ inventory (db w') = inventory (db w)
    /\ if match get_cards_by_card_id (db w) card_ids with
          | Some cards_check => (2 <=? List.length cards_check)%nat
          | None => false
          end
          && (fp_star_cost proposal <=? ut_star psql_user_table)
       then
         (exists row',
            get_table (db w') (uid interaction) = Some row'
            /\ ut_star row' = ut_star row - fp_star_cost proposal)
         /\ match get_card (delete_cards_by_card_id (db w) card_ids)
                  (ci_card_id (fp_card proposal)) with
            | Some _ =>
                r = Raise UniqueViolationError
                /\ cards (db w')
                   = filter (fun c => negb (string_mem (ct_card_id c) card_ids))
                            (cards (db w))
                /\ levels (db w') = levels (db w)
            | None =>
                cards (db w')
                = filter (fun c => negb (string_mem (ct_card_id c) card_ids))
                         (cards (db w))
                  ++ [stored_row (ct_owner_id (fp_card1 proposal))
                                 (now interaction) (fp_card proposal)]
                /\ match levels_get_table (db w) (uid interaction),
                         guild interaction with
                   | None, _ =>
                       r = Raise ValueError /\ levels (db w') = levels (db w)
                   | Some _, None =>
                       r = Raise AssertionError
                       /\ levels (db w') = levels (db w)
                   | Some level, Some _ =>
                       r = Ok tt
                       /\ exists k progress,
                            1 <= k <= 3
                            /\ add_exp (user interaction)
                                 (py_round (inject_Z k
                                            + inject_Z (fp_star_cost proposal)
                                              / 1.5)%Q)
                                 (row_progress level)
                               = Some
                                   (exp_given (user interaction)
                                      (py_round
                                         (inject_Z k
                                          + inject_Z (fp_star_cost proposal)
                                            / 1.5)%Q),
                                    progress)
                            /\ levels_get_table (db w') (uid interaction)
                               = Some (progress_row level progress)
                   end
            end
       else r = Ok tt /\ db w' = db w.
Proof.
  intros Hrow card_ids.
  destruct (_confirm_forge_fusion interaction psql_user_table proposal e w)
    as [r w'] eqn:Hrun.
  exists r, w'. split; [reflexivity|].
  unfold _confirm_forge_fusion in Hrun. fold card_ids in Hrun.
  unfold act_bind at 1, read_db at 1 in Hrun.
  destruct (get_cards_by_card_id (db w) card_ids) as [cards_check|].
  2:{ unfold send in Hrun. injection Hrun as <- <-. repeat split. }
  destruct (Nat.ltb_spec (List.length cards_check) 2) as [Hlt|Hge].
  { destruct (Nat.leb_spec 2 (List.length cards_check)); [lia|].
    unfold send in Hrun. injection Hrun as <- <-. repeat split. }
  destruct (Nat.leb_spec 2 (List.length cards_check)); [|lia].
  cbn [andb].
  destruct (Z.ltb_spec (ut_star psql_user_table) (fp_star_cost proposal))
    as [Hpoor|Hrich].
  { destruct (Z.leb_spec (fp_star_cost proposal) (ut_star psql_user_table));
      [lia|].
    unfold send in Hrun. injection Hrun as <- <-. repeat split. }
  destruct (Z.leb_spec (fp_star_cost proposal) (ut_star psql_user_table));
    [|lia].
  unfold act_bind at 1, write_db at 1 in Hrun.
  unfold act_bind at 1, write_db at 1 in Hrun.
  unfold act_bind at 1, write_db_result at 1 in Hrun.
  cbn [db set_db] in Hrun.
  set (charged := set_star (db w) (uid interaction) (fp_star_cost proposal)
                    true) in *.
  assert (Hcharged : exists row',
             get_table charged (uid interaction) = Some row'
             /\ ut_star row' = ut_star row - fp_star_cost proposal).
  { unfold charged, set_star.
    rewrite get_table_update_user, Hrow by reflexivity.
    eexists. split; [reflexivity|]. cbn [ut_star]. unfold signed. lia. }
  change {| ct_card_id := ci_card_id (fp_card proposal);
            ct_owner_id := ct_owner_id (fp_card1 proposal);
            ct_rarity := ci_rarity (fp_card proposal);
            ct_condition := ci_condition (fp_card proposal);
            ct_special_rarity := ci_special_rarity (fp_card proposal);
            ct_character_name := ci_character_name (fp_card proposal);
            ct_created_at := now interaction; ct_has_sleeve := false;
            ct_locked := false |}
    with (stored_row (ct_owner_id (fp_card1 proposal)) (now interaction)
            (fp_card proposal)) in Hrun.
  change (get_card (delete_cards_by_card_id (db w) card_ids)
            (ci_card_id (fp_card proposal)))
    with (get_card (delete_cards_by_card_id charged card_ids)
            (ci_card_id (fp_card proposal))).
  destruct (get_card (delete_cards_by_card_id charged card_ids)
              (ci_card_id (fp_card proposal))) as [taken|] eqn:Efresh.
  { rewrite (add_card_taken _ _ taken) in Hrun by exact Efresh.
    injection Hrun as <- <-. cbn [db set_db].
    split; [reflexivity|]. split; [exact Hcharged|]. repeat split. }
  rewrite (add_card_stored _ _ _ _ Efresh) in Hrun.
  set (fused := with_cards _ _) in *.
  match type of Hrun with
  | act_bind (sample (randint 1 3)) _ e ?w0 = _ =>
      destruct (randint_Ok 1 3 e (rng_pos w0) ltac:(lia))
        as (k0 & Hk0 & Hrand);
      destruct (sample_Ok _ e w0 _ _ Hrand) as (w3 & Hs & Hdraw & _)
  end.
  unfold act_bind at 1 in Hrun. rewrite Hs in Hrun.
  destruct Hdraw as (Hdb3 & _). cbn [db set_db] in Hdb3.
  cbv zeta in Hrun.
  set (reward_exp := py_round _) in *.
  pose proof (handle_exp_addition_run interaction reward_exp e w3) as Hexp.
  rewrite Hdb3 in Hexp.
  change (get_table fused (uid interaction))
    with (get_table charged (uid interaction)) in Hexp.
  change (levels_get_table fused (uid interaction))
    with (levels_get_table charged (uid interaction)) in Hexp.
  unfold charged in Hexp at 2. rewrite levels_get_table_set_star in Hexp.
  destruct Hcharged as (row' & Hrow' & Hstar). rewrite Hrow' in Hexp.
  unfold act_bind in Hrun.
  destruct (levels_get_table (db w) (uid interaction)) as [level|] eqn:El.
  2:{ rewrite Hexp in Hrun. injection Hrun as <- <-. rewrite Hdb3.
      split; [reflexivity|].
      split; [exists row'; split; [exact Hrow'|exact Hstar]|].
      repeat split. }
  destruct (guild interaction).
  2:{ rewrite Hexp in Hrun. injection Hrun as <- <-. rewrite Hdb3.
      split; [reflexivity|].
      split; [exists row'; split; [exact Hrow'|exact Hstar]|].
      repeat split. }
  destruct Hexp as (progress & Hadd & Hexp).
  rewrite Hexp in Hrun. unfold send in Hrun. injection Hrun as <- <-.
  cbn [db set_db].
  split; [reflexivity|].
  split; [exists row'; split; [exact Hrow'|exact Hstar]|].
  split; [reflexivity|]. split; [reflexivity|].
  exists k0, progress. split; [exact Hk0|]. split; [exact Hadd|].
  apply levels_get_table_update_levels.
  change (levels_get_table fused (uid interaction))
    with (levels_get_table charged (uid interaction)).
  unfold charged. rewrite levels_get_table_set_star. exact El.
Qed.

Lemma fusion_commit_keeps_the_crystal_witness :
  let w := set_db (fusion_world []) craft_db in
  exists proposal w1 w2,
    forge_fusion bob_roster fusion_interaction "bob001" "bob002" witness_tape w
    = (Ok (Prompt proposal), w1)
    /\ _confirm_forge_fusion fusion_interaction craft_row proposal
         witness_tape w1 = (Ok tt, w2)
    /\ amount_of (db w2) 7 Item.fusion_crystal = 1
    /\ star_of (db w2) 7 = Some 2
    /\ map ct_card_id (cards (db w2)) = ["3qc9vi"]
    /\ levels (db w2)
       = [{| lt_user_id := 1; lt_current_exp := 6; lt_current_level := 5;
             lt_max_exp := 67 |}].
Proof.
  intros w.
  destruct (forge_fusion bob_roster fusion_interaction "bob001" "bob002"
              witness_tape w) as [r w1] eqn:Hprompt.
  pose proof (f_equal fst Hprompt) as Er. vm_compute in Er. subst r.
  pose proof (f_equal snd Hprompt) as Ew. cbn [snd] in Ew.
  assert (Hrow : get_table (db w1) (uid fusion_interaction) = Some craft_row).
  { rewrite <- Ew. reflexivity. }
  match type of Hprompt with
  | _ = (Ok (Prompt ?p), _) =>
      destruct (fusion_commit_keeps_the_crystal fusion_interaction craft_row
                  p witness_tape w1 craft_row Hrow)
        as (r & w2 & Hrun & Hinv & Hout)
  end.
  assert (Er : r = Ok tt).
  { apply (f_equal fst) in Hrun. rewrite <- Ew in Hrun.
    vm_compute in Hrun. symmetry. exact Hrun. }
  subst r.
  eexists _, w1, w2. split; [reflexivity|]. split; [exact Hrun|].
  rewrite <- Ew in Hrun. vm_compute in Hrun. injection Hrun as <-.
  split; [reflexivity|]. split; [reflexivity|]. split; reflexivity.
Defined.
